(* ===== verification/_CoqProject ===== *)
-Q . S2P
Prelude.v
Yaml.v
Json.v
JsonPrint.v
KubeConfig.v
Fixtures.v
Marshal.v
Go.v
Api.v
Base64.v
SpecMapper.v
Fakes.v
VersionPolicy.v
NameSanitizer.v
Credentials.v
Schema.v
Checks.v
UnitTests.v
Acceptance.v
Scenarios.v
Lifecycle.v
Templates.v
