(* ===== verification/Prelude.v ===== *)
(** * Verification of terraform-provider-acsengine

    ** The program

    The repository is a Terraform provider that provisions Kubernetes clusters
    through acs-engine.  Two of its files are under [src/]:

    - [src/internal/kubernetes/kube_config.go]: the cluster-admin
      configuration document ([KubeConfig] and its six nested structs, each
      field carrying the YAML key it is read from) and [ParseKubeConfig], which
      unmarshals a document and validates it (non-empty text, at least one
      cluster and one user, auth material on the first user, a server on the
      first cluster).
    - [src/acsengine/resource_acsengine_kubernetes_cluster_test.go]: the unit
      and acceptance tests of the provider's resource, with their helper
      functions: the [fakeFlatten...] attribute-bag builders, the kube-config
      document [testACSEngineK8sClusterKubeConfig], the HCL configurations
      [testAccACSEngineK8sCluster...] and the two deployment checks.

    The functions the tests call ([flatten...], [expand...],
    [validateKubernetesVersion...], [storageAccountName], [base64Encode],
    [flattenKubeConfig]) are defined in a file that is not under [src/]: they
    are written from the specification and marked so in the manifest.  The
    data flows as the specification describes: attributes are expanded into a
    cluster specification, a deployment returns a kube-config,
    [ParseKubeConfig] validates it and [flattenKubeConfig] surfaces the
    credentials as attributes; the version policy gates an update that changes
    the version.

    ** The files of the development, in the order they are checked

    - [Prelude] (this file): the [result] type that models Go's
      [(value, error)] returns, with its monad instances and the early-return
      notation [failif c then e ; k] in scope [go_scope]; traversals of lists
      under [result] ([traverse], [foldM]) with the lemmas on guards and on
      loops that thread a state; lemmas on string concatenation and reversal
      and on numbers below a bound; the tactics [case_if], [inv_result] and
      the hint database [go].
    - [Yaml]: the document tree a YAML text denotes, the generic decoding
      combinators of the unmarshaller (strings, sequences, structs as a fold
      over the mapping's entries, maps) and the matching encoders; the
      interface [YamlSyntax] from text to tree.
    - [Json]: an instance of [YamlSyntax] for the flow subset of YAML, which is
      JSON: a scanner written as a state machine and a recursive-descent
      parser with fuel, proved to finish on every text.
    - [JsonPrint]: a printer for the flow subset, the reference the parser is
      checked against: parsing what is printed gives the tree back.
    - [KubeConfig]: [kube_config.go].  The seven structs as [Record]s with the
      source's field names, one decoder and one encoder per struct driven by
      the struct tags, the interface [Unmarshaler] that stands for
      [yaml.Unmarshal], and [ParseKubeConfig] with its guards in the order of
      the source and one error constructor per [fmt.Errorf].
    - [Fixtures]: [testACSEngineK8sClusterKubeConfig], the [Sprintf] of the
      kube-config document of the tests.
    - [Marshal]: [ParseKubeConfig] on the text a [KubeConfig] marshals to.
    - [Go]: the values of type [interface{}] the attribute bags are made of,
      type assertions, indexing and comparison with the panics they raise, the
      test monad ([t.Fatalf], [recover], [for ... range]), [schema.Set]
      insertion and the attribute store [ResourceData].
    - [Api]: the structs of acs-engine's [api] package the resource maps to.
    - [Base64]: [base64Encode] and a decoder.
    - [SpecMapper]: the flatten and expand functions of every block, the count
      validators, the expansion of a whole configuration
      ([expandClusterSpecification]) and the attributes a specification is
      surfaced as ([flattenClusterSpecification]).
    - [Fakes]: the four [fakeFlatten...] builders of the test file.
    - [VersionPolicy]: versions, their parser and order, the supported release
      lines as the class [VersionTable], and the upgrade rules.
    - [NameSanitizer]: [storageAccountName].
    - [Credentials]: [flattenKubeConfig], the consumer of [ParseKubeConfig].
    - [Schema]: the attribute schema of the resource as a type ([ty],
      [has_type]) of the attribute stores, with the schema of every block.
    - [Checks]: [testCheckACSEngineClusterExists] and
      [testCheckACSEngineClusterDestroy] over the Terraform state and the
      interface [DeploymentsClient].
    - [UnitTests]: the fourteen unit tests and the two count validation tests,
      statement by statement.
    - [Acceptance]: the six HCL configurations as the attributes they declare.
    - [Scenarios]: the nineteen acceptance tests that call [resource.Test], as
      lists of steps, and what a scenario is checked against.
    - [Lifecycle]: the resource from plan to destroy.  The state [host] is
      what is deployed (by resource group and name) and the attributes the
      host stores; [host_step] applies a configuration ([resourceCreate] when
      nothing is stored, [resourceUpdate], gated by the identity of the
      cluster and by the version policy, otherwise), refreshes
      ([resourceRefresh]) or destroys ([resourceDelete]); [transition] is the
      same machine as rules and [reachable] their closure from the empty
      host.  The deployment is the class [Provisioner].  [resource_Test] is
      the harness of the acceptance tests ([run_step], [run_check],
      [import_step]), and [TestAccACSEngineK8sCluster_importBasic] the
      twentieth test, with its [ImportState] step.
    - [Templates]: [generateACSEngineTemplate] over the class [AcsEngine] of
      what acs-engine and the operating system provide, the two table tests
      of template generation, the two tests of the client constructors and
      the four tests with an empty body.

    ** What the theorems show

    - [KubeConfig]: [ParseKubeConfig] refines the abstract specification
      [valid_KubeConfig] (it returns [Ok k] exactly on a non-empty text that
      unmarshals to a valid [k], and returns that [k] unchanged); each error is
      characterised, with the order in which the guards fire; the index
      expressions [Users[0]] and [Clusters[0]] never go out of range; only the
      first cluster and user are inspected; decoding an encoded configuration
      gives it back, and unknown keys are ignored; the decoders fail with
      type errors only (class [TypeErrors]).
    - [Json], [JsonPrint], [Marshal]: the parser never runs out of fuel
      ([parse_fuel_enough], [json_parse_total]); scanning and parsing the
      printed form of any tree gives the tree back; hence [ParseKubeConfig],
      run on the text a configuration marshals to, returns it exactly when
      it is valid, every valid configuration is returned for some text, and
      no failure of [ParseKubeConfig] is an artefact of the fuel.
    - [Fixtures], [Credentials]: the whole chain (scanner, parser, decoder,
      guards, flattening) on the document of the tests, for every DNS prefix
      and location free of quotes and backslashes; [flattenKubeConfig]
      succeeds exactly when [ParseKubeConfig] does, always returns a
      credential, and what it encodes in base64 decodes to what was parsed.
    - [Checks]: when each check passes and what the only error of the
      destroy check reports; the verdict of the destroy check does
      not depend on the iteration order of the Go map when the client answers
      every call, and does depend on it when a call fails, the check then
      passing while a cluster is still deployed.
    - [SpecMapper], [Fakes]: expand after flatten is the identity on the
      profiles a user can author, keys are de-duplicated, a zero disk size is
      left out and read back as zero, duplicate pool names and an empty user
      name are refused; each builder of the tests builds what flatten gives;
      expanding what a well-formed specification flattens to gives the
      specification back ([expandClusterSpecification_flatten]).
    - [Schema]: type soundness of the mapper.  On a store that conforms to
      the schema [expandClusterSpecification] fails only with an error of
      validation, never for a missing field or a value of another type; what
      the flatten functions, [kubeConfigValues] and the builders of the tests
      produce conforms to the schema of its block.
    - [VersionPolicy]: parsing a printed version gives it back; the order is a
      strict total order; an upgrade is approved exactly when it is strictly
      newer, of the same major and at most one minor release ahead; along any
      sequence of approved upgrades the major never changes, and every newer
      version of the same major is reachable.
    - [NameSanitizer], [Base64]: length and alphabet of the results, what the
      sanitizer does not distinguish, and the round trip of the encoding.
    - [UnitTests]: every unit test passes on the model in every environment;
      the version test passes exactly for the tables that hold 1.7 and 1.8 and
      neither 3.0 nor 2.18; the upgrade table agrees with the rules case by
      case; the table of the agent count test pins both bounds of the
      interval from 1 to 100.
    - [Scenarios]: in every acceptance scenario the configurations expand
      and pass the validators of the schema, the checks agree with the
      configurations, and every change of version is approved; a step of
      [upgradeMultiple] cannot be skipped; along any approved sequence of
      steps the major version is kept and no step is older than the first.
    - [Lifecycle]: [host_step] and [transition] are the same machine
      ([step_transition], [reachable_iff_run]).  Invariant
      ([reachable_invariant]): on a reachable host nothing is stored and
      nothing deployed, or one cluster is deployed under the identity the
      stored attributes name, and these conform to the schema and pass the
      plan as the deployed specification; hence a refresh and a second apply
      change nothing ([apply_idempotent]) and the deployment checks of the
      tests hold on every reachable host ([reachable_checks]).  Safety of
      versions ([apply_versions]): however many configurations are applied,
      the version moves by approved upgrades, keeps its major and never goes
      back.  Liveness ([upgrade_eventually]): every newer version of the
      same major is reached by some sequence of configurations when the
      release lines in between are supported.  The harness
      ([acceptance_tests_pass]): all twenty tests pass for every
      environment and random number, with any provisioner whose documents
      [ParseKubeConfig] accepts; the provisioner of the fixture is one
      ([fixture_conforming]).
    - [Templates]: for which implementations of [AcsEngine] each of the four
      tests passes, in terms of the cluster specification the test hands to
      the generator; the store a table test shares among its iterations
      carries nothing from one case to the next; the checks of the
      customized test on VM sizes cannot fail; the client tests cannot
      panic.

    ** Modelling choices

    - Go strings are [string] (sequences of bytes), Go's [int] is [Z]; no
      arithmetic of the program can overflow (counts and sizes are compared
      and printed, never added).  [len(s) <= 0] on a slice is
      [length l <=? 0].
    - A Go function returning [(T, error)] is a function into [result E T]; the
      error type has one constructor per [fmt.Errorf] site and carries the
      value the message prints.  A run-time panic (index out of range, failed
      type assertion) is a constructor of the error type as well, so that its
      absence is a theorem.
    - Libraries are interfaces: [yaml.Unmarshal] is the class [Unmarshaler],
      the text-to-tree stage the class [YamlSyntax], the deployments API the
      class [DeploymentsClient], the supported versions the class
      [VersionTable], the deployment of a cluster the class [Provisioner]
      (the document a deployed cluster answers with; [Conforming] says that
      [ParseKubeConfig] accepts it).  Theorems are stated against the class where they do not
      depend on the instance.
    - The process environment ([os.Getenv]) and the random integer of an
      acceptance test are parameters; theorems quantify over them.
    - A table test that creates its attribute store once and writes it in
      every iteration is a fold that threads the store; a deferred call runs
      after the body however the body ended.
    - A range over a Go map visits the entries in an unspecified order: the
      loop is a function of the list of entries, and order independence is a
      theorem with its hypothesis.
    - Fuel: [Json.parse_value] and the two functions it is defined with are
      the only definitions with fuel.  [json_parse] gives them two units per
      token plus one: the parser spends at most one unit to enter a value or
      an item and one to consume a token, and [parse_fuel_enough] proves that
      with this much it never returns for lack of fuel, on well-formed and
      on malformed token lists alike (one unit per token is not enough for
      brackets that are opened and never closed).  Every other function is
      structurally recursive.
    - A bare (unquoted) scalar of the flow subset ends at white space or at a
      structural character, as in JSON.
    - The lifecycle is written from the data flow of the specification: the
      cloud changes only through the resource, a deployment either fails
      before anything is deployed or succeeds, and what is stored after an
      apply is what a read of the deployed cluster gives.  A run is a finite
      list of events ([run] is a fold, no fuel); the statements on reachable
      hosts hold for runs of every length.

    ** Not modelled

    The Terraform host (schema registration, the coercion of configuration
    text to typed attributes, state persistence, the diff of a plan), the
    template generator and the client constructors of acs-engine (they are
    operations of the class [AcsEngine], and the files they write are not
    tracked), the provisioning of a cluster (the class [Provisioner] gives
    its outcome only), deployments that fail half way, changes made to the
    cloud outside the resource, and authentication are external
    collaborators or need them.  The HCL configurations are modelled by the
    attributes they declare, not as text.  Block-style YAML, anchors,
    aliases and merge keys are outside the syntax layer. *)

From Stdlib Require Export Ascii.
From stdpp Require Export base tactics option list strings.
From stdpp Require Import options.
Set Warnings "-clear-no-such-hyp".

Declare Scope go_scope.
Delimit Scope go_scope with go.

(** ** Results: Go's [(value, error)] *)

Inductive result (E A : Type) : Type :=
| Ok (a : A)
| Err (e : E).
Global Arguments Ok {E A} a.
Global Arguments Err {E A} e.

Global Instance result_eq_dec {E A} `{EqDecision E, EqDecision A} :
  EqDecision (result E A).
Proof. solve_decision. Defined.

Definition result_bind {E A B} (f : A → result E B) (r : result E A) : result E B :=
  match r with
  | Ok a => f a
  | Err e => Err e
  end.

Global Instance result_ret {E} : MRet (result E) := λ _ a, Ok a.
Global Instance result_mbind {E} : MBind (result E) := λ _ _ f r, result_bind f r.
Global Instance result_fmap {E} : FMap (result E) := λ _ _ f r,
  match r with
  | Ok a => Ok (f a)
  | Err e => Err e
  end.

Definition is_ok {E A} (r : result E A) : bool :=
  match r with Ok _ => true | Err _ => false end.

Definition map_err {E E' A} (f : E → E') (r : result E A) : result E' A :=
  match r with
  | Ok a => Ok a
  | Err e => Err (f e)
  end.

(** Go's [if c { return nil, e }] followed by the rest of the body. *)
Notation "'failif' c 'then' e ; k" := (if c then Err e else k)
  (at level 10, c at level 99, e at level 99, k at level 200,
   format "'[v' 'failif'  c  'then'  e ; '/' k ']'") : go_scope.
Global Open Scope go_scope.

(** ** Traversals under [result] *)

Section traverse.
Context {E A B : Type}.
Implicit Types (f : A → result E B) (l : list A).

(** Decode every element, left to right, stopping at the first error. *)
Fixpoint traverse f l : result E (list B) :=
  match l with
  | [] => Ok []
  | x :: l' => y ← f x; ys ← traverse f l'; Ok (y :: ys)
  end.

(** Thread an accumulator through the list, stopping at the first error. *)
Fixpoint foldM {S : Type} (step : S → A → result E S) (s : S) l : result E S :=
  match l with
  | [] => Ok s
  | x :: l' => s' ← step s x; foldM step s' l'
  end.
End traverse.

(** ** Lemmas *)

Section result_lemmas.
Context {E A B : Type}.
Implicit Types (r : result E A) (f : A → result E B).

Lemma bind_Ok a f : Ok a ≫= f = f a.
Proof. done. Qed.

Lemma bind_Err (e : E) f : Err e ≫= f = Err e.
Proof. done. Qed.

Lemma bind_Ok_inv r f b :
  r ≫= f = Ok b ↔ ∃ a, r = Ok a ∧ f a = Ok b.
Proof.
  split.
  - destruct r as [a|e]; simpl; intros; [by exists a|done].
  - by intros (a & -> & ?).
Qed.

Lemma bind_Err_inv r f e :
  r ≫= f = Err e ↔ r = Err e ∨ ∃ a, r = Ok a ∧ f a = Err e.
Proof.
  split.
  - destruct r as [a|e']; simpl; intros; [right; by exists a|left; by simplify_eq].
  - by intros [->|(a & -> & ?)].
Qed.

Lemma is_ok_Ok r : is_ok r = true ↔ ∃ a, r = Ok a.
Proof. destruct r; simpl; split; try done; [by eexists|by intros [? ?]]. Qed.

Lemma is_ok_Err r : is_ok r = false ↔ ∃ e, r = Err e.
Proof. destruct r; simpl; split; try done; [by intros [? ?]|by eexists]. Qed.
End result_lemmas.

Create HintDb go discriminated.
Create Rewrite HintDb go.
#[export] Hint Rewrite @bind_Ok @bind_Err : go.

(** Destruct the test of the first [if] of the goal, keeping its equation. *)
Ltac case_if :=
  match goal with
  | |- context [if ?b then _ else _] => destruct b eqn:?
  end.

(** Invert a hypothesis [r ≫= f = Ok b] or an equation between results. *)
Ltac inv_result :=
  repeat match goal with
  | H : _ ≫= _ = Ok _ |- _ => apply bind_Ok_inv in H as (? & ? & ?)
  | H : Ok _ = Ok _ |- _ => injection H as ?
  | H : Err _ = Err _ |- _ => injection H as ?
  | H : Ok _ = Err _ |- _ => discriminate H
  | H : Err _ = Ok _ |- _ => discriminate H
  end; simplify_eq/=.

Section traverse_lemmas.
Context {E A B : Type}.
Implicit Types (f : A → result E B) (l : list A) (ys : list B).

Lemma traverse_cons_Ok f x l y ys :
  f x = Ok y → traverse f l = Ok ys → traverse f (x :: l) = Ok (y :: ys).
Proof. by intros Hx Hl; simpl; rewrite Hx, Hl. Qed.

(** [traverse] succeeds exactly when [f] does on every element, and the
    results are in the order of the inputs. *)
Lemma traverse_Ok_Forall2 f l ys :
  traverse f l = Ok ys ↔ Forall2 (λ x y, f x = Ok y) l ys.
Proof.
  revert ys; induction l as [|x l IH]; intros ys; simpl.
  - split; [intros [= <-]; constructor | by inversion 1].
  - split.
    + intros H; inv_result. constructor; [done|by apply IH].
    + inversion 1 as [|???? Hx Hl]; subst. apply IH in Hl. by rewrite Hx, Hl.
Qed.

Lemma traverse_length f l ys : traverse f l = Ok ys → length ys = length l.
Proof. by intros ?%traverse_Ok_Forall2%Forall2_length. Qed.

Lemma traverse_app f l1 l2 :
  traverse f (l1 ++ l2) =
  ys1 ← traverse f l1; ys2 ← traverse f l2; Ok (ys1 ++ ys2).
Proof.
  induction l1 as [|x l1 IH]; simpl.
  - by destruct (traverse f l2).
  - destruct (f x); [|done]; simpl. rewrite IH.
    destruct (traverse f l1); [|done]; simpl. by destruct (traverse f l2).
Qed.

Lemma traverse_Err f l e :
  traverse f l = Err e → ∃ x, x ∈ l ∧ f x = Err e.
Proof.
  induction l as [|x l IH]; simpl; [done|].
  destruct (f x) eqn:Hx; simpl.
  - destruct (traverse f l); simpl; [done|]. intros [= ->].
    destruct IH as (x' & ? & ?); [done|]. exists x'. by split; [right|].
  - intros [= ->]. exists x. by split; [left|].
Qed.

Lemma traverse_Forall_Ok f l :
  Forall (λ x, ∃ y, f x = Ok y) l → ∃ ys, traverse f l = Ok ys.
Proof.
  induction 1 as [|x l [y Hy] _ [ys IH]]; simpl; [by eexists|].
  rewrite Hy, IH. by eexists.
Qed.

Lemma foldM_Err {S} (step : S → A → result E S) s l e :
  foldM step s l = Err e → ∃ s' x, x ∈ l ∧ step s' x = Err e.
Proof.
  revert s; induction l as [|x l IH]; intros s; simpl; [done|].
  destruct (step s x) as [s'|e'] eqn:Hx; simpl.
  - intros (s'' & x' & ? & ?)%IH. exists s'', x'. by split; [right|].
  - intros [= ->]. exists s, x. by split; [left|].
Qed.

Lemma foldM_app {S} (step : S → A → result E S) s l1 l2 :
  foldM step s (l1 ++ l2) = s' ← foldM step s l1; foldM step s' l2.
Proof.
  revert s; induction l1 as [|x l1 IH]; intros s; simpl; [done|].
  destruct (step s x); simpl; [apply IH|done].
Qed.
End traverse_lemmas.

(** [traverse] of a decoder after [fmap] of its encoder is the identity. *)
Lemma traverse_fmap_cancel {E A B} (enc : A → B) (dec : B → result E A) l :
  (∀ x, x ∈ l → dec (enc x) = Ok x) → traverse dec (enc <$> l) = Ok l.
Proof.
  induction l as [|x l IH]; intros Hl; [done|].
  apply traverse_cons_Ok; [apply Hl; by left|].
  apply IH. intros ??. apply Hl. by right.
Qed.

(** ** Strings *)

Lemma string_app_cons (a : ascii) (s1 s2 : string) :
  String a s1 +:+ s2 = String a (s1 +:+ s2).
Proof. reflexivity. Qed.

Lemma string_app_nil_l (s : string) : "" +:+ s = s.
Proof. reflexivity. Qed.

Lemma string_app_nil_r (s : string) : s +:+ "" = s.
Proof. induction s as [|a s IH]; [done|]. by rewrite string_app_cons, IH. Qed.

Lemma string_app_assoc (s1 s2 s3 : string) :
  (s1 +:+ s2) +:+ s3 = s1 +:+ (s2 +:+ s3).
Proof.
  induction s1 as [|a s1 IH]; [done|]. by rewrite !string_app_cons, IH.
Qed.

Lemma string_app_length (s1 s2 : string) :
  String.length (s1 +:+ s2) = String.length s1 + String.length s2.
Proof.
  induction s1 as [|a s1 IH]; [done|]. rewrite string_app_cons; simpl.
  by rewrite IH.
Qed.

Lemma string_rev_app_app s1 s2 s3 :
  String.rev_app s1 s2 +:+ s3 = String.rev_app s1 (s2 +:+ s3).
Proof.
  revert s2; induction s1 as [|a s1 IH]; intros s2; simpl; [done|].
  by rewrite IH, string_app_cons.
Qed.

Lemma string_rev_cons_app a piece s :
  String.rev (String a piece) +:+ s = String.rev piece +:+ String a s.
Proof.
  unfold String.rev; simpl.
  by rewrite !string_rev_app_app, string_app_cons, !string_app_nil_l.
Qed.

Lemma string_eqb_refl (s : string) : String.eqb s s = true.
Proof. by apply String.eqb_eq. Qed.

Lemma string_eqb_ne (s1 s2 : string) : s1 ≠ s2 → String.eqb s1 s2 = false.
Proof. intros. by apply String.eqb_neq. Qed.

Lemma string_eqb_nil_false (s : string) : String.eqb s "" = false ↔ s ≠ "".
Proof. apply String.eqb_neq. Qed.

#[export] Hint Rewrite string_app_cons string_app_nil_l string_app_nil_r
  string_app_assoc string_eqb_refl : go.
#[export] Hint Resolve string_eqb_ne : go.

(** ** Boolean checks on lists *)

Lemma fmap_nil_iff {A B} (f : A → B) (l : list A) : f <$> l = [] ↔ l = [].
Proof. by destruct l. Qed.

Lemma forallb_Forall {A} (f : A → bool) l :
  forallb f l = true ↔ Forall (λ x, f x = true) l.
Proof.
  induction l as [|x l IH]; simpl; [by split|].
  rewrite andb_true_iff, Forall_cons, IH. done.
Qed.

(** ** Bounded numbers *)

(** A boolean property of the numbers below a bound holds when it evaluates
    to [true] on each of them. *)
Lemma N_lt_forallb (P : N → bool) (k : nat) :
  forallb P (N.of_nat <$> seq 0 k) = true → ∀ n, (n < N.of_nat k)%N → P n = true.
Proof.
  rewrite forallb_forall. intros H n Hn. apply H, in_map_iff.
  exists (N.to_nat n). split; [lia|]. apply in_seq. lia.
Qed.

(** ** Guards and loops *)

(** A guarded computation succeeds when the guard does not fire and the rest
    succeeds. *)
Lemma failif_is_ok {E A} (c : bool) (e : E) (k : result E A) :
  is_ok (failif c then e ; k) = true ↔ c = false ∧ is_ok k = true.
Proof. destruct c; naive_solver. Qed.

Lemma failif_Ok {E A} (c : bool) (e : E) (k : result E A) a :
  (failif c then e ; k) = Ok a ↔ c = false ∧ k = Ok a.
Proof. destruct c; naive_solver. Qed.

(** A loop that threads a state succeeds exactly when every element is
    accepted, for a criterion [P] that does not mention the state, as soon as
    the states the loop goes through satisfy an invariant [I] under which a
    step succeeds exactly on the elements [P] accepts. *)
Lemma foldM_is_ok {S A E} (step : S → A → result E S) (I : S → Prop)
    (P : A → Prop) s l :
  I s →
  (∀ s a s', I s → step s a = Ok s' → I s') →
  (∀ s a, a ∈ l → I s → is_ok (step s a) = true ↔ P a) →
  is_ok (foldM step s l) = true ↔ Forall P l.
Proof.
  intros Hs Hstep HP. revert s Hs.
  induction l as [|a l IH]; intros s Hs; simpl; [by split|].
  rewrite Forall_cons, <-(HP s a) by (done || left).
  destruct (step s a) as [s'|e] eqn:Hsa; simpl; [|naive_solver].
  rewrite IH; [naive_solver| |by eapply Hstep].
  intros s0 a0 Ha0. apply HP. by right.
Qed.

(** A loop whose final state is dropped passes when it succeeds. *)
Lemma foldM_then_Ok {S A E} (step : S → A → result E S) s l :
  (foldM step s l ;; Ok tt) = Ok tt ↔ is_ok (foldM step s l) = true.
Proof. by destruct (foldM step s l). Qed.
