(* ===== verification/Yaml.v ===== *)
(** * Yaml: the document tree and the unmarshaller's combinators

    [yaml.Unmarshal] works in two stages: the text is parsed into a tree of
    nodes, and the tree is decoded into the Go value by reflection over the
    struct tags.  This file holds the tree ([yaml]) and the second stage's
    generic part: how a node is decoded into a string, a slice, a struct or a
    [map[string]interface{}], with the type errors of each, and the encoders
    that write such values back as nodes.  The per-struct decoders, which
    instantiate [decode_struct] with the tags of [kube_config.go], are in
    [KubeConfig]. *)

From stdpp Require Import gmap.
From S2P Require Import Prelude.
From stdpp Require Import options.

(** ** The document tree *)

(** A node is null, a scalar (kept with its text: a string field receives the
    text whatever the scalar resolves to), a sequence or a mapping with its
    entries in document order and scalar keys. *)
Local Unset Elimination Schemes.
Inductive yaml : Type :=
| YNull
| YScalar (s : string)
| YSeq (items : list yaml)
| YMap (entries : list (string * yaml)).
Set Elimination Schemes.

Section yaml_ind.
Variable P : yaml → Prop.
Hypothesis Hnull : P YNull.
Hypothesis Hscalar : ∀ s, P (YScalar s).
Hypothesis Hseq : ∀ items, Forall P items → P (YSeq items).
Hypothesis Hmap : ∀ entries, Forall (λ e, P e.2) entries → P (YMap entries).

Fixpoint yaml_ind (y : yaml) : P y :=
  match y with
  | YNull => Hnull
  | YScalar s => Hscalar s
  | YSeq items =>
      Hseq items
        ((fix go l : Forall P l :=
            match l with
            | [] => List.Forall_nil _
            | x :: l' => List.Forall_cons _ _ _ (yaml_ind x) (go l')
            end) items)
  | YMap entries =>
      Hmap entries
        ((fix go l : Forall (λ e, P e.2) l :=
            match l with
            | [] => List.Forall_nil _
            | e :: l' => List.Forall_cons (λ e, P e.2) _ _ (yaml_ind e.2) (go l')
            end) entries)
  end.
End yaml_ind.

Fixpoint yaml_eq_dec (x y : yaml) {struct x} : Decision (x = y).
Proof.
  refine (match x, y with
  | YNull, YNull => left eq_refl
  | YScalar s, YScalar t => cast_if (decide (s = t))
  | YSeq l, YSeq k => cast_if (@list_eq_dec _ yaml_eq_dec l k)
  | YMap l, YMap k =>
      cast_if (@list_eq_dec _ (@prod_eq_dec _ _ _ yaml_eq_dec) l k)
  | _, _ => right _
  end); congruence.
Defined.
Global Instance yaml_eq_decision : EqDecision yaml := yaml_eq_dec.

(** The kind of a node, as a type error reports it ([!!str], [!!seq], [!!map]). *)
Inductive ykind := KScalar | KSeq | KMap.
Global Instance ykind_eq_dec : EqDecision ykind.
Proof. solve_decision. Defined.

(** What [yaml.Unmarshal] fails with: the text is not a document, or a node
    of kind [kind] cannot be decoded into the Go type [target]. *)
Inductive yaml_error :=
| SyntaxError (msg : string)
| TypeError (kind : ykind) (target : string).
Global Instance yaml_error_eq_dec : EqDecision yaml_error.
Proof. solve_decision. Defined.

(** A computation of the second stage fails with a type error only: syntax
    errors belong to the first stage. *)
Class TypeErrors {A} (r : result yaml_error A) : Prop :=
  type_errors : ∀ e, r = Err e → ∃ kind target, e = TypeError kind target.
Global Hint Mode TypeErrors + ! : typeclass_instances.

(** The first stage of the library, from the text to the document tree, as an
    interface: the decoders below do not depend on the concrete syntax. *)
Class YamlSyntax := yaml_parse : string → result yaml_error yaml.

(** ** Decoding *)

(** Into a [string]: null gives the zero value, a scalar its text. *)
Definition decode_string (y : yaml) : result yaml_error string :=
  match y with
  | YNull => Ok ""
  | YScalar s => Ok s
  | YSeq _ => Err (TypeError KSeq "string")
  | YMap _ => Err (TypeError KMap "string")
  end.

(** Into a slice [[]T]: null gives the nil slice, a sequence a fresh slice of
    its decoded items. *)
Definition decode_seq {A} (target : string) (elt : yaml → result yaml_error A)
    (y : yaml) : result yaml_error (list A) :=
  match y with
  | YNull => Ok []
  | YSeq items => traverse elt items
  | YScalar _ => Err (TypeError KScalar target)
  | YMap _ => Err (TypeError KMap target)
  end.

(** Into a struct: null resets it to [zero]; a mapping is walked entry by
    entry, each entry decoded by [field] into the struct as it stands, so that
    a key the struct has no field for is skipped and a repeated key decodes
    again into the same field. *)
Definition decode_struct {S} (target : string)
    (field : S → string → yaml → result yaml_error S) (zero init : S)
    (y : yaml) : result yaml_error S :=
  match y with
  | YNull => Ok zero
  | YMap entries => foldM (λ s e, field s e.1 e.2) init entries
  | YScalar _ => Err (TypeError KScalar target)
  | YSeq _ => Err (TypeError KSeq target)
  end.

(** Into a [map[string]interface{}]: the entries are stored into the map as it
    stands, in document order, the values as they are. *)
Definition decode_map (init : gmap string yaml) (y : yaml) :
    result yaml_error (gmap string yaml) :=
  match y with
  | YNull => Ok ∅
  | YMap entries => Ok (foldl (λ m e, <[e.1 := e.2]> m) init entries)
  | YScalar _ => Err (TypeError KScalar "map[string]interface {}")
  | YSeq _ => Err (TypeError KSeq "map[string]interface {}")
  end.

(** ** Encoding *)

(** A field's entry, and the entry of a field tagged [omitempty], which is
    left out when [empty] says the value is the zero value. *)
Definition entry (key : string) (v : yaml) : list (string * yaml) := [(key, v)].

Definition entry_omitempty (key : string) (empty : bool) (v : yaml) :
    list (string * yaml) :=
  if empty then [] else [(key, v)].

Definition encode_seq {A} (elt : A → yaml) (l : list A) : yaml :=
  YSeq (elt <$> l).

Definition encode_map (m : gmap string yaml) : yaml := YMap (map_to_list m).

(** ** Lemmas *)

Lemma decode_string_scalar s : decode_string (YScalar s) = Ok s.
Proof. done. Qed.

Lemma decode_string_Ok y s :
  decode_string y = Ok s ↔ (y = YNull ∧ s = "") ∨ y = YScalar s.
Proof.
  destruct y; simpl; split; intros; destruct_or?; destruct_and?;
    simplify_eq; eauto.
Qed.

Lemma decode_seq_encode {A} target (enc : A → yaml) dec (l : list A) :
  (∀ x, x ∈ l → dec (enc x) = Ok x) →
  decode_seq target dec (encode_seq enc l) = Ok l.
Proof. apply traverse_fmap_cancel. Qed.

Lemma decode_seq_length {A} target (dec : yaml → result yaml_error A) items l :
  decode_seq target dec (YSeq items) = Ok l → length l = length items.
Proof. apply traverse_length. Qed.

Section decode_struct.
Context {S : Type} (target : string).
Context (field : S → string → yaml → result yaml_error S) (zero : S).

Lemma decode_struct_nil init :
  decode_struct target field zero init (YMap []) = Ok init.
Proof. done. Qed.

Lemma decode_struct_app init es1 es2 :
  decode_struct target field zero init (YMap (es1 ++ es2)) =
  s ← decode_struct target field zero init (YMap es1);
  decode_struct target field zero s (YMap es2).
Proof. apply foldM_app. Qed.

Lemma decode_struct_cons init k v es :
  decode_struct target field zero init (YMap ((k, v) :: es)) =
  s ← field init k v; decode_struct target field zero s (YMap es).
Proof. done. Qed.

(** An entry whose key the struct ignores can be dropped from the mapping. *)
Lemma decode_struct_skip init es1 k v es2 :
  (∀ s, field s k v = Ok s) →
  decode_struct target field zero init (YMap (es1 ++ (k, v) :: es2)) =
  decode_struct target field zero init (YMap (es1 ++ es2)).
Proof.
  intros Hk. rewrite !decode_struct_app.
  destruct (decode_struct _ _ _ init (YMap es1)); simpl; [|done].
  by rewrite Hk.
Qed.
End decode_struct.

(** Storing the entries of a map into the empty map gives the map back. *)
Lemma foldl_insert_map_to_list (m : gmap string yaml) :
  foldl (λ m e, <[e.1 := e.2]> m) ∅ (map_to_list m) = m.
Proof.
  rewrite <-(list_to_map_to_list m) at 2.
  pose proof (NoDup_fst_map_to_list m) as Hnd.
  generalize dependent (map_to_list m). intros l Hnd.
  cut (∀ acc : gmap string yaml,
    (∀ k, k ∈ l.*1 → acc !! k = None) →
    foldl (λ m e, <[e.1 := e.2]> m) acc l = list_to_map l ∪ acc).
  { intros H. rewrite H; [by rewrite (right_id_L ∅ (∪))|]. intros. apply lookup_empty. }
  induction l as [|[k v] l IH]; intros acc Hacc; simpl.
  - by rewrite (left_id_L ∅ (∪)).
  - apply NoDup_cons in Hnd as [Hk Hnd]. rewrite IH; [|done|].
    + rewrite <-insert_union_r by (by apply not_elem_of_list_to_map_1).
      by rewrite insert_union_l.
    + intros k' Hk'. rewrite lookup_insert_ne; [apply Hacc; by right|].
      intros ->. done.
Qed.

Lemma decode_map_encode (m : gmap string yaml) :
  decode_map ∅ (encode_map m) = Ok m.
Proof. unfold decode_map, encode_map. by rewrite foldl_insert_map_to_list. Qed.

(** ** The decoders fail with type errors only *)

Global Instance Ok_type_errors {A} (a : A) : TypeErrors (Ok a).
Proof. by intros e. Qed.

Global Instance bind_type_errors {A B} (r : result yaml_error A)
    (f : A → result yaml_error B) :
  TypeErrors r → (∀ a, TypeErrors (f a)) → TypeErrors (r ≫= f).
Proof.
  intros Hr Hf e [He|(a & _ & He)]%bind_Err_inv; [by apply Hr|by apply (Hf a)].
Qed.

Global Instance if_type_errors {A} {P Q : Prop} (d : {P} + {Q})
    (r1 r2 : result yaml_error A) :
  TypeErrors r1 → TypeErrors r2 → TypeErrors (if d then r1 else r2).
Proof. by destruct d. Qed.

Global Instance decode_string_type_errors y : TypeErrors (decode_string y).
Proof. intros e. destruct y; intros [= <-]; eauto. Qed.

Global Instance decode_seq_type_errors {A} target
    (elt : yaml → result yaml_error A) y :
  (∀ y, TypeErrors (elt y)) → TypeErrors (decode_seq target elt y).
Proof.
  intros Helt e. destruct y; simpl; try (intros [= <-]; eauto).
  intros (x & _ & Hx)%traverse_Err. by apply (Helt x).
Qed.

Global Instance decode_struct_type_errors {S} target
    (field : S → string → yaml → result yaml_error S) zero init y :
  (∀ s key v, TypeErrors (field s key v)) →
  TypeErrors (decode_struct target field zero init y).
Proof.
  intros Hfield e. destruct y; simpl; try (intros [= <-]; eauto).
  intros (s & [key v] & _ & Hx)%foldM_Err. by apply (Hfield s key v).
Qed.

Global Instance decode_map_type_errors init y : TypeErrors (decode_map init y).
Proof. intros e. destruct y; intros [= <-]; eauto. Qed.
