(* ===== verification/Json.v ===== *)
(** * Json: a syntax layer for the flow subset of YAML

    The first stage of [yaml.Unmarshal], from the text to the document tree,
    for the documents the repository handles: the kube-config fixture of the
    tests is written in YAML's flow style, which is JSON (objects, arrays,
    double-quoted strings with backslash escapes, bare scalars).  The scanner
    is a state machine: [step] reads one character in a [lex_mode], [scan] a
    piece of text, [finish] the end of the text, so that the scan of a
    concatenation is the composition of the scans ([scan_app]).
    [parse_value] is a recursive-descent parser over the tokens with fuel, and
    [json_parse] gives it two units of fuel per token plus one, which is
    enough on every text ([parse_fuel_enough]): a call that does not consume
    a token is followed by one that does.  A bare scalar ends at white space
    or at a structural character, as in JSON: a plain YAML scalar that holds
    one of them has to be quoted.  Block-style YAML is outside this layer. *)

From S2P Require Import Prelude Yaml.
From stdpp Require Import options.

(** The double quote and the backslash, by their codes. *)
Definition dquote : ascii := "034"%char.
Definition backslash : ascii := "092"%char.

(** ** Tokens *)

Inductive token :=
| TLBrace | TRBrace | TLBracket | TRBracket | TColon | TComma
| TString (s : string)
| TBare (s : string).

Global Instance token_eq_dec : EqDecision token.
Proof. solve_decision. Defined.

(** The structural characters. *)
Definition punct (a : ascii) : option token :=
  if decide (a = "{"%char) then Some TLBrace
  else if decide (a = "}"%char) then Some TRBrace
  else if decide (a = "["%char) then Some TLBracket
  else if decide (a = "]"%char) then Some TRBracket
  else if decide (a = ":"%char) then Some TColon
  else if decide (a = ","%char) then Some TComma
  else None.

(** The character a backslash escape stands for. *)
Definition unescape (a : ascii) : option ascii :=
  if decide (a = dquote) then Some dquote
  else if decide (a = backslash) then Some backslash
  else if decide (a = "/"%char) then Some "/"%char
  else if decide (a = "n"%char) then Some "010"%char
  else if decide (a = "t"%char) then Some "009"%char
  else if decide (a = "r"%char) then Some "013"%char
  else if decide (a = "b"%char) then Some "008"%char
  else if decide (a = "f"%char) then Some "012"%char
  else None.

(** Where the scanner is: between tokens, inside a quoted string (with the
    characters read so far, last first), after a backslash, or inside a bare
    scalar. *)
Inductive lex_mode :=
| LOut
| LStr (acc : string)
| LEsc (acc : string)
| LBare (acc : string).

(** One character of the scan: the tokens it completes and the next mode. *)
Definition step (m : lex_mode) (a : ascii) :
    result yaml_error (list token * lex_mode) :=
  match m with
  | LOut =>
      if Ascii.is_space a then Ok ([], LOut)
      else match punct a with
           | Some t => Ok ([t], LOut)
           | None =>
               if decide (a = dquote) then Ok ([], LStr "")
               else Ok ([], LBare (String a ""))
           end
  | LStr acc =>
      if decide (a = dquote) then Ok ([TString (String.rev acc)], LOut)
      else if decide (a = backslash) then Ok ([], LEsc acc)
      else Ok ([], LStr (String a acc))
  | LEsc acc =>
      match unescape a with
      | Some c => Ok ([], LStr (String c acc))
      | None => Err (SyntaxError "found unknown escape character")
      end
  | LBare acc =>
      if Ascii.is_space a then Ok ([TBare (String.rev acc)], LOut)
      else match punct a with
           | Some t => Ok ([TBare (String.rev acc); t], LOut)
           | None => Ok ([], LBare (String a acc))
           end
  end.

(** The scan of a piece of text from a mode: the tokens completed inside the
    piece and the mode at its end. *)
Fixpoint scan (m : lex_mode) (s : string) :
    result yaml_error (list token * lex_mode) :=
  match s with
  | EmptyString => Ok ([], m)
  | String a s' =>
      '(ts, m') ← step m a;
      '(ts', m'') ← scan m' s';
      Ok (ts ++ ts', m'')
  end.

(** The end of the text: a bare scalar is completed, an open string is an
    error. *)
Definition finish (m : lex_mode) : result yaml_error (list token) :=
  match m with
  | LOut => Ok []
  | LBare acc => Ok [TBare (String.rev acc)]
  | LStr _ | LEsc _ => Err (SyntaxError "found unexpected end of stream")
  end.

Definition lex (text : string) : result yaml_error (list token) :=
  '(ts, m) ← scan LOut text;
  ts' ← finish m;
  Ok (ts ++ ts').

(** ** The parser *)

(** A bare scalar that resolves to null. *)
Definition is_null (s : string) : bool :=
  bool_decide (s = "null") || bool_decide (s = "~")
  || bool_decide (s = "Null") || bool_decide (s = "NULL").

Definition bare (s : string) : yaml := if is_null s then YNull else YScalar s.

Fixpoint parse_value (fuel : nat) (ts : list token) :
    result yaml_error (yaml * list token) :=
  match fuel with
  | 0 => Err (SyntaxError "exceeded max depth")
  | S fuel =>
      match ts with
      | TString s :: ts' => Ok (YScalar s, ts')
      | TBare s :: ts' => Ok (bare s, ts')
      | TLBracket :: TRBracket :: ts' => Ok (YSeq [], ts')
      | TLBracket :: ts' => parse_items fuel [] ts'
      | TLBrace :: TRBrace :: ts' => Ok (YMap [], ts')
      | TLBrace :: ts' => parse_entries fuel [] ts'
      | _ => Err (SyntaxError "did not find expected node content")
      end
  end
with parse_items (fuel : nat) (acc : list yaml) (ts : list token) :
    result yaml_error (yaml * list token) :=
  match fuel with
  | 0 => Err (SyntaxError "exceeded max depth")
  | S fuel =>
      '(v, ts') ← parse_value fuel ts;
      match ts' with
      | TComma :: ts'' => parse_items fuel (v :: acc) ts''
      | TRBracket :: ts'' => Ok (YSeq (rev (v :: acc)), ts'')
      | _ => Err (SyntaxError "did not find expected ',' or ']'")
      end
  end
with parse_entries (fuel : nat) (acc : list (string * yaml)) (ts : list token) :
    result yaml_error (yaml * list token) :=
  match fuel with
  | 0 => Err (SyntaxError "exceeded max depth")
  | S fuel =>
      match ts with
      | TString k :: TColon :: ts' | TBare k :: TColon :: ts' =>
          '(v, ts'') ← parse_value fuel ts';
          match ts'' with
          | TComma :: ts3 => parse_entries fuel ((k, v) :: acc) ts3
          | TRBrace :: ts3 => Ok (YMap (rev ((k, v) :: acc)), ts3)
          | _ => Err (SyntaxError "did not find expected ',' or '}'")
          end
      | _ => Err (SyntaxError "did not find expected key")
      end
  end.

(** The error of a parser that has used up its fuel. *)
Definition out_of_fuel : yaml_error := SyntaxError "exceeded max depth".

(** The whole text: an empty document is null, and nothing may follow the
    root node. *)
Definition json_parse (text : string) : result yaml_error yaml :=
  ts ← lex text;
  match ts with
  | [] => Ok YNull
  | _ =>
      '(v, rest) ← parse_value (S (2 * length ts)) ts;
      match rest with
      | [] => Ok v
      | _ => Err (SyntaxError "did not find expected <document start>")
      end
  end.

Global Instance json_syntax : YamlSyntax := json_parse.

(** A character that stands for itself inside a quoted string. *)
Definition plain_char (a : ascii) : bool :=
  negb (bool_decide (a = dquote)) && negb (bool_decide (a = backslash)).

Fixpoint plain (s : string) : bool :=
  match s with
  | EmptyString => true
  | String a s' => plain_char a && plain s'
  end.

(** Text quoted the way a Go raw string literal holds it. *)
Definition quoted (s : string) : string := String dquote (s +:+ String dquote "").

(** ** The scanner composes *)

Lemma scan_app m s1 s2 :
  scan m (s1 +:+ s2) =
  '(ts1, m1) ← scan m s1; '(ts2, m2) ← scan m1 s2; Ok (ts1 ++ ts2, m2).
Proof.
  revert m; induction s1 as [|a s1 IH]; intros m.
  - rewrite string_app_nil_l; simpl. by destruct (scan m s2) as [[??]|].
  - rewrite string_app_cons; simpl.
    destruct (step m a) as [[ts m']|]; simpl; [|done]. rewrite IH.
    destruct (scan m' s1) as [[ts1 m1]|]; simpl; [|done].
    destruct (scan m1 s2) as [[ts2 m2]|]; simpl; [|done].
    by rewrite (assoc_L (++)).
Qed.

Lemma plain_app s1 s2 : plain (s1 +:+ s2) = plain s1 && plain s2.
Proof.
  induction s1 as [|a s1 IH]; [done|].
  rewrite string_app_cons; simpl. by rewrite IH, andb_assoc.
Qed.

(** Inside a quoted string, plain text is accumulated as it is. *)
Lemma scan_plain acc s :
  plain s = true →
  ∃ acc', scan (LStr acc) s = Ok ([], LStr acc') ∧
          String.rev acc' = String.rev acc +:+ s.
Proof.
  revert acc; induction s as [|a s IH]; intros acc Hs; simpl in *.
  - exists acc. by rewrite string_app_nil_r.
  - apply andb_prop in Hs as [Ha Hs]. unfold plain_char in Ha.
    apply andb_prop in Ha as [Hq Hb].
    apply negb_true_iff, bool_decide_eq_false in Hq, Hb.
    rewrite !decide_False by done. simpl.
    destruct (IH (String a acc) Hs) as (acc' & -> & Hacc). exists acc'.
    split; [done|]. rewrite Hacc. unfold String.rev; simpl.
    by rewrite !string_rev_app_app.
Qed.

Lemma scan_cons m a s :
  scan m (String a s) =
  '(ts, m') ← step m a; '(ts', m'') ← scan m' s; Ok (ts ++ ts', m'').
Proof. done. Qed.

Lemma step_open_quote : step LOut dquote = Ok ([], LStr "").
Proof. done. Qed.

(** A quoted piece of plain text scans to one string token. *)
Lemma scan_quoted s :
  plain s = true →
  scan LOut (String dquote (s +:+ String dquote "")) = Ok ([TString s], LOut).
Proof.
  intros Hs. rewrite scan_cons, step_open_quote. simpl. rewrite scan_app.
  destruct (scan_plain "" s Hs) as (acc' & -> & Hacc). simpl.
  by rewrite Hacc.
Qed.

(** Scanning through a piece that ends between tokens, then the rest. *)
Lemma scan_piece_then piece ts rest :
  scan LOut piece = Ok (ts, LOut) →
  scan LOut (piece +:+ rest) = '(ts', m) ← scan LOut rest; Ok (ts ++ ts', m).
Proof. intros Hp. by rewrite scan_app, Hp. Qed.

Lemma scan_quoted_then s rest :
  plain s = true →
  scan LOut (quoted s +:+ rest) =
  '(ts', m) ← scan LOut rest; Ok (TString s :: ts', m).
Proof. intros Hs. unfold quoted. by rewrite scan_app, (scan_quoted s Hs). Qed.

Lemma plain_literal_app s1 s2 :
  plain s1 = true → plain s2 = true → plain (s1 +:+ s2) = true.
Proof. intros H1 H2. by rewrite plain_app, H1, H2. Qed.

#[export] Hint Resolve plain_literal_app : go.

(** Scan a concatenation of literal pieces and quoted plain pieces. *)
Ltac scan_pieces :=
  repeat first
    [ rewrite scan_quoted_then by (repeat (apply plain_literal_app); done)
    | erewrite scan_piece_then by (vm_compute; reflexivity) ].

(** ** The parser terminates *)

(** Inversion of a parser equation: the binds and the matches on tokens. *)
Ltac parse_inv :=
  repeat first
    [ match goal with
      | H : (_ ≫= _) = Ok _ |- _ => apply bind_Ok_inv in H as ([??] & ? & H)
      | H : (_ ≫= _) = Err _ |- _ =>
          apply bind_Err_inv in H as [H|([??] & ? & H)]
      end
    | case_match; simplify_eq/= ].

(** What the three functions leave is shorter than what they are given. *)
Lemma parse_length fuel :
  (∀ ts v rest, parse_value fuel ts = Ok (v, rest) → length rest < length ts) ∧
  (∀ acc ts v rest,
     parse_items fuel acc ts = Ok (v, rest) → length rest < length ts) ∧
  (∀ acc ts v rest,
     parse_entries fuel acc ts = Ok (v, rest) → length rest < length ts).
Proof.
  induction fuel as [|fuel (IHv & IHi & IHe)]; [done|].
  split_and!; intros; simpl in *; parse_inv;
    repeat match goal with
      | H : parse_value _ _ = Ok _ |- _ => apply IHv in H
      | H : parse_items _ _ _ = Ok _ |- _ => apply IHi in H
      | H : parse_entries _ _ _ = Ok _ |- _ => apply IHe in H
      end; simpl in *; lia.
Qed.

(** Two units of fuel per token are enough: with them no call runs out of
    fuel, whatever the tokens are. *)
Lemma parse_fuel_enough fuel :
  (∀ ts, 2 * length ts < fuel → parse_value fuel ts ≠ Err out_of_fuel) ∧
  (∀ acc ts,
     2 * length ts + 1 < fuel → parse_items fuel acc ts ≠ Err out_of_fuel) ∧
  (∀ acc ts, 2 * length ts < fuel → parse_entries fuel acc ts ≠ Err out_of_fuel).
Proof.
  induction fuel as [|fuel (IHv & IHi & IHe)]; [split_and!; intros; lia|].
  split_and!; intros * Hlen Hf; simpl in *; parse_inv;
    repeat match goal with
      | H : parse_value _ _ = Ok _ |- _ => apply (proj1 (parse_length _)) in H
      end;
    match goal with
    | H : parse_value _ _ = Err _ |- _ => eapply IHv; [|exact H]
    | H : parse_items _ _ _ = Err _ |- _ => eapply IHi; [|exact H]
    | H : parse_entries _ _ _ = Err _ |- _ => eapply IHe; [|exact H]
    end; simpl in *; lia.
Qed.

(** The scanner has no fuel: its errors are those of the text. *)
Lemma scan_not_out_of_fuel s m : scan m s ≠ Err out_of_fuel.
Proof.
  revert m; induction s as [|a s IH]; intros m; [done|]. simpl. intros H.
  apply bind_Err_inv in H as [H|([ts m'] & _ & H)].
  - destruct m; simpl in H; repeat case_match; simplify_eq.
  - apply bind_Err_inv in H as [H|([??] & _ & H)]; [by eapply IH|done].
Qed.

Lemma lex_not_out_of_fuel text : lex text ≠ Err out_of_fuel.
Proof.
  unfold lex. intros H.
  apply bind_Err_inv in H as [H|([ts m] & _ & H)];
    [by eapply scan_not_out_of_fuel|].
  apply bind_Err_inv in H as [H|(? & _ & H)]; [|done].
  by destruct m.
Qed.

(** [json_parse] is total: it never fails for lack of fuel. *)
Lemma json_parse_total text : json_parse text ≠ Err out_of_fuel.
Proof.
  unfold json_parse. intros H.
  apply bind_Err_inv in H as [H|(ts & _ & H)]; [by eapply lex_not_out_of_fuel|].
  destruct ts as [|t ts]; [done|].
  apply bind_Err_inv in H as [H|([v rest] & _ & H)]; [|by destruct rest].
  eapply (proj1 (parse_fuel_enough _)); [|exact H]. lia.
Qed.
