(* ===== verification/JsonPrint.v ===== *)
(** * JsonPrint: a printer for the flow subset, and the round trip

    The reference encoder of the syntax layer: a document tree is written as
    its tokens ([tokens_of]) and the tokens as text ([token_text]), strings
    between double quotes with the quote and the backslash escaped, null as
    the bare scalar [null] followed by a space.  Nothing of the repository
    prints a document; the printer is the specification the parser of [Json]
    is checked against: parsing what is printed gives the tree back
    ([json_parse_print]), for every tree. *)

From S2P Require Import Prelude Yaml Json.
From stdpp Require Import options.
Set Warnings "-clear-no-such-hyp".

(** ** Text of a token *)

Definition escape_char (a : ascii) : string :=
  if decide (a = dquote) then String backslash (String dquote "")
  else if decide (a = backslash) then String backslash (String backslash "")
  else String a "".

Fixpoint escape (s : string) : string :=
  match s with
  | EmptyString => EmptyString
  | String a s' => escape_char a +:+ escape s'
  end.

Definition token_text (t : token) : string :=
  match t with
  | TLBrace => "{"
  | TRBrace => "}"
  | TLBracket => "["
  | TRBracket => "]"
  | TColon => ":"
  | TComma => ","
  | TString s => quoted (escape s)
  | TBare s => s +:+ " "
  end.

Definition tokens_text (ts : list token) : string :=
  foldr (λ t s, token_text t +:+ s) "" ts.

(** ** Tokens of a tree *)

(** The pieces of a sequence or a mapping, with commas between them. *)
Fixpoint join_tokens (pieces : list (list token)) : list token :=
  match pieces with
  | [] => []
  | [piece] => piece
  | piece :: pieces' => piece ++ TComma :: join_tokens pieces'
  end.

Fixpoint tokens_of (y : yaml) : list token :=
  match y with
  | YNull => [TBare "null"]
  | YScalar s => [TString s]
  | YSeq items => TLBracket :: join_tokens (tokens_of <$> items) ++ [TRBracket]
  | YMap entries =>
      TLBrace
        :: join_tokens ((λ e, TString e.1 :: TColon :: tokens_of e.2) <$> entries)
        ++ [TRBrace]
  end.

Definition json_print (y : yaml) : string := tokens_text (tokens_of y).

(** The tokens the printer writes: the only bare scalar is [null]. *)
Definition printed (t : token) : Prop :=
  match t with TBare s => s = "null" | _ => True end.

(** The round trip of one tree through the parser, whatever follows it. *)
Definition reads_back (y : yaml) : Prop :=
  ∀ fuel rest,
    2 * length (tokens_of y ++ rest) < fuel →
    parse_value fuel (tokens_of y ++ rest) = Ok (y, rest).

(** A token a value can start with. *)
Definition opens_value (t : token) : Prop :=
  match t with
  | TBare _ | TString _ | TLBracket | TLBrace => True
  | _ => False
  end.

(** ** The scanner reads what [token_text] writes *)

Lemma scan_escape acc s :
  ∃ acc', scan (LStr acc) (escape s) = Ok ([], LStr acc') ∧
          String.rev acc' = String.rev acc +:+ s.
Proof.
  revert acc; induction s as [|a s IH]; intros acc; simpl.
  { exists acc. by rewrite string_app_nil_r. }
  destruct (IH (String a acc)) as (acc' & Hs & Hacc). exists acc'.
  split; [|by rewrite Hacc, string_rev_cons_app].
  rewrite scan_app. unfold escape_char.
  destruct (decide (a = dquote)) as [->|Hq]; [simpl; by rewrite Hs|].
  destruct (decide (a = backslash)) as [->|Hb]; [simpl; by rewrite Hs|].
  simpl. rewrite !decide_False by done. simpl. by rewrite Hs.
Qed.

Lemma scan_token_text t : printed t → scan LOut (token_text t) = Ok ([t], LOut).
Proof.
  destruct t as [| | | | | |s|s]; try done.
  - intros _. unfold token_text, quoted. rewrite scan_cons, step_open_quote. simpl.
    rewrite scan_app. destruct (scan_escape "" s) as (acc' & -> & Hacc).
    simpl. by rewrite Hacc.
  - by intros ->.
Qed.

Lemma scan_tokens_text ts :
  Forall printed ts → scan LOut (tokens_text ts) = Ok (ts, LOut).
Proof.
  induction 1 as [|t ts Ht _ IH]; [done|].
  change (tokens_text (t :: ts)) with (token_text t +:+ tokens_text ts).
  by rewrite (scan_piece_then _ _ _ (scan_token_text t Ht)), IH.
Qed.

Lemma lex_tokens_text ts : Forall printed ts → lex (tokens_text ts) = Ok ts.
Proof.
  intros Hts. unfold lex. rewrite (scan_tokens_text ts Hts). simpl.
  by rewrite (right_id_L [] (++)).
Qed.

(** ** The tokens of a tree *)

Lemma join_tokens_cons piece pieces :
  pieces ≠ [] →
  join_tokens (piece :: pieces) = piece ++ TComma :: join_tokens pieces.
Proof. by destruct pieces. Qed.

Lemma Forall_join_tokens (P : token → Prop) pieces :
  P TComma → Forall (Forall P) pieces → Forall P (join_tokens pieces).
Proof.
  intros Hc. induction 1 as [|piece pieces Hp Hps IH]; [done|].
  destruct pieces as [|piece' pieces]; [done|].
  rewrite join_tokens_cons by done. apply Forall_app. split; [done|].
  by constructor.
Qed.

Lemma tokens_of_printed y : Forall printed (tokens_of y).
Proof.
  induction y as [| s | items IH | entries IH] using yaml_ind; simpl;
    [by repeat constructor..| |];
    constructor; [done| |done|]; apply Forall_app; (split; [|by repeat constructor]);
    apply Forall_join_tokens; [done| |done|]; apply Forall_fmap;
    (eapply Forall_impl; [exact IH|]); [done|].
  intros [k v] Hv. by repeat constructor.
Qed.

Lemma tokens_of_opens y : ∃ t ts, tokens_of y = t :: ts ∧ opens_value t.
Proof. destruct y; simpl; by eexists _, _. Qed.

(** ** The parser reads the tokens of a tree *)

(** A value that starts as a value does is not taken for an empty sequence
    or mapping, nor for a key. *)
Lemma parse_value_seq fuel t ts :
  opens_value t →
  parse_value (S fuel) (TLBracket :: t :: ts) = parse_items fuel [] (t :: ts).
Proof. by destruct t. Qed.

Local Ltac fuel_lia :=
  unfold reads_back in *; rewrite ?length_app in *; simpl in *;
  rewrite ?length_app in *; simpl in *; lia.

(** The items of a sequence, once the round trip holds for each. *)
Lemma parse_items_tokens items :
  Forall reads_back items → items ≠ [] →
  ∀ fuel acc rest,
    2 * length (join_tokens (tokens_of <$> items) ++ TRBracket :: rest) + 1 < fuel →
    parse_items fuel acc (join_tokens (tokens_of <$> items) ++ TRBracket :: rest) =
    Ok (YSeq (rev acc ++ items), rest).
Proof.
  induction 1 as [|y items Hy _ IH]; [done|]. intros _ [|fuel] acc rest Hf; [lia|].
  destruct items as [|y' items].
  - simpl. rewrite Hy by fuel_lia. done.
  - rewrite fmap_cons, join_tokens_cons, <-(assoc_L (++)) by done.
    cbn [parse_items]. rewrite Hy by fuel_lia. simpl.
    rewrite IH; [|done|fuel_lia]. simpl. by rewrite <-(assoc_L (++)).
Qed.

(** The entries of a mapping. *)
Lemma parse_entries_tokens entries :
  Forall (λ e, reads_back e.2) entries → entries ≠ [] →
  ∀ fuel acc rest,
    let pieces := (λ e, TString e.1 :: TColon :: tokens_of e.2) <$> entries in
    2 * length (join_tokens pieces ++ TRBrace :: rest) < fuel →
    parse_entries fuel acc (join_tokens pieces ++ TRBrace :: rest) =
    Ok (YMap (rev acc ++ entries), rest).
Proof.
  induction 1 as [|[k y] entries Hy _ IH]; [done|].
  intros _ [|fuel] acc rest pieces Hf; [lia|]. subst pieces.
  destruct entries as [|e' entries].
  - simpl. rewrite Hy by fuel_lia. done.
  - rewrite fmap_cons, join_tokens_cons, <-(assoc_L (++)) by done.
    simpl. rewrite Hy by fuel_lia. simpl.
    rewrite IH; [|done|fuel_lia]. simpl. by rewrite <-(assoc_L (++)).
Qed.

Lemma tokens_of_seq_app items rest :
  tokens_of (YSeq items) ++ rest =
  TLBracket :: (join_tokens (tokens_of <$> items) ++ TRBracket :: rest).
Proof. simpl. by rewrite <-(assoc_L (++)). Qed.

Lemma tokens_of_map_app entries rest :
  tokens_of (YMap entries) ++ rest =
  TLBrace :: (join_tokens ((λ e, TString e.1 :: TColon :: tokens_of e.2) <$> entries)
              ++ TRBrace :: rest).
Proof. simpl. by rewrite <-(assoc_L (++)). Qed.

(** A non-empty sequence starts as a value does, a non-empty mapping with a
    key. *)
Lemma join_tokens_opens y items more :
  ∃ t ts, join_tokens (tokens_of <$> y :: items) ++ more = t :: ts ∧ opens_value t.
Proof.
  destruct (tokens_of_opens y) as (t & ts & Ht & Hopen).
  destruct items; simpl; rewrite Ht; simpl; by eexists _, _.
Qed.

Lemma join_tokens_key k y entries more :
  ∃ ts, join_tokens ((λ e, TString e.1 :: TColon :: tokens_of e.2)
                       <$> (k, y) :: entries) ++ more = TString k :: ts.
Proof. destruct entries; simpl; by eexists. Qed.

(** Every tree is read back from its tokens, with two units of fuel per
    token. *)
Lemma parse_value_tokens y : reads_back y.
Proof.
  induction y as [| s | items IH | entries IH] using yaml_ind;
    intros [|fuel] rest Hf; try (simpl in Hf; lia); try done.
  - destruct items as [|y items]; [done|]. rewrite tokens_of_seq_app in *.
    destruct (join_tokens_opens y items (TRBracket :: rest)) as (t & ts & Hts & ?).
    rewrite Hts, parse_value_seq, <-Hts by done.
    apply (parse_items_tokens _ IH); [done|]. simpl in *; lia.
  - destruct entries as [|[k y] entries]; [done|]. rewrite tokens_of_map_app in *.
    destruct (join_tokens_key k y entries (TRBrace :: rest)) as (ts & Hts).
    rewrite Hts. cbn [parse_value]. rewrite <-Hts.
    apply (parse_entries_tokens _ IH); [done|]. simpl in *; lia.
Qed.

(** Parsing the printed form of a tree gives the tree back. *)
Lemma json_parse_print y : json_parse (json_print y) = Ok y.
Proof.
  unfold json_parse, json_print.
  rewrite (lex_tokens_text _ (tokens_of_printed y)).
  pose proof (parse_value_tokens y (S (2 * length (tokens_of y))) []) as Hp.
  rewrite (right_id_L [] (++)) in Hp.
  destruct (tokens_of_opens y) as (t & ts & Ht & _).
  cbn [mbind result_mbind result_bind]. rewrite Ht at 1. by rewrite Hp by lia.
Qed.

(** What is printed is not the empty text. *)
Lemma json_print_nonempty y : json_print y ≠ "".
Proof.
  unfold json_print. destruct (tokens_of_opens y) as (t & ts & -> & _).
  destruct t; simpl; try done. by destruct s.
Qed.
