(* ===== verification/KubeConfig.v ===== *)
(** * KubeConfig: the cluster-admin configuration and [ParseKubeConfig]

    Models [src/internal/kubernetes/kube_config.go].  Each struct is a
    [Record] with the source's field names (a field [F] of struct [T] is
    written [T_F] where the bare name is taken by another struct); the YAML
    key of each field, from its struct tag, is in the struct's [_field]
    decoder and in its encoder.  [ParseKubeConfig] is stated against the class
    [Unmarshaler], which stands for [yaml.Unmarshal]; [decode_KubeConfig] over
    a syntax layer is the instance that follows the tags. *)

From stdpp Require Import gmap.
From S2P Require Import Prelude Yaml Json.
From stdpp Require Import options.

Set Warnings "-clear-no-such-hyp".

(** ** The structs *)

Record cluster := {
  ClusterAuthorityData : string;
  Server : string;
}.

Record clusterItem := {
  clusterItem_Name : string;
  Cluster : cluster;
}.

Record user := {
  ClientCertificteData : string;
  Token : string;
  ClientKeyData : string;
}.

Record userItem := {
  userItem_Name : string;
  User : user;
}.

Record context := {
  context_Cluster : string;
  context_User : string;
  Namespace : string;
}.

Record contextItem := {
  contextItem_Name : string;
  Context : context;
}.

Record KubeConfig := {
  APIVersion : string;
  Clusters : list clusterItem;
  Users : list userItem;
  Contexts : list contextItem;
  CurrentContext : string;
  Kind : string;
  Preferences : gmap string yaml;
}.

Global Instance cluster_eq_dec : EqDecision cluster.
Proof. solve_decision. Defined.
Global Instance clusterItem_eq_dec : EqDecision clusterItem.
Proof. solve_decision. Defined.
Global Instance user_eq_dec : EqDecision user.
Proof. solve_decision. Defined.
Global Instance userItem_eq_dec : EqDecision userItem.
Proof. solve_decision. Defined.
Global Instance context_eq_dec : EqDecision context.
Proof. solve_decision. Defined.
Global Instance contextItem_eq_dec : EqDecision contextItem.
Proof. solve_decision. Defined.
Global Instance KubeConfig_eq_dec : EqDecision KubeConfig.
Proof. solve_decision. Defined.

(** The zero value of each struct: what [var x T] holds. *)
Definition zero_cluster : cluster :=
  {| ClusterAuthorityData := ""; Server := "" |}.
Definition zero_clusterItem : clusterItem :=
  {| clusterItem_Name := ""; Cluster := zero_cluster |}.
Definition zero_user : user :=
  {| ClientCertificteData := ""; Token := ""; ClientKeyData := "" |}.
Definition zero_userItem : userItem :=
  {| userItem_Name := ""; User := zero_user |}.
Definition zero_context : context :=
  {| context_Cluster := ""; context_User := ""; Namespace := "" |}.
Definition zero_contextItem : contextItem :=
  {| contextItem_Name := ""; Context := zero_context |}.
Definition zero_KubeConfig : KubeConfig :=
  {| APIVersion := ""; Clusters := []; Users := []; Contexts := [];
     CurrentContext := ""; Kind := ""; Preferences := ∅ |}.

(** ** Decoding by struct tag *)

Definition cluster_field (c : cluster) (key : string) (v : yaml) :
    result yaml_error cluster :=
  if decide (key = "certificate-authority-data") then
    s ← decode_string v;
    Ok {| ClusterAuthorityData := s; Server := Server c |}
  else if decide (key = "server") then
    s ← decode_string v;
    Ok {| ClusterAuthorityData := ClusterAuthorityData c; Server := s |}
  else Ok c.

Definition decode_cluster : cluster → yaml → result yaml_error cluster :=
  decode_struct "kubernetes.cluster" cluster_field zero_cluster.

Definition clusterItem_field (i : clusterItem) (key : string) (v : yaml) :
    result yaml_error clusterItem :=
  if decide (key = "name") then
    s ← decode_string v;
    Ok {| clusterItem_Name := s; Cluster := Cluster i |}
  else if decide (key = "cluster") then
    c ← decode_cluster (Cluster i) v;
    Ok {| clusterItem_Name := clusterItem_Name i; Cluster := c |}
  else Ok i.

Definition decode_clusterItem : clusterItem → yaml → result yaml_error clusterItem :=
  decode_struct "kubernetes.clusterItem" clusterItem_field zero_clusterItem.

Definition user_field (u : user) (key : string) (v : yaml) :
    result yaml_error user :=
  if decide (key = "client-certificate-data") then
    s ← decode_string v;
    Ok {| ClientCertificteData := s; Token := Token u;
          ClientKeyData := ClientKeyData u |}
  else if decide (key = "token") then
    s ← decode_string v;
    Ok {| ClientCertificteData := ClientCertificteData u; Token := s;
          ClientKeyData := ClientKeyData u |}
  else if decide (key = "client-key-data") then
    s ← decode_string v;
    Ok {| ClientCertificteData := ClientCertificteData u; Token := Token u;
          ClientKeyData := s |}
  else Ok u.

Definition decode_user : user → yaml → result yaml_error user :=
  decode_struct "kubernetes.user" user_field zero_user.

Definition userItem_field (i : userItem) (key : string) (v : yaml) :
    result yaml_error userItem :=
  if decide (key = "name") then
    s ← decode_string v;
    Ok {| userItem_Name := s; User := User i |}
  else if decide (key = "user") then
    u ← decode_user (User i) v;
    Ok {| userItem_Name := userItem_Name i; User := u |}
  else Ok i.

Definition decode_userItem : userItem → yaml → result yaml_error userItem :=
  decode_struct "kubernetes.userItem" userItem_field zero_userItem.

Definition context_field (c : context) (key : string) (v : yaml) :
    result yaml_error context :=
  if decide (key = "cluster") then
    s ← decode_string v;
    Ok {| context_Cluster := s; context_User := context_User c;
          Namespace := Namespace c |}
  else if decide (key = "user") then
    s ← decode_string v;
    Ok {| context_Cluster := context_Cluster c; context_User := s;
          Namespace := Namespace c |}
  else if decide (key = "namespace") then
    s ← decode_string v;
    Ok {| context_Cluster := context_Cluster c; context_User := context_User c;
          Namespace := s |}
  else Ok c.

Definition decode_context : context → yaml → result yaml_error context :=
  decode_struct "kubernetes.context" context_field zero_context.

Definition contextItem_field (i : contextItem) (key : string) (v : yaml) :
    result yaml_error contextItem :=
  if decide (key = "name") then
    s ← decode_string v;
    Ok {| contextItem_Name := s; Context := Context i |}
  else if decide (key = "context") then
    c ← decode_context (Context i) v;
    Ok {| contextItem_Name := contextItem_Name i; Context := c |}
  else Ok i.

Definition decode_contextItem : contextItem → yaml → result yaml_error contextItem :=
  decode_struct "kubernetes.contextItem" contextItem_field zero_contextItem.

Definition KubeConfig_field (k : KubeConfig) (key : string) (v : yaml) :
    result yaml_error KubeConfig :=
  if decide (key = "apiVersion") then
    s ← decode_string v;
    Ok {| APIVersion := s; Clusters := Clusters k; Users := Users k;
          Contexts := Contexts k; CurrentContext := CurrentContext k;
          Kind := Kind k; Preferences := Preferences k |}
  else if decide (key = "clusters") then
    l ← decode_seq "[]kubernetes.clusterItem" (decode_clusterItem zero_clusterItem) v;
    Ok {| APIVersion := APIVersion k; Clusters := l; Users := Users k;
          Contexts := Contexts k; CurrentContext := CurrentContext k;
          Kind := Kind k; Preferences := Preferences k |}
  else if decide (key = "users") then
    l ← decode_seq "[]kubernetes.userItem" (decode_userItem zero_userItem) v;
    Ok {| APIVersion := APIVersion k; Clusters := Clusters k; Users := l;
          Contexts := Contexts k; CurrentContext := CurrentContext k;
          Kind := Kind k; Preferences := Preferences k |}
  else if decide (key = "contexts") then
    l ← decode_seq "[]kubernetes.contextItem" (decode_contextItem zero_contextItem) v;
    Ok {| APIVersion := APIVersion k; Clusters := Clusters k; Users := Users k;
          Contexts := l; CurrentContext := CurrentContext k;
          Kind := Kind k; Preferences := Preferences k |}
  else if decide (key = "current-context") then
    s ← decode_string v;
    Ok {| APIVersion := APIVersion k; Clusters := Clusters k; Users := Users k;
          Contexts := Contexts k; CurrentContext := s;
          Kind := Kind k; Preferences := Preferences k |}
  else if decide (key = "kind") then
    s ← decode_string v;
    Ok {| APIVersion := APIVersion k; Clusters := Clusters k; Users := Users k;
          Contexts := Contexts k; CurrentContext := CurrentContext k;
          Kind := s; Preferences := Preferences k |}
  else if decide (key = "preferences") then
    m ← decode_map (Preferences k) v;
    Ok {| APIVersion := APIVersion k; Clusters := Clusters k; Users := Users k;
          Contexts := Contexts k; CurrentContext := CurrentContext k;
          Kind := Kind k; Preferences := m |}
  else Ok k.

(** [var kubeConfig KubeConfig] followed by the decoding of the document's
    root into it. *)
Definition decode_KubeConfig (y : yaml) : result yaml_error KubeConfig :=
  decode_struct "kubernetes.KubeConfig" KubeConfig_field zero_KubeConfig
    zero_KubeConfig y.

(** The keys [KubeConfig] has a field for. *)
Definition KubeConfig_keys : list string :=
  ["apiVersion"; "clusters"; "users"; "contexts"; "current-context"; "kind";
   "preferences"].

(** ** Encoding by struct tag *)

(** The mapping a struct marshals to: its fields in declaration order under
    their keys, a field tagged [omitempty] left out when it is empty. *)
Definition encode_cluster (c : cluster) : yaml :=
  YMap (entry "certificate-authority-data" (YScalar (ClusterAuthorityData c))
        ++ entry "server" (YScalar (Server c))).

Definition encode_clusterItem (i : clusterItem) : yaml :=
  YMap (entry "name" (YScalar (clusterItem_Name i))
        ++ entry "cluster" (encode_cluster (Cluster i))).

Definition encode_user (u : user) : yaml :=
  YMap (entry "client-certificate-data" (YScalar (ClientCertificteData u))
        ++ entry "token" (YScalar (Token u))
        ++ entry "client-key-data" (YScalar (ClientKeyData u))).

Definition encode_userItem (i : userItem) : yaml :=
  YMap (entry "name" (YScalar (userItem_Name i))
        ++ entry "user" (encode_user (User i))).

Definition encode_context (c : context) : yaml :=
  YMap (entry "cluster" (YScalar (context_Cluster c))
        ++ entry "user" (YScalar (context_User c))
        ++ entry_omitempty "namespace" (bool_decide (Namespace c = ""))
             (YScalar (Namespace c))).

Definition encode_contextItem (i : contextItem) : yaml :=
  YMap (entry "name" (YScalar (contextItem_Name i))
        ++ entry "context" (encode_context (Context i))).

Definition encode_KubeConfig (k : KubeConfig) : yaml :=
  YMap (entry "apiVersion" (YScalar (APIVersion k))
        ++ entry "clusters" (encode_seq encode_clusterItem (Clusters k))
        ++ entry "users" (encode_seq encode_userItem (Users k))
        ++ entry_omitempty "contexts" (bool_decide (Contexts k = []))
             (encode_seq encode_contextItem (Contexts k))
        ++ entry_omitempty "current-context"
             (bool_decide (CurrentContext k = "")) (YScalar (CurrentContext k))
        ++ entry_omitempty "kind" (bool_decide (Kind k = "")) (YScalar (Kind k))
        ++ entry_omitempty "preferences" (bool_decide (Preferences k = ∅))
             (encode_map (Preferences k))).

(** ** The unmarshaller as an interface *)

(** [yaml.Unmarshal([]byte(config), &kubeConfig)] from a zero [kubeConfig]:
    the decoded configuration, or the library's error. *)
Class Unmarshaler := yaml_Unmarshal : string → result yaml_error KubeConfig.

Global Instance tag_unmarshaler `{YamlSyntax} : Unmarshaler := λ config,
  y ← yaml_parse config; decode_KubeConfig y.

(** ** ParseKubeConfig *)

(** One constructor per [fmt.Errorf] of [ParseKubeConfig], carrying the value
    the message formats, and one for the run-time panic of an index
    expression. *)
Inductive parse_error :=
| EmptyConfig
| UnmarshalFailed (err : yaml_error)
| NoClustersOrUsers (kubeConfig : KubeConfig)
| MissingAuth (u : user)
| InvalidServer (c : cluster)
| IndexOutOfRange (i len : nat).

Global Instance parse_error_eq_dec : EqDecision parse_error.
Proof. solve_decision. Defined.

(** The index expression [l[i]]. *)
Definition index {A} (l : list A) (i : nat) : result parse_error A :=
  match l !! i with
  | Some x => Ok x
  | None => Err (IndexOutOfRange i (length l))
  end.

Definition ParseKubeConfig `{Unmarshaler} (config : string) :
    result parse_error KubeConfig :=
  failif String.eqb config "" then EmptyConfig;
  match yaml_Unmarshal config with
  | Err err => Err (UnmarshalFailed err)
  | Ok kubeConfig =>
      failif (length (Clusters kubeConfig) <=? 0)
             || (length (Users kubeConfig) <=? 0)
        then NoClustersOrUsers kubeConfig;
      u0 ← index (Users kubeConfig) 0;
      let u := User u0 in
      failif String.eqb (Token u) ""
             && (String.eqb (ClientCertificteData u) ""
                 || String.eqb (ClientKeyData u) "")
        then MissingAuth u;
      c0 ← index (Clusters kubeConfig) 0;
      let c := Cluster c0 in
      failif String.eqb (Server c) "" then InvalidServer c;
      Ok kubeConfig
  end.

(** ** The abstract specification *)

(** The first user can authenticate: a bearer token, or a client certificate
    together with its key. *)
Definition has_auth (u : user) : Prop :=
  Token u ≠ "" ∨ (ClientCertificteData u ≠ "" ∧ ClientKeyData u ≠ "").

(** What a parsed configuration promises its consumers. *)
Definition valid_KubeConfig (k : KubeConfig) : Prop :=
  ∃ c cs u us,
    Clusters k = c :: cs ∧ Users k = u :: us ∧
    has_auth (User u) ∧ Server (Cluster c) ≠ "".

Global Instance has_auth_dec u : Decision (has_auth u).
Proof. unfold has_auth. apply _. Defined.

(** The first guard that fires on an unmarshalled configuration, in the order
    of the source, or [None] when all pass. *)
Definition first_violation (k : KubeConfig) : option parse_error :=
  match Clusters k, Users k with
  | c :: _, u :: _ =>
      if decide (has_auth (User u)) then
        if decide (Server (Cluster c) = "") then Some (InvalidServer (Cluster c))
        else None
      else Some (MissingAuth (User u))
  | _, _ => Some (NoClustersOrUsers k)
  end.

(** A flow-style document with one cluster and one user who holds a token. *)
Definition example_token : string :=
  "{clusters: [{cluster: {server: example.com}}], users: [{user: {token: secret}}]}".

(** The same first cluster and user, followed by a cluster without a server,
    a user without auth material, and a context that names no cluster of the
    document. *)
Definition example_token_more : string :=
  "{clusters: [{cluster: {server: example.com}}, {name: second}], users: [{user: {token: secret}}, {name: nobody}], contexts: [{name: dangling, context: {cluster: nowhere}}], current-context: elsewhere}".

(** A certificate without its key, and no token. *)
Definition example_cert_only : string :=
  "{clusters: [{cluster: {server: example.com}}], users: [{user: {client-certificate-data: 4567}}]}".

(** The same, by cases on the two slices. *)
Lemma valid_KubeConfig_alt k :
  valid_KubeConfig k ↔
  match Clusters k, Users k with
  | c :: _, u :: _ => has_auth (User u) ∧ Server (Cluster c) ≠ ""
  | _, _ => False
  end.
Proof.
  unfold valid_KubeConfig. split.
  - by intros (c & cs & u & us & -> & -> & ? & ?).
  - destruct (Clusters k) as [|c cs], (Users k) as [|u us]; try done.
    intros [??]. by exists c, cs, u, us.
Qed.

Global Instance valid_KubeConfig_dec k : Decision (valid_KubeConfig k).
Proof.
  assert (Decision (match Clusters k, Users k with
                    | c :: _, u :: _ =>
                        has_auth (User u) ∧ Server (Cluster c) ≠ ""
                    | _, _ => False
                    end)) as [Hv|Hv].
  { destruct (Clusters k), (Users k); apply _. }
  - left. by apply valid_KubeConfig_alt.
  - right. by intros ?%valid_KubeConfig_alt.
Defined.

(** ** Lemmas on the guards *)

Lemma index_0_cons {A} (x : A) l : index (x :: l) 0 = Ok x.
Proof. done. Qed.

Lemma index_Ok {A} (l : list A) i x : index l i = Ok x ↔ l !! i = Some x.
Proof. unfold index. destruct (l !! i); split; congruence. Qed.

Lemma index_in_range {A} (l : list A) i : i < length l → is_ok (index l i) = true.
Proof. intros [x Hx]%lookup_lt_is_Some. unfold index. by rewrite Hx. Qed.

Lemma missing_auth_false u :
  String.eqb (Token u) ""
  && (String.eqb (ClientCertificteData u) "" || String.eqb (ClientKeyData u) "")
  = false ↔ has_auth u.
Proof.
  unfold has_auth.
  destruct (String.eqb_spec (Token u) ""),
    (String.eqb_spec (ClientCertificteData u) ""),
    (String.eqb_spec (ClientKeyData u) ""); simpl; intuition congruence.
Qed.

Lemma missing_auth_true u :
  String.eqb (Token u) ""
  && (String.eqb (ClientCertificteData u) "" || String.eqb (ClientKeyData u) "")
  = true ↔ ¬ has_auth u.
Proof. rewrite <-missing_auth_false. by destruct (_ && _). Qed.

Lemma first_violation_None k : first_violation k = None ↔ valid_KubeConfig k.
Proof.
  rewrite valid_KubeConfig_alt. unfold first_violation.
  destruct (Clusters k), (Users k); try done.
  repeat case_decide; intuition congruence.
Qed.

(** The heads of the two slices determine the verdict's shape. *)
Lemma first_violation_heads k k' :
  head (Clusters k) = head (Clusters k') → head (Users k) = head (Users k') →
  is_Some (first_violation k) ↔ is_Some (first_violation k').
Proof.
  unfold first_violation.
  destruct (Clusters k), (Clusters k'), (Users k), (Users k');
    intros [=] [=]; by subst.
Qed.

(** The violations are those of the three guards, each in its turn. *)
Lemma first_violation_guard k e :
  first_violation k = Some e →
  match e with
  | NoClustersOrUsers _ | MissingAuth _ | InvalidServer _ => True
  | _ => False
  end.
Proof.
  unfold first_violation. destruct (Clusters k), (Users k);
    repeat case_decide; by intros [= <-].
Qed.

Lemma first_violation_NoClustersOrUsers k k' :
  first_violation k = Some (NoClustersOrUsers k') ↔
  k' = k ∧ (Clusters k = [] ∨ Users k = []).
Proof.
  unfold first_violation. destruct (Clusters k), (Users k);
    repeat case_decide; naive_solver.
Qed.

Lemma first_violation_MissingAuth k u :
  first_violation k = Some (MissingAuth u) ↔
  ∃ ui us, Clusters k ≠ [] ∧ Users k = ui :: us ∧ User ui = u ∧ ¬ has_auth u.
Proof.
  unfold first_violation. destruct (Clusters k), (Users k);
    repeat case_decide; naive_solver.
Qed.

Lemma first_violation_InvalidServer k c :
  first_violation k = Some (InvalidServer c) ↔
  ∃ ci cs ui us, Clusters k = ci :: cs ∧ Users k = ui :: us ∧
    has_auth (User ui) ∧ Cluster ci = c ∧ Server c = "".
Proof.
  unfold first_violation. destruct (Clusters k), (Users k);
    repeat case_decide; naive_solver.
Qed.

#[export] Hint Rewrite @index_0_cons : go.
#[export] Hint Resolve index_in_range : go.

(** ** The decoders *)

(** The four fields of [KubeConfig] that are not strings. *)
Lemma KubeConfig_field_clusters k v :
  KubeConfig_field k "clusters" v =
  l ← decode_seq "[]kubernetes.clusterItem" (decode_clusterItem zero_clusterItem) v;
  Ok {| APIVersion := APIVersion k; Clusters := l; Users := Users k;
        Contexts := Contexts k; CurrentContext := CurrentContext k;
        Kind := Kind k; Preferences := Preferences k |}.
Proof. done. Qed.

Lemma KubeConfig_field_users k v :
  KubeConfig_field k "users" v =
  l ← decode_seq "[]kubernetes.userItem" (decode_userItem zero_userItem) v;
  Ok {| APIVersion := APIVersion k; Clusters := Clusters k; Users := l;
        Contexts := Contexts k; CurrentContext := CurrentContext k;
        Kind := Kind k; Preferences := Preferences k |}.
Proof. done. Qed.

Lemma KubeConfig_field_contexts k v :
  KubeConfig_field k "contexts" v =
  l ← decode_seq "[]kubernetes.contextItem" (decode_contextItem zero_contextItem) v;
  Ok {| APIVersion := APIVersion k; Clusters := Clusters k; Users := Users k;
        Contexts := l; CurrentContext := CurrentContext k;
        Kind := Kind k; Preferences := Preferences k |}.
Proof. done. Qed.

Lemma KubeConfig_field_preferences k v :
  KubeConfig_field k "preferences" v =
  m ← decode_map (Preferences k) v;
  Ok {| APIVersion := APIVersion k; Clusters := Clusters k; Users := Users k;
        Contexts := Contexts k; CurrentContext := CurrentContext k;
        Kind := Kind k; Preferences := m |}.
Proof. done. Qed.

(** A key that is not one of the tags leaves the struct as it is. *)
Lemma KubeConfig_field_unknown k key v :
  key ∉ KubeConfig_keys → KubeConfig_field k key v = Ok k.
Proof.
  unfold KubeConfig_keys, KubeConfig_field. rewrite !not_elem_of_cons.
  intros (? & ? & ? & ? & ? & ? & ? & _). by rewrite !decide_False.
Qed.

Lemma decode_cluster_encode init c : decode_cluster init (encode_cluster c) = Ok c.
Proof. by destruct c. Qed.

Lemma decode_clusterItem_encode init i :
  decode_clusterItem init (encode_clusterItem i) = Ok i.
Proof. by destruct i as [? []]. Qed.

Lemma decode_user_encode init u : decode_user init (encode_user u) = Ok u.
Proof. by destruct u. Qed.

Lemma decode_userItem_encode init i :
  decode_userItem init (encode_userItem i) = Ok i.
Proof. by destruct i as [? []]. Qed.

(** With [omitempty], an empty namespace is not written, and is read back as
    empty only into a context whose namespace is empty. *)
Lemma decode_context_encode init c :
  Namespace init = "" → decode_context init (encode_context c) = Ok c.
Proof.
  destruct c as [? ? ns], init as [? ? ns0]. intros [= ->].
  unfold encode_context, entry_omitempty; simpl.
  by case_bool_decide; simplify_eq/=.
Qed.

Lemma decode_contextItem_encode i :
  decode_contextItem zero_contextItem (encode_contextItem i) = Ok i.
Proof.
  destruct i as [n [? ? ns]].
  unfold encode_contextItem, encode_context, entry_omitempty; simpl.
  by case_bool_decide; simplify_eq/=.
Qed.

#[export] Hint Rewrite decode_cluster_encode decode_clusterItem_encode
  decode_user_encode decode_userItem_encode decode_contextItem_encode : go.

(** Round trip of the decoder: decoding the mapping a configuration marshals
    to gives the configuration back, for every configuration: each field is
    written under the key it is read from, and a field left out by
    [omitempty] is read back as empty. *)
Lemma decode_KubeConfig_encode k :
  decode_KubeConfig (encode_KubeConfig k) = Ok k.
Proof.
  destruct k as [api cs us ctxs cur kind prefs].
  unfold decode_KubeConfig, encode_KubeConfig, entry_omitempty, entry; simpl.
  rewrite KubeConfig_field_clusters, decode_seq_encode
    by (intros; apply decode_clusterItem_encode); simpl.
  rewrite KubeConfig_field_users, decode_seq_encode
    by (intros; apply decode_userItem_encode); simpl.
  repeat case_bool_decide; simplify_eq/=;
    rewrite ?KubeConfig_field_contexts, ?decode_seq_encode
      by (intros; apply decode_contextItem_encode); simpl;
    by rewrite ?foldl_insert_map_to_list.
Qed.

(** C35. Keys the struct has no field for are ignored: an entry under such a
    key can be removed from the document without changing what is decoded,
    errors included. *)
Theorem decode_KubeConfig_unknown_key es1 key v es2 :
  key ∉ KubeConfig_keys →
  decode_KubeConfig (YMap (es1 ++ (key, v) :: es2)) =
  decode_KubeConfig (YMap (es1 ++ es2)).
Proof.
  intros Hkey. apply decode_struct_skip. intros s.
  by apply KubeConfig_field_unknown.
Qed.

(** ** ParseKubeConfig against the interface *)

Section parse.
Context `{Unmarshaler}.

(** The body of [ParseKubeConfig] as a decision tree: the empty text, the
    library's error, then the first guard that fires.  The two index
    expressions have been discharged by the length guard. *)
Lemma ParseKubeConfig_unfold config :
  ParseKubeConfig config =
    if decide (config = "") then Err EmptyConfig
    else match yaml_Unmarshal config with
         | Err e => Err (UnmarshalFailed e)
         | Ok k => from_option Err (Ok k) (first_violation k)
         end.
Proof.
  unfold ParseKubeConfig, first_violation.
  destruct (String.eqb_spec config ""); case_decide; try done.
  destruct (yaml_Unmarshal config) as [k|]; [|done].
  destruct (Clusters k) as [|c cs], (Users k) as [|u us]; simpl; try done.
  destruct (_ && _) eqn:Hm.
  - apply missing_auth_true in Hm. by rewrite decide_False.
  - apply missing_auth_false in Hm. rewrite decide_True by done.
    destruct (String.eqb_spec (Server (Cluster c)) ""); by case_decide.
Qed.

(** What [ParseKubeConfig] does once the text has been unmarshalled. *)
Lemma ParseKubeConfig_unmarshalled config k :
  config ≠ "" → yaml_Unmarshal config = Ok k →
  ParseKubeConfig config = from_option Err (Ok k) (first_violation k).
Proof. intros ? Hu. by rewrite ParseKubeConfig_unfold, decide_False, Hu. Qed.

(** What a configuration [ParseKubeConfig] returns promises. *)
Lemma ParseKubeConfig_valid config k :
  ParseKubeConfig config = Ok k → valid_KubeConfig k.
Proof.
  rewrite ParseKubeConfig_unfold, <-first_violation_None.
  case_decide; [done|]. destruct (yaml_Unmarshal config) as [k'|]; [|done].
  destruct (first_violation k') eqn:?; simpl; congruence.
Qed.

(** C1. Refinement: [ParseKubeConfig] returns a configuration exactly when the
    text is not empty, the unmarshaller accepts it, and the result satisfies
    the abstract specification [valid_KubeConfig]; the configuration returned
    is the unmarshalled one, unchanged. *)
Theorem ParseKubeConfig_refines config k :
  ParseKubeConfig config = Ok k ↔
  config ≠ "" ∧ yaml_Unmarshal config = Ok k ∧ valid_KubeConfig k.
Proof.
  rewrite ParseKubeConfig_unfold, <-first_violation_None.
  case_decide; [intuition congruence|].
  destruct (yaml_Unmarshal config) as [k'|]; [|intuition congruence].
  destruct (first_violation k') eqn:?; simpl; intuition congruence.
Qed.

(** C2. Safety: whatever the text and the unmarshaller, the index expressions
    [kubeConfig.Users[0]] and [kubeConfig.Clusters[0]] are in range:
    [ParseKubeConfig] never panics. *)
Theorem ParseKubeConfig_no_panic config i n :
  ParseKubeConfig config ≠ Err (IndexOutOfRange i n).
Proof.
  rewrite ParseKubeConfig_unfold. case_decide; [done|].
  destruct (yaml_Unmarshal config) as [k|]; [|done].
  unfold first_violation.
  destruct (Clusters k), (Users k); try done. by repeat case_decide.
Qed.

(** Every error of [ParseKubeConfig] comes from one of three places. *)
Lemma ParseKubeConfig_Err config e :
  ParseKubeConfig config = Err e ↔
  (config = "" ∧ e = EmptyConfig) ∨
  (config ≠ "" ∧ ∃ ye, yaml_Unmarshal config = Err ye ∧ e = UnmarshalFailed ye) ∨
  (config ≠ "" ∧ ∃ k, yaml_Unmarshal config = Ok k ∧ first_violation k = Some e).
Proof.
  rewrite ParseKubeConfig_unfold. case_decide as Hc.
  { split; [intros [= <-]; by left|]. by intros [[_ ->]|[[? _]|[? _]]]. }
  destruct (yaml_Unmarshal config) as [k|ye]; simpl.
  - split.
    + destruct (first_violation k) eqn:Hv; intros [= <-].
      right; right. split; [done|]. by exists k.
    + intros [[? _]|[(_ & ? & ? & _)|(_ & k' & ? & Hv)]]; simplify_eq.
      by rewrite Hv.
  - split; [intros [= <-]; right; left; split; [done|]; by exists ye|].
    by intros [[? _]|[(_ & ? & ? & ->)|(_ & k' & ? & _)]]; simplify_eq.
Qed.

(** The empty text, and only it, is refused with "Cannot parse empty
    config", before the unmarshaller is consulted. *)
Theorem ParseKubeConfig_EmptyConfig config :
  ParseKubeConfig config = Err EmptyConfig ↔ config = "".
Proof.
  rewrite ParseKubeConfig_Err. split; [|intros ->; by left].
  intros [[? _]|[(_ & ? & _ & ?)|(_ & k & _ & Hv)]]; [done..|].
  by apply first_violation_guard in Hv.
Qed.

(** An error of the unmarshaller on a non-empty text is returned wrapped,
    and no other path produces [UnmarshalFailed]. *)
Theorem ParseKubeConfig_UnmarshalFailed config e :
  ParseKubeConfig config = Err (UnmarshalFailed e) ↔
  config ≠ "" ∧ yaml_Unmarshal config = Err e.
Proof.
  rewrite ParseKubeConfig_Err. split; [|intros [??]; right; left; eauto].
  intros [[_ ?]|[(? & ? & ? & ?)|(_ & k & _ & Hv)]]; [done|by simplify_eq|].
  by apply first_violation_guard in Hv.
Qed.

(** C10. "Contains no valid clusters or users" is returned exactly when the
    unmarshalled configuration has no cluster or no user, and it carries that
    configuration. *)
Theorem ParseKubeConfig_NoClustersOrUsers config k :
  ParseKubeConfig config = Err (NoClustersOrUsers k) ↔
  config ≠ "" ∧ yaml_Unmarshal config = Ok k ∧
  (Clusters k = [] ∨ Users k = []).
Proof.
  rewrite ParseKubeConfig_Err.
  setoid_rewrite first_violation_NoClustersOrUsers. naive_solver.
Qed.

(** C9. "Requires either token or certificate auth" is returned exactly when
    there is a cluster and a user and the first user has neither a token nor
    a certificate with its key; the guard on clusters and users comes first. *)
Theorem ParseKubeConfig_MissingAuth config u :
  ParseKubeConfig config = Err (MissingAuth u) ↔
  config ≠ "" ∧
  ∃ k ui us, yaml_Unmarshal config = Ok k ∧ Clusters k ≠ [] ∧
    Users k = ui :: us ∧ User ui = u ∧ ¬ has_auth u.
Proof.
  rewrite ParseKubeConfig_Err.
  setoid_rewrite first_violation_MissingAuth. naive_solver.
Qed.

(** C11. "Invalid or non existent server" is returned exactly when the first
    user can authenticate and the first cluster's server is empty: it is the
    last guard. *)
Theorem ParseKubeConfig_InvalidServer config c :
  ParseKubeConfig config = Err (InvalidServer c) ↔
  config ≠ "" ∧
  ∃ k ci cs ui us, yaml_Unmarshal config = Ok k ∧ Clusters k = ci :: cs ∧
    Users k = ui :: us ∧ has_auth (User ui) ∧ Cluster ci = c ∧ Server c = "".
Proof.
  rewrite ParseKubeConfig_Err.
  setoid_rewrite first_violation_InvalidServer. naive_solver.
Qed.

(** C34. Only the first cluster and the first user are inspected: two texts
    whose configurations agree on them are both accepted or both refused,
    whatever the other entries, contexts and preferences hold. *)
Theorem ParseKubeConfig_first_entries_only config config' k k' :
  config ≠ "" → config' ≠ "" →
  yaml_Unmarshal config = Ok k → yaml_Unmarshal config' = Ok k' →
  head (Clusters k) = head (Clusters k') →
  head (Users k) = head (Users k') →
  is_ok (ParseKubeConfig config) = is_ok (ParseKubeConfig config').
Proof.
  intros ?? Hk Hk' Hc Hu.
  rewrite (ParseKubeConfig_unmarshalled config k),
    (ParseKubeConfig_unmarshalled config' k') by done.
  pose proof (first_violation_heads k k' Hc Hu) as Hv.
  destruct (first_violation k), (first_violation k'); simpl; try done.
  - by destruct (proj1 Hv) as [? [=]].
  - by destruct (proj2 Hv) as [? [=]].
Qed.
End parse.

(** ** Concrete documents *)

Lemma ParseKubeConfig_first_entries_only_witness :
  is_ok (ParseKubeConfig example_token) =
  is_ok (ParseKubeConfig example_token_more).
Proof.
  by eapply (ParseKubeConfig_first_entries_only
               example_token example_token_more); vm_compute.
Defined.

Lemma decode_KubeConfig_unknown_key_witness :
  decode_KubeConfig
    (YMap ([("kind", YScalar "Config")] ++ ("extensions", YSeq []) :: [("users", YNull)])) =
  decode_KubeConfig (YMap ([("kind", YScalar "Config")] ++ [("users", YNull)])).
Proof. apply decode_KubeConfig_unknown_key. vm_compute. set_solver. Defined.

(** The outcomes on the three documents. *)
Example ParseKubeConfig_example_token :
  ParseKubeConfig example_token =
  Ok {| APIVersion := "";
        Clusters := [ {| clusterItem_Name := "";
                         Cluster := {| ClusterAuthorityData := "";
                                       Server := "example.com" |} |} ];
        Users := [ {| userItem_Name := "";
                      User := {| ClientCertificteData := ""; Token := "secret";
                                 ClientKeyData := "" |} |} ];
        Contexts := []; CurrentContext := ""; Kind := "";
        Preferences := ∅ |}.
Proof. by vm_compute. Qed.

Example ParseKubeConfig_example_cert_only :
  ParseKubeConfig example_cert_only =
  Err (MissingAuth {| ClientCertificteData := "4567"; Token := "";
                      ClientKeyData := "" |}).
Proof. by vm_compute. Qed.

(** ** The decoders of the structs fail with type errors only *)

Global Instance cluster_field_type_errors c key v :
  TypeErrors (cluster_field c key v).
Proof. unfold cluster_field. apply _. Qed.

Global Instance clusterItem_field_type_errors i key v :
  TypeErrors (clusterItem_field i key v).
Proof. unfold clusterItem_field, decode_cluster. apply _. Qed.

Global Instance user_field_type_errors u key v : TypeErrors (user_field u key v).
Proof. unfold user_field. apply _. Qed.

Global Instance userItem_field_type_errors i key v :
  TypeErrors (userItem_field i key v).
Proof. unfold userItem_field, decode_user. apply _. Qed.

Global Instance context_field_type_errors c key v :
  TypeErrors (context_field c key v).
Proof. unfold context_field. apply _. Qed.

Global Instance contextItem_field_type_errors i key v :
  TypeErrors (contextItem_field i key v).
Proof. unfold contextItem_field, decode_context. apply _. Qed.

Global Instance decode_KubeConfig_type_errors y : TypeErrors (decode_KubeConfig y).
Proof.
  unfold decode_KubeConfig. apply decode_struct_type_errors. intros k key v.
  unfold KubeConfig_field, decode_clusterItem, decode_userItem, decode_contextItem.
  apply _.
Qed.
