(* ===== verification/Fixtures.v ===== *)
(** * Fixtures: the kube-config document of the unit tests

    Models [testACSEngineK8sClusterKubeConfig] of
    [src/acsengine/resource_acsengine_kubernetes_cluster_test.go]: the
    [fmt.Sprintf] of a flow-style document with the DNS prefix and the
    location substituted for the eight [%s] verbs.  The theorems run the whole
    chain on it, for every prefix and location: scanner, parser, tag-driven
    decoder and the guards of [ParseKubeConfig]. *)

From stdpp Require Import gmap.
From S2P Require Import Prelude Yaml Json KubeConfig.
From stdpp Require Import options.

(** The line feed that ends each line of the raw string literal. *)
Definition nl : string := String "010"%char "".

(** The format string, line by line, with its arguments in place:
    [dnsPrefix, location, dnsPrefix, dnsPrefix, dnsPrefix, dnsPrefix,
    dnsPrefix, dnsPrefix]. *)
Definition testACSEngineK8sClusterKubeConfig (dnsPrefix location : string) : string :=
  "    {" +:+ nl +:+
  "        " +:+ quoted "apiVersion" +:+ ": " +:+ quoted "v1" +:+ "," +:+ nl +:+
  "        " +:+ quoted "clusters" +:+ ": [" +:+ nl +:+
  "            {" +:+ nl +:+
  "                " +:+ quoted "cluster" +:+ ": {" +:+ nl +:+
  "                    " +:+ quoted "certificate-authority-data" +:+ ": "
                         +:+ quoted "0123" +:+ "," +:+ nl +:+
  "                    " +:+ quoted "server" +:+ ": "
                         +:+ quoted ("https://" +:+ dnsPrefix +:+ "." +:+ location
                                     +:+ ".cloudapp.azure.com") +:+ nl +:+
  "                }," +:+ nl +:+
  "                " +:+ quoted "name" +:+ ": " +:+ quoted dnsPrefix +:+ nl +:+
  "            }" +:+ nl +:+
  "        ]," +:+ nl +:+
  "        " +:+ quoted "contexts" +:+ ": [" +:+ nl +:+
  "            {" +:+ nl +:+
  "                " +:+ quoted "context" +:+ ": {" +:+ nl +:+
  "                    " +:+ quoted "cluster" +:+ ": " +:+ quoted dnsPrefix
                         +:+ "," +:+ nl +:+
  "                    " +:+ quoted "user" +:+ ": "
                         +:+ quoted (dnsPrefix +:+ "-admin") +:+ nl +:+
  "                }," +:+ nl +:+
  "                " +:+ quoted "name" +:+ ": " +:+ quoted dnsPrefix +:+ nl +:+
  "            }" +:+ nl +:+
  "        ]," +:+ nl +:+
  "        " +:+ quoted "current-context" +:+ ": " +:+ quoted dnsPrefix
             +:+ "," +:+ nl +:+
  "        " +:+ quoted "kind" +:+ ": " +:+ quoted "Config" +:+ "," +:+ nl +:+
  "        " +:+ quoted "users" +:+ ": [" +:+ nl +:+
  "            {" +:+ nl +:+
  "                " +:+ quoted "name" +:+ ": "
                     +:+ quoted (dnsPrefix +:+ "-admin") +:+ "," +:+ nl +:+
  "                " +:+ quoted "user" +:+ ": {"
                     +:+ quoted "client-certificate-data" +:+ ":" +:+ quoted "4567"
                     +:+ "," +:+ quoted "client-key-data" +:+ ":" +:+ quoted "8910"
                     +:+ "}" +:+ nl +:+
  "            }" +:+ nl +:+
  "        ]" +:+ nl +:+
  "    }" +:+ nl.

(** The configuration the document denotes. *)
Definition fixture_KubeConfig (dnsPrefix location : string) : KubeConfig :=
  {| APIVersion := "v1";
     Clusters :=
       [ {| clusterItem_Name := dnsPrefix;
            Cluster :=
              {| ClusterAuthorityData := "0123";
                 Server := "https://" +:+ dnsPrefix +:+ "." +:+ location
                           +:+ ".cloudapp.azure.com" |} |} ];
     Users :=
       [ {| userItem_Name := dnsPrefix +:+ "-admin";
            User := {| ClientCertificteData := "4567"; Token := "";
                       ClientKeyData := "8910" |} |} ];
     Contexts :=
       [ {| contextItem_Name := dnsPrefix;
            Context := {| context_Cluster := dnsPrefix;
                          context_User := dnsPrefix +:+ "-admin";
                          Namespace := "" |} |} ];
     CurrentContext := dnsPrefix;
     Kind := "Config";
     Preferences := ∅ |}.

(** The tokens of the document. *)
Definition fixture_tokens (dnsPrefix location : string) : list token :=
  [TLBrace; TString "apiVersion"; TColon; TString "v1"; TComma;
   TString "clusters"; TColon; TLBracket; TLBrace;
   TString "cluster"; TColon; TLBrace;
   TString "certificate-authority-data"; TColon; TString "0123"; TComma;
   TString "server"; TColon;
   TString ("https://" +:+ dnsPrefix +:+ "." +:+ location +:+ ".cloudapp.azure.com");
   TRBrace; TComma; TString "name"; TColon; TString dnsPrefix; TRBrace;
   TRBracket; TComma;
   TString "contexts"; TColon; TLBracket; TLBrace;
   TString "context"; TColon; TLBrace;
   TString "cluster"; TColon; TString dnsPrefix; TComma;
   TString "user"; TColon; TString (dnsPrefix +:+ "-admin"); TRBrace; TComma;
   TString "name"; TColon; TString dnsPrefix; TRBrace; TRBracket; TComma;
   TString "current-context"; TColon; TString dnsPrefix; TComma;
   TString "kind"; TColon; TString "Config"; TComma;
   TString "users"; TColon; TLBracket; TLBrace;
   TString "name"; TColon; TString (dnsPrefix +:+ "-admin"); TComma;
   TString "user"; TColon; TLBrace;
   TString "client-certificate-data"; TColon; TString "4567"; TComma;
   TString "client-key-data"; TColon; TString "8910"; TRBrace;
   TRBrace; TRBracket; TRBrace].

(** The scanner on the document, for a prefix and a location that hold no
    quote and no backslash ([Sprintf] does not escape its arguments). *)
Lemma lex_fixture dnsPrefix location :
  plain dnsPrefix = true → plain location = true →
  lex (testACSEngineK8sClusterKubeConfig dnsPrefix location) =
  Ok (fixture_tokens dnsPrefix location).
Proof.
  intros Hd Hl. unfold lex, testACSEngineK8sClusterKubeConfig.
  scan_pieces. reflexivity.
Qed.

Lemma fixture_nonempty dnsPrefix location :
  testACSEngineK8sClusterKubeConfig dnsPrefix location ≠ "".
Proof. unfold testACSEngineK8sClusterKubeConfig. by rewrite string_app_cons. Qed.

(** The unmarshaller on the document. *)
Lemma yaml_Unmarshal_fixture dnsPrefix location :
  plain dnsPrefix = true → plain location = true →
  yaml_Unmarshal (testACSEngineK8sClusterKubeConfig dnsPrefix location) =
  Ok (fixture_KubeConfig dnsPrefix location).
Proof.
  intros Hd Hl.
  unfold yaml_Unmarshal, tag_unmarshaler, yaml_parse, json_syntax, json_parse.
  by rewrite lex_fixture.
Qed.

(** C6. The kube-config fixture of the unit tests is accepted by
    [ParseKubeConfig] for every DNS prefix and location free of quotes and
    backslashes, and parses to one cluster whose server is
    [https://<prefix>.<location>.cloudapp.azure.com] with CA data [0123], one
    user [<prefix>-admin] with the certificate pair, and one context. *)
Theorem ParseKubeConfig_fixture dnsPrefix location :
  plain dnsPrefix = true → plain location = true →
  ParseKubeConfig (testACSEngineK8sClusterKubeConfig dnsPrefix location) =
  Ok (fixture_KubeConfig dnsPrefix location).
Proof.
  intros Hd Hl.
  by rewrite (ParseKubeConfig_unmarshalled _ _ (fixture_nonempty _ _)
                (yaml_Unmarshal_fixture _ _ Hd Hl)).
Qed.

Lemma ParseKubeConfig_fixture_witness :
  ParseKubeConfig (testACSEngineK8sClusterKubeConfig "masterfqdn" "southcentralus") =
  Ok (fixture_KubeConfig "masterfqdn" "southcentralus").
Proof. by apply ParseKubeConfig_fixture. Defined.

(** A quote in the prefix breaks the document: [Sprintf] substitutes the
    argument as it is, the string ends early, and the unmarshaller refuses the
    text. *)
Example ParseKubeConfig_fixture_unescaped :
  ParseKubeConfig
    (testACSEngineK8sClusterKubeConfig (String dquote "master") "southcentralus") =
  Err (UnmarshalFailed (SyntaxError "did not find expected ',' or '}'")).
Proof. by vm_compute. Qed.
