(* ===== verification/Marshal.v ===== *)
(** * Marshal: [ParseKubeConfig] on marshalled configurations

    The composition of the layers under [ParseKubeConfig] of
    [src/internal/kubernetes/kube_config.go] with the unmarshaller of the
    flow subset: scanner and parser ([Json]), struct-tag decoding
    ([KubeConfig]) and the guards.  [marshal_KubeConfig] is the reference
    encoder, the struct-tag encoding of a configuration printed by
    [JsonPrint]; nothing of the repository calls it, and it stands for the
    documents a conforming producer hands to [ParseKubeConfig].

    The theorems: [ParseKubeConfig] reads a marshalled configuration back
    exactly when the configuration is valid, and otherwise answers with the
    first guard the configuration violates; every valid configuration is
    what [ParseKubeConfig] returns on some text; and [ParseKubeConfig] never
    fails because the parser ran out of fuel. *)

From stdpp Require Import gmap.
From S2P Require Import Prelude Yaml Json JsonPrint KubeConfig Fixtures.
From stdpp Require Import options.
Set Warnings "-clear-no-such-hyp".

(** [yaml.Marshal(&kubeConfig)], in flow style. *)
Definition marshal_KubeConfig (k : KubeConfig) : string :=
  json_print (encode_KubeConfig k).

(** ** Lemmas *)

Lemma marshal_KubeConfig_nonempty k : marshal_KubeConfig k ≠ "".
Proof. apply json_print_nonempty. Qed.

(** Unmarshalling a marshalled configuration gives it back, valid or not. *)
Lemma yaml_Unmarshal_marshal k : yaml_Unmarshal (marshal_KubeConfig k) = Ok k.
Proof.
  unfold yaml_Unmarshal, tag_unmarshaler, yaml_parse, json_syntax, marshal_KubeConfig.
  rewrite json_parse_print. apply decode_KubeConfig_encode.
Qed.

(** [ParseKubeConfig] on a marshalled configuration: the configuration, or
    the first guard it violates. *)
Lemma ParseKubeConfig_marshal_cases k :
  ParseKubeConfig (marshal_KubeConfig k) =
  from_option Err (Ok k) (first_violation k).
Proof.
  apply ParseKubeConfig_unmarshalled;
    [apply marshal_KubeConfig_nonempty|apply yaml_Unmarshal_marshal].
Qed.

(** C3. Round trip through the concrete syntax: [ParseKubeConfig] returns a
    marshalled configuration unchanged exactly when the configuration is
    valid (a first cluster with a server, a first user with a token or a
    certificate and key); scanner, parser, decoder and guards lose nothing
    and add nothing, whatever the strings hold. *)
Theorem ParseKubeConfig_marshal k :
  ParseKubeConfig (marshal_KubeConfig k) = Ok k ↔ valid_KubeConfig k.
Proof.
  rewrite ParseKubeConfig_marshal_cases, <-first_violation_None.
  destruct (first_violation k); naive_solver.
Qed.

(** [ParseKubeConfig] is onto the valid configurations: each is returned
    on some text, so that the specification [valid_KubeConfig] is not only
    an upper bound of what the function accepts. *)
Theorem ParseKubeConfig_complete k :
  valid_KubeConfig k ↔ ∃ config, ParseKubeConfig config = Ok k.
Proof.
  split; [|intros [config ?]; by eapply ParseKubeConfig_valid].
  intros Hk. exists (marshal_KubeConfig k).
  rewrite ParseKubeConfig_marshal_cases.
  by rewrite (proj2 (first_violation_None k) Hk).
Qed.


(** The configuration of the test fixture, marshalled, is read back for every
    prefix and location: the marshaller escapes what [Sprintf] does not. *)
Lemma ParseKubeConfig_marshal_fixture dnsPrefix location :
  ParseKubeConfig (marshal_KubeConfig (fixture_KubeConfig dnsPrefix location)) =
  Ok (fixture_KubeConfig dnsPrefix location).
Proof. by rewrite ParseKubeConfig_marshal_cases. Qed.

(** A configuration whose strings hold quotes and backslashes. *)
Example ParseKubeConfig_marshal_escapes :
  let k := fixture_KubeConfig (String dquote "master") (String backslash "n") in
  ParseKubeConfig (marshal_KubeConfig k) = Ok k.
Proof. by vm_compute. Qed.
