(* ===== verification/Go.v ===== *)
(** * Go: dynamic values, the attribute store and the test monad

    The resource's attribute bags are Go values of type [interface{}]:
    integers, strings, [[]interface{}], [map[string]interface{}] and
    [*schema.Set].  This file holds them as the inductive type [value], with
    the operations the test file applies to them and the way each can fail at
    run time: a type assertion [v.(T)] on a value of another dynamic type, an
    index out of range and the comparison of two maps or slices panic.  A test
    function is a computation in [test]: it passes ([Ok]), stops at a
    [t.Fatalf] or panics; [recovering] is the deferred [recover] that turns a
    panic into a [t.Fatalf].

    [ResourceData] is the attribute store of the Terraform host as the tests
    use it ([d.Set], [d.Get]), and [Set_Add] the insertion into a
    [schema.Set], whose items are keyed by their hash. *)

From stdpp Require Import gmap.
From S2P Require Import Prelude.
From stdpp Require Import options.
Set Warnings "-clear-no-such-hyp".

(** ** Values of type [interface{}] *)

Local Unset Elimination Schemes.
Inductive value : Type :=
| VNil
| VInt (n : Z)
| VBool (b : bool)
| VString (s : string)
| VList (l : list value)
| VMap (m : gmap string value)
| VSet (items : list value).
Set Elimination Schemes.

Global Instance value_eq_dec : EqDecision value.
Proof.
  refine (fix go (v w : value) {struct v} : Decision (v = w) :=
    let _ : EqDecision value := @go in
    match v, w with
    | VNil, VNil => left _
    | VInt n, VInt m => cast_if (decide (n = m))
    | VBool a, VBool b => cast_if (decide (a = b))
    | VString s, VString t => cast_if (decide (s = t))
    | VList l, VList k => cast_if (decide (l = k))
    | VMap m, VMap n => cast_if (decide (m = n))
    | VSet l, VSet k => cast_if (decide (l = k))
    | _, _ => right _
    end); congruence.
Defined.

(** The dynamic type of a value, as a failed assertion reports it. *)
Inductive dyntype := TNil | TInt | TBool | TString | TList | TMap | TSet.
Global Instance dyntype_eq_dec : EqDecision dyntype.
Proof. solve_decision. Defined.

Definition type_of (v : value) : dyntype :=
  match v with
  | VNil => TNil
  | VInt _ => TInt
  | VBool _ => TBool
  | VString _ => TString
  | VList _ => TList
  | VMap _ => TMap
  | VSet _ => TSet
  end.

(** ** Run-time panics and the test monad *)

Inductive panic :=
| InterfaceConversion (have want : dyntype)
| OutOfRange (i len : nat)
| Uncomparable (t : dyntype).
Global Instance panic_eq_dec : EqDecision panic.
Proof. solve_decision. Defined.

(** How a test function ends when it does not pass: at a [t.Fatalf], named by
    its format string, or with a panic. *)
Inductive failure :=
| Fatalf (format : string)
| Panic (p : panic).
Global Instance failure_eq_dec : EqDecision failure.
Proof. solve_decision. Defined.

Abbreviation test := (result failure).

(** [defer func() { if r := recover(); r != nil { t.Fatalf(format) } }()]. *)
Definition recovering {A} (format : string) (body : test A) : test A :=
  match body with
  | Err (Panic _) => Err (Fatalf format)
  | r => r
  end.

(** ** Type assertions, indexing, comparison *)

Definition assert_fail {A} (v : value) (want : dyntype) : test A :=
  Err (Panic (InterfaceConversion (type_of v) want)).

Definition as_int (v : value) : test Z :=
  match v with VInt n => Ok n | _ => assert_fail v TInt end.

Definition as_string (v : value) : test string :=
  match v with VString s => Ok s | _ => assert_fail v TString end.

Definition as_map (v : value) : test (gmap string value) :=
  match v with VMap m => Ok m | _ => assert_fail v TMap end.

(** [l[i]]. *)
Definition at_index {A} (l : list A) (i : nat) : test A :=
  match l !! i with
  | Some x => Ok x
  | None => Err (Panic (OutOfRange i (length l)))
  end.

(** [m[k]] without the comma-ok form: the zero value of [interface{}] when
    the key is absent. *)
Definition map_index (m : gmap string value) (k : string) : value :=
  default VNil (m !! k).

(** [a == b] on two interface values: false when the dynamic types differ, a
    panic when both hold a slice or a map, which are not comparable; two sets
    are pointers and compared as such, which the model does not track: they
    are taken as different. *)
Definition iface_eq (a b : value) : test bool :=
  match a, b with
  | VNil, VNil => Ok true
  | VInt x, VInt y => Ok (bool_decide (x = y))
  | VBool x, VBool y => Ok (bool_decide (x = y))
  | VString x, VString y => Ok (bool_decide (x = y))
  | VList _, VList _ => Err (Panic (Uncomparable TList))
  | VMap _, VMap _ => Err (Panic (Uncomparable TMap))
  | _, _ => Ok false
  end.

Definition iface_ne (a b : value) : test bool := negb <$> iface_eq a b.

(** [for _, tc := range cases { body }]: the first failure ends the test. *)
Definition for_each {A} (cases : list A) (body : A → test unit) : test unit :=
  foldM (λ _ tc, body tc) tt cases.

(** ** [schema.Set] *)

(** [s.Add(item)]: the set is keyed by the hash [F] of its items, and an item
    whose key is taken is not added again. *)
Definition Set_Add (F : value → string) (items : list value) (item : value) :
    list value :=
  if decide (F item ∈ F <$> items) then items else items ++ [item].

(** ** [schema.ResourceData] *)

Definition ResourceData : Type := gmap string value.

Definition TestResourceData : ResourceData := ∅.

Definition d_Set (d : ResourceData) (key : string) (v : value) : ResourceData :=
  <[key := v]> d.

Definition d_GetOk (d : ResourceData) (key : string) : option value := d !! key.

(** ** Lemmas *)

Lemma as_int_Ok v n : as_int v = Ok n ↔ v = VInt n.
Proof. destruct v; simpl; unfold assert_fail; naive_solver. Qed.

Lemma as_string_Ok v s : as_string v = Ok s ↔ v = VString s.
Proof. destruct v; simpl; unfold assert_fail; naive_solver. Qed.

Lemma as_map_Ok v m : as_map v = Ok m ↔ v = VMap m.
Proof. destruct v; simpl; unfold assert_fail; naive_solver. Qed.

Lemma at_index_Ok {A} (l : list A) i x : at_index l i = Ok x ↔ l !! i = Some x.
Proof. unfold at_index. destruct (l !! i); naive_solver. Qed.

Lemma at_index_lt {A} (l : list A) i : i < length l → is_ok (at_index l i) = true.
Proof.
  intros [x Hx]%lookup_lt_is_Some_2. unfold at_index. by rewrite Hx.
Qed.

(** A comparison with a string or an integer never panics, and holds exactly
    on that string or integer. *)
Lemma iface_eq_string v s :
  ∃ b, iface_eq v (VString s) = Ok b ∧ (b = true ↔ v = VString s).
Proof.
  destruct v; simpl; eauto using bool_decide_eq_true; try by (eexists; split).
  eexists; split; [done|]. rewrite bool_decide_eq_true. naive_solver.
Qed.

Lemma iface_eq_int v n :
  ∃ b, iface_eq v (VInt n) = Ok b ∧ (b = true ↔ v = VInt n).
Proof.
  destruct v; simpl; try by (eexists; split).
  eexists; split; [done|]. rewrite bool_decide_eq_true. naive_solver.
Qed.

Lemma recovering_Ok {A} format (a : A) : recovering format (Ok a) = Ok a.
Proof. done. Qed.

(** A recovered test never ends in a panic. *)
Lemma recovering_no_panic {A} format (body : test A) p :
  recovering format body ≠ Err (Panic p).
Proof. by destruct body as [|[]]. Qed.

Lemma for_each_Ok {A} (cases : list A) body :
  for_each cases body = Ok tt ↔ Forall (λ tc, body tc = Ok tt) cases.
Proof.
  unfold for_each. induction cases as [|tc cases IH]; simpl.
  - split; [constructor|done].
  - rewrite Forall_cons, <-IH. destruct (body tc) as [[]|]; naive_solver.
Qed.

(** *** The set *)

Lemma Set_Add_keys F items item :
  F <$> Set_Add F items item =
  if decide (F item ∈ F <$> items) then F <$> items else (F <$> items) ++ [F item].
Proof. unfold Set_Add. case_decide; [done|]. by rewrite fmap_app. Qed.

Lemma Set_Add_NoDup F items item :
  NoDup (F <$> items) → NoDup (F <$> Set_Add F items item).
Proof.
  intros Hnd. rewrite Set_Add_keys. case_decide; [done|].
  apply NoDup_app. split_and!; [done| |apply NoDup_singleton].
  intros k Hk ->%list_elem_of_singleton. done.
Qed.

Lemma Set_Add_idemp F items item :
  Set_Add F (Set_Add F items item) item = Set_Add F items item.
Proof.
  unfold Set_Add at 1. rewrite decide_True; [done|].
  rewrite Set_Add_keys. case_decide; [done|]. set_solver.
Qed.

Lemma Set_Add_elem_of F items item k :
  k ∈ F <$> Set_Add F items item ↔ k = F item ∨ k ∈ F <$> items.
Proof. rewrite Set_Add_keys. case_decide; set_solver. Qed.

(** *** The store *)

Lemma d_GetOk_Set d key v : d_GetOk (d_Set d key v) key = Some v.
Proof. apply lookup_insert_eq. Qed.

Lemma d_GetOk_Set_ne d key key' v :
  key ≠ key' → d_GetOk (d_Set d key v) key' = d_GetOk d key'.
Proof. intros. by apply lookup_insert_ne. Qed.

#[export] Hint Rewrite d_GetOk_Set @recovering_Ok : go.
