(* ===== verification/Api.v ===== *)
(** * Api: the cluster specification of acs-engine

    The structs of [github.com/Azure/acs-engine/pkg/api] the resource maps the
    attribute bags to and from, with the fields the repository reads or
    writes: the test file builds them as struct literals
    ([api.LinuxProfile{AdminUsername: ..., SSH: ...}] and the like) and reads
    them back from the [expand...] functions.  Go's [int] is [Z]; [OSType] is
    a string type whose constants are [Linux] and [Windows] and whose zero
    value is the empty string. *)

From S2P Require Import Prelude.
From stdpp Require Import options.

Record PublicKey := { KeyData : string }.

(** [SSH] is an anonymous struct with the one field [PublicKeys]. *)
Record LinuxProfile := {
  AdminUsername : string;
  SSH_PublicKeys : list PublicKey;
}.

Record ServicePrincipalProfile := {
  ClientID : string;
  Secret : string;
}.

Record MasterProfile := {
  MasterProfile_Count : Z;
  DNSPrefix : string;
  MasterProfile_VMSize : string;
  MasterProfile_OSDiskSizeGB : Z;
  MasterProfile_FQDN : string;
}.

Definition OSType : Type := string.
Definition Linux : OSType := "Linux".
Definition Windows : OSType := "Windows".

Record AgentPoolProfile := {
  Name : string;
  Count : Z;
  VMSize : string;
  OSDiskSizeGB : Z;
  FQDN : string;
  AgentPoolProfile_OSType : OSType;
}.

Global Instance PublicKey_eq_dec : EqDecision PublicKey.
Proof. solve_decision. Defined.
Global Instance LinuxProfile_eq_dec : EqDecision LinuxProfile.
Proof. solve_decision. Defined.
Global Instance ServicePrincipalProfile_eq_dec : EqDecision ServicePrincipalProfile.
Proof. solve_decision. Defined.
Global Instance MasterProfile_eq_dec : EqDecision MasterProfile.
Proof. solve_decision. Defined.
Global Instance AgentPoolProfile_eq_dec : EqDecision AgentPoolProfile.
Proof. solve_decision. Defined.

(** [KeyData] is the only field of a key. *)
Lemma PublicKey_eta k : {| KeyData := KeyData k |} = k.
Proof. by destruct k. Qed.

Lemma fmap_KeyData_inj (l1 l2 : list PublicKey) :
  KeyData <$> l1 = KeyData <$> l2 → l1 = l2.
Proof.
  revert l2; induction l1 as [|[k1] l1 IH]; intros [|[k2] l2] [=]; f_equal; auto.
  by subst.
Qed.

Lemma fmap_KeyData_Build (keys : list string) :
  KeyData <$> (Build_PublicKey <$> keys) = keys.
Proof. rewrite <-list_fmap_compose. apply list_fmap_id. Qed.

Lemma fmap_Build_KeyData (l : list PublicKey) :
  Build_PublicKey <$> (KeyData <$> l) = l.
Proof. apply fmap_KeyData_inj. by rewrite fmap_KeyData_Build. Qed.
