(* ===== verification/Base64.v ===== *)
(** * Base64: the standard encoding

    [base64Encode], which the resource applies to the certificates of a
    kube-config and the tests to the expected value, is
    [base64.StdEncoding.EncodeToString]: three bytes are written as four
    characters of the alphabet [A-Za-z0-9+/], and a last group of one or two
    bytes is padded with [=].  The file defines the encoder, a decoder, and
    proves that decoding an encoded text gives the text back, and the length
    of the encoding. *)

From S2P Require Import Prelude.
From stdpp Require Import options.
Set Warnings "-clear-no-such-hyp".

Local Open Scope N_scope.

(** The character of a six-bit value. *)
Definition sextet_char (n : N) : ascii :=
  if n <? 26 then ascii_of_N (n + 65)
  else if n <? 52 then ascii_of_N (n + 71)
  else if n <? 62 then ascii_of_N (n - 4)
  else if n =? 62 then "+"%char
  else "/"%char.

(** The six-bit value of a character of the alphabet. *)
Definition char_sextet (a : ascii) : option N :=
  let n := N_of_ascii a in
  if (65 <=? n) && (n <=? 90) then Some (n - 65)
  else if (97 <=? n) && (n <=? 122) then Some (n - 71)
  else if (48 <=? n) && (n <=? 57) then Some (n + 4)
  else if n =? 43 then Some 62
  else if n =? 47 then Some 63
  else None.

Definition pad : ascii := "="%char.

(** The four characters of three bytes. *)
Definition encode3 (a b c : N) (rest : string) : string :=
  String (sextet_char (a / 4))
    (String (sextet_char (a mod 4 * 16 + b / 16))
       (String (sextet_char (b mod 16 * 4 + c / 64))
          (String (sextet_char (c mod 64)) rest))).

Fixpoint base64Encode (s : string) : string :=
  match s with
  | EmptyString => EmptyString
  | String a EmptyString =>
      let a := N_of_ascii a in
      String (sextet_char (a / 4))
        (String (sextet_char (a mod 4 * 16)) (String pad (String pad "")))
  | String a (String b EmptyString) =>
      let a := N_of_ascii a in
      let b := N_of_ascii b in
      String (sextet_char (a / 4))
        (String (sextet_char (a mod 4 * 16 + b / 16))
           (String (sextet_char (b mod 16 * 4)) (String pad "")))
  | String a (String b (String c rest)) =>
      encode3 (N_of_ascii a) (N_of_ascii b) (N_of_ascii c) (base64Encode rest)
  end.

(** The bytes of four six-bit values. *)
Definition byte1 (w x : N) : ascii := ascii_of_N (w * 4 + x / 16).
Definition byte2 (x y : N) : ascii := ascii_of_N (x mod 16 * 16 + y / 4).
Definition byte3 (y z : N) : ascii := ascii_of_N (y mod 4 * 64 + z).

Fixpoint base64Decode (s : string) : option string :=
  match s with
  | EmptyString => Some EmptyString
  | String c1 (String c2 (String c3 (String c4 rest))) =>
      w ← char_sextet c1;
      x ← char_sextet c2;
      if decide (c3 = pad ∧ c4 = pad ∧ rest = EmptyString) then
        Some (String (byte1 w x) "")
      else
        y ← char_sextet c3;
        if decide (c4 = pad ∧ rest = EmptyString) then
          Some (String (byte1 w x) (String (byte2 x y) ""))
        else
          z ← char_sextet c4;
          tail ← base64Decode rest;
          Some (String (byte1 w x) (String (byte2 x y) (String (byte3 y z) tail)))
  | _ => None
  end.

(** ** Lemmas *)

Lemma char_sextet_char n : n < 64 → char_sextet (sextet_char n) = Some n.
Proof.
  intros Hn. apply (bool_decide_eq_true_1 (char_sextet (sextet_char n) = Some n)).
  pose (P := λ m : N, bool_decide (char_sextet (sextet_char m) = Some m)).
  by apply (N_lt_forallb P 64).
Qed.

Lemma sextet_char_not_pad n : sextet_char n ≠ pad.
Proof.
  unfold sextet_char, pad.
  repeat (case_match; try rewrite N.ltb_lt in *; try rewrite N.ltb_ge in *); try done;
    intros Heq%(f_equal N_of_ascii); rewrite N_ascii_embedding in Heq by lia;
    simpl in Heq; lia.
Qed.

Lemma div_join k r m : r < m → (k * m + r) / m = k.
Proof. intros. symmetry. apply (N.div_unique _ m k r); lia. Qed.

Lemma mod_join k r m : r < m → (k * m + r) mod m = r.
Proof. intros. symmetry. apply (N.mod_unique _ m k r); lia. Qed.

Lemma div_lt_bound a m k : 0 < m → a < k * m → a / m < k.
Proof. intros. apply N.Div0.div_lt_upper_bound. lia. Qed.

(** The bytes come back from the six-bit values. *)
Lemma byte1_spec a b :
  b < 256 → byte1 (a / 4) (a mod 4 * 16 + b / 16) = ascii_of_N a.
Proof.
  intros Hb. unfold byte1. rewrite div_join by (by apply div_lt_bound).
  f_equal. pose proof (N.div_mod a 4). lia.
Qed.

Lemma byte2_spec a b c :
  b < 256 → c < 256 →
  byte2 (a mod 4 * 16 + b / 16) (b mod 16 * 4 + c / 64) = ascii_of_N b.
Proof.
  intros Hb Hc. unfold byte2.
  rewrite mod_join, div_join by (by apply div_lt_bound).
  f_equal. pose proof (N.div_mod b 16). lia.
Qed.

Lemma byte3_spec b c :
  c < 256 → byte3 (b mod 16 * 4 + c / 64) (c mod 64) = ascii_of_N c.
Proof.
  intros Hc. unfold byte3. rewrite mod_join by (by apply div_lt_bound).
  f_equal. pose proof (N.div_mod c 64). lia.
Qed.

(** The last group, of one or two bytes. *)
Lemma byte1_tail a : byte1 (a / 4) (a mod 4 * 16) = ascii_of_N a.
Proof.
  unfold byte1. rewrite N.div_mul by done.
  f_equal. pose proof (N.div_mod a 4). lia.
Qed.

Lemma byte2_tail a b :
  b < 256 → byte2 (a mod 4 * 16 + b / 16) (b mod 16 * 4) = ascii_of_N b.
Proof.
  intros Hb. unfold byte2.
  rewrite mod_join by (by apply div_lt_bound). rewrite N.div_mul by done.
  f_equal. pose proof (N.div_mod b 16). lia.
Qed.

Lemma sextet2_tail_lt a : a mod 4 * 16 < 64.
Proof. pose proof (N.mod_lt a 4). lia. Qed.

Lemma sextet3_tail_lt b : b mod 16 * 4 < 64.
Proof. pose proof (N.mod_lt b 16). lia. Qed.

(** The six-bit values are in range. *)
Lemma sextet1_lt a : a < 256 → a / 4 < 64.
Proof. intros. by apply div_lt_bound. Qed.

Lemma sextet2_lt a b : b < 256 → a mod 4 * 16 + b / 16 < 64.
Proof.
  intros. pose proof (N.mod_lt a 4). pose proof (div_lt_bound b 16 16). lia.
Qed.

Lemma sextet3_lt b c : c < 256 → b mod 16 * 4 + c / 64 < 64.
Proof.
  intros. pose proof (N.mod_lt b 16). pose proof (div_lt_bound c 64 4). lia.
Qed.

Lemma sextet4_lt c : c mod 64 < 64.
Proof. by apply N.mod_lt. Qed.

#[local] Hint Resolve sextet1_lt sextet2_lt sextet3_lt sextet4_lt sextet2_tail_lt
  sextet3_tail_lt N_ascii_bounded : go.

(** Induction on a string, three bytes at a time. *)
Lemma string_ind3 (P : string → Prop) :
  P "" → (∀ a, P (String a "")) → (∀ a b, P (String a (String b ""))) →
  (∀ a b c s, P s → P (String a (String b (String c s)))) →
  ∀ s, P s.
Proof.
  intros H0 H1 H2 H3 s.
  assert (P s ∧ (∀ a, P (String a s)) ∧ ∀ a b, P (String a (String b s)))
    as [? _]; [|done].
  induction s as [|c s (IH0 & IH1 & IH2)]; auto.
Qed.

Lemma base64Encode_3 a b c s :
  base64Encode (String a (String b (String c s))) =
  encode3 (N_of_ascii a) (N_of_ascii b) (N_of_ascii c) (base64Encode s).
Proof. done. Qed.

(** Decoding a full group followed by an encoded text. *)
Lemma base64Decode_encode3 a b c rest :
  a < 256 → b < 256 → c < 256 →
  base64Decode (encode3 a b c rest) =
  tail ← base64Decode rest;
  Some (String (ascii_of_N a) (String (ascii_of_N b) (String (ascii_of_N c) tail))).
Proof.
  intros Ha Hb Hc. unfold encode3. simpl.
  rewrite !char_sextet_char by auto with go. simpl.
  rewrite !decide_False by (intros (? & _); by eapply sextet_char_not_pad).
  by rewrite byte1_spec, byte2_spec, byte3_spec.
Qed.

(** ** Round trip and length *)

Lemma base64Decode_Encode s : base64Decode (base64Encode s) = Some s.
Proof.
  induction s as [|a|a b|a b c s IH] using string_ind3.
  - done.
  - simpl. rewrite !char_sextet_char by auto with go. simpl.
    rewrite ?decide_True by done.
    by rewrite byte1_tail, ascii_N_embedding.
  - simpl. rewrite !char_sextet_char by auto with go. simpl.
    rewrite decide_False by (intros (? & _); by eapply sextet_char_not_pad).
    rewrite ?decide_True by done.
    rewrite byte1_spec, byte2_tail by auto with go.
    by rewrite !ascii_N_embedding.
  - rewrite base64Encode_3, base64Decode_encode3, IH by auto with go.
    simpl. by rewrite !ascii_N_embedding.
Qed.

Lemma base64Encode_inj s1 s2 : base64Encode s1 = base64Encode s2 → s1 = s2.
Proof.
  intros Heq. apply (f_equal base64Decode) in Heq.
  rewrite !base64Decode_Encode in Heq. by simplify_eq.
Qed.

Lemma base64Encode_length s :
  String.length (base64Encode s) = (4 * ((String.length s + 2) `div` 3))%nat.
Proof.
  induction s as [|a|a b|a b c s IH] using string_ind3; try done.
  rewrite base64Encode_3. unfold encode3. simpl String.length. rewrite IH.
  replace (S (S (S (String.length s))) + 2)%nat
    with (1 * 3 + (String.length s + 2))%nat by lia.
  rewrite Nat.div_add_l by done. lia.
Qed.
