(* ===== verification/SpecMapper.v ===== *)
(** * SpecMapper: flatten and expand

    The two directions of the mapping between the attribute bags of the
    resource ([Go.value]) and the cluster specification ([Api]).  The
    functions are called by the tests of the repository and defined outside
    [src/]: they are written here from the specification (section 4.1 and the
    attribute schema of section 6), returning a [ValidationError] that names
    the field where the source relies on a recovered fault.

    - [flatten...] writes a profile as a one-element list holding a map; an
      OS disk size of zero is left out ([optional_zero]); the SSH keys are
      collected in a [schema.Set] keyed by the key material.
    - [expand...] reads the block back from the store, a missing or ill-typed
      required field being an error; an absent disk size reads as zero, an
      absent OS type as [Linux]; pool names must be distinct.

    The theorems are the round-trip laws in both directions, the elision of
    the zero disk size and the de-duplication of the keys. *)

From stdpp Require Import gmap.
From S2P Require Import Prelude Go Api.
From stdpp Require Import options.
Set Warnings "-clear-no-such-hyp".

(** What an expand function fails with: the field is absent or has another
    type, holds a value outside its domain, or repeats a value that has to be
    unique. *)
Inductive ValidationError :=
| Missing (field : string)
| Invalid (field : string)
| Duplicate (field : string) (v : string).
Global Instance ValidationError_eq_dec : EqDecision ValidationError.
Proof. solve_decision. Defined.

(** ** Reading the store *)

(** The first element of a list block, which is a map. *)
Definition block (d : ResourceData) (name : string) :
    result ValidationError (gmap string value) :=
  match d_GetOk d name with
  | Some (VList (VMap config :: _)) => Ok config
  | _ => Err (Missing name)
  end.

Definition field_string (config : gmap string value) (field : string) :
    result ValidationError string :=
  match config !! field with
  | Some (VString s) => Ok s
  | _ => Err (Missing field)
  end.

Definition field_int (config : gmap string value) (field : string) :
    result ValidationError Z :=
  match config !! field with
  | Some (VInt n) => Ok n
  | _ => Err (Missing field)
  end.

(** An optional integer: absent reads as zero. *)
Definition field_optional_int (config : gmap string value) (field : string) :
    result ValidationError Z :=
  match config !! field with
  | None => Ok 0%Z
  | Some (VInt n) => Ok n
  | Some _ => Err (Invalid field)
  end.

(** The optional-zero elision: the entry of an integer field that is left
    out when the integer is zero. *)
Definition optional_zero (field : string) (n : Z) : list (string * value) :=
  if decide (n = 0%Z) then [] else [(field, VInt n)].

(** ** Linux profile *)

(** The hash of an SSH key entry: its key material (the hash is taken as
    injective on it). *)
Definition resourceLinuxProfilesSSHKeysHash (v : value) : string :=
  match v with
  | VMap m => match m !! "key_data" with Some (VString s) => s | _ => "" end
  | _ => ""
  end.

Definition flatten_key (s : string) : value := VMap {[ "key_data" := VString s ]}.

Definition flattenPublicKey (k : PublicKey) : value := flatten_key (KeyData k).

Definition flattenLinuxProfile (profile : LinuxProfile) :
    result ValidationError (list value) :=
  let sshKeys :=
    foldl (Set_Add resourceLinuxProfilesSSHKeysHash) []
          (flattenPublicKey <$> SSH_PublicKeys profile) in
  Ok [VMap (<["admin_username" := VString (AdminUsername profile)]>
           (<["ssh" := VSet sshKeys]> ∅))].

Definition expandPublicKey (v : value) : result ValidationError string :=
  match v with
  | VMap m => field_string m "key_data"
  | _ => Err (Missing "key_data")
  end.

(** The key material of a collection, each key once, in the order of the
    first occurrences. *)
Definition dedup_step (acc : list string) (k : string) : list string :=
  if decide (k ∈ acc) then acc else acc ++ [k].

Definition dedup (keys : list string) : list string := foldl dedup_step [] keys.

Definition expandLinuxProfile (d : ResourceData) :
    result ValidationError LinuxProfile :=
  config ← block d "linux_profile";
  adminUsername ← field_string config "admin_username";
  failif String.eqb adminUsername "" then Invalid "admin_username";
  items ← match config !! "ssh" with
          | Some (VSet items) | Some (VList items) => Ok items
          | _ => Err (Missing "ssh")
          end;
  keys ← traverse expandPublicKey items;
  failif bool_decide (keys = []) then Invalid "ssh";
  Ok {| AdminUsername := adminUsername;
        SSH_PublicKeys := Build_PublicKey <$> dedup keys |}.

(** ** Service principal *)

Definition flattenServicePrincipal (profile : ServicePrincipalProfile) :
    result ValidationError (list value) :=
  Ok [VMap (<["client_id" := VString (ClientID profile)]>
           (<["client_secret" := VString (Secret profile)]> ∅))].

Definition expandServicePrincipal (d : ResourceData) :
    result ValidationError ServicePrincipalProfile :=
  config ← block d "service_principal";
  clientID ← field_string config "client_id";
  clientSecret ← field_string config "client_secret";
  Ok {| ClientID := clientID; Secret := clientSecret |}.

(** ** Master profile *)

(** The fully-qualified domain name of the masters. *)
Definition masterFQDN (dnsPrefix location : string) : string :=
  dnsPrefix +:+ "." +:+ location +:+ ".cloudapp.azure.com".

Definition flattenMasterProfile (profile : MasterProfile) (location : string) :
    result ValidationError (list value) :=
  let fqdn :=
    if String.eqb (MasterProfile_FQDN profile) ""
    then masterFQDN (DNSPrefix profile) location
    else MasterProfile_FQDN profile in
  Ok [VMap (list_to_map
    ([("count", VInt (MasterProfile_Count profile));
      ("dns_name_prefix", VString (DNSPrefix profile));
      ("vm_size", VString (MasterProfile_VMSize profile));
      ("fqdn", VString fqdn)]
     ++ optional_zero "os_disk_size" (MasterProfile_OSDiskSizeGB profile)))].

Definition expandMasterProfile (d : ResourceData) :
    result ValidationError MasterProfile :=
  config ← block d "master_profile";
  count ← field_int config "count";
  dnsPrefix ← field_string config "dns_name_prefix";
  vmSize ← field_string config "vm_size";
  osDiskSizeGB ← field_optional_int config "os_disk_size";
  Ok {| MasterProfile_Count := count; DNSPrefix := dnsPrefix;
        MasterProfile_VMSize := vmSize;
        MasterProfile_OSDiskSizeGB := osDiskSizeGB;
        MasterProfile_FQDN := "" |}.

(** ** Agent pool profiles *)

Definition flattenAgentPoolProfile (pool : AgentPoolProfile) : value :=
  VMap (list_to_map
    ([("name", VString (Name pool));
      ("count", VInt (Count pool));
      ("vm_size", VString (VMSize pool))]
     ++ optional_zero "os_disk_size" (OSDiskSizeGB pool)
     ++ (if String.eqb (AgentPoolProfile_OSType pool) "" then []
         else [("os_type", VString (AgentPoolProfile_OSType pool))]))).

Definition flattenAgentPoolProfiles (profiles : list AgentPoolProfile) :
    result ValidationError (list value) :=
  Ok (flattenAgentPoolProfile <$> profiles).

(** The OS kind of a pool: [Linux] when absent, otherwise one of the two
    constants. *)
Definition field_os_type (config : gmap string value) :
    result ValidationError OSType :=
  match config !! "os_type" with
  | None => Ok Linux
  | Some (VString s) =>
      if decide (s = Linux ∨ s = Windows) then Ok s else Err (Invalid "os_type")
  | Some _ => Err (Invalid "os_type")
  end.

Definition expandAgentPoolProfile (v : value) :
    result ValidationError AgentPoolProfile :=
  match v with
  | VMap config =>
      name ← field_string config "name";
      count ← field_int config "count";
      vmSize ← field_string config "vm_size";
      osDiskSizeGB ← field_optional_int config "os_disk_size";
      osType ← field_os_type config;
      Ok {| Name := name; Count := count; VMSize := vmSize;
            OSDiskSizeGB := osDiskSizeGB; FQDN := "";
            AgentPoolProfile_OSType := osType |}
  | _ => Err (Missing "agent_pool_profiles")
  end.

(** The first pool name that occurs twice. *)
Fixpoint first_duplicate (names : list string) : option string :=
  match names with
  | [] => None
  | n :: names' =>
      if decide (n ∈ names') then Some n else first_duplicate names'
  end.

Definition expandAgentPoolProfiles (d : ResourceData) :
    result ValidationError (list AgentPoolProfile) :=
  match d_GetOk d "agent_pool_profiles" with
  | Some (VList configs) =>
      profiles ← traverse expandAgentPoolProfile configs;
      match first_duplicate (Name <$> profiles) with
      | Some n => Err (Duplicate "name" n)
      | None => Ok profiles
      end
  | _ => Err (Missing "agent_pool_profiles")
  end.

(** ** Tags *)

Definition flattenTags (tags : gmap string string) :
    result ValidationError (gmap string value) :=
  Ok (VString <$> tags).

Definition tag_string (v : value) : option string :=
  match v with VString s => Some s | _ => None end.

Definition expandTags (d : ResourceData) :
    result ValidationError (gmap string string) :=
  match d_GetOk d "tags" with
  | None => Ok ∅
  | Some (VMap m) =>
      if decide (map_Forall (λ _ v, is_Some (tag_string v)) m)
      then Ok (omap tag_string m)
      else Err (Invalid "tags")
  | Some _ => Err (Invalid "tags")
  end.

(** ** The cluster specification *)

(** What the template generator consumes: the identity of the cluster and its
    profiles. *)
Record ClusterSpecification := {
  spec_Name : string;
  spec_ResourceGroup : string;
  spec_Location : string;
  spec_KubernetesVersion : option string;
  spec_LinuxProfile : LinuxProfile;
  spec_ServicePrincipal : ServicePrincipalProfile;
  spec_MasterProfile : MasterProfile;
  spec_AgentPoolProfiles : list AgentPoolProfile;
  spec_Tags : gmap string string;
}.

(** The version, when the configuration declares one. *)
Definition kubernetes_version (d : ResourceData) : option string :=
  match d_GetOk d "kubernetes_version" with
  | Some (VString s) => Some s
  | _ => None
  end.

Definition expandClusterSpecification (d : ResourceData) :
    result ValidationError ClusterSpecification :=
  name ← field_string d "name";
  resourceGroup ← field_string d "resource_group";
  location ← field_string d "location";
  linuxProfile ← expandLinuxProfile d;
  servicePrincipal ← expandServicePrincipal d;
  masterProfile ← expandMasterProfile d;
  agentPoolProfiles ← expandAgentPoolProfiles d;
  tags ← expandTags d;
  Ok {| spec_Name := name; spec_ResourceGroup := resourceGroup;
        spec_Location := location;
        spec_KubernetesVersion := kubernetes_version d;
        spec_LinuxProfile := linuxProfile;
        spec_ServicePrincipal := servicePrincipal;
        spec_MasterProfile := masterProfile;
        spec_AgentPoolProfiles := agentPoolProfiles;
        spec_Tags := tags |}.

(** ** Counts *)

(** The schema's [ValidateFunc]s of the two counts: no warnings, and an error
    for a count of masters other than 1, 3 or 5, or a count of agents outside
    1 to 100. *)
Definition validateMasterProfileCount (v : Z) (k : string) :
    list string * list ValidationError :=
  if decide (v = 1 ∨ v = 3 ∨ v = 5)%Z then ([], []) else ([], [Invalid k]).

Definition validateAgentPoolProfileCount (v : Z) (k : string) :
    list string * list ValidationError :=
  if decide (1 ≤ v ≤ 100)%Z then ([], []) else ([], [Invalid k]).

(** A pool a user can author: no domain name, and an OS kind. *)
Definition authored (pool : AgentPoolProfile) : Prop :=
  FQDN pool = "" ∧
  (AgentPoolProfile_OSType pool = Linux ∨ AgentPoolProfile_OSType pool = Windows).

(** ** The whole specification, flattened *)

(** The attributes a cluster specification is surfaced as: its identity and
    every block flattened, the version when there is one. *)
Definition flattenClusterSpecification (spec : ClusterSpecification) :
    result ValidationError ResourceData :=
  linuxProfile ← flattenLinuxProfile (spec_LinuxProfile spec);
  servicePrincipal ← flattenServicePrincipal (spec_ServicePrincipal spec);
  masterProfile ←
    flattenMasterProfile (spec_MasterProfile spec) (spec_Location spec);
  agentPoolProfiles ← flattenAgentPoolProfiles (spec_AgentPoolProfiles spec);
  tags ← flattenTags (spec_Tags spec);
  let d := d_Set ∅ "name" (VString (spec_Name spec)) in
  let d := d_Set d "resource_group" (VString (spec_ResourceGroup spec)) in
  let d := d_Set d "location" (VString (spec_Location spec)) in
  let d := from_option (λ v, d_Set d "kubernetes_version" (VString v)) d
                       (spec_KubernetesVersion spec) in
  let d := d_Set d "linux_profile" (VList linuxProfile) in
  let d := d_Set d "service_principal" (VList servicePrincipal) in
  let d := d_Set d "master_profile" (VList masterProfile) in
  let d := d_Set d "agent_pool_profiles" (VList agentPoolProfiles) in
  Ok (d_Set d "tags" (VMap tags)).

(** The attributes [expandClusterSpecification] reads. *)
Definition cluster_attributes : list string :=
  ["name"; "resource_group"; "location"; "kubernetes_version"; "linux_profile";
   "service_principal"; "master_profile"; "agent_pool_profiles"; "tags"].

(** The invariant of a cluster specification a user can author: a user
    name, at least one SSH key and no key twice, no domain name on the
    masters, authored pools with distinct names. *)
Definition well_formed (spec : ClusterSpecification) : Prop :=
  AdminUsername (spec_LinuxProfile spec) ≠ "" ∧
  SSH_PublicKeys (spec_LinuxProfile spec) ≠ [] ∧
  NoDup (KeyData <$> SSH_PublicKeys (spec_LinuxProfile spec)) ∧
  MasterProfile_FQDN (spec_MasterProfile spec) = "" ∧
  Forall authored (spec_AgentPoolProfiles spec) ∧
  NoDup (Name <$> spec_AgentPoolProfiles spec).

(** ** Lemmas on the store and the fields *)

Lemma block_Set d name config rest :
  block (d_Set d name (VList (VMap config :: rest))) name = Ok config.
Proof. unfold block. by rewrite d_GetOk_Set. Qed.

Lemma block_Ok d name config :
  block d name = Ok config ↔
  ∃ rest, d_GetOk d name = Some (VList (VMap config :: rest)).
Proof.
  unfold block. destruct (d_GetOk d name) as [[| | | |[|[]]| |]|]; naive_solver.
Qed.

Lemma field_string_Ok config field s :
  field_string config field = Ok s ↔ config !! field = Some (VString s).
Proof. unfold field_string. destruct (config !! field) as [[]|]; naive_solver. Qed.

Lemma field_int_Ok config field n :
  field_int config field = Ok n ↔ config !! field = Some (VInt n).
Proof. unfold field_int. destruct (config !! field) as [[]|]; naive_solver. Qed.

Lemma field_optional_int_Ok config field n :
  field_optional_int config field = Ok n ↔
  config !! field = Some (VInt n) ∨ (config !! field = None ∧ n = 0%Z).
Proof.
  unfold field_optional_int. destruct (config !! field) as [[]|]; naive_solver.
Qed.

(** The elided entry reads back as the integer, zero included. *)
Lemma field_optional_int_optional_zero (m : gmap string value) field n :
  m !! field = None →
  field_optional_int (list_to_map (optional_zero field n) ∪ m) field = Ok n.
Proof.
  intros Hm. unfold field_optional_int, optional_zero.
  case_decide as Hn; simpl.
  - by rewrite (left_id_L ∅ (∪)), Hm, Hn.
  - by rewrite <-insert_union_l, lookup_insert_eq.
Qed.

(** ** De-duplication *)

Lemma foldl_dedup_step_NoDup acc keys :
  NoDup (acc ++ keys) → foldl dedup_step acc keys = acc ++ keys.
Proof.
  revert acc; induction keys as [|k keys IH]; intros acc Hnd; simpl.
  - by rewrite (right_id_L [] (++)).
  - unfold dedup_step at 2. rewrite decide_False.
    + rewrite IH; by rewrite <-(assoc_L (++)).
    + apply NoDup_app in Hnd as (_ & Hnd & _). intros Hk.
      apply (Hnd k Hk). by left.
Qed.

Lemma foldl_dedup_step_spec acc keys :
  NoDup acc →
  NoDup (foldl dedup_step acc keys) ∧
  ∀ k, k ∈ foldl dedup_step acc keys ↔ k ∈ acc ∨ k ∈ keys.
Proof.
  revert acc; induction keys as [|k keys IH]; intros acc Hnd; simpl.
  - set_solver.
  - unfold dedup_step at 2 4. case_decide as Hk.
    + destruct (IH acc Hnd) as [? Hin]. split; [done|]. set_solver.
    + destruct (IH (acc ++ [k])) as [? Hin].
      { apply NoDup_app. split_and!; [done|set_solver|apply NoDup_singleton]. }
      split; [done|]. set_solver.
Qed.

Lemma dedup_NoDup keys : NoDup keys → dedup keys = keys.
Proof. intros. by apply (foldl_dedup_step_NoDup []). Qed.

Lemma NoDup_dedup keys : NoDup (dedup keys).
Proof. apply foldl_dedup_step_spec, NoDup_nil_2. Qed.

Lemma elem_of_dedup k keys : k ∈ dedup keys ↔ k ∈ keys.
Proof.
  unfold dedup. rewrite (proj2 (foldl_dedup_step_spec [] keys (NoDup_nil_2))).
  set_solver.
Qed.

Lemma dedup_idemp keys : dedup (dedup keys) = dedup keys.
Proof. apply dedup_NoDup, NoDup_dedup. Qed.

Lemma dedup_nil_inv keys : dedup keys = [] → keys = [].
Proof.
  intros Hd. destruct keys as [|k keys]; [done|].
  assert (k ∈ dedup (k :: keys)) as Hk by (apply elem_of_dedup; left).
  rewrite Hd in Hk. by apply elem_of_nil in Hk.
Qed.

(** The set of the flattened keys holds the de-duplicated key material. *)
Lemma hash_flatten_key s : resourceLinuxProfilesSSHKeysHash (flatten_key s) = s.
Proof. done. Qed.

Lemma expandPublicKey_flatten_key s : expandPublicKey (flatten_key s) = Ok s.
Proof. done. Qed.

Lemma hash_fmap_flatten_key (keys : list string) :
  resourceLinuxProfilesSSHKeysHash <$> (flatten_key <$> keys) = keys.
Proof. induction keys; by f_equal/=. Qed.

Lemma Set_Add_flatten_key acc k :
  Set_Add resourceLinuxProfilesSSHKeysHash (flatten_key <$> acc) (flatten_key k) =
  flatten_key <$> dedup_step acc k.
Proof.
  unfold Set_Add, dedup_step. rewrite hash_fmap_flatten_key, hash_flatten_key.
  case_decide; [done|]. by rewrite fmap_app.
Qed.

Lemma foldl_Set_Add_flatten_key acc keys :
  foldl (Set_Add resourceLinuxProfilesSSHKeysHash) (flatten_key <$> acc)
        (flatten_key <$> keys) =
  flatten_key <$> foldl dedup_step acc keys.
Proof.
  revert acc; induction keys as [|k keys IH]; intros acc; simpl; [done|].
  by rewrite Set_Add_flatten_key, IH.
Qed.

Lemma flattenLinuxProfile_unfold profile :
  flattenLinuxProfile profile =
  Ok [VMap (<["admin_username" := VString (AdminUsername profile)]>
           (<["ssh" := VSet (flatten_key <$> dedup (KeyData <$> SSH_PublicKeys profile))]> ∅))].
Proof.
  unfold flattenLinuxProfile, flattenPublicKey.
  rewrite (list_fmap_compose KeyData flatten_key).
  by rewrite (foldl_Set_Add_flatten_key []).
Qed.

(** Expanding a block whose keys are [keys], as a set or as a list. *)
Lemma expandLinuxProfile_keys d adminUsername keys items :
  adminUsername ≠ "" → keys ≠ [] →
  items = VSet (flatten_key <$> keys) ∨ items = VList (flatten_key <$> keys) →
  expandLinuxProfile
    (d_Set d "linux_profile"
       (VList [VMap (<["admin_username" := VString adminUsername]>
                    (<["ssh" := items]> ∅))])) =
  Ok {| AdminUsername := adminUsername;
        SSH_PublicKeys := Build_PublicKey <$> dedup keys |}.
Proof.
  intros Hu Hk Hitems. unfold expandLinuxProfile. rewrite block_Set. simpl.
  unfold field_string. simpl_map. simpl.
  rewrite (string_eqb_ne _ _ Hu).
  assert (traverse expandPublicKey (flatten_key <$> keys) = Ok keys) as Ht
    by (by apply traverse_fmap_cancel).
  destruct Hitems as [-> | ->]; simpl; rewrite Ht; simpl;
    by rewrite bool_decide_eq_false_2.
Qed.

(** ** Round trips: expand after flatten *)

(** A linux profile comes back with its keys de-duplicated. *)
Lemma expandLinuxProfile_flatten d profile :
  AdminUsername profile ≠ "" → SSH_PublicKeys profile ≠ [] →
  (l ← flattenLinuxProfile profile;
   expandLinuxProfile (d_Set d "linux_profile" (VList l))) =
  Ok {| AdminUsername := AdminUsername profile;
        SSH_PublicKeys :=
          Build_PublicKey <$> dedup (KeyData <$> SSH_PublicKeys profile) |}.
Proof.
  intros Hu Hk. rewrite flattenLinuxProfile_unfold. simpl.
  rewrite (expandLinuxProfile_keys d _ (dedup (KeyData <$> SSH_PublicKeys profile)));
    [by rewrite dedup_idemp|done| |by left].
  intros Hd%dedup_nil_inv. by destruct (SSH_PublicKeys profile).
Qed.

(** With distinct keys the profile comes back as it is. *)
Lemma expandLinuxProfile_flatten_NoDup d profile :
  AdminUsername profile ≠ "" → SSH_PublicKeys profile ≠ [] →
  NoDup (KeyData <$> SSH_PublicKeys profile) →
  (l ← flattenLinuxProfile profile;
   expandLinuxProfile (d_Set d "linux_profile" (VList l))) = Ok profile.
Proof.
  intros Hu Hk Hnd. rewrite expandLinuxProfile_flatten by done.
  rewrite dedup_NoDup, fmap_Build_KeyData by done. by destruct profile.
Qed.

Lemma expandServicePrincipal_flatten d profile :
  (l ← flattenServicePrincipal profile;
   expandServicePrincipal (d_Set d "service_principal" (VList l))) = Ok profile.
Proof.
  simpl. unfold expandServicePrincipal. rewrite block_Set. simpl.
  unfold field_string. simpl_map. simpl. simpl_map. by destruct profile.
Qed.

(** A master profile comes back without its domain name, which is computed
    and not read by expand. *)
Lemma expandMasterProfile_flatten d profile location :
  (l ← flattenMasterProfile profile location;
   expandMasterProfile (d_Set d "master_profile" (VList l))) =
  Ok {| MasterProfile_Count := MasterProfile_Count profile;
        DNSPrefix := DNSPrefix profile;
        MasterProfile_VMSize := MasterProfile_VMSize profile;
        MasterProfile_OSDiskSizeGB := MasterProfile_OSDiskSizeGB profile;
        MasterProfile_FQDN := "" |}.
Proof.
  simpl. unfold expandMasterProfile. rewrite block_Set. simpl.
  unfold field_int, field_string, field_optional_int, optional_zero.
  case_decide as Hz; simpl; simpl_map; simpl; simpl_map; simpl;
    by rewrite ?Hz.
Qed.

Global Instance authored_dec pool : Decision (authored pool).
Proof. unfold authored. apply _. Defined.

Lemma expandAgentPoolProfile_flatten pool :
  authored pool →
  expandAgentPoolProfile (flattenAgentPoolProfile pool) = Ok pool.
Proof.
  destruct pool as [name count vmSize disk fqdn os]. intros [Hf Ho]; simpl in *.
  subst fqdn. unfold field_string, field_int, field_optional_int, field_os_type,
    optional_zero.
  destruct Ho as [-> | ->]; case_decide as Hz; simpl; simpl_map; simpl;
    by rewrite ?Hz.
Qed.

Lemma first_duplicate_None names : first_duplicate names = None ↔ NoDup names.
Proof.
  induction names as [|n names IH]; simpl.
  - split; [constructor|done].
  - rewrite NoDup_cons. case_decide; naive_solver.
Qed.

Lemma first_duplicate_Some names n :
  first_duplicate names = Some n → n ∈ names ∧ ¬ NoDup names.
Proof.
  intros Hn. split.
  - induction names as [|n' names IH]; simpl in *; [done|].
    case_decide; simplify_eq; [by left|right; auto].
  - rewrite <-first_duplicate_None. by rewrite Hn.
Qed.

Lemma expandAgentPoolProfiles_flatten d profiles :
  Forall authored profiles → NoDup (Name <$> profiles) →
  (l ← flattenAgentPoolProfiles profiles;
   expandAgentPoolProfiles (d_Set d "agent_pool_profiles" (VList l))) =
  Ok profiles.
Proof.
  intros Ha Hnd. simpl. unfold expandAgentPoolProfiles. rewrite d_GetOk_Set.
  rewrite (traverse_fmap_cancel flattenAgentPoolProfile expandAgentPoolProfile).
  - simpl. by rewrite (proj2 (first_duplicate_None _) Hnd).
  - intros pool Hp. apply expandAgentPoolProfile_flatten.
    by apply (proj1 (Forall_forall _ _) Ha).
Qed.

Lemma expandTags_flatten d tags :
  (m ← flattenTags tags; expandTags (d_Set d "tags" (VMap m))) = Ok tags.
Proof.
  simpl. unfold expandTags. rewrite d_GetOk_Set. rewrite decide_True.
  - f_equal. apply map_eq; intros k.
    rewrite lookup_omap, lookup_fmap. by destruct (tags !! k).
  - intros k v. rewrite lookup_fmap. destruct (tags !! k); naive_solver.
Qed.

(** ** Expand validates *)

Lemma expandAgentPoolProfiles_NoDup d profiles :
  expandAgentPoolProfiles d = Ok profiles → NoDup (Name <$> profiles).
Proof.
  unfold expandAgentPoolProfiles.
  destruct (d_GetOk d _) as [[]|]; try done.
  destruct (traverse _ _) as [ps|]; simpl; [|done].
  destruct (first_duplicate _) eqn:Hd; [done|].
  intros [= <-]. by apply first_duplicate_None.
Qed.

Lemma expandLinuxProfile_valid d profile :
  expandLinuxProfile d = Ok profile →
  AdminUsername profile ≠ "" ∧ SSH_PublicKeys profile ≠ [] ∧
  NoDup (KeyData <$> SSH_PublicKeys profile).
Proof.
  unfold expandLinuxProfile. intros H.
  apply bind_Ok_inv in H as (config & _ & H).
  apply bind_Ok_inv in H as (u & _ & H).
  destruct (String.eqb u "") eqn:Hu; [done|].
  apply bind_Ok_inv in H as (items & _ & H).
  apply bind_Ok_inv in H as (keys & _ & H).
  case_bool_decide as Hk; [done|]. injection H as <-. simpl.
  rewrite fmap_KeyData_Build. split_and!.
  - by apply String.eqb_neq.
  - intros Hnil%fmap_nil_inv%dedup_nil_inv. done.
  - apply NoDup_dedup.
Qed.

(** ** The optional-zero elision *)

Lemma flattenAgentPoolProfile_os_disk_size pool :
  ∃ m, flattenAgentPoolProfile pool = VMap m ∧
       m !! "os_disk_size" =
       if decide (OSDiskSizeGB pool = 0%Z) then None
       else Some (VInt (OSDiskSizeGB pool)).
Proof.
  eexists; split; [done|]. unfold optional_zero.
  case_decide; destruct (String.eqb _ _); simpl; by simpl_map.
Qed.

Lemma flattenMasterProfile_os_disk_size profile location :
  ∃ m, flattenMasterProfile profile location = Ok [VMap m] ∧
       m !! "os_disk_size" =
       if decide (MasterProfile_OSDiskSizeGB profile = 0%Z) then None
       else Some (VInt (MasterProfile_OSDiskSizeGB profile)).
Proof.
  eexists; split; [done|]. unfold optional_zero. case_decide; simpl; by simpl_map.
Qed.

(** ** The whole specification *)

(** Each expand function reads its own attribute only: the rest of the
    store can be forgotten. *)
Local Ltac own_attribute :=
  intros Hd; unfold expandLinuxProfile, expandServicePrincipal,
    expandMasterProfile, expandAgentPoolProfiles, expandTags, block, d_GetOk, d_Set;
  unfold ResourceData in *; by rewrite Hd, (lookup_insert_eq (M:=gmap string)).

Lemma expandLinuxProfile_lookup d v :
  d !! "linux_profile" = Some v →
  expandLinuxProfile d = expandLinuxProfile (d_Set ∅ "linux_profile" v).
Proof. own_attribute. Qed.

Lemma expandServicePrincipal_lookup d v :
  d !! "service_principal" = Some v →
  expandServicePrincipal d = expandServicePrincipal (d_Set ∅ "service_principal" v).
Proof. own_attribute. Qed.

Lemma expandMasterProfile_lookup d v :
  d !! "master_profile" = Some v →
  expandMasterProfile d = expandMasterProfile (d_Set ∅ "master_profile" v).
Proof. own_attribute. Qed.

Lemma expandAgentPoolProfiles_lookup d v :
  d !! "agent_pool_profiles" = Some v →
  expandAgentPoolProfiles d =
  expandAgentPoolProfiles (d_Set ∅ "agent_pool_profiles" v).
Proof. own_attribute. Qed.

Lemma expandTags_lookup d v :
  d !! "tags" = Some v → expandTags d = expandTags (d_Set ∅ "tags" v).
Proof. own_attribute. Qed.

(** A pool that is expanded is one a user can author. *)
Lemma expandAgentPoolProfile_authored v pool :
  expandAgentPoolProfile v = Ok pool → authored pool.
Proof.
  destruct v as [| | | | |config|]; try done. simpl. intros H.
  do 4 (apply bind_Ok_inv in H as (? & _ & H)).
  apply bind_Ok_inv in H as (os & Hos & [= <-]). split; [done|]. simpl.
  unfold field_os_type in Hos.
  destruct (config !! "os_type") as [[]|]; simplify_eq; auto.
  by case_decide; simplify_eq.
Qed.

Lemma expandAgentPoolProfiles_authored d profiles :
  expandAgentPoolProfiles d = Ok profiles → Forall authored profiles.
Proof.
  unfold expandAgentPoolProfiles.
  destruct (d_GetOk d _) as [[]|]; try done.
  destruct (traverse _ _) as [ps|] eqn:Ht; simpl; [|done].
  destruct (first_duplicate _); [done|]. intros [= <-].
  apply traverse_Ok_Forall2 in Ht.
  induction Ht; constructor; eauto using expandAgentPoolProfile_authored.
Qed.

Lemma expandMasterProfile_FQDN d profile :
  expandMasterProfile d = Ok profile → MasterProfile_FQDN profile = "".
Proof.
  unfold expandMasterProfile. intros H.
  repeat (apply bind_Ok_inv in H as (? & _ & H)). by injection H as <-.
Qed.

(** What [expandClusterSpecification] returns is well formed. *)
Lemma expandClusterSpecification_well_formed d spec :
  expandClusterSpecification d = Ok spec → well_formed spec.
Proof.
  unfold expandClusterSpecification. intros H.
  do 3 (apply bind_Ok_inv in H as (? & _ & H)).
  apply bind_Ok_inv in H as (lp & Hlp%expandLinuxProfile_valid & H).
  apply bind_Ok_inv in H as (sp & _ & H).
  apply bind_Ok_inv in H as (mp & Hmp%expandMasterProfile_FQDN & H).
  apply bind_Ok_inv in H as (ps & Hps & H).
  apply bind_Ok_inv in H as (tags & _ & [= <-]).
  unfold well_formed; simpl. destruct Hlp as (? & ? & ?).
  eauto 10 using expandAgentPoolProfiles_authored, expandAgentPoolProfiles_NoDup.
Qed.

Local Ltac projections :=
  cbn [spec_Name spec_ResourceGroup spec_Location spec_KubernetesVersion
       spec_LinuxProfile spec_ServicePrincipal spec_MasterProfile
       spec_AgentPoolProfiles spec_Tags] in *.

(** The round-trip law for the whole specification: flattened and expanded
    again, a well-formed specification comes back as it is. *)
Lemma expandClusterSpecification_flatten spec :
  well_formed spec →
  (d ← flattenClusterSpecification spec; expandClusterSpecification d) = Ok spec.
Proof.
  destruct spec as [name rg loc ver lp0 sp0 mp0 ps0 tags0].
  intros (Hu & Hk & Hnd & Hf & Ha & Hn); projections.
  pose proof (expandLinuxProfile_flatten_NoDup ∅ _ Hu Hk Hnd) as Hlp.
  pose proof (expandServicePrincipal_flatten ∅ sp0) as Hsp.
  pose proof (expandMasterProfile_flatten ∅ mp0 loc) as Hmp.
  pose proof (expandAgentPoolProfiles_flatten ∅ _ Ha Hn) as Hps.
  pose proof (expandTags_flatten ∅ tags0) as Ht.
  unfold flattenClusterSpecification. projections.
  destruct (flattenLinuxProfile _) as [lp|]; [|done].
  destruct (flattenServicePrincipal _) as [sp|]; [|done].
  destruct (flattenMasterProfile _ _) as [mp|]; [|done].
  destruct (flattenAgentPoolProfiles _) as [ps|]; [|done].
  destruct (flattenTags _) as [tags|]; [|done].
  cbn [mbind result_mbind result_bind] in *.
  unfold expandClusterSpecification, kubernetes_version.
  set (d := d_Set _ "tags" _).
  rewrite (expandLinuxProfile_lookup d (VList lp)), Hlp,
    (expandServicePrincipal_lookup d (VList sp)), Hsp,
    (expandMasterProfile_lookup d (VList mp)), Hmp,
    (expandAgentPoolProfiles_lookup d (VList ps)), Hps,
    (expandTags_lookup d (VMap tags)), Ht by (destruct ver; by vm_compute).
  destruct mp0 as [c dns size disk fqdn]; simpl in Hf; subst fqdn.
  destruct ver; by vm_compute.
Qed.

(** Flattening never fails. *)
Lemma flattenClusterSpecification_Ok spec :
  ∃ d, flattenClusterSpecification spec = Ok d.
Proof. by eexists. Qed.

(** What is read back from the attributes of an expanded configuration is
    the specification the configuration expanded to. *)
Lemma expandClusterSpecification_idemp config spec d :
  expandClusterSpecification config = Ok spec →
  flattenClusterSpecification spec = Ok d →
  expandClusterSpecification d = Ok spec.
Proof.
  intros Hwf%expandClusterSpecification_well_formed Hd.
  pose proof (expandClusterSpecification_flatten spec Hwf) as Hrt.
  by rewrite Hd in Hrt.
Qed.

(** [expandClusterSpecification] reads the attributes of
    [cluster_attributes] and nothing else. *)
Lemma expandClusterSpecification_ext d d' :
  Forall (λ k, d !! k = d' !! k) cluster_attributes →
  expandClusterSpecification d = expandClusterSpecification d'.
Proof.
  intros Hk. repeat (apply Forall_cons in Hk as [? Hk]).
  unfold expandClusterSpecification, expandLinuxProfile, expandServicePrincipal,
    expandMasterProfile, expandAgentPoolProfiles, expandTags, kubernetes_version,
    field_string, block, d_GetOk.
  unfold ResourceData in *.
  by repeat match goal with Heq : d !! _ = _ |- _ => rewrite Heq; clear Heq end.
Qed.

Lemma expandClusterSpecification_Set d k v :
  k ∉ cluster_attributes →
  expandClusterSpecification (d_Set d k v) = expandClusterSpecification d.
Proof.
  intros Hk. apply expandClusterSpecification_ext, Forall_forall. intros k' Hk'.
  unfold d_Set. apply lookup_insert_ne. by intros ->.
Qed.

(** The identity and the version in the flattened store; the credentials
    are not part of it. *)
Lemma flattenClusterSpecification_lookup spec d :
  flattenClusterSpecification spec = Ok d →
  d !! "name" = Some (VString (spec_Name spec)) ∧
  d !! "resource_group" = Some (VString (spec_ResourceGroup spec)) ∧
  d !! "kubernetes_version" = VString <$> spec_KubernetesVersion spec ∧
  d !! "kube_config" = None ∧ d !! "kube_config_raw" = None.
Proof.
  unfold flattenClusterSpecification. intros [= <-].
  destruct (spec_KubernetesVersion spec); by vm_compute.
Qed.

(** The version of the specification is the one the store declares. *)
Lemma expandClusterSpecification_version config spec :
  expandClusterSpecification config = Ok spec →
  spec_KubernetesVersion spec = kubernetes_version config.
Proof.
  unfold expandClusterSpecification. intros H.
  do 7 (apply bind_Ok_inv in H as (? & _ & H)).
  by apply bind_Ok_inv in H as (? & _ & [= <-]).
Qed.
