(* ===== verification/Fakes.v ===== *)
(** * Fakes: the attribute-bag builders of the tests

    Models [fakeFlattenLinuxProfile], [fakeFlattenServicePrincipal],
    [fakeFlattenMasterProfile] and [fakeFlattenAgentPoolProfiles] of
    [src/acsengine/resource_acsengine_kubernetes_cluster_test.go], which build
    by hand the attribute bags the unit tests store with [d.Set] before they
    call an [expand...] function.  Three of them read the process environment
    ([os.Getenv]); the environment is the parameter [Getenv].

    The theorems relate each builder to the mapping: what it builds is what
    [flatten...] gives on a profile, and [expand...] reads that profile back,
    for every argument and every environment. *)

From stdpp Require Import gmap.
From S2P Require Import Prelude Go Api SpecMapper.
From stdpp Require Import options.
Set Warnings "-clear-no-such-hyp".

(** The process environment: [os.Getenv] gives the empty string for a
    variable that is not set. *)
Definition environ : Type := string → string.

Section fakes.
Context (Getenv : environ).

Definition fakeFlattenLinuxProfile (adminUsername : string) : list value :=
  let sshKeys := [] in
  let keys := VMap (list_to_map [("key_data", VString (Getenv "SSH_KEY_PUB"))]) in
  let sshKeys := Set_Add resourceLinuxProfilesSSHKeysHash sshKeys keys in
  let values := VMap (list_to_map [("admin_username", VString adminUsername);
                                   ("ssh", VSet sshKeys)]) in
  let linuxProfiles := [] in
  let linuxProfiles := linuxProfiles ++ [values] in
  linuxProfiles.

Definition fakeFlattenServicePrincipal : list value :=
  let servicePrincipals := [] in
  let spValues :=
    VMap (list_to_map [("client_id", VString (Getenv "ARM_CLIENT_ID"));
                       ("client_secret", VString (Getenv "ARM_CLIENT_SECRET"))]) in
  let servicePrincipals := servicePrincipals ++ [spValues] in
  servicePrincipals.

Definition fakeFlattenMasterProfile (count : Z) (dnsNamePrefix vmSize : string) :
    list value :=
  let masterProfiles := [] in
  let masterProfile : gmap string value := ∅ in
  let masterProfile := <["count" := VInt count]> masterProfile in
  let masterProfile := <["dns_name_prefix" := VString dnsNamePrefix]> masterProfile in
  let masterProfile := <["vm_size" := VString vmSize]> masterProfile in
  let masterProfile := <["fqdn" := VString "f/q/d/n"]> masterProfile in
  let masterProfiles := masterProfiles ++ [VMap masterProfile] in
  masterProfiles.

Definition fakeFlattenAgentPoolProfiles (name : string) (count : Z)
    (vmSize : string) (osDiskSizeGB : Z) (windows : bool) : gmap string value :=
  let agentPoolValues : gmap string value :=
    list_to_map [("name", VString name); ("count", VInt count);
                 ("vm_size", VString vmSize)] in
  let agentPoolValues :=
    if negb (bool_decide (osDiskSizeGB = 0%Z))
    then <["os_disk_size" := VInt osDiskSizeGB]> agentPoolValues
    else agentPoolValues in
  let agentPoolValues :=
    if windows then <["os_type" := VString Windows]> agentPoolValues
    else <["os_type" := VString Linux]> agentPoolValues in
  agentPoolValues.

(** ** The profiles the builders stand for *)

Definition fake_LinuxProfile (adminUsername : string) : LinuxProfile :=
  {| AdminUsername := adminUsername;
     SSH_PublicKeys := [ {| KeyData := Getenv "SSH_KEY_PUB" |} ] |}.

Definition fake_ServicePrincipalProfile : ServicePrincipalProfile :=
  {| ClientID := Getenv "ARM_CLIENT_ID"; Secret := Getenv "ARM_CLIENT_SECRET" |}.

Definition fake_MasterProfile (count : Z) (dnsNamePrefix vmSize fqdn : string) :
    MasterProfile :=
  {| MasterProfile_Count := count; DNSPrefix := dnsNamePrefix;
     MasterProfile_VMSize := vmSize; MasterProfile_OSDiskSizeGB := 0;
     MasterProfile_FQDN := fqdn |}.

Definition fake_AgentPoolProfile (name : string) (count : Z) (vmSize : string)
    (osDiskSizeGB : Z) (windows : bool) : AgentPoolProfile :=
  {| Name := name; Count := count; VMSize := vmSize;
     OSDiskSizeGB := osDiskSizeGB; FQDN := "";
     AgentPoolProfile_OSType := if windows then Windows else Linux |}.

(** ** Each builder is a flattening *)

Lemma fakeFlattenLinuxProfile_flatten adminUsername :
  flattenLinuxProfile (fake_LinuxProfile adminUsername) =
  Ok (fakeFlattenLinuxProfile adminUsername).
Proof. done. Qed.

Lemma fakeFlattenServicePrincipal_flatten :
  flattenServicePrincipal fake_ServicePrincipalProfile =
  Ok fakeFlattenServicePrincipal.
Proof. done. Qed.

Lemma fakeFlattenMasterProfile_flatten count dnsNamePrefix vmSize location :
  flattenMasterProfile (fake_MasterProfile count dnsNamePrefix vmSize "f/q/d/n")
    location =
  Ok (fakeFlattenMasterProfile count dnsNamePrefix vmSize).
Proof. done. Qed.

Lemma fakeFlattenAgentPoolProfiles_flatten name count vmSize osDiskSizeGB windows :
  flattenAgentPoolProfile
    (fake_AgentPoolProfile name count vmSize osDiskSizeGB windows) =
  VMap (fakeFlattenAgentPoolProfiles name count vmSize osDiskSizeGB windows).
Proof.
  unfold flattenAgentPoolProfile, fakeFlattenAgentPoolProfiles, optional_zero.
  simpl. destruct windows; case_bool_decide; case_decide; done.
Qed.

(** ** Expand reads each builder's profile back *)

Lemma expandLinuxProfile_fake d adminUsername :
  adminUsername ≠ "" →
  expandLinuxProfile
    (d_Set d "linux_profile" (VList (fakeFlattenLinuxProfile adminUsername))) =
  Ok (fake_LinuxProfile adminUsername).
Proof.
  intros Hu.
  apply (expandLinuxProfile_flatten_NoDup d (fake_LinuxProfile adminUsername));
    [done..|]. apply NoDup_singleton.
Qed.

Lemma expandServicePrincipal_fake d :
  expandServicePrincipal
    (d_Set d "service_principal" (VList fakeFlattenServicePrincipal)) =
  Ok fake_ServicePrincipalProfile.
Proof. apply (expandServicePrincipal_flatten d fake_ServicePrincipalProfile). Qed.

Lemma expandMasterProfile_fake d count dnsNamePrefix vmSize :
  expandMasterProfile
    (d_Set d "master_profile"
       (VList (fakeFlattenMasterProfile count dnsNamePrefix vmSize))) =
  Ok (fake_MasterProfile count dnsNamePrefix vmSize "").
Proof.
  apply (expandMasterProfile_flatten d
    (fake_MasterProfile count dnsNamePrefix vmSize "f/q/d/n") "").
Qed.

Lemma expandAgentPoolProfile_fake name count vmSize osDiskSizeGB windows :
  expandAgentPoolProfile
    (VMap (fakeFlattenAgentPoolProfiles name count vmSize osDiskSizeGB windows)) =
  Ok (fake_AgentPoolProfile name count vmSize osDiskSizeGB windows).
Proof.
  rewrite <-fakeFlattenAgentPoolProfiles_flatten.
  apply expandAgentPoolProfile_flatten. split; [done|]. destruct windows; auto.
Qed.

(** C31. The linux profile the builder builds expands to the profile with the
    user name and the one key of the environment, and is refused exactly when
    the user name is empty; an empty key is accepted. *)
Theorem expandLinuxProfile_fakeFlatten d adminUsername :
  expandLinuxProfile
    (d_Set d "linux_profile" (VList (fakeFlattenLinuxProfile adminUsername))) =
  if decide (adminUsername = "") then Err (Invalid "admin_username")
  else Ok (fake_LinuxProfile adminUsername).
Proof.
  case_decide as Hu; [subst|by apply expandLinuxProfile_fake].
  unfold expandLinuxProfile, fakeFlattenLinuxProfile. simpl.
  rewrite block_Set. simpl. unfold field_string. by simpl_map.
Qed.

End fakes.

(** C29. What each builder of the tests builds by hand is what the flatten
    function of the same block gives on a profile, for all arguments and
    every environment: the linux profile with the one key of [SSH_KEY_PUB],
    the service principal of [ARM_CLIENT_ID] and [ARM_CLIENT_SECRET], a master
    profile whose domain name is known, and an agent pool of either OS. *)
Theorem fakes_are_flattenings (Getenv : environ) :
  (∀ adminUsername,
     flattenLinuxProfile (fake_LinuxProfile Getenv adminUsername) =
     Ok (fakeFlattenLinuxProfile Getenv adminUsername)) ∧
  flattenServicePrincipal (fake_ServicePrincipalProfile Getenv) =
    Ok (fakeFlattenServicePrincipal Getenv) ∧
  (∀ count dnsNamePrefix vmSize location,
     flattenMasterProfile
       (fake_MasterProfile count dnsNamePrefix vmSize "f/q/d/n") location =
     Ok (fakeFlattenMasterProfile count dnsNamePrefix vmSize)) ∧
  (∀ name count vmSize osDiskSizeGB windows,
     flattenAgentPoolProfiles
       [fake_AgentPoolProfile name count vmSize osDiskSizeGB windows] =
     Ok [VMap (fakeFlattenAgentPoolProfiles name count vmSize osDiskSizeGB windows)]).
Proof.
  split_and!; intros;
    auto using fakeFlattenLinuxProfile_flatten, fakeFlattenServicePrincipal_flatten,
      fakeFlattenMasterProfile_flatten.
  unfold flattenAgentPoolProfiles. simpl.
  by rewrite fakeFlattenAgentPoolProfiles_flatten.
Qed.

(** C32. Stored under the name of its block, what a builder builds expands to
    the profile it stands for: the agent pool keeps its name, count, size and
    OS, and a disk size of zero, which the builder leaves out, comes back as
    zero. *)
Theorem expandAgentPoolProfiles_fakes d name1 count1 vmSize1 disk1 windows1
    name2 count2 vmSize2 disk2 windows2 :
  name1 ≠ name2 →
  expandAgentPoolProfiles
    (d_Set d "agent_pool_profiles"
       (VList [VMap (fakeFlattenAgentPoolProfiles name1 count1 vmSize1 disk1 windows1);
               VMap (fakeFlattenAgentPoolProfiles name2 count2 vmSize2 disk2 windows2)])) =
  Ok [fake_AgentPoolProfile name1 count1 vmSize1 disk1 windows1;
      fake_AgentPoolProfile name2 count2 vmSize2 disk2 windows2].
Proof.
  intros Hne. unfold expandAgentPoolProfiles. rewrite d_GetOk_Set.
  erewrite traverse_cons_Ok;
    [|apply expandAgentPoolProfile_fake
     |apply traverse_cons_Ok; [apply expandAgentPoolProfile_fake|done]].
  simpl. rewrite decide_False; [done|]. by intros ->%list_elem_of_singleton.
Qed.

Lemma expandAgentPoolProfiles_fakes_witness :
  expandAgentPoolProfiles
    (d_Set TestResourceData "agent_pool_profiles"
       (VList [VMap (fakeFlattenAgentPoolProfiles "agentpool1" 1 "Standard_D2_v2" 0 false);
               VMap (fakeFlattenAgentPoolProfiles "agentpool2" 2 "Standard_D2_v2" 30 true)])) =
  Ok [fake_AgentPoolProfile "agentpool1" 1 "Standard_D2_v2" 0 false;
      fake_AgentPoolProfile "agentpool2" 2 "Standard_D2_v2" 30 true].
Proof. by apply expandAgentPoolProfiles_fakes. Defined.

(** Two pools built with the same name are refused by expand with the
    duplicate-name error, whatever their other arguments. *)
Theorem expandAgentPoolProfiles_fakes_duplicate d name count1 vmSize1 disk1 windows1
    count2 vmSize2 disk2 windows2 :
  expandAgentPoolProfiles
    (d_Set d "agent_pool_profiles"
       (VList [VMap (fakeFlattenAgentPoolProfiles name count1 vmSize1 disk1 windows1);
               VMap (fakeFlattenAgentPoolProfiles name count2 vmSize2 disk2 windows2)])) =
  Err (Duplicate "name" name).
Proof.
  unfold expandAgentPoolProfiles. rewrite d_GetOk_Set.
  erewrite traverse_cons_Ok;
    [|apply expandAgentPoolProfile_fake
     |apply traverse_cons_Ok; [apply expandAgentPoolProfile_fake|done]].
  simpl. rewrite decide_True; [done|]. by apply list_elem_of_singleton.
Qed.
