(* ===== verification/VersionPolicy.v ===== *)
(** * VersionPolicy: Kubernetes versions and the upgrade rules

    [validateKubernetesVersion] and [validateKubernetesVersionUpgrade] are
    called by the tests and defined outside [src/]; they are written here from
    section 4.2 of the specification.  A version is a triple of naturals read
    from ["<major>.<minor>.<patch>"], every component a non-empty run of
    decimal digits.  The supported release lines are configuration, not logic:
    they are the class [VersionTable], and the theorems hold for every table
    unless they name one.

    The file proves that printing and parsing a version are inverse, that the
    order on versions is a strict total order, and characterises the accepted
    upgrades: strictly newer, same major, at most one minor apart. *)

From stdpp Require Import pretty relations.
From S2P Require Import Prelude.
From stdpp Require Import options.
Set Warnings "-clear-no-such-hyp".

Local Open Scope N_scope.

(** ** Decimal numbers *)

Definition digit (a : ascii) : option N :=
  let n := N_of_ascii a in
  if (48 <=? n) && (n <=? 57) then Some (n - 48) else None.

Fixpoint parse_digits (acc : N) (s : string) : option N :=
  match s with
  | EmptyString => Some acc
  | String a s' =>
      match digit a with
      | Some d => parse_digits (acc * 10 + d) s'
      | None => None
      end
  end.

(** A component: at least one digit, and digits only. *)
Definition parse_component (s : string) : option N :=
  match s with
  | EmptyString => None
  | _ => parse_digits 0 s
  end.

(** ** Splitting at the dots *)

(** [strings.Split(s, sep)]: the pieces between the separators, the current
    piece being accumulated in reverse. *)
Fixpoint split_go (sep : ascii) (piece : string) (s : string) : list string :=
  match s with
  | EmptyString => [String.rev piece]
  | String a s' =>
      if decide (a = sep) then String.rev piece :: split_go sep "" s'
      else split_go sep (String a piece) s'
  end.

Definition split (sep : ascii) (s : string) : list string := split_go sep "" s.

(** ** Versions *)

Record version := Version { major : N; minor : N; patch : N }.

Global Instance version_eq_dec : EqDecision version.
Proof. solve_decision. Defined.

Inductive version_error :=
| ParseError (s : string)
| UnsupportedVersionError (v : version)
| Downgrade (current proposed : version)
| NoOp (v : version)
| MajorJump (current proposed : version)
| MultiMinorJump (current proposed : version).

Global Instance version_error_eq_dec : EqDecision version_error.
Proof. solve_decision. Defined.

Definition parseVersion (s : string) : result version_error version :=
  match split "." s with
  | [a; b; c] =>
      match parse_component a, parse_component b, parse_component c with
      | Some x, Some y, Some z => Ok (Version x y z)
      | _, _, _ => Err (ParseError s)
      end
  | _ => Err (ParseError s)
  end.

Definition printVersion (v : version) : string :=
  pretty (major v) +:+ "." +:+ pretty (minor v) +:+ "." +:+ pretty (patch v).

(** The lexicographic order on (major, minor, patch). *)
Definition version_ltb (v w : version) : bool :=
  (major v <? major w)
  || ((major v =? major w)
      && ((minor v <? minor w)
          || ((minor v =? minor w) && (patch v <? patch w)))).

Definition version_lt (v w : version) : Prop := version_ltb v w = true.

(** ** The supported release lines *)

Class VersionTable := supported_lines : list (N * N).

(** The release lines the repository's tests create or validate. *)
Definition tested_lines : VersionTable := [(1, 7); (1, 8); (1, 9); (1, 10)].

Definition isSupportedVersion `{VersionTable} (v : version) : bool :=
  bool_decide ((major v, minor v) ∈ supported_lines).

(** The schema's [ValidateFunc] of the attribute [kubernetes_version]: no
    warnings, and the list of errors. *)
Definition validateKubernetesVersion `{VersionTable} (v : string) (k : string) :
    list string * list version_error :=
  match parseVersion v with
  | Err e => ([], [e])
  | Ok ver =>
      if isSupportedVersion ver then ([], [])
      else ([], [UnsupportedVersionError ver])
  end.

(** ** The upgrade rules *)

Definition isUpgradeAllowed (current proposed : version) :
    result version_error unit :=
  failif bool_decide (proposed = current) then NoOp current;
  failif version_ltb proposed current then Downgrade current proposed;
  failif negb (major proposed =? major current) then MajorJump current proposed;
  failif 1 <? minor proposed - minor current then MultiMinorJump current proposed;
  Ok tt.

Definition validateKubernetesVersionUpgrade (newVersion currentVersion : string) :
    result version_error unit :=
  proposed ← parseVersion newVersion;
  current ← parseVersion currentVersion;
  isUpgradeAllowed current proposed.

(** What the rules promise: strictly newer, same major, at most one minor
    release further. *)
Definition upgrade_ok (current proposed : version) : Prop :=
  version_lt current proposed ∧
  major proposed = major current ∧
  minor proposed ≤ minor current + 1.

Global Instance upgrade_ok_dec current proposed :
  Decision (upgrade_ok current proposed).
Proof. unfold upgrade_ok, version_lt. apply _. Defined.

(** *** Splitting a printed version *)

Fixpoint no_sep (sep : ascii) (s : string) : bool :=
  match s with
  | EmptyString => true
  | String a s' => negb (bool_decide (a = sep)) && no_sep sep s'
  end.

(** One approved upgrade. *)
Definition upgrade_step (current proposed : version) : Prop :=
  isUpgradeAllowed current proposed = Ok tt.

(** One approved upgrade to a release line of [P]. *)
Definition upgrade_step_in (P : N → N → Prop) (current proposed : version) : Prop :=
  upgrade_step current proposed ∧ P (major proposed) (minor proposed).

(** ** The order *)

Lemma version_lt_spec v w :
  version_lt v w ↔
  major v < major w ∨
  (major v = major w ∧ (minor v < minor w ∨ (minor v = minor w ∧ patch v < patch w))).
Proof.
  unfold version_lt, version_ltb.
  rewrite !orb_true_iff, !andb_true_iff, !orb_true_iff, !andb_true_iff,
    !N.ltb_lt, !N.eqb_eq. done.
Qed.

Global Instance version_lt_strict : StrictOrder version_lt.
Proof.
  split.
  - intros v Hv. apply version_lt_spec in Hv. lia.
  - intros u v w Huv Hvw. apply version_lt_spec in Huv, Hvw.
    apply version_lt_spec. lia.
Qed.

Lemma version_lt_trichotomy v w : version_lt v w ∨ v = w ∨ version_lt w v.
Proof.
  rewrite !version_lt_spec. destruct v as [a b c], w as [a' b' c']; simpl.
  destruct (decide (a = a')), (decide (b = b')), (decide (c = c'));
    subst; auto; lia.
Qed.

(** ** Parsing *)

Lemma digit_pretty_N_char d : d < 10 → digit (pretty_N_char d) = Some d.
Proof.
  intros Hd. apply (bool_decide_eq_true_1 (digit (pretty_N_char d) = Some d)).
  pose (P := λ m : N, bool_decide (digit (pretty_N_char m) = Some m)).
  by apply (N_lt_forallb P 10).
Qed.

(** Reading the digits [pretty_N_go] puts in front of [s]. *)
Lemma parse_digits_pretty_N_go n s :
  parse_digits 0 (pretty_N_go n s) = parse_digits n s.
Proof.
  revert s. induction (N.lt_wf_0 n) as [n _ IH]; intros s.
  destruct (decide (n = 0)) as [->|Hn]; [done|].
  rewrite pretty_N_go_step by lia.
  rewrite IH by (apply N.div_lt; lia). simpl.
  rewrite digit_pretty_N_char by (apply N.mod_lt; lia). f_equal.
  pose proof (N.div_mod n 10). lia.
Qed.

Lemma pretty_N_nonempty (n : N) : pretty n ≠ "".
Proof.
  unfold pretty, pretty_N. case_decide; [done|].
  intros Hp. apply (f_equal String.length) in Hp. revert Hp.
  generalize ("" : string) at 1.
  induction (N.lt_wf_0 n) as [n' _ IH]; intros s.
  destruct (decide (n' = 0)) as [->|Hn].
  - done.
  - rewrite pretty_N_go_step by lia. intros Hp.
    destruct (decide (n' `div` 10 = 0)) as [Hz|Hnz].
    + rewrite Hz in Hp. done.
    + eapply (IH (n' `div` 10)); [apply N.div_lt; lia|done|]. exact Hp.
Qed.

Lemma parse_component_pretty (n : N) : parse_component (pretty n) = Some n.
Proof.
  pose proof (pretty_N_nonempty n) as Hne. unfold parse_component.
  destruct (pretty n) eqn:Hp; [done|]. rewrite <-Hp.
  unfold pretty, pretty_N. case_decide as Hn; [by subst|].
  apply parse_digits_pretty_N_go.
Qed.

Lemma split_go_no_sep sep piece s :
  no_sep sep s = true → split_go sep piece s = [String.rev piece +:+ s].
Proof.
  revert piece; induction s as [|a s IH]; intros piece Hs; simpl in *.
  - by rewrite string_app_nil_r.
  - apply andb_prop in Hs as [Ha%negb_true_iff%bool_decide_eq_false Hs].
    by rewrite decide_False, IH, string_rev_cons_app.
Qed.

Lemma split_go_app sep piece s1 s2 :
  no_sep sep s1 = true →
  split_go sep piece (s1 +:+ String sep s2) =
  (String.rev piece +:+ s1) :: split sep s2.
Proof.
  revert piece; induction s1 as [|a s1 IH]; intros piece Hs; simpl in *.
  - rewrite ?string_app_nil_l, ?string_app_nil_r. simpl. by rewrite decide_True.
  - apply andb_prop in Hs as [Ha%negb_true_iff%bool_decide_eq_false Hs].
    rewrite ?string_app_cons. simpl.
    by rewrite decide_False, IH, string_rev_cons_app.
Qed.

Lemma split_app sep s1 s2 :
  no_sep sep s1 = true → split sep (s1 +:+ String sep s2) = s1 :: split sep s2.
Proof. intros. unfold split at 1. by rewrite split_go_app, string_app_nil_l. Qed.

Lemma split_no_sep sep s : no_sep sep s = true → split sep s = [s].
Proof. intros. unfold split. by rewrite split_go_no_sep, string_app_nil_l. Qed.

Lemma no_sep_pretty_N_go n s :
  no_sep "." s = true → no_sep "." (pretty_N_go n s) = true.
Proof.
  revert s. induction (N.lt_wf_0 n) as [n _ IH]; intros s Hs.
  destruct (decide (n = 0)) as [->|Hn]; [done|].
  rewrite pretty_N_go_step by lia. apply IH; [apply N.div_lt; lia|].
  simpl. rewrite Hs, andb_true_r. apply negb_true_iff, bool_decide_eq_false.
  pose proof (N.mod_lt n 10) as Hd. intros Hc.
  apply (f_equal digit) in Hc. rewrite digit_pretty_N_char in Hc by lia. done.
Qed.

Lemma no_sep_pretty (n : N) : no_sep "." (pretty n) = true.
Proof.
  unfold pretty, pretty_N. case_decide; [done|]. by apply no_sep_pretty_N_go.
Qed.

(** ** The upgrade rules *)

Lemma isUpgradeAllowed_Ok_iff current proposed :
  isUpgradeAllowed current proposed = Ok tt ↔ upgrade_ok current proposed.
Proof.
  unfold isUpgradeAllowed, upgrade_ok. rewrite version_lt_spec.
  case_bool_decide as Heq;
    [subst; split; [done|lia]|].
  destruct (version_ltb proposed current) eqn:Hlt.
  { apply version_lt_spec in Hlt. split; [done|lia]. }
  assert (¬ version_lt proposed current) as Hnlt by (unfold version_lt; congruence).
  rewrite version_lt_spec in Hnlt.
  destruct (N.eqb_spec (major proposed) (major current)) as [Hm|Hm]; simpl;
    [|split; [done|lia]].
  destruct (N.ltb_spec 1 (minor proposed - minor current)); simpl;
    [split; [done|lia]|].
  split; [|done]. intros _. split_and!; [|done|lia].
  destruct (version_lt_trichotomy current proposed) as [H'|[H'|H']];
    [by apply version_lt_spec|congruence|by apply version_lt_spec in H'].
Qed.

Lemma version_ltb_false v w : version_ltb v w = false → v ≠ w → version_lt w v.
Proof.
  intros Hlt Hne. destruct (version_lt_trichotomy v w) as [H|[H|H]]; try done.
  unfold version_lt in H. congruence.
Qed.

#[local] Ltac by_rules :=
  split; [naive_solver lia
         |intros; destruct_or!; destruct_and!; simplify_eq; try done; lia].

Lemma isUpgradeAllowed_Err current proposed e :
  isUpgradeAllowed current proposed = Err e ↔
  (proposed = current ∧ e = NoOp current) ∨
  (version_lt proposed current ∧ e = Downgrade current proposed) ∨
  (version_lt current proposed ∧ major proposed ≠ major current ∧
   e = MajorJump current proposed) ∨
  (version_lt current proposed ∧ major proposed = major current ∧
   minor current + 1 < minor proposed ∧ e = MultiMinorJump current proposed).
Proof.
  unfold isUpgradeAllowed.
  case_bool_decide as Heq; [rewrite !version_lt_spec; by_rules|].
  destruct (version_ltb proposed current) eqn:Hlt.
  { apply version_lt_spec in Hlt. rewrite !version_lt_spec. by_rules. }
  apply version_ltb_false in Hlt; [|done].
  assert (¬ version_lt proposed current) as Hn
    by (intros ?; by eapply (irreflexivity version_lt), transitivity).
  rewrite version_lt_spec in Hlt, Hn. rewrite !version_lt_spec.
  destruct (N.eqb_spec (major proposed) (major current)); simpl; [|by_rules].
  destruct (N.ltb_spec 1 (minor proposed - minor current)); by_rules.
Qed.

(** Printing a version and parsing the text gives the version back. *)
Lemma parseVersion_print v : parseVersion (printVersion v) = Ok v.
Proof.
  unfold parseVersion, printVersion. rewrite !string_app_cons, !string_app_nil_l.
  rewrite !split_app, split_no_sep by apply no_sep_pretty.
  rewrite !parse_component_pretty. by destruct v.
Qed.

(** ** Supported versions *)

Section table.
Context `{VersionTable}.

Lemma validateKubernetesVersion_accepts v k :
  (validateKubernetesVersion v k).2 = [] ↔
  ∃ ver, parseVersion v = Ok ver ∧ (major ver, minor ver) ∈ supported_lines.
Proof.
  unfold validateKubernetesVersion, isSupportedVersion.
  destruct (parseVersion v) as [ver|e]; [|naive_solver].
  case_bool_decide; naive_solver.
Qed.

(** A text that is no version is refused with [ParseError] by every table. *)
Lemma validateKubernetesVersion_ParseError v k e :
  parseVersion v = Err e → (validateKubernetesVersion v k).2 = [e].
Proof. unfold validateKubernetesVersion. by intros ->. Qed.

Lemma validateKubernetesVersion_no_warnings v k :
  (validateKubernetesVersion v k).1 = [].
Proof.
  unfold validateKubernetesVersion.
  destruct (parseVersion v); [|done]. by destruct (isSupportedVersion _).
Qed.

End table.

(** ** Sequences of approved upgrades *)

(** The major version never changes, and the version only grows, along any
    sequence of approved upgrades. *)
Lemma upgrade_steps_invariant v w :
  rtc upgrade_step v w → major w = major v ∧ (v = w ∨ version_lt v w).
Proof.
  induction 1 as [v|u v w Huv _ [IHm IHlt]]; [auto|].
  apply isUpgradeAllowed_Ok_iff in Huv as (Hlt & Hm & _).
  split; [congruence|]. right.
  destruct IHlt as [<-|IHlt]; [done|]. by etrans.
Qed.

(** Every newer version of the same major is reached by approved upgrades,
    one minor release at a time, through the release lines in between. *)
Lemma upgrade_steps_reach_in (P : N → N → Prop) v w :
  version_lt v w → major w = major v →
  (∀ m, minor v ≤ m ≤ minor w → P (major v) m) →
  rtc (upgrade_step_in P) v w.
Proof.
  intros Hlt Hm.
  remember (N.to_nat (minor w - minor v)) as n eqn:Hn.
  revert v Hlt Hm Hn; induction n as [|n IH]; intros v Hlt Hm Hn HP;
    pose proof Hlt as Hlt'%version_lt_spec.
  - apply rtc_once. split; [|rewrite Hm; apply HP; lia].
    apply isUpgradeAllowed_Ok_iff. split_and!; [done..|lia].
  - destruct (decide (minor w = minor v + 1)) as [Heq|Hne].
    { apply rtc_once. split; [|rewrite Hm; apply HP; lia].
      apply isUpgradeAllowed_Ok_iff. split_and!; [done..|lia]. }
    apply (rtc_l _ _ (Version (major v) (minor v + 1) 0)).
    + split; [|apply HP; simpl; lia].
      apply isUpgradeAllowed_Ok_iff. split_and!; simpl; [|done|lia].
      apply version_lt_spec. simpl. lia.
    + apply IH; simpl; [apply version_lt_spec; simpl; lia|done|lia|].
      intros m ?. apply HP. lia.
Qed.

Lemma upgrade_steps_reach v w :
  version_lt v w → major w = major v → rtc upgrade_step v w.
Proof.
  intros Hlt Hm.
  eapply (rtc_subrel (upgrade_step_in (λ _ _, True))); [by intros ?? []|].
  by apply upgrade_steps_reach_in.
Qed.
