(* ===== verification/NameSanitizer.v ===== *)
(** * NameSanitizer: storage account names

    [storageAccountName] is called by the tests and defined outside [src/];
    it is written here from section 4.4 of the specification: the name is put
    in lower case, every character that is not an ASCII letter or digit is
    dropped, the rest is cut to twenty characters and the suffix [acc] is
    appended.  The theorems bound the length of the result, describe its
    characters, and show what the function does not distinguish. *)

From S2P Require Import Prelude.
From stdpp Require Import options.
Set Warnings "-clear-no-such-hyp".

(** ** Strings as sequences of bytes *)

Fixpoint string_map (f : ascii → ascii) (s : string) : string :=
  match s with
  | EmptyString => EmptyString
  | String a s' => String (f a) (string_map f s')
  end.

Fixpoint string_filter (p : ascii → bool) (s : string) : string :=
  match s with
  | EmptyString => EmptyString
  | String a s' => if p a then String a (string_filter p s') else string_filter p s'
  end.

Fixpoint string_take (n : nat) (s : string) : string :=
  match n, s with
  | S n', String a s' => String a (string_take n' s')
  | _, _ => EmptyString
  end.

Fixpoint string_forallb (p : ascii → bool) (s : string) : bool :=
  match s with
  | EmptyString => true
  | String a s' => p a && string_forallb p s'
  end.

(** ** The sanitizer *)

Definition to_lower (a : ascii) : ascii :=
  let n := N_of_ascii a in
  if ((65 <=? n) && (n <=? 90))%N then ascii_of_N (n + 32) else a.

Definition is_lower_alnum (a : ascii) : bool :=
  let n := N_of_ascii a in
  (((97 <=? n) && (n <=? 122)) || ((48 <=? n) && (n <=? 57)))%N.

(** The longest sanitized name that is kept, and the suffix. *)
Definition maxAccountNameLength : nat := 20.
Definition accountSuffix : string := "acc".

Definition sanitize (name : string) : string :=
  string_filter is_lower_alnum (string_map to_lower name).

Definition storageAccountName (name : string) : string :=
  string_take maxAccountNameLength (sanitize name) +:+ accountSuffix.

(** ** Lemmas on the string functions *)

Lemma string_take_length n s : String.length (string_take n s) = n `min` String.length s.
Proof. revert s; induction n as [|n IH]; intros [|a s]; simpl; auto. Qed.

Lemma string_take_all n s : String.length s ≤ n → string_take n s = s.
Proof.
  revert s; induction n as [|n IH]; intros [|a s] Hl; simpl in *; try done; [lia|].
  f_equal. apply IH. lia.
Qed.

Lemma string_forallb_app p s1 s2 :
  string_forallb p (s1 +:+ s2) = string_forallb p s1 && string_forallb p s2.
Proof.
  induction s1 as [|a s1 IH]; [done|].
  rewrite string_app_cons; simpl. by rewrite IH, andb_assoc.
Qed.

Lemma string_forallb_filter p s : string_forallb p (string_filter p s) = true.
Proof.
  induction s as [|a s IH]; [done|]. simpl.
  destruct (p a) eqn:Hp; simpl; by rewrite ?Hp.
Qed.

Lemma string_forallb_take p n s :
  string_forallb p s = true → string_forallb p (string_take n s) = true.
Proof.
  revert s; induction n as [|n IH]; intros [|a s]; simpl; try done.
  intros [-> ?]%andb_prop. simpl. auto.
Qed.

Lemma string_filter_id p s : string_forallb p s = true → string_filter p s = s.
Proof.
  induction s as [|a s IH]; [done|]. simpl.
  intros [-> ?]%andb_prop. f_equal. auto.
Qed.

Lemma string_filter_app p s1 s2 :
  string_filter p (s1 +:+ s2) = string_filter p s1 +:+ string_filter p s2.
Proof.
  induction s1 as [|a s1 IH]; [by rewrite !string_app_nil_l|].
  rewrite string_app_cons; simpl. destruct (p a); by rewrite IH.
Qed.

Lemma string_map_app f s1 s2 :
  string_map f (s1 +:+ s2) = string_map f s1 +:+ string_map f s2.
Proof.
  induction s1 as [|a s1 IH]; [by rewrite !string_app_nil_l|].
  rewrite string_app_cons; simpl. by rewrite IH, string_app_cons.
Qed.

Lemma string_map_id f p s :
  (∀ a, p a = true → f a = a) → string_forallb p s = true → string_map f s = s.
Proof.
  intros Hf. induction s as [|a s IH]; [done|]. simpl.
  intros [Ha ?]%andb_prop. rewrite (Hf a Ha). f_equal. auto.
Qed.

(** ** The characters *)

Lemma to_lower_lower_alnum a : is_lower_alnum a = true → to_lower a = a.
Proof.
  unfold is_lower_alnum, to_lower. cbv zeta. intros Hl.
  destruct ((65 <=? _) && _)%N eqn:Hup; [|done]. exfalso.
  rewrite orb_true_iff, !andb_true_iff, !N.leb_le in Hl.
  rewrite andb_true_iff, !N.leb_le in Hup. lia.
Qed.

Lemma sanitize_lower_alnum name :
  string_forallb is_lower_alnum (sanitize name) = true.
Proof. apply string_forallb_filter. Qed.

(** A sanitized name is a fixed point. *)
Lemma sanitize_id s : string_forallb is_lower_alnum s = true → sanitize s = s.
Proof.
  intros Hs. unfold sanitize.
  rewrite (string_map_id to_lower is_lower_alnum _ to_lower_lower_alnum Hs).
  by apply string_filter_id.
Qed.

Lemma sanitize_idemp name : sanitize (sanitize name) = sanitize name.
Proof. apply sanitize_id, sanitize_lower_alnum. Qed.

Lemma sanitize_app s1 s2 : sanitize (s1 +:+ s2) = sanitize s1 +:+ sanitize s2.
Proof. unfold sanitize. by rewrite string_map_app, string_filter_app. Qed.

(** ** The account name *)

Lemma storageAccountName_length name :
  String.length (storageAccountName name) =
  String.length (sanitize name) `min` 20 + 3.
Proof.
  unfold storageAccountName. rewrite string_app_length, string_take_length.
  unfold maxAccountNameLength, accountSuffix.
  change (String.length "acc") with 3. lia.
Qed.

Lemma storageAccountName_lower_alnum name :
  string_forallb is_lower_alnum (storageAccountName name) = true.
Proof.
  unfold storageAccountName. rewrite string_forallb_app.
  by rewrite string_forallb_take by apply sanitize_lower_alnum.
Qed.

(** A character that is dropped can be removed from the name, wherever it
    stands. *)
Lemma storageAccountName_strip s1 a s2 :
  is_lower_alnum (to_lower a) = false →
  storageAccountName (s1 +:+ String a s2) = storageAccountName (s1 +:+ s2).
Proof.
  intros Ha. unfold storageAccountName. rewrite !sanitize_app.
  unfold sanitize at 2. simpl. by rewrite Ha.
Qed.

(** Letter case is not distinguished. *)
Lemma to_lower_idemp a : to_lower (to_lower a) = to_lower a.
Proof. by destruct a as [[] [] [] [] [] [] [] []]. Qed.

Lemma storageAccountName_case name :
  storageAccountName (string_map to_lower name) = storageAccountName name.
Proof.
  unfold storageAccountName, sanitize. do 3 f_equal.
  induction name as [|a name IH]; [done|]. simpl. by rewrite to_lower_idemp, IH.
Qed.
