(* ===== verification/Credentials.v ===== *)
(** * Credentials: from the kube-config to the attributes

    [flattenKubeConfig] is the consumer of [ParseKubeConfig] in the resource:
    it parses the cluster-admin configuration a deployment returns and
    surfaces the connection parameters as one attribute block.  It is called
    by the tests and defined outside [src/], and written here from sections
    4.3 and 6 of the specification: the host is the first cluster's server,
    the user name the first user's name, the CA certificate is encoded in
    base64, and each credential set (the token as the password, the
    certificate with its key) is present or absent as a whole.

    The theorems show that it succeeds exactly when [ParseKubeConfig] does,
    that its index expressions are safe behind the parser's guards, that a
    block always holds a credential, and what it yields on the document of
    the tests. *)

From stdpp Require Import gmap.
From S2P Require Import Prelude Yaml Json KubeConfig Fixtures Go Base64.
From stdpp Require Import options.
Set Warnings "-clear-no-such-hyp".

(** The entries of a credential set, present when [present] holds. *)
Definition credential (present : bool) (entries : list (string * value)) :
    list (string * value) :=
  if present then entries else [].

Definition kubeConfigValues (name : string) (c : cluster) (u : user) :
    gmap string value :=
  list_to_map
    ([("host", VString (Server c));
      ("username", VString name);
      ("cluster_ca_certificate", VString (base64Encode (ClusterAuthorityData c)))]
     ++ credential (negb (String.eqb (Token u) ""))
          [("password", VString (Token u))]
     ++ credential (negb (String.eqb (ClientCertificteData u) "")
                    && negb (String.eqb (ClientKeyData u) ""))
          [("client_certificate", VString (ClientCertificteData u));
           ("client_key", VString (ClientKeyData u))]).

(** The raw configuration in base64, and the list holding the one block. *)
Definition flattenKubeConfig `{Unmarshaler} (kubeConfigFile : string) :
    result parse_error (string * list value) :=
  let rawKubeConfig := base64Encode kubeConfigFile in
  config ← ParseKubeConfig kubeConfigFile;
  c ← index (Clusters config) 0;
  u ← index (Users config) 0;
  Ok (rawKubeConfig,
      [VMap (kubeConfigValues (userItem_Name u) (Cluster c) (User u))]).

(** The block of the tests' document. *)
Definition fixture_block (dnsPrefix location : string) : gmap string value :=
  list_to_map
    [("host", VString ("https://" +:+ dnsPrefix +:+ "." +:+ location
                       +:+ ".cloudapp.azure.com"));
     ("username", VString (dnsPrefix +:+ "-admin"));
     ("cluster_ca_certificate", VString "MDEyMw==");
     ("client_certificate", VString "4567");
     ("client_key", VString "8910")].

(** ** Lemmas *)

Lemma kubeConfigValues_host name c u :
  kubeConfigValues name c u !! "host" = Some (VString (Server c)).
Proof.
  unfold kubeConfigValues, credential.
  repeat case_match; simpl; by simpl_map.
Qed.

Lemma kubeConfigValues_username name c u :
  kubeConfigValues name c u !! "username" = Some (VString name).
Proof.
  unfold kubeConfigValues, credential.
  repeat case_match; simpl; by simpl_map.
Qed.

Lemma kubeConfigValues_ca name c u :
  kubeConfigValues name c u !! "cluster_ca_certificate" =
  Some (VString (base64Encode (ClusterAuthorityData c))).
Proof.
  unfold kubeConfigValues, credential.
  repeat case_match; simpl; by simpl_map.
Qed.

Lemma kubeConfigValues_password name c u :
  kubeConfigValues name c u !! "password" =
  if decide (Token u = "") then None else Some (VString (Token u)).
Proof.
  unfold kubeConfigValues, credential.
  case_decide as Ht; [rewrite Ht|rewrite (string_eqb_ne _ _ Ht)];
    repeat case_match; simpl; by simpl_map.
Qed.

(** A user that can authenticate gets a credential in the block. *)
Lemma kubeConfigValues_credential name c u :
  has_auth u →
  is_Some (kubeConfigValues name c u !! "password") ∨
  (is_Some (kubeConfigValues name c u !! "client_certificate") ∧
   is_Some (kubeConfigValues name c u !! "client_key")).
Proof.
  intros [Ht|[Hc Hk]].
  - left. rewrite kubeConfigValues_password. by rewrite decide_False.
  - right. unfold kubeConfigValues, credential.
    rewrite (string_eqb_ne _ _ Hc), (string_eqb_ne _ _ Hk).
    case_match; simpl; simpl_map; eauto.
Qed.

Section flatten.
Context `{Unmarshaler}.

(** On a parsed configuration the index expressions are in range. *)
Lemma flattenKubeConfig_parsed kubeConfigFile config :
  ParseKubeConfig kubeConfigFile = Ok config →
  ∃ c cs u us,
    Clusters config = c :: cs ∧ Users config = u :: us ∧
    has_auth (User u) ∧
    flattenKubeConfig kubeConfigFile =
    Ok (base64Encode kubeConfigFile,
        [VMap (kubeConfigValues (userItem_Name u) (Cluster c) (User u))]).
Proof.
  intros Hp. destruct (ParseKubeConfig_valid _ _ Hp) as (c & cs & u & us & Hc & Hu & Ha & _).
  exists c, cs, u, us. split_and!; [done..|].
  unfold flattenKubeConfig. rewrite Hp. simpl. by rewrite Hc, Hu.
Qed.

Lemma flattenKubeConfig_Err kubeConfigFile e :
  ParseKubeConfig kubeConfigFile = Err e → flattenKubeConfig kubeConfigFile = Err e.
Proof. unfold flattenKubeConfig. by intros ->. Qed.

(** C22. [flattenKubeConfig] succeeds exactly when [ParseKubeConfig] does, and
    fails with the parser's error: behind the parser's guards its own index
    expressions [Clusters[0]] and [Users[0]] are in range. *)
Theorem flattenKubeConfig_ParseKubeConfig kubeConfigFile :
  match ParseKubeConfig kubeConfigFile with
  | Ok config =>
      ∃ block, flattenKubeConfig kubeConfigFile =
               Ok (base64Encode kubeConfigFile, [VMap block]) ∧
        block !! "host" = (λ c, VString (Server (Cluster c))) <$> head (Clusters config) ∧
        block !! "username" = (λ u, VString (userItem_Name u)) <$> head (Users config)
  | Err e => flattenKubeConfig kubeConfigFile = Err e
  end.
Proof.
  destruct (ParseKubeConfig kubeConfigFile) as [config|e] eqn:Hp;
    [|by apply flattenKubeConfig_Err].
  destruct (flattenKubeConfig_parsed _ _ Hp) as (c & cs & u & us & Hc & Hu & _ & ->).
  eexists; split; [done|]. rewrite Hc, Hu. simpl.
  by rewrite kubeConfigValues_host, kubeConfigValues_username.
Qed.

(** A block that is returned always carries a credential: the password,
    or the client certificate with its key. *)
Theorem flattenKubeConfig_credential kubeConfigFile raw blocks :
  flattenKubeConfig kubeConfigFile = Ok (raw, blocks) →
  ∃ block, blocks = [VMap block] ∧
    (is_Some (block !! "password") ∨
     (is_Some (block !! "client_certificate") ∧ is_Some (block !! "client_key"))).
Proof.
  intros Hf. destruct (ParseKubeConfig kubeConfigFile) as [config|e] eqn:Hp.
  - destruct (flattenKubeConfig_parsed _ _ Hp)
      as (c & cs & u & us & _ & _ & Ha & Hf').
    rewrite Hf' in Hf. injection Hf as <- <-.
    eexists; split; [done|]. by apply kubeConfigValues_credential.
  - by rewrite (flattenKubeConfig_Err _ _ Hp) in Hf.
Qed.

(** C23. Nothing is lost on the way to the attributes: the raw configuration
    returned decodes from base64 to the text that was parsed, and the CA
    certificate of the block to the authority data of the first cluster. *)
Theorem flattenKubeConfig_base64 kubeConfigFile config :
  ParseKubeConfig kubeConfigFile = Ok config →
  ∃ raw block c ca,
    flattenKubeConfig kubeConfigFile = Ok (raw, [VMap block]) ∧
    base64Decode raw = Some kubeConfigFile ∧
    head (Clusters config) = Some c ∧
    block !! "cluster_ca_certificate" = Some (VString ca) ∧
    base64Decode ca = Some (ClusterAuthorityData (Cluster c)).
Proof.
  intros Hp.
  destruct (flattenKubeConfig_parsed _ _ Hp) as (c & cs & u & us & Hc & _ & _ & ->).
  eexists _, _, c, _. split_and!; [done| |by rewrite Hc| |];
    eauto using base64Decode_Encode, kubeConfigValues_ca.
Qed.

End flatten.

(** C33. On the document of the tests, for every prefix and location without
    quote or backslash, the block holds the server as the host, the user name
    [<prefix>-admin], the base64 encoding of the CA data [0123] and the
    certificate pair, and no password. *)
Theorem flattenKubeConfig_fixture dnsPrefix location :
  plain dnsPrefix = true → plain location = true →
  flattenKubeConfig (testACSEngineK8sClusterKubeConfig dnsPrefix location) =
  Ok (base64Encode (testACSEngineK8sClusterKubeConfig dnsPrefix location),
      [VMap (fixture_block dnsPrefix location)]).
Proof.
  intros Hd Hl. unfold flattenKubeConfig.
  by rewrite (ParseKubeConfig_unmarshalled _ _ (fixture_nonempty _ _)
                (yaml_Unmarshal_fixture _ _ Hd Hl)).
Qed.

Lemma flattenKubeConfig_fixture_witness :
  flattenKubeConfig (testACSEngineK8sClusterKubeConfig "masterfqdn" "southcentralus") =
  Ok (base64Encode (testACSEngineK8sClusterKubeConfig "masterfqdn" "southcentralus"),
      [VMap (fixture_block "masterfqdn" "southcentralus")]).
Proof. by apply flattenKubeConfig_fixture. Defined.

Lemma flattenKubeConfig_credential_witness :
  ∃ block, [VMap (fixture_block "masterfqdn" "southcentralus")] = [VMap block] ∧
    (is_Some (block !! "password") ∨
     (is_Some (block !! "client_certificate") ∧ is_Some (block !! "client_key"))).
Proof.
  apply (flattenKubeConfig_credential
           (testACSEngineK8sClusterKubeConfig "masterfqdn" "southcentralus")
           (base64Encode (testACSEngineK8sClusterKubeConfig "masterfqdn" "southcentralus"))).
  by vm_compute.
Defined.

Lemma flattenKubeConfig_base64_witness :
  ∃ raw block c ca,
    flattenKubeConfig example_token = Ok (raw, [VMap block]) ∧
    base64Decode raw = Some example_token ∧
    head [ {| clusterItem_Name := "";
              Cluster := {| ClusterAuthorityData := ""; Server := "example.com" |} |} ]
      = Some c ∧
    block !! "cluster_ca_certificate" = Some (VString ca) ∧
    base64Decode ca = Some (ClusterAuthorityData (Cluster c)).
Proof.
  apply (flattenKubeConfig_base64 example_token
           {| APIVersion := "";
              Clusters := [ {| clusterItem_Name := "";
                               Cluster := {| ClusterAuthorityData := "";
                                             Server := "example.com" |} |} ];
              Users := [ {| userItem_Name := "";
                            User := {| ClientCertificteData := "";
                                       Token := "secret";
                                       ClientKeyData := "" |} |} ];
              Contexts := []; CurrentContext := ""; Kind := "";
              Preferences := ∅ |}).
  by vm_compute.
Defined.
