(* ===== verification/Schema.v ===== *)
(** * Schema: the types of the attributes

    The attribute schema of the resource (section 6 of the specification):
    the type of every attribute and block, which fields a block requires and
    which it may leave out.  [has_type] checks a value of type [interface{}]
    against a type, [store_typed] an attribute store against the schema of
    the resource.

    The schema is the contract between the host, which hands the resource
    stores that conform to it, and the flatten and expand functions: what
    flatten writes conforms to the schema, and on a store that conforms
    expand never misses a field nor meets a value of another type; what is
    left are the errors of validation (an empty user name, no key, an
    unknown OS, a repeated pool name). *)

From stdpp Require Import gmap.
From S2P Require Import Prelude Yaml KubeConfig Go Api Base64 SpecMapper Fakes Credentials.
From stdpp Require Import options.
Set Warnings "-clear-no-such-hyp".

(** ** Types *)

(** [schema.TypeString], [TypeInt], [TypeBool], [TypeList] with its
    [MinItems], [TypeSet], [TypeMap], and the [schema.Resource] of a block:
    its fields by name, each required or not. *)
Local Unset Elimination Schemes.
Inductive ty : Type :=
| TypeString
| TypeInt
| TypeBool
| TypeList (min : nat) (elem : ty)
| TypeSet (elem : ty)
| TypeMap (elem : ty)
| TypeResource (fields : list (string * (bool * ty))).
Set Elimination Schemes.

(** A field of a block against the block's map: a value of the field's type,
    or nothing when the field is not required. *)
Definition field_typed (check : ty → value → bool) (m : gmap string value)
    (f : string * (bool * ty)) : bool :=
  match m !! f.1 with
  | Some x => check f.2.2 x
  | None => negb f.2.1
  end.

Fixpoint has_type (t : ty) (v : value) {struct t} : bool :=
  match t, v with
  | TypeString, VString _ => true
  | TypeInt, VInt _ => true
  | TypeBool, VBool _ => true
  | TypeList min elem, VList l => (min <=? length l) && forallb (has_type elem) l
  | TypeSet elem, VSet l => forallb (has_type elem) l
  | TypeMap elem, VMap m =>
      bool_decide (map_Forall (λ _ x, has_type elem x = true) m)
  | TypeResource fields, VMap m =>
      bool_decide (map_Forall (λ key _, key ∈ fields.*1) m)
      && (fix go (fs : list (string * (bool * ty))) : bool :=
            match fs with
            | [] => true
            | (key, (required, t')) :: fs' =>
                match m !! key with
                | Some x => has_type t' x
                | None => negb required
                end && go fs'
            end) fields
  | _, _ => false
  end.

(** ** The schema of the resource *)

Definition required (t : ty) : bool * ty := (true, t).
Definition optional (t : ty) : bool * ty := (false, t).

Definition ssh_schema : ty :=
  TypeResource [("key_data", required TypeString)].

Definition linux_profile_schema : ty :=
  TypeResource [("admin_username", required TypeString);
                ("ssh", required (TypeSet ssh_schema))].

Definition service_principal_schema : ty :=
  TypeResource [("client_id", required TypeString);
                ("client_secret", required TypeString)].

Definition master_profile_schema : ty :=
  TypeResource [("count", required TypeInt);
                ("dns_name_prefix", required TypeString);
                ("vm_size", required TypeString);
                ("os_disk_size", optional TypeInt);
                ("fqdn", optional TypeString)].

Definition agent_pool_profiles_schema : ty :=
  TypeResource [("name", required TypeString);
                ("count", required TypeInt);
                ("vm_size", required TypeString);
                ("os_disk_size", optional TypeInt);
                ("os_type", optional TypeString)].

Definition kube_config_schema : ty :=
  TypeResource [("host", required TypeString);
                ("username", required TypeString);
                ("password", optional TypeString);
                ("client_certificate", optional TypeString);
                ("client_key", optional TypeString);
                ("cluster_ca_certificate", required TypeString)].

Definition cluster_schema : ty :=
  TypeResource [("id", optional TypeString);
                ("name", required TypeString);
                ("resource_group", required TypeString);
                ("location", required TypeString);
                ("kubernetes_version", optional TypeString);
                ("linux_profile", required (TypeList 1 linux_profile_schema));
                ("service_principal", required (TypeList 1 service_principal_schema));
                ("master_profile", required (TypeList 1 master_profile_schema));
                ("agent_pool_profiles",
                 required (TypeList 1 agent_pool_profiles_schema));
                ("tags", optional (TypeMap TypeString));
                ("kube_config", optional (TypeList 0 kube_config_schema));
                ("kube_config_raw", optional TypeString)].

(** The fields of a block. *)
Definition fields_of (t : ty) : list (string * (bool * ty)) :=
  match t with TypeResource fields => fields | _ => [] end.

(** An attribute store that conforms to the schema of the resource. *)
Definition store_typed (d : ResourceData) : Prop :=
  has_type cluster_schema (VMap d) = true.

(** The errors expand is left with on a store that conforms. *)
Definition validation (e : ValidationError) : Prop :=
  e = Invalid "admin_username" ∨ e = Invalid "ssh" ∨ e = Invalid "os_type" ∨
  ∃ n, e = Duplicate "name" n.

(** A store that conforms to the schema and declares the same pool twice. *)
Definition duplicate_pools : ResourceData :=
  let pool := VMap (fakeFlattenAgentPoolProfiles "agentpool1" 1 "Standard_D2_v2" 0 false) in
  {[ "name" := VString "cluster"; "resource_group" := VString "group";
     "location" := VString "southcentralus";
     "linux_profile" := VList (fakeFlattenLinuxProfile (λ _, "") "acctestuser");
     "service_principal" := VList (fakeFlattenServicePrincipal (λ _, ""));
     "master_profile" := VList (fakeFlattenMasterProfile 1 "creativeMasterDNSName" "Standard_D2_v2");
     "agent_pool_profiles" := VList [pool; pool] ]}.

(** ** The checker *)

(** The check of a block, field by field. *)
Lemma has_type_resource fields m :
  has_type (TypeResource fields) (VMap m) =
  bool_decide (map_Forall (λ key _, key ∈ fields.*1) m)
  && forallb (field_typed has_type m) fields.
Proof.
  simpl. f_equal. induction fields as [|[key [req t]] fields IH]; [done|].
  simpl. by rewrite IH.
Qed.

(** What the check of a block says of one of its fields. *)
Lemma has_type_field fields m key req t :
  has_type (TypeResource fields) (VMap m) = true →
  (key, (req, t)) ∈ fields →
  match m !! key with
  | Some x => has_type t x = true
  | None => req = false
  end.
Proof.
  rewrite has_type_resource. intros [_ Hf]%andb_prop Hin.
  rewrite forallb_Forall, Forall_forall in Hf. apply Hf in Hin.
  unfold field_typed in Hin. simpl in Hin.
  destruct (m !! key); [done|]. by destruct req.
Qed.

(** A required field of a type is present with a value of that type. *)
Lemma has_type_required fields m key t :
  has_type (TypeResource fields) (VMap m) = true →
  (key, required t) ∈ fields →
  ∃ x, m !! key = Some x ∧ has_type t x = true.
Proof.
  intros Hm Hin. pose proof (has_type_field _ _ _ _ _ Hm Hin) as Hk.
  destruct (m !! key) as [x|]; [by exists x|done].
Qed.

Lemma has_type_string v : has_type TypeString v = true ↔ ∃ s, v = VString s.
Proof. destruct v; naive_solver. Qed.

Lemma has_type_int v : has_type TypeInt v = true ↔ ∃ n, v = VInt n.
Proof. destruct v; naive_solver. Qed.

Lemma has_type_list min elem v :
  has_type (TypeList min elem) v = true ↔
  ∃ l, v = VList l ∧ min ≤ length l ∧ Forall (λ x, has_type elem x = true) l.
Proof.
  destruct v as [| | | |l| |]; try (split; [done|by intros (? & ? & _)]).
  change (has_type (TypeList min elem) (VList l))
    with ((min <=? length l) && forallb (has_type elem) l).
  rewrite andb_true_iff, Nat.leb_le, forallb_Forall. naive_solver.
Qed.

Lemma has_type_set elem v :
  has_type (TypeSet elem) v = true ↔
  ∃ l, v = VSet l ∧ Forall (λ x, has_type elem x = true) l.
Proof.
  destruct v as [| | | | | |l]; try (split; [done|by intros (? & ? & _)]).
  change (has_type (TypeSet elem) (VSet l)) with (forallb (has_type elem) l).
  rewrite forallb_Forall. naive_solver.
Qed.

Lemma has_type_map elem v :
  has_type (TypeMap elem) v = true ↔
  ∃ m, v = VMap m ∧ map_Forall (λ _ x, has_type elem x = true) m.
Proof.
  destruct v as [| | | | |m|]; try (split; [done|by intros (? & ? & _)]).
  change (has_type (TypeMap elem) (VMap m))
    with (bool_decide (map_Forall (λ _ x, has_type elem x = true) m)).
  rewrite bool_decide_eq_true. naive_solver.
Qed.

Lemma has_type_resource_inv fields v :
  has_type (TypeResource fields) v = true → ∃ m, v = VMap m.
Proof. destruct v; try done. by eexists. Qed.

(** A list block with at least one item starts with a map of the block's
    type. *)
Lemma has_type_block fields v :
  has_type (TypeList 1 (TypeResource fields)) v = true →
  ∃ m rest, v = VList (VMap m :: rest) ∧
            has_type (TypeResource fields) (VMap m) = true.
Proof.
  intros (l & -> & Hlen & Hl)%has_type_list.
  destruct Hl as [|x rest Hx _]; [simpl in Hlen; lia|].
  destruct (has_type_resource_inv _ _ Hx) as [m ->]. by eexists _, _.
Qed.

(** ** Reading a typed block *)

(** Membership of a field in a schema written out. *)
Local Ltac field_in :=
  solve [repeat first [apply list_elem_of_here | apply list_elem_of_further]].

Section typed_block.
Context (fields : list (string * (bool * ty))) (m : gmap string value).
Context (Hm : has_type (TypeResource fields) (VMap m) = true).

Lemma field_string_typed key :
  (key, required TypeString) ∈ fields → ∃ s, field_string m key = Ok s.
Proof using Hm.
  intros (x & Hx & [s ->]%has_type_string)%(has_type_required _ _ _ _ Hm).
  exists s. unfold field_string. by rewrite Hx.
Qed.

Lemma field_int_typed key :
  (key, required TypeInt) ∈ fields → ∃ n, field_int m key = Ok n.
Proof using Hm.
  intros (x & Hx & [n ->]%has_type_int)%(has_type_required _ _ _ _ Hm).
  exists n. unfold field_int. by rewrite Hx.
Qed.

Lemma field_optional_int_typed key :
  (key, optional TypeInt) ∈ fields → ∃ n, field_optional_int m key = Ok n.
Proof using Hm.
  intros Hk%(has_type_field _ _ _ _ _ Hm). unfold field_optional_int.
  destruct (m !! key) as [x|]; [|by eexists].
  apply has_type_int in Hk as [n ->]. by eexists.
Qed.

Lemma field_optional_string_typed key :
  (key, optional TypeString) ∈ fields →
  m !! key = None ∨ ∃ s, m !! key = Some (VString s).
Proof using Hm.
  intros Hk%(has_type_field _ _ _ _ _ Hm).
  destruct (m !! key) as [x|]; [|by left].
  apply has_type_string in Hk as [s ->]. right. by eexists.
Qed.

End typed_block.

(** A required block of a typed store. *)
Lemma block_typed d name fields :
  store_typed d →
  (name, required (TypeList 1 (TypeResource fields))) ∈
    match cluster_schema with TypeResource fs => fs | _ => [] end →
  ∃ m, block d name = Ok m ∧ has_type (TypeResource fields) (VMap m) = true.
Proof.
  intros Hd (x & Hx & (m & rest & -> & Hm)%has_type_block)%(has_type_required _ _ _ _ Hd).
  exists m. unfold block, d_GetOk, ResourceData in *. by rewrite Hx.
Qed.

(** ** Expand on a typed store *)

(** The next statement of a function, once a read has given its value. *)
Local Ltac next := rewrite ?bind_Ok; cbv beta.

Section expand_typed.
Context (d : ResourceData) (Hd : store_typed d).

Lemma store_string_typed key :
  (key, required TypeString) ∈
    match cluster_schema with TypeResource fs => fs | _ => [] end →
  ∃ s, field_string d key = Ok s.
Proof using Hd. apply (field_string_typed _ _ Hd). Qed.

Lemma expandPublicKey_typed v :
  has_type ssh_schema v = true → ∃ s, expandPublicKey v = Ok s.
Proof.
  intros Hv. destruct (has_type_resource_inv _ _ Hv) as [m ->].
  apply (field_string_typed _ _ Hv). field_in.
Qed.

Lemma expandLinuxProfile_typed e :
  expandLinuxProfile d = Err e → validation e.
Proof using Hd.
  unfold expandLinuxProfile, validation.
  edestruct (block_typed d "linux_profile") as (m & -> & Hm); [exact Hd|field_in|]; next.
  destruct (field_string_typed _ _ Hm "admin_username") as [s ->]; [field_in|]; next.
  destruct (has_type_required _ _ "ssh" (TypeSet ssh_schema) Hm)
    as (x & -> & (items & -> & Hitems)%has_type_set); [field_in|]; next.
  destruct (traverse_Forall_Ok expandPublicKey items) as [keys Hkeys].
  { eapply Forall_impl; [exact Hitems|]. apply expandPublicKey_typed. }
  rewrite Hkeys; next. repeat case_match; naive_solver.
Qed.

Lemma expandServicePrincipal_typed : ∃ sp, expandServicePrincipal d = Ok sp.
Proof using Hd.
  unfold expandServicePrincipal.
  edestruct (block_typed d "service_principal") as (m & -> & Hm); [exact Hd|field_in|]; next.
  destruct (field_string_typed _ _ Hm "client_id") as [? ->]; [field_in|]; next.
  destruct (field_string_typed _ _ Hm "client_secret") as [? ->]; [field_in|]; next.
  by eexists.
Qed.

Lemma expandMasterProfile_typed : ∃ mp, expandMasterProfile d = Ok mp.
Proof using Hd.
  unfold expandMasterProfile.
  edestruct (block_typed d "master_profile") as (m & -> & Hm); [exact Hd|field_in|]; next.
  destruct (field_int_typed _ _ Hm "count") as [? ->]; [field_in|]; next.
  destruct (field_string_typed _ _ Hm "dns_name_prefix") as [? ->]; [field_in|]; next.
  destruct (field_string_typed _ _ Hm "vm_size") as [? ->]; [field_in|]; next.
  destruct (field_optional_int_typed _ _ Hm "os_disk_size") as [? ->]; [field_in|]; next.
  by eexists.
Qed.

Lemma expandAgentPoolProfile_typed v e :
  has_type agent_pool_profiles_schema v = true →
  expandAgentPoolProfile v = Err e → e = Invalid "os_type".
Proof.
  intros Hv. destruct (has_type_resource_inv _ _ Hv) as [m ->].
  unfold expandAgentPoolProfile.
  destruct (field_string_typed _ _ Hv "name") as [? ->]; [field_in|]; next.
  destruct (field_int_typed _ _ Hv "count") as [? ->]; [field_in|]; next.
  destruct (field_string_typed _ _ Hv "vm_size") as [? ->]; [field_in|]; next.
  destruct (field_optional_int_typed _ _ Hv "os_disk_size") as [? ->]; [field_in|]; next.
  unfold field_os_type.
  destruct (field_optional_string_typed _ _ Hv "os_type") as [->|[s ->]];
    [field_in|done|].
  simpl. case_decide; simpl; congruence.
Qed.

Lemma expandAgentPoolProfiles_typed e :
  expandAgentPoolProfiles d = Err e → validation e.
Proof using Hd.
  unfold expandAgentPoolProfiles, validation, d_GetOk.
  destruct (has_type_required _ _ "agent_pool_profiles"
              (TypeList 1 agent_pool_profiles_schema) Hd)
    as (x & Hx & (configs & -> & _ & Hconfigs)%has_type_list); [field_in|].
  unfold ResourceData in *. rewrite Hx.
  destruct (traverse expandAgentPoolProfile configs) as [profiles|e'] eqn:Ht; simpl.
  - case_match; naive_solver.
  - intros [= ->]. apply traverse_Err in Ht as (v & Hv & He).
    rewrite Forall_forall in Hconfigs.
    rewrite (expandAgentPoolProfile_typed v e (Hconfigs v Hv) He). auto.
Qed.

Lemma expandTags_typed : ∃ tags, expandTags d = Ok tags.
Proof using Hd.
  unfold expandTags, d_GetOk.
  pose proof (has_type_field _ _ "tags" false (TypeMap TypeString) Hd) as Ht.
  unfold ResourceData in *.
  destruct (d !! "tags") as [x|]; [|by eexists].
  apply has_type_map in Ht as (m & -> & Hm); [|field_in].
  rewrite decide_True; [by eexists|].
  intros k v Hk. apply Hm, has_type_string in Hk as [s ->]. by eexists.
Qed.

End expand_typed.

(** C5. Type soundness of expand: on a store that conforms to the schema,
    [expandClusterSpecification] never misses a field and never meets a
    value of another type; when it fails, it is with one of the four errors
    of validation: an empty user name, no SSH key, an OS that is neither
    Linux nor Windows, or a pool name that occurs twice. *)
Theorem expandClusterSpecification_typed (d : ResourceData) e :
  store_typed d → expandClusterSpecification d = Err e → validation e.
Proof.
  intros Hd. unfold expandClusterSpecification.
  destruct (store_string_typed d Hd "name") as [? ->]; [field_in|]; next.
  destruct (store_string_typed d Hd "resource_group") as [? ->]; [field_in|]; next.
  destruct (store_string_typed d Hd "location") as [? ->]; [field_in|]; next.
  destruct (expandLinuxProfile d) eqn:Hl; next;
    [|intros [= <-]; by eapply expandLinuxProfile_typed].
  destruct (expandServicePrincipal_typed d Hd) as [? ->]; next.
  destruct (expandMasterProfile_typed d Hd) as [? ->]; next.
  destruct (expandAgentPoolProfiles d) eqn:Ha; next;
    [|intros [= <-]; by eapply expandAgentPoolProfiles_typed].
  by destruct (expandTags_typed d Hd) as [? ->].
Qed.

Lemma expandClusterSpecification_typed_witness :
  validation (Duplicate "name" "agentpool1").
Proof. by apply (expandClusterSpecification_typed duplicate_pools). Defined.

(** ** What flatten writes conforms to the schema *)

Lemma flatten_key_typed s : has_type ssh_schema (flatten_key s) = true.
Proof. by vm_compute. Qed.

Lemma keys_typed keys :
  has_type (TypeSet ssh_schema) (VSet (flatten_key <$> keys)) = true.
Proof.
  apply has_type_set. eexists; split; [done|].
  apply Forall_fmap, Forall_true, flatten_key_typed.
Qed.

(** A block written out field by field conforms when its fields do. *)
Lemma has_type_resource_intro fields m :
  map_Forall (λ key _, key ∈ fields.*1) m →
  Forall (λ f, field_typed has_type m f = true) fields →
  has_type (TypeResource fields) (VMap m) = true.
Proof.
  intros Hk Hf. rewrite has_type_resource, andb_true_iff, forallb_Forall.
  by rewrite bool_decide_eq_true.
Qed.

(** The keys of a map written as inserts are those of the schema. *)
Local Ltac keys_in :=
  repeat first
    [ apply map_Forall_empty
    | apply map_Forall_insert_2; [by repeat constructor|] ].

Lemma flattenLinuxProfile_typed profile l :
  flattenLinuxProfile profile = Ok l →
  has_type (TypeList 1 linux_profile_schema) (VList l) = true.
Proof.
  rewrite flattenLinuxProfile_unfold. intros [= <-].
  apply has_type_list. eexists; split_and!; [done|simpl; lia|].
  repeat constructor. apply has_type_resource_intro.
  - keys_in.
  - repeat constructor; unfold field_typed; simpl; simpl_map; try done.
    apply keys_typed.
Qed.

Lemma flattenServicePrincipal_typed profile l :
  flattenServicePrincipal profile = Ok l →
  has_type (TypeList 1 service_principal_schema) (VList l) = true.
Proof. intros [= <-]. by vm_compute. Qed.

Lemma flattenMasterProfile_typed profile location l :
  flattenMasterProfile profile location = Ok l →
  has_type (TypeList 1 master_profile_schema) (VList l) = true.
Proof.
  intros [= <-]. unfold optional_zero. case_decide; by vm_compute.
Qed.

Lemma flattenAgentPoolProfile_typed pool :
  has_type agent_pool_profiles_schema (flattenAgentPoolProfile pool) = true.
Proof.
  unfold flattenAgentPoolProfile, optional_zero.
  case_decide; destruct (String.eqb _ _); by vm_compute.
Qed.

Lemma flattenAgentPoolProfiles_typed profiles l :
  profiles ≠ [] → flattenAgentPoolProfiles profiles = Ok l →
  has_type (TypeList 1 agent_pool_profiles_schema) (VList l) = true.
Proof.
  intros Hne [= <-]. apply has_type_list. eexists; split_and!; [done| |].
  - rewrite length_fmap. destruct profiles; [done|simpl; lia].
  - apply Forall_fmap, Forall_true, flattenAgentPoolProfile_typed.
Qed.

Lemma flattenTags_typed tags m :
  flattenTags tags = Ok m → has_type (TypeMap TypeString) (VMap m) = true.
Proof.
  intros [= <-]. apply has_type_map. eexists; split; [done|].
  intros k v. rewrite lookup_fmap, fmap_Some. by intros (s & _ & ->).
Qed.

Lemma kubeConfigValues_typed name c u :
  has_type kube_config_schema (VMap (kubeConfigValues name c u)) = true.
Proof.
  unfold kubeConfigValues, credential. repeat case_match; by vm_compute.
Qed.

(** Writing a value of the type of its field keeps a block well typed. *)
Lemma has_type_insert fields m key req t v :
  NoDup fields.*1 → (key, (req, t)) ∈ fields →
  has_type (TypeResource fields) (VMap m) = true → has_type t v = true →
  has_type (TypeResource fields) (VMap (<[key := v]> m)) = true.
Proof.
  intros Hnd Hin Hm Hv. pose proof Hm as Hm'. rewrite has_type_resource in Hm'.
  apply andb_prop in Hm' as [Hk%bool_decide_eq_true Hf%forallb_Forall].
  apply has_type_resource_intro.
  - apply map_Forall_insert_2; [|done].
    apply list_elem_of_fmap. by exists (key, (req, t)).
  - rewrite Forall_forall in Hf |- *. intros [key' [req' t']] Hin'.
    unfold field_typed; simpl. destruct (decide (key' = key)) as [->|Hne].
    + rewrite lookup_insert_eq.
      apply (elem_of_list_to_map_1 (M:=gmap string)) in Hin, Hin'; [|done..].
      by simplify_eq.
    + rewrite lookup_insert_ne by done. by apply (Hf (key', (req', t'))).
Qed.

(** [d.Set] of a value of the type the schema gives its attribute keeps the
    store well typed. *)
Lemma d_Set_typed d key req t v :
  (key, (req, t)) ∈ fields_of cluster_schema →
  store_typed d → has_type t v = true → store_typed (d_Set d key v).
Proof.
  intros Hin. apply has_type_insert with (req := req); [|done].
  compute_done.
Qed.

(** The attributes a specification with at least one pool is flattened to
    conform to the schema of the resource. *)
Lemma flattenClusterSpecification_typed spec d :
  spec_AgentPoolProfiles spec ≠ [] →
  flattenClusterSpecification spec = Ok d → store_typed d.
Proof.
  unfold flattenClusterSpecification, store_typed. intros Hne.
  destruct (flattenLinuxProfile _) as [lp|] eqn:Hlp; [|done].
  destruct (flattenServicePrincipal _) as [sp|] eqn:Hsp; [|done].
  destruct (flattenMasterProfile _ _) as [mp|] eqn:Hmp; [|done].
  destruct (flattenAgentPoolProfiles _) as [ps|] eqn:Hps; [|done].
  destruct (flattenTags _) as [tags|] eqn:Ht; [|done].
  cbn [mbind result_mbind result_bind]. intros [= <-].
  apply flattenLinuxProfile_typed in Hlp.
  apply flattenServicePrincipal_typed in Hsp.
  apply flattenMasterProfile_typed in Hmp.
  apply flattenAgentPoolProfiles_typed in Hps; [|done].
  apply flattenTags_typed in Ht.
  apply has_type_resource_intro;
    destruct (spec_KubernetesVersion spec); unfold d_Set; simpl; [keys_in..| |];
    repeat first [apply List.Forall_nil | apply List.Forall_cons];
    unfold field_typed; cbn [fst snd required optional]; by simpl_map.
Qed.

(** A store that conforms to the schema expands to a specification with
    at least one pool. *)
Lemma expandClusterSpecification_pools d spec :
  store_typed d → expandClusterSpecification d = Ok spec →
  spec_AgentPoolProfiles spec ≠ [].
Proof.
  intros Hd H.
  destruct (has_type_required _ _ "agent_pool_profiles"
              (TypeList 1 agent_pool_profiles_schema) Hd) as (v & Hv & Ht);
    [field_in|].
  apply has_type_list in Ht as (l & -> & Hlen & _).
  unfold expandClusterSpecification in H.
  do 6 (apply bind_Ok_inv in H as (? & _ & H)).
  apply bind_Ok_inv in H as (ps & Hps & H).
  apply bind_Ok_inv in H as (? & _ & [= <-]). simpl.
  unfold expandAgentPoolProfiles, d_GetOk in Hps. unfold ResourceData in *.
  rewrite Hv in Hps. destruct (traverse _ l) as [ps'|] eqn:Hl; [|done].
  apply traverse_length in Hl. simpl in Hps.
  destruct (first_duplicate _); simplify_eq. intros ->. simpl in *. lia.
Qed.

(** C30. What the builders of the tests build conforms to the schema of the
    block it stands for, for all arguments and every environment: the fields
    are those of the block, with the types the schema declares, so that the
    type assertions of the tests that read them back hold. *)
Theorem fakes_typed (Getenv : environ) adminUsername count dnsNamePrefix vmSize
    name agents agentSize osDiskSizeGB windows :
  has_type (TypeList 1 linux_profile_schema)
    (VList (fakeFlattenLinuxProfile Getenv adminUsername)) = true ∧
  has_type (TypeList 1 service_principal_schema)
    (VList (fakeFlattenServicePrincipal Getenv)) = true ∧
  has_type (TypeList 1 master_profile_schema)
    (VList (fakeFlattenMasterProfile count dnsNamePrefix vmSize)) = true ∧
  has_type agent_pool_profiles_schema
    (VMap (fakeFlattenAgentPoolProfiles name agents agentSize osDiskSizeGB windows))
    = true.
Proof.
  split_and!; [by vm_compute..|].
  unfold fakeFlattenAgentPoolProfiles. cbv zeta.
  destruct windows; case_bool_decide; by vm_compute.
Qed.
