(* ===== verification/Checks.v ===== *)
(** * Checks: the deployment checks of the acceptance tests

    Models [testCheckACSEngineClusterExists] and
    [testCheckACSEngineClusterDestroy] of
    [src/acsengine/resource_acsengine_kubernetes_cluster_test.go].  Both read
    the Terraform state (the resources of the root module, each with its type
    and the attributes of its primary instance) and ask the deployments
    client for the deployment named by the attributes [resource_group] and
    [name].  The client is the class [DeploymentsClient]: a call returns an
    error or a response with its status code.

    [testCheckACSEngineClusterDestroy] ranges over a Go map, whose iteration
    order is not specified: the order is the list the function is given, and
    the theorems say when the verdict depends on it. *)

From stdpp Require Import gmap.
From S2P Require Import Prelude.
From stdpp Require Import options.
Set Warnings "-clear-no-such-hyp".

Local Open Scope Z_scope.

(** ** The state and the client *)

Record InstanceState := { Attributes : gmap string string }.

Record ResourceState := { rs_Type : string; Primary : InstanceState }.

(** [s.RootModule().Resources]. *)
Definition Resources : Type := gmap string ResourceState.

Record Response := { StatusCode : Z }.

Global Instance Response_eq_dec : EqDecision Response.
Proof. solve_decision. Defined.

(** [deployClient.Get(ctx, resourceGroup, name)]. *)
Class DeploymentsClient := deployClient_Get : string → string → result string Response.

Definition StatusNotFound : Z := 404.

(** [m[k]] on a [map[string]string]: the empty string when the key is
    absent. *)
Definition attr (attributes : gmap string string) (key : string) : string :=
  default "" (attributes !! key).

Inductive check_error :=
| NotFound (name : string)
| NoResourceGroup (name : string)
| GetFailed (err : string)
| DoesNotExist (name resourceGroup : string)
| StillExists (resp : Response).

Global Instance check_error_eq_dec : EqDecision check_error.
Proof. solve_decision. Defined.

Section checks.
Context `{DeploymentsClient}.

Definition testCheckACSEngineClusterExists (name : string) (s : Resources) :
    result check_error unit :=
  match s !! name with
  | None => Err (NotFound name)
  | Some rs =>
      let name := attr (Attributes (Primary rs)) "name" in
      match Attributes (Primary rs) !! "resource_group" with
      | None => Err (NoResourceGroup name)
      | Some resourceGroup =>
          match deployClient_Get resourceGroup name with
          | Err err => Err (GetFailed err)
          | Ok resp =>
              failif StatusCode resp =? StatusNotFound
                then DoesNotExist name resourceGroup;
              Ok tt
          end
      end
  end.

(** The loop of [testCheckACSEngineClusterDestroy] over the resources in the
    order the range visits them. *)
Fixpoint testCheckACSEngineClusterDestroy (resources : list ResourceState) :
    result check_error unit :=
  match resources with
  | [] => Ok tt
  | rs :: resources' =>
      if negb (String.eqb (rs_Type rs) "acsengine_kubernetes_cluster") then
        testCheckACSEngineClusterDestroy resources'
      else
        let name := attr (Attributes (Primary rs)) "name" in
        let resourceGroup := attr (Attributes (Primary rs)) "resource_group" in
        match deployClient_Get resourceGroup name with
        | Err err => Ok tt
        | Ok resp =>
            failif negb (StatusCode resp =? StatusNotFound) then StillExists resp;
            testCheckACSEngineClusterDestroy resources'
        end
  end.

(** ** What the checks are meant to establish *)

Definition is_cluster (rs : ResourceState) : Prop :=
  rs_Type rs = "acsengine_kubernetes_cluster".

Global Instance is_cluster_dec rs : Decision (is_cluster rs).
Proof. unfold is_cluster. apply _. Defined.

(** What the client answers for the deployment of a resource. *)
Definition lookup_deployment (rs : ResourceState) : result string Response :=
  deployClient_Get (attr (Attributes (Primary rs)) "resource_group")
                   (attr (Attributes (Primary rs)) "name").

(** The deployment of the resource is gone: the client answers 404. *)
Definition gone (rs : ResourceState) : Prop :=
  ∃ resp, lookup_deployment rs = Ok resp ∧ StatusCode resp = StatusNotFound.

Global Instance gone_dec rs : Decision (gone rs).
Proof.
  unfold gone. destruct (lookup_deployment rs) as [resp|err].
  - destruct (decide (StatusCode resp = StatusNotFound)).
    + left. by exists resp.
    + right. intros (resp' & [= <-] & ?). done.
  - right. by intros (? & ? & _).
Defined.

(** The client answered for the resource. *)
Definition answered (rs : ResourceState) : Prop :=
  is_Some (match lookup_deployment rs with Ok r => Some r | Err _ => None end).

(** A client for which the deployment [a] cannot be queried and the
    deployment [b] still exists. *)
Definition flaky_client : DeploymentsClient := λ resourceGroup name,
  if String.eqb name "a" then Err "timeout" else Ok {| StatusCode := 200 |}.

(** ** The verdict of the destroy check can depend on the order *)

(** A client that answers for every deployment: [a] is gone, the others
    exist. *)
Definition steady_client : DeploymentsClient := λ resourceGroup name,
  Ok {| StatusCode := if String.eqb name "a" then 404 else 200 |}.

Definition cluster_resource (name : string) : ResourceState :=
  {| rs_Type := "acsengine_kubernetes_cluster";
     Primary := {| Attributes := {[ "name" := name; "resource_group" := "rg" ]} |} |}.

(** ** Lemmas *)

Lemma Destroy_cons_other rs resources :
  ¬ is_cluster rs →
  testCheckACSEngineClusterDestroy (rs :: resources) =
  testCheckACSEngineClusterDestroy resources.
Proof. intros Hc. simpl. by rewrite (string_eqb_ne _ _ Hc). Qed.

Lemma Destroy_cons_cluster rs resources :
  is_cluster rs →
  testCheckACSEngineClusterDestroy (rs :: resources) =
  match lookup_deployment rs with
  | Err err => Ok tt
  | Ok resp =>
      if decide (StatusCode resp = StatusNotFound)
      then testCheckACSEngineClusterDestroy resources
      else Err (StillExists resp)
  end.
Proof.
  intros Hc. simpl. rewrite Hc. simpl. unfold lookup_deployment.
  destruct (deployClient_Get _ _) as [resp|]; [|done].
  case_decide as Hs; [by rewrite Hs|].
  by rewrite (proj2 (Z.eqb_neq _ _) Hs).
Qed.

Lemma Destroy_cons_gone rs resources :
  gone rs →
  testCheckACSEngineClusterDestroy (rs :: resources) =
  testCheckACSEngineClusterDestroy resources.
Proof.
  intros (resp & Hl & Hs). destruct (decide (is_cluster rs)) as [Hc|Hc].
  - by rewrite Destroy_cons_cluster, Hl, decide_True.
  - by apply Destroy_cons_other.
Qed.

(** C21. The destroy check fails only with the response of a cluster of the
    state whose deployment the client still finds. *)
Theorem Destroy_Err resources e :
  testCheckACSEngineClusterDestroy resources = Err e →
  ∃ rs resp, rs ∈ resources ∧ is_cluster rs ∧ lookup_deployment rs = Ok resp ∧
             StatusCode resp ≠ StatusNotFound ∧ e = StillExists resp.
Proof.
  induction resources as [|rs resources IH]; [done|].
  destruct (decide (is_cluster rs)) as [Hc|Hc].
  - rewrite Destroy_cons_cluster by done.
    destruct (lookup_deployment rs) as [resp|] eqn:Hl; [|done].
    case_decide; [|intros [= <-]; exists rs, resp; split_and!; by try left].
    intros (rs' & resp' & ? & ?)%IH. exists rs', resp'. split; [by right|done].
  - rewrite Destroy_cons_other by done.
    intros (rs' & resp' & ? & ?)%IH. exists rs', resp'. split; [by right|done].
Qed.

(** When every cluster of the state is gone the check passes. *)
Lemma Destroy_all_gone resources :
  Forall (λ rs, is_cluster rs → gone rs) resources →
  testCheckACSEngineClusterDestroy resources = Ok tt.
Proof.
  induction 1 as [|rs resources Hrs _ IH]; [done|].
  destruct (decide (is_cluster rs)) as [Hc|Hc].
  - by rewrite Destroy_cons_gone by auto.
  - by rewrite Destroy_cons_other.
Qed.

(** When the client answers for every cluster, the check passes exactly when
    every cluster is gone. *)
Lemma Destroy_answered resources :
  Forall (λ rs, is_cluster rs → answered rs) resources →
  testCheckACSEngineClusterDestroy resources = Ok tt ↔
  Forall (λ rs, is_cluster rs → gone rs) resources.
Proof.
  intros Ha. split; [|apply Destroy_all_gone].
  induction Ha as [|rs resources Hrs _ IH]; [constructor|].
  destruct (decide (is_cluster rs)) as [Hc|Hc].
  - rewrite Destroy_cons_cluster by done. specialize (Hrs Hc).
    unfold answered in Hrs.
    destruct (lookup_deployment rs) as [resp|] eqn:Hl; [|by destruct Hrs].
    case_decide; [|done]. intros ?%IH. constructor; [|done].
    intros _. by exists resp.
  - rewrite Destroy_cons_other by done. intros ?%IH. by constructor.
Qed.

(** C8. The existence check passes exactly when the state holds the
    resource, the resource records its resource group, and the client answers
    for the deployment with a status other than 404. *)
Theorem Exists_Ok_iff name s :
  testCheckACSEngineClusterExists name s = Ok tt ↔
  ∃ rs resourceGroup resp,
    s !! name = Some rs ∧
    Attributes (Primary rs) !! "resource_group" = Some resourceGroup ∧
    deployClient_Get resourceGroup (attr (Attributes (Primary rs)) "name") = Ok resp ∧
    StatusCode resp ≠ StatusNotFound.
Proof.
  unfold testCheckACSEngineClusterExists.
  destruct (s !! name) as [rs|]; [|split; [done|by intros (?&?&?&?&_)]].
  destruct (Attributes (Primary rs) !! "resource_group") as [rg|] eqn:Hrg;
    [|split; [done|intros (?&?&?&?&?&_); congruence]].
  destruct (deployClient_Get rg _) as [resp|] eqn:Hg;
    [|split; [done|intros (?&?&?&?&?&?&_); congruence]].
  destruct (Z.eqb_spec (StatusCode resp) StatusNotFound); simpl.
  - split; [done|]. intros (?&?&?&?&?&?&?). congruence.
  - split; [|done]. intros _. by exists rs, rg, resp.
Qed.

(** C12. When the client answers for every cluster of the state, the verdict
    of the destroy check does not depend on the order in which the range
    visits the resources. *)
Theorem Destroy_Permutation resources resources' :
  Forall (λ rs, is_cluster rs → answered rs) resources →
  resources ≡ₚ resources' →
  testCheckACSEngineClusterDestroy resources = Ok tt ↔
  testCheckACSEngineClusterDestroy resources' = Ok tt.
Proof.
  intros Ha Hp. rewrite !Destroy_answered; [by rewrite Hp|by rewrite <-Hp|done].
Qed.

(** A cluster for which the client returns an error ends the destroy
    check with a pass, whatever resources are left to visit. *)
Theorem Destroy_Get_error rs err resources :
  is_cluster rs → lookup_deployment rs = Err err →
  testCheckACSEngineClusterDestroy (rs :: resources) = Ok tt.
Proof. intros Hc Hl. by rewrite Destroy_cons_cluster, Hl. Qed.

(** C20. A cluster the existence check accepts makes the destroy check fail in
    every order, when the client answers for every cluster. *)
Theorem Exists_Destroy name (s : Resources) rs resources :
  s !! name = Some rs → is_cluster rs →
  testCheckACSEngineClusterExists name s = Ok tt →
  resources ≡ₚ (map_to_list s).*2 →
  Forall (λ rs, is_cluster rs → answered rs) resources →
  testCheckACSEngineClusterDestroy resources ≠ Ok tt.
Proof.
  intros Hs Hc (rs' & rg & resp & Hs' & Hrg & Hg & Hst)%Exists_Ok_iff Hp Ha.
  rewrite Hs in Hs'. injection Hs' as <-.
  rewrite Destroy_answered by done. intros Hall.
  assert (rs ∈ resources) as Hin.
  { rewrite Hp. apply list_elem_of_fmap. exists (name, rs).
    split; [done|]. by apply elem_of_map_to_list. }
  destruct (proj1 (Forall_forall _ _) Hall rs Hin Hc) as (resp' & Hl & Hst').
  unfold lookup_deployment, attr in Hl. rewrite Hrg in Hl. simpl in Hl.
  unfold attr in Hg. congruence.
Qed.

End checks.

(** C7. With the same resources and the same client, one order of the range
    passes the destroy check while a cluster is still deployed, and another
    order fails it. *)
Theorem Destroy_order_dependent :
  ∃ (client : DeploymentsClient) resources resources',
    resources ≡ₚ resources' ∧
    testCheckACSEngineClusterDestroy resources = Ok tt ∧
    testCheckACSEngineClusterDestroy resources' =
      Err (StillExists {| StatusCode := 200 |}).
Proof.
  exists flaky_client, [cluster_resource "a"; cluster_resource "b"],
    [cluster_resource "b"; cluster_resource "a"].
  split_and!; [apply Permutation_swap|done..].
Qed.

Lemma Destroy_Permutation_witness :
  @testCheckACSEngineClusterDestroy steady_client
    [cluster_resource "a"; cluster_resource "b"] = Ok tt ↔
  @testCheckACSEngineClusterDestroy steady_client
    [cluster_resource "b"; cluster_resource "a"] = Ok tt.
Proof.
  apply (Destroy_Permutation (H := steady_client)); [|apply Permutation_swap].
  repeat constructor; intros _; by eexists.
Defined.

Lemma Destroy_Get_error_witness :
  @testCheckACSEngineClusterDestroy flaky_client
    [cluster_resource "a"; cluster_resource "b"] = Ok tt.
Proof. by apply (Destroy_Get_error (H := flaky_client) _ "timeout"). Defined.

Lemma Exists_Destroy_witness :
  @testCheckACSEngineClusterDestroy steady_client [cluster_resource "b"] ≠ Ok tt.
Proof.
  apply (Exists_Destroy (H := steady_client) "acsengine_kubernetes_cluster.test"
           {[ "acsengine_kubernetes_cluster.test" := cluster_resource "b" ]}
           (cluster_resource "b")).
  - apply lookup_singleton_eq.
  - done.
  - by vm_compute.
  - by vm_compute.
  - repeat constructor; intros _; by eexists.
Defined.

Lemma Destroy_Err_witness :
  ∃ rs resp,
    rs ∈ [cluster_resource "b"; cluster_resource "a"] ∧ is_cluster rs ∧
    @lookup_deployment flaky_client rs = Ok resp ∧
    StatusCode resp ≠ StatusNotFound ∧
    StillExists {| StatusCode := 200 |} = StillExists resp.
Proof.
  by apply (Destroy_Err (H := flaky_client)
              [cluster_resource "b"; cluster_resource "a"]
              (StillExists {| StatusCode := 200 |})).
Defined.
