(* ===== verification/UnitTests.v ===== *)
(** * UnitTests: the unit tests of the resource

    Models the unit tests of
    [src/acsengine/resource_acsengine_kubernetes_cluster_test.go] (the
    functions [TestACSEngineK8sCluster_...] and the two count validation
    tests), statement by statement, as computations in [Go.test]: a
    [t.Fatalf] is an error that names its format string, a failed type
    assertion or index is a panic, and the deferred [recover] of the flatten
    tests is [recovering].  The tables of cases are lists of records, walked
    by [for_each].

    The functions under test are those of [SpecMapper], [Credentials],
    [VersionPolicy] and [NameSanitizer].  The theorems state that each test
    passes, for every process environment where it reads one, and give the
    general fact each test samples. *)

From stdpp Require Import gmap.
From S2P Require Import Prelude Yaml Json KubeConfig Fixtures Go Api SpecMapper.
From S2P Require Import Fakes VersionPolicy NameSanitizer Base64 Credentials.
From stdpp Require Import options.
Set Warnings "-clear-no-such-hyp".

Local Open Scope Z_scope.

(** ** The flatten tests *)

Definition TestACSEngineK8sCluster_flattenLinuxProfile : test unit :=
  recovering "flattenLinuxProfile failed" (
    let adminUsername := "adminUser" in
    let keyData := "public key data" in
    let sshPublicKeys := [ {| KeyData := keyData |} ] in
    let profile := {| AdminUsername := adminUsername;
                      SSH_PublicKeys := sshPublicKeys |} in
    match flattenLinuxProfile profile with
    | Err err => Err (Fatalf "flattenLinuxProfile failed: %v")
    | Ok linuxProfile =>
        failif negb (length linuxProfile =? 1)%nat
          then Fatalf "flattenLinuxProfile failed: did not find one linux profile";
        linuxPf ← at_index linuxProfile 0 ≫= as_map;
        match linuxPf !! "admin_username" with
        | Some val =>
            ne ← iface_ne val (VString adminUsername);
            failif (ne : bool)
              then Fatalf "flattenLinuxProfile failed: Master count is innaccurate";
            Ok tt
        | None =>
            Err (Fatalf "flattenLinuxProfile failed: Master count does not exist")
        end
    end).

Definition TestACSEngineK8sCluster_flattenServicePrincipal : test unit :=
  recovering "flattenServicePrincipal failed" (
    let clientID := "client id" in
    let clientSecret := "secret" in
    let profile := {| ClientID := clientID; Secret := clientSecret |} in
    match flattenServicePrincipal profile with
    | Err err => Err (Fatalf "flattenServicePrincipal failed: %v")
    | Ok servicePrincipal =>
        failif negb (length servicePrincipal =? 1)%nat
          then Fatalf "flattenServicePrincipal failed: did not find one master profile";
        spPf ← at_index servicePrincipal 0 ≫= as_map;
        match spPf !! "client_id" with
        | Some val =>
            ne ← iface_ne val (VString clientID);
            failif (ne : bool)
              then Fatalf "flattenServicePrincipal failed: Master count is innaccurate";
            Ok tt
        | None =>
            Err (Fatalf "flattenServicePrincipal failed: Master count does not exist")
        end
    end).

Definition TestACSEngineK8sCluster_flattenMasterProfile : test unit :=
  recovering "flattenMasterProfile failed" (
    let count := 1 in
    let dnsNamePrefix := "testPrefix" in
    let vmSize := "Standard_D2_v2" in
    let fqdn := "abcdefg" in
    let profile := {| MasterProfile_Count := count; DNSPrefix := dnsNamePrefix;
                      MasterProfile_VMSize := vmSize;
                      MasterProfile_OSDiskSizeGB := 0;
                      MasterProfile_FQDN := fqdn |} in
    match flattenMasterProfile profile "southcentralus" with
    | Err err => Err (Fatalf "flattenServicePrincipal failed: %v")
    | Ok masterProfile =>
        failif negb (length masterProfile =? 1)%nat
          then Fatalf "flattenMasterProfile failed: did not find one master profile";
        masterPf ← at_index masterProfile 0 ≫= as_map;
        match masterPf !! "count" with
        | Some val =>
            ne ← iface_ne val (VInt count);
            failif (ne : bool)
              then Fatalf "flattenMasterProfile failed: Master count is innaccurate";
            Ok tt
        | None =>
            Err (Fatalf "flattenMasterProfile failed: Master count does not exist")
        end;;
        match masterPf !! "os_disk_size" with
        | Some val =>
            as_int val;;
            Err (Fatalf "OS disk size should not be set but value is %d")
        | None => Ok tt
        end
    end).

Definition TestACSEngineK8sCluster_flattenAgentPoolProfiles : test unit :=
  recovering "flattenAgentPoolProfiles failed" (
    let name := "agentpool1" in
    let count := 1 in
    let vmSize := "Standard_D2_v2" in
    let fqdn := "abcdefg" in
    let osDiskSize := 200 in
    let profile1 := {| Name := name; Count := count; VMSize := vmSize;
                       OSDiskSizeGB := 0; FQDN := fqdn;
                       AgentPoolProfile_OSType := "" |} in
    let name := "agentpool2" in
    let profile2 := {| Name := name; Count := count; VMSize := vmSize;
                       OSDiskSizeGB := osDiskSize; FQDN := fqdn;
                       AgentPoolProfile_OSType := "" |} in
    let profiles := [profile1; profile2] in
    match flattenAgentPoolProfiles profiles with
    | Err err => Err (Fatalf "flattenAgentPoolProfiles failed: %v")
    | Ok agentPoolProfiles =>
        failif (length agentPoolProfiles <? 1)%nat
          then Fatalf "flattenAgentPoolProfile failed: did not find any agent pool profiles";
        agentPf0 ← at_index agentPoolProfiles 0 ≫= as_map;
        match agentPf0 !! "count" with
        | Some val =>
            n ← as_int val;
            failif negb (n =? count)
              then Fatalf "agent pool count is inaccurate. %d != %d";
            Ok tt
        | None => Err (Fatalf "agent pool count does not exist")
        end;;
        match agentPf0 !! "os_disk_size" with
        | Some val =>
            as_int val;;
            Err (Fatalf "agent pool OS disk size should not be set, but is %d")
        | None => Ok tt
        end;;
        agentPf1 ← at_index agentPoolProfiles 1 ≫= as_map;
        match agentPf1 !! "name" with
        | Some val =>
            s ← as_string val;
            failif negb (String.eqb s name)
              then Fatalf "flattenAgentPoolProfile failed: agent pool name is innaccurate. %s != %s.";
            Ok tt
        | None =>
            Err (Fatalf "flattenAgentPoolProfile failed: agent pool count does not exist")
        end;;
        match agentPf1 !! "os_disk_size" with
        | Some val =>
            n ← as_int val;
            failif negb (n =? osDiskSize)
              then Fatalf "agent pool os disk size is %d when it should be %d";
            Ok tt
        | None => Err (Fatalf "agent pool os disk size is not set when it should be")
        end
    end).

Definition TestACSEngineK8sCluster_flattenTags : test unit :=
  recovering "flattenTags failed" (
    let tags : gmap string string := {[ "Environment" := "Production" ]} in
    match flattenTags tags with
    | Err err => Err (Fatalf "flattenTags failed: %v")
    | Ok output =>
        failif negb (bool_decide (is_Some (output !! "Environment")))
          then Fatalf "ouput['Environment'] does not exist";
        ne ← iface_ne (map_index output "Environment") (VString "Production");
        failif (ne : bool) then Fatalf "output['Environment'] is not set correctly";
        Ok tt
    end).

Definition TestACSEngineK8sCluster_flattenTagsEmpty : test unit :=
  recovering "flattenTags failed" (
    let tags : gmap string string := ∅ in
    match flattenTags tags with
    | Err err => Err (Fatalf "flattenTags failed: %v")
    | Ok output =>
        failif negb (size output =? 0)%nat then Fatalf "len(output) != 0";
        Ok tt
    end).

Definition TestACSEngineK8sCluster_flattenKubeConfig : test unit :=
  recovering "flattenKubeConfig failed" (
    let kubeConfigFile :=
      testACSEngineK8sClusterKubeConfig "masterfqdn" "southcentralus" in
    match flattenKubeConfig kubeConfigFile with
    | Err err => Err (Fatalf "flattenKubeConfig failed: %+v")
    | Ok (_, kubeConfigs) =>
        failif negb (length kubeConfigs =? 1)%nat
          then Fatalf "Incorrect number of kube configs: there are %d kube configs";
        kubeConfig ← at_index kubeConfigs 0 ≫= as_map;
        match kubeConfig !! "cluster_ca_certificate" with
        | Some v =>
            caCert ← as_string v;
            failif negb (String.eqb caCert (base64Encode "0123"))
              then Fatalf "'cluster_ca_certificate' not set correctly: set to %s";
            Ok tt
        | None => Err (Fatalf "'cluster_ca_certificate' not found")
        end;;
        match kubeConfig !! "host" with
        | Some v =>
            server ← as_string v;
            let expected :=
              "https://" +:+ "masterfqdn" +:+ "." +:+ "southcentralus"
              +:+ ".cloudapp.azure.com" in
            failif negb (String.eqb server expected)
              then Fatalf "Master fqdn is not set correctly: %s != %s";
            Ok tt
        | None => Ok tt
        end;;
        match kubeConfig !! "username" with
        | Some v =>
            user ← as_string v;
            let expected := "masterfqdn" +:+ "-admin" in
            failif negb (String.eqb user expected)
              then Fatalf "Username is not set correctly: %s != %s";
            Ok tt
        | None => Ok tt
        end
    end).

(** ** The expand tests *)

Section environment.
Context (Getenv : environ).

Definition TestACSEngineK8sCluster_expandLinuxProfile : test unit :=
  let d := TestResourceData in
  let adminUsername := "azureuser" in
  let linuxProfiles := fakeFlattenLinuxProfile Getenv adminUsername in
  let d := d_Set d "linux_profile" (VList linuxProfiles) in
  match expandLinuxProfile d with
  | Err err => Err (Fatalf "expand linux profile failed: %v")
  | Ok linuxProfile =>
      failif negb (String.eqb (AdminUsername linuxProfile) "azureuser")
        then Fatalf "linux profile admin username is not '%s' as expected";
      Ok tt
  end.

Definition TestACSEngineK8sCluster_expandServicePrincipal : test unit :=
  let d := TestResourceData in
  let clientID := Getenv "ARM_CLIENT_ID" in
  let servicePrincipals := fakeFlattenServicePrincipal Getenv in
  let d := d_Set d "service_principal" (VList servicePrincipals) in
  match expandServicePrincipal d with
  | Err err => Err (Fatalf "expand service principal failed: %v")
  | Ok servicePrincipal =>
      failif negb (String.eqb (ClientID servicePrincipal) clientID)
        then Fatalf "service principal client ID is not '%s' as expected";
      Ok tt
  end.

End environment.

Definition TestACSEngineK8sCluster_expandMasterProfile : test unit :=
  let d := TestResourceData in
  let dnsPrefix := "masterDNSPrefix" in
  let vmSize := "Standard_D2_v2" in
  let masterProfiles := fakeFlattenMasterProfile 1 dnsPrefix vmSize in
  let d := d_Set d "master_profile" (VList masterProfiles) in
  match expandMasterProfile d with
  | Err err => Err (Fatalf "expand master profile failed: %v")
  | Ok masterProfile =>
      failif negb (String.eqb (DNSPrefix masterProfile) dnsPrefix)
        then Fatalf "master profile dns prefix is not '%s' as expected";
      failif negb (String.eqb (MasterProfile_VMSize masterProfile) vmSize)
        then Fatalf "master profile VM size is not '%s' as expected";
      Ok tt
  end.

Definition TestACSEngineK8sCluster_expandAgentPoolProfiles : test unit :=
  let d := TestResourceData in
  let agentPool1Name := "agentpool1" in
  let agentPool1Count := 1 in
  let agentPool2Name := "agentpool2" in
  let agentPool2Count := 2 in
  let agentPool2osDiskSize := 30 in
  let agentPoolProfiles := [] in
  let agentPoolProfile0 :=
    fakeFlattenAgentPoolProfiles agentPool1Name agentPool1Count "Standard_D2_v2"
      0 false in
  let agentPoolProfiles := agentPoolProfiles ++ [VMap agentPoolProfile0] in
  let agentPoolProfile1 :=
    fakeFlattenAgentPoolProfiles agentPool2Name agentPool2Count "Standard_D2_v2"
      agentPool2osDiskSize true in
  let agentPoolProfiles := agentPoolProfiles ++ [VMap agentPoolProfile1] in
  let d := d_Set d "agent_pool_profiles" (VList agentPoolProfiles) in
  match expandAgentPoolProfiles d with
  | Err err => Err (Fatalf "expand agent pool profiles failed: %v")
  | Ok profiles =>
      failif negb (length profiles =? 2)%nat
        then Fatalf "Length of agent pool profiles array is not %d as expected";
      p0 ← at_index profiles 0;
      p1 ← at_index profiles 1;
      failif negb (String.eqb (Name p0) agentPool1Name)
        then Fatalf "The first agent pool profile is not named '%s' as expected";
      failif negb (Count p0 =? agentPool1Count)
        then Fatalf "%s does not have count = %d as expected";
      failif negb (OSDiskSizeGB p0 =? 0)
        then Fatalf "The first agent pool profile has OSDiskSizeGB = %d when it should not be set";
      failif negb (String.eqb (AgentPoolProfile_OSType p0) Linux)
        then Fatalf "The first agent pool profile has OS type %s when it should be %s";
      failif negb (Count p1 =? agentPool2Count)
        then Fatalf "%s does not have count = %d as expected";
      failif negb (OSDiskSizeGB p1 =? agentPool2osDiskSize)
        then Fatalf "The second agent pool profile has OSDiskSizeGB = %d when it should not be %d";
      failif negb (String.eqb (AgentPoolProfile_OSType p1) Windows)
        then Fatalf "The first agent pool profile has OS type %s when it should be %s";
      Ok tt
  end.

(** ** The table tests *)

Record version_case := { vc_Version : string; vc_ExpectError : bool }.

Definition validateKubernetesVersion_cases : list version_case :=
  [ {| vc_Version := "1.8.2"; vc_ExpectError := false |};
    {| vc_Version := "3.0.0"; vc_ExpectError := true |};
    {| vc_Version := "1.7.12"; vc_ExpectError := false |};
    {| vc_Version := "181"; vc_ExpectError := true |};
    {| vc_Version := "2.18.3"; vc_ExpectError := true |} ].

Definition TestACSEngineK8sCluster_validateKubernetesVersion `{VersionTable} :
    test unit :=
  for_each validateKubernetesVersion_cases (λ tc,
    let '(_, errors) := validateKubernetesVersion (vc_Version tc) "" in
    failif negb (vc_ExpectError tc) && (0 <? length errors)%nat
      then Fatalf "Version %s should not have failed";
    failif vc_ExpectError tc && (length errors =? 0)%nat
      then Fatalf "Version %s should have failed";
    Ok tt).

Record upgrade_case := {
  uc_NewValue : string;
  uc_CurrentValue : string;
  uc_ExpectError : bool;
}.

Definition validateKubernetesVersionUpgrade_cases : list upgrade_case :=
  [ {| uc_NewValue := "1.8.2"; uc_CurrentValue := "1.8.0"; uc_ExpectError := false |};
    {| uc_NewValue := "1.8.2"; uc_CurrentValue := "1.8.2"; uc_ExpectError := true |};
    {| uc_NewValue := "1.8.0"; uc_CurrentValue := "1.8.2"; uc_ExpectError := true |};
    {| uc_NewValue := "1.11.0"; uc_CurrentValue := "1.8.2"; uc_ExpectError := true |};
    {| uc_NewValue := "1.9.1"; uc_CurrentValue := "1.8.2"; uc_ExpectError := false |};
    {| uc_NewValue := "1.10.0"; uc_CurrentValue := "1.8.0"; uc_ExpectError := true |};
    {| uc_NewValue := "1.9.8"; uc_CurrentValue := "1.8.0"; uc_ExpectError := false |};
    {| uc_NewValue := "1.8.1"; uc_CurrentValue := "1.7.12"; uc_ExpectError := false |} ].

Definition TestACSEngineK8sCluster_validateKubernetesVersionUpgrade : test unit :=
  for_each validateKubernetesVersionUpgrade_cases (λ tc,
    let valid := true in
    let err := validateKubernetesVersionUpgrade (uc_NewValue tc) (uc_CurrentValue tc) in
    let valid := if is_ok err then valid else false in
    if uc_ExpectError tc && valid then
      Err (Fatalf "Expected the Kubernetes version validator to trigger an error for new version = '%s', current version = '%s'")
    else if negb (uc_ExpectError tc) && negb valid then
      Err (Fatalf "Expected the Kubernetes version validator to not trigger an error for new version = '%s', current version = '%s'. Instead got %+v")
    else Ok tt).

Record name_case := { nc_Value : string; nc_ExpectedValue : string }.

Definition storageAccountName_cases : list name_case :=
  [ {| nc_Value := "My-name"; nc_ExpectedValue := "mynameacc" |};
    {| nc_Value := "unique"; nc_ExpectedValue := "uniqueacc" |};
    {| nc_Value := "1234!"; nc_ExpectedValue := "1234acc" |};
    {| nc_Value := "superloooooooooooongname";
       nc_ExpectedValue := "superloooooooooooongacc" |};
    {| nc_Value := "SuPer!looooong_1234_name";
       nc_ExpectedValue := "superlooooong1234namacc" |} ].

Definition TestACSEngineK8sCluster_storageAccountName : test unit :=
  for_each storageAccountName_cases (λ tc,
    let accountName := storageAccountName (nc_Value tc) in
    failif negb (String.eqb accountName (nc_ExpectedValue tc))
      then Fatalf "Storage account name is %s instead of %s";
    Ok tt).

Record count_case := { cc_Value : Z; cc_ErrCount : nat }.

Definition masterProfileCount_cases : list count_case :=
  [ {| cc_Value := 0; cc_ErrCount := 1 |};
    {| cc_Value := 1; cc_ErrCount := 0 |};
    {| cc_Value := 2; cc_ErrCount := 1 |};
    {| cc_Value := 3; cc_ErrCount := 0 |};
    {| cc_Value := 4; cc_ErrCount := 1 |};
    {| cc_Value := 5; cc_ErrCount := 0 |};
    {| cc_Value := 6; cc_ErrCount := 1 |} ].

(** The loop of the two count tests, over the validator it calls. *)
Definition countValidation
    (validate : Z → string → list string * list ValidationError)
    (cases : list count_case) (message : string) : test unit :=
  for_each cases (λ tc,
    let '(_, errors) := validate (cc_Value tc) "acsengine_kubernetes_cluster" in
    failif negb (length errors =? cc_ErrCount tc)%nat then Fatalf message;
    Ok tt).

Definition TestAccACSEngineK8sCluster_masterProfileCountValidation : test unit :=
  countValidation validateMasterProfileCount masterProfileCount_cases
    "Expected the Azure RM Kubernetes cluster master profile count to trigger a validation error for '%d'".

Definition agentPoolProfileCount_cases : list count_case :=
  [ {| cc_Value := 0; cc_ErrCount := 1 |};
    {| cc_Value := 1; cc_ErrCount := 0 |};
    {| cc_Value := 2; cc_ErrCount := 0 |};
    {| cc_Value := 99; cc_ErrCount := 0 |};
    {| cc_Value := 100; cc_ErrCount := 0 |};
    {| cc_Value := 101; cc_ErrCount := 1 |} ].

Definition TestAccACSEngineK8sCluster_agentPoolProfileCountValidation : test unit :=
  countValidation validateAgentPoolProfileCount agentPoolProfileCount_cases
    "Expected the Azure RM Kubernetes cluster agent pool profile Count to trigger a validation error for '%d'".

(** A validator of counts that accepts an interval. *)
Definition count_between (lo hi : Z) (v : Z) (k : string) :
    list string * list ValidationError :=
  if decide (lo ≤ v ≤ hi)%Z then ([], []) else ([], [Invalid k]).

(** ** The flatten tests pass *)

Lemma flatten_tests_pass :
  Forall (λ t : test unit, t = Ok tt)
    [ TestACSEngineK8sCluster_flattenLinuxProfile;
      TestACSEngineK8sCluster_flattenServicePrincipal;
      TestACSEngineK8sCluster_flattenMasterProfile;
      TestACSEngineK8sCluster_flattenAgentPoolProfiles;
      TestACSEngineK8sCluster_flattenTags;
      TestACSEngineK8sCluster_flattenTagsEmpty;
      TestACSEngineK8sCluster_flattenKubeConfig ].
Proof. repeat constructor; by vm_compute. Qed.

(** ** The expand tests pass in every environment *)

Section environment_lemmas.
Context (Getenv : environ).

Lemma expandLinuxProfile_test_passes :
  TestACSEngineK8sCluster_expandLinuxProfile Getenv = Ok tt.
Proof.
  unfold TestACSEngineK8sCluster_expandLinuxProfile.
  by rewrite expandLinuxProfile_fake.
Qed.

Lemma expandServicePrincipal_test_passes :
  TestACSEngineK8sCluster_expandServicePrincipal Getenv = Ok tt.
Proof.
  unfold TestACSEngineK8sCluster_expandServicePrincipal.
  rewrite expandServicePrincipal_fake. simpl. by rewrite string_eqb_refl.
Qed.

End environment_lemmas.

Lemma expandMasterProfile_test_passes :
  TestACSEngineK8sCluster_expandMasterProfile = Ok tt.
Proof.
  unfold TestACSEngineK8sCluster_expandMasterProfile.
  by rewrite expandMasterProfile_fake.
Qed.

Lemma expandAgentPoolProfiles_test_passes :
  TestACSEngineK8sCluster_expandAgentPoolProfiles = Ok tt.
Proof. by vm_compute. Qed.

(** ** The table tests *)

(** A case of the version table passes when the table of release lines
    accepts the version exactly if no error is expected. *)
Lemma version_case_passes `{VersionTable} v expect :
  (let '(_, errors) := validateKubernetesVersion v "" in
   (failif negb expect && (0 <? length errors)%nat
      then Fatalf "Version %s should not have failed";
    failif expect && (length errors =? 0)%nat
      then Fatalf "Version %s should have failed";
    Ok tt)) = Ok tt ↔
  (expect = false ↔ (validateKubernetesVersion v "").2 = []).
Proof.
  destruct (validateKubernetesVersion v "") as [ws [|e errors]], expect;
    simpl; naive_solver.
Qed.

(** C27. The version test constrains the table of supported release lines and
    nothing else: it passes exactly for the tables that hold the lines 1.7
    and 1.8 and neither 3.0 nor 2.18; the malformed version [181] is refused
    by every table. *)
Theorem validateKubernetesVersion_test_iff `{VersionTable} :
  TestACSEngineK8sCluster_validateKubernetesVersion = Ok tt ↔
  ((1, 8)%N ∈ supported_lines) ∧ ((1, 7)%N ∈ supported_lines) ∧
  ((3, 0)%N ∉ supported_lines) ∧ ((2, 18)%N ∉ supported_lines).
Proof.
  unfold TestACSEngineK8sCluster_validateKubernetesVersion.
  rewrite for_each_Ok. unfold validateKubernetesVersion_cases.
  rewrite !Forall_cons, Forall_nil. simpl vc_Version. simpl vc_ExpectError.
  rewrite !version_case_passes, !validateKubernetesVersion_accepts.
  split.
  - intros (H1 & H2 & H3 & _ & H5 & _).
    destruct (proj1 H1 eq_refl) as (v1 & [= <-] & ?).
    destruct (proj1 H3 eq_refl) as (v3 & [= <-] & ?).
    split_and!; [done..| |].
    + intros ?. by assert (true = false) by (apply H2; by exists (Version 3 0 0)).
    + intros ?. by assert (true = false) by (apply H5; by exists (Version 2 18 3)).
  - intros (? & ? & ? & ?). split_and!; try done.
    + split; [by exists (Version 1 8 2)|done].
    + split; [done|]. by intros (v & [= <-] & ?).
    + split; [by exists (Version 1 7 12)|done].
    + split; [done|]. by intros (v & [=] & ?).
    + split; [done|]. by intros (v & [= <-] & ?).
Qed.

Lemma validateKubernetesVersionUpgrade_test_passes :
  TestACSEngineK8sCluster_validateKubernetesVersionUpgrade = Ok tt.
Proof. by vm_compute. Qed.


Lemma storageAccountName_test_passes :
  TestACSEngineK8sCluster_storageAccountName = Ok tt.
Proof. by vm_compute. Qed.

Lemma masterProfileCount_test_passes :
  TestAccACSEngineK8sCluster_masterProfileCountValidation = Ok tt.
Proof. by vm_compute. Qed.

Lemma agentPoolProfileCount_test_passes :
  TestAccACSEngineK8sCluster_agentPoolProfileCountValidation = Ok tt.
Proof. by vm_compute. Qed.

Lemma validateKubernetesVersion_test_passes :
  @TestACSEngineK8sCluster_validateKubernetesVersion tested_lines = Ok tt.
Proof. by vm_compute. Qed.

(** C26. The table of the agent pool count test pins both bounds: among the
    validators that accept an interval of counts the test passes for one
    interval only, the counts from 1 to 100 that
    [validateAgentPoolProfileCount] accepts. *)
Theorem agentPoolProfileCount_bounds lo hi message :
  countValidation (count_between lo hi) agentPoolProfileCount_cases message = Ok tt ↔
  (lo = 1 ∧ hi = 100)%Z ∧ count_between lo hi = validateAgentPoolProfileCount.
Proof.
  unfold countValidation. rewrite for_each_Ok.
  unfold agentPoolProfileCount_cases, count_between. rewrite !Forall_cons, Forall_nil.
  split.
  - simpl. intros Hcases. assert (lo = 1 ∧ hi = 100)%Z as [-> ->]; [|done].
    repeat case_decide; simpl in Hcases; destruct_and?; simplify_eq; lia.
  - intros [[-> ->] _]. by vm_compute.
Qed.

