(* ===== verification/Acceptance.v ===== *)
(** * Acceptance: the configurations and the scenarios of the acceptance tests

    Models the configuration builders [testAccACSEngineK8sCluster...] and the
    acceptance tests [TestAccACSEngineK8sCluster_...] of
    [src/acsengine/resource_acsengine_kubernetes_cluster_test.go].

    A builder formats an HCL document; the model gives the attributes the
    document declares, as the host hands them to the resource: a block is a
    list holding one map per occurrence, the [ssh] block a set, a quoted
    number ([count = "%d"]) the integer the schema reads from it, and [%d] of
    the random integer its decimal form ([pretty]).  An acceptance test is its
    list of steps, each with its configuration and its checks; the checks on
    attributes name a path in the flattened state ([agent_pool_profiles.0.count]),
    which [flatmap_get] follows.

    What is proved of the scenarios is what does not need a deployment: every
    configuration expands to a cluster specification, every step's checks on
    declared attributes agree with the step's configuration, and every change
    of version from one step to the next is a transition the upgrade policy
    approves. *)

From stdpp Require Import gmap pretty.
From S2P Require Import Prelude Go Api SpecMapper Fakes VersionPolicy.
From stdpp Require Import options.
Set Warnings "-clear-no-such-hyp".

Local Open Scope Z_scope.

(** ** HCL documents as attributes *)

(** The occurrences of a block: a list of maps. *)
Definition hcl_blocks (occurrences : list (list (string * value))) : value :=
  VList ((λ entries, VMap (list_to_map entries)) <$> occurrences).

Definition hcl_block (entries : list (string * value)) : value :=
  hcl_blocks [entries].

(** The occurrences of a block the schema declares as a set. *)
Definition hcl_set (occurrences : list (list (string * value))) : value :=
  VSet ((λ entries, VMap (list_to_map entries)) <$> occurrences).

(** A map attribute ([tags { ... }]). *)
Definition hcl_map (entries : list (string * value)) : value :=
  VMap (list_to_map entries).

Definition testAccACSEngineK8sClusterBasic (rInt : Z)
    (clientID clientSecret location keyData : string) : ResourceData :=
  list_to_map
    [("name", VString "acctest");
     ("resource_group", VString ("acctestRG-" +:+ pretty rInt));
     ("location", VString location);
     ("master_profile", hcl_block
        [("count", VInt 1);
         ("dns_name_prefix", VString ("acctestmaster" +:+ pretty rInt));
         ("vm_size", VString "Standard_D2_v2")]);
     ("agent_pool_profiles", hcl_block
        [("name", VString "agentpool1");
         ("count", VInt 1);
         ("vm_size", VString "Standard_D2_v2")]);
     ("linux_profile", hcl_block
        [("admin_username", VString ("acctestuser" +:+ pretty rInt));
         ("ssh", hcl_set [[("key_data", VString keyData)]])]);
     ("service_principal", hcl_block
        [("client_id", VString clientID);
         ("client_secret", VString clientSecret)]);
     ("tags", hcl_map [("Environment", VString "Production")])].

Definition testAccACSEngineK8sClusterMultipleAgentPools (rInt : Z)
    (clientID clientSecret location keyData : string) : ResourceData :=
  list_to_map
    [("name", VString "acctest");
     ("resource_group", VString ("acctestRG-" +:+ pretty rInt));
     ("location", VString location);
     ("master_profile", hcl_block
        [("count", VInt 1);
         ("dns_name_prefix", VString ("acctestmaster" +:+ pretty rInt));
         ("vm_size", VString "Standard_D2_v2")]);
     ("agent_pool_profiles", hcl_blocks
        [[("name", VString "agentpool1");
          ("count", VInt 2);
          ("vm_size", VString "Standard_D2_v2")];
         [("name", VString "agentpool2");
          ("count", VInt 1);
          ("vm_size", VString "Standard_D2_v2")]]);
     ("linux_profile", hcl_block
        [("admin_username", VString ("acctestuser" +:+ pretty rInt));
         ("ssh", hcl_set [[("key_data", VString keyData)]])]);
     ("service_principal", hcl_block
        [("client_id", VString clientID);
         ("client_secret", VString clientSecret)])].

Definition testAccACSEngineK8sClusterCustomized (rInt : Z)
    (clientID clientSecret location keyData k8sVersion : string)
    (agentCount : Z) (vmSize : string) (osDiskSize : Z) : ResourceData :=
  list_to_map
    [("name", VString "acctest");
     ("resource_group", VString ("acctestRG-" +:+ pretty rInt));
     ("location", VString location);
     ("kubernetes_version", VString k8sVersion);
     ("master_profile", hcl_block
        [("count", VInt 1);
         ("dns_name_prefix", VString ("acctestmaster" +:+ pretty rInt));
         ("vm_size", VString vmSize);
         ("os_disk_size", VInt osDiskSize)]);
     ("agent_pool_profiles", hcl_block
        [("name", VString "agentpool1");
         ("count", VInt agentCount);
         ("vm_size", VString vmSize);
         ("os_disk_size", VInt osDiskSize)]);
     ("linux_profile", hcl_block
        [("admin_username", VString ("acctestuser" +:+ pretty rInt));
         ("ssh", hcl_set [[("key_data", VString keyData)]])]);
     ("service_principal", hcl_block
        [("client_id", VString clientID);
         ("client_secret", VString clientSecret)]);
     ("tags", hcl_map [("Environment", VString "Production")])].

Definition testAccACSEngineK8sClusterScale (rInt : Z)
    (clientID clientSecret location keyData : string) (agentCount : Z) :
    ResourceData :=
  list_to_map
    [("name", VString "acctest");
     ("resource_group", VString ("acctestRG-" +:+ pretty rInt));
     ("location", VString location);
     ("master_profile", hcl_block
        [("count", VInt 1);
         ("dns_name_prefix", VString ("acctestmaster" +:+ pretty rInt));
         ("vm_size", VString "Standard_D2_v2")]);
     ("agent_pool_profiles", hcl_block
        [("name", VString "agentpool1");
         ("count", VInt agentCount);
         ("vm_size", VString "Standard_D2_v2")]);
     ("linux_profile", hcl_block
        [("admin_username", VString ("acctestuser" +:+ pretty rInt));
         ("ssh", hcl_set [[("key_data", VString keyData)]])]);
     ("service_principal", hcl_block
        [("client_id", VString clientID);
         ("client_secret", VString clientSecret)]);
     ("tags", hcl_map [("Environment", VString "Production")])].

Definition testAccACSEngineK8sClusterTags (rInt : Z)
    (clientID clientSecret location keyData tag1 tag2 : string) : ResourceData :=
  list_to_map
    [("name", VString "acctest");
     ("resource_group", VString ("acctestRG-" +:+ pretty rInt));
     ("location", VString location);
     ("master_profile", hcl_block
        [("count", VInt 1);
         ("dns_name_prefix", VString ("acctestmaster" +:+ pretty rInt));
         ("vm_size", VString "Standard_D2_v2")]);
     ("agent_pool_profiles", hcl_block
        [("name", VString "agentpool1");
         ("count", VInt 1);
         ("vm_size", VString "Standard_D2_v2")]);
     ("linux_profile", hcl_block
        [("admin_username", VString ("acctestuser" +:+ pretty rInt));
         ("ssh", hcl_set [[("key_data", VString keyData)]])]);
     ("service_principal", hcl_block
        [("client_id", VString clientID);
         ("client_secret", VString clientSecret)]);
     ("tags", hcl_map [("Environment", VString tag1);
                       ("Department", VString tag2)])].

Definition testAccACSEngineK8sClusterOSType (rInt : Z)
    (clientID clientSecret location keyData kubernetesVersion : string)
    (agentCount : Z) : ResourceData :=
  list_to_map
    [("name", VString "acctest");
     ("resource_group", VString ("acctestRG-" +:+ pretty rInt));
     ("location", VString location);
     ("kubernetes_version", VString kubernetesVersion);
     ("master_profile", hcl_block
        [("count", VInt 1);
         ("dns_name_prefix", VString ("acctestmaster" +:+ pretty rInt));
         ("vm_size", VString "Standard_D2_v2")]);
     ("agent_pool_profiles", hcl_block
        [("name", VString "windowspool1");
         ("count", VInt agentCount);
         ("vm_size", VString "Standard_D2_v2");
         ("os_type", VString "Windows")]);
     ("linux_profile", hcl_block
        [("admin_username", VString ("acctestuser" +:+ pretty rInt));
         ("ssh", hcl_set [[("key_data", VString keyData)]])]);
     ("service_principal", hcl_block
        [("client_id", VString clientID);
         ("client_secret", VString clientSecret)]);
     ("tags", hcl_map [("Environment", VString "Production")])].

(** ** Steps and checks *)

(** [testCheckACSEngineClusterExists(name)] and
    [resource.TestCheckResourceAttr(name, key, value)]. *)
Inductive check :=
| ClusterExists (name : string)
| ResourceAttr (name key value : string).

Global Instance check_eq_dec : EqDecision check.
Proof. solve_decision. Defined.

Record TestStep := { step_Config : ResourceData; step_Check : list check }.

(** The name of the resource in every check. *)
Definition test_resource : string := "acsengine_kubernetes_cluster.test".
