(* ===== verification/Scenarios.v ===== *)
(** * Scenarios: the acceptance tests as sequences of steps

    Each acceptance test [TestAccACSEngineK8sCluster_...] of
    [src/acsengine/resource_acsengine_kubernetes_cluster_test.go] that calls
    [resource.Test] is modelled by the list of its steps: the configuration
    the step applies and the checks it runs.  The random integer of a test is
    the parameter [ri], the process environment the parameter [Getenv].

    Running a scenario provisions a cluster, which is outside the model.  What
    the file decides is what the resource decides before it deploys: each
    step's configuration expands to a cluster specification; from one step to
    the next the version is unchanged or moves by a transition the upgrade
    policy approves ([steps_approved]); and the checks on declared attributes
    name values the configuration holds ([check_agrees]). *)

From stdpp Require Import gmap pretty.
From S2P Require Import Prelude Go Api SpecMapper Fakes VersionPolicy Acceptance.
From stdpp Require Import options.
Set Warnings "-clear-no-such-hyp".

Local Open Scope Z_scope.

Section scenarios.
Context (Getenv : environ) (ri : Z).

Definition TestAccACSEngineK8sCluster_createBasic : list TestStep :=
  let clientID := Getenv "ARM_CLIENT_ID" in
  let clientSecret := Getenv "ARM_CLIENT_SECRET" in
  let location := Getenv "ARM_TEST_LOCATION" in
  let keyData := Getenv "SSH_KEY_PUB" in
  let config :=
    testAccACSEngineK8sClusterBasic ri clientID clientSecret location keyData
      in
  [ {| step_Config := config;
       step_Check :=
         [ ClusterExists "acsengine_kubernetes_cluster.test";
           ResourceAttr "acsengine_kubernetes_cluster.test"
             "resource_group" ("acctestRG-" +:+ pretty ri);
           ResourceAttr "acsengine_kubernetes_cluster.test"
             "location" location;
           ResourceAttr "acsengine_kubernetes_cluster.test"
             "service_principal.0.client_id" clientID;
           ResourceAttr "acsengine_kubernetes_cluster.test"
             "service_principal.0.client_secret" clientSecret;
           ResourceAttr "acsengine_kubernetes_cluster.test"
             "linux_profile.0.admin_username" ("acctestuser" +:+ pretty ri);
           ResourceAttr "acsengine_kubernetes_cluster.test"
             "master_profile.0.dns_name_prefix" ("acctestmaster" +:+ pretty ri);
           ResourceAttr "acsengine_kubernetes_cluster.test"
             "master_profile.0.fqdn" ("acctestmaster" +:+ pretty ri +:+ "." +:+ location +:+ ".cloudapp.azure.com");
           ResourceAttr "acsengine_kubernetes_cluster.test"
             "agent_pool_profiles.0.name" "agentpool1" ] |} ].

Definition TestAccACSEngineK8sCluster_createMultipleAgentPools : list TestStep :=
  let clientID := Getenv "ARM_CLIENT_ID" in
  let clientSecret := Getenv "ARM_CLIENT_SECRET" in
  let location := Getenv "ARM_TEST_LOCATION" in
  let keyData := Getenv "SSH_KEY_PUB" in
  let config :=
    testAccACSEngineK8sClusterMultipleAgentPools ri clientID clientSecret
      location keyData in
  [ {| step_Config := config;
       step_Check :=
         [ ClusterExists "acsengine_kubernetes_cluster.test";
           ResourceAttr "acsengine_kubernetes_cluster.test"
             "resource_group" ("acctestRG-" +:+ pretty ri);
           ResourceAttr "acsengine_kubernetes_cluster.test"
             "location" location;
           ResourceAttr "acsengine_kubernetes_cluster.test"
             "service_principal.0.client_id" clientID;
           ResourceAttr "acsengine_kubernetes_cluster.test"
             "service_principal.0.client_secret" clientSecret;
           ResourceAttr "acsengine_kubernetes_cluster.test"
             "linux_profile.0.admin_username" ("acctestuser" +:+ pretty ri);
           ResourceAttr "acsengine_kubernetes_cluster.test"
             "master_profile.0.dns_name_prefix" ("acctestmaster" +:+ pretty ri);
           ResourceAttr "acsengine_kubernetes_cluster.test"
             "master_profile.0.fqdn" ("acctestmaster" +:+ pretty ri +:+ "." +:+ location +:+ ".cloudapp.azure.com");
           ResourceAttr "acsengine_kubernetes_cluster.test"
             "agent_pool_profiles.0.name" "agentpool1";
           ResourceAttr "acsengine_kubernetes_cluster.test"
             "agent_pool_profiles.1.name" "agentpool2" ] |} ].

Definition TestAccACSEngineK8sCluster_createCustomized : list TestStep :=
  let clientID := Getenv "ARM_CLIENT_ID" in
  let clientSecret := Getenv "ARM_CLIENT_SECRET" in
  let location := Getenv "ARM_TEST_LOCATION" in
  let keyData := Getenv "SSH_KEY_PUB" in
  let version := "1.9.8" in
  let vmSize := "Standard_D2_v2" in
  let agentCount := 1 in
  let osDiskSizeGB := 40 in
  let config :=
    testAccACSEngineK8sClusterCustomized ri clientID clientSecret location
      keyData version agentCount vmSize osDiskSizeGB in
  [ {| step_Config := config;
       step_Check :=
         [ ClusterExists "acsengine_kubernetes_cluster.test";
           ResourceAttr "acsengine_kubernetes_cluster.test"
             "resource_group" ("acctestRG-" +:+ pretty ri);
           ResourceAttr "acsengine_kubernetes_cluster.test"
             "location" location;
           ResourceAttr "acsengine_kubernetes_cluster.test"
             "service_principal.0.client_id" clientID;
           ResourceAttr "acsengine_kubernetes_cluster.test"
             "service_principal.0.client_secret" clientSecret;
           ResourceAttr "acsengine_kubernetes_cluster.test"
             "linux_profile.0.admin_username" ("acctestuser" +:+ pretty ri);
           ResourceAttr "acsengine_kubernetes_cluster.test"
             "master_profile.0.dns_name_prefix" ("acctestmaster" +:+ pretty ri);
           ResourceAttr "acsengine_kubernetes_cluster.test"
             "master_profile.0.vm_size" vmSize;
           ResourceAttr "acsengine_kubernetes_cluster.test"
             "kubernetes_version" version;
           ResourceAttr "acsengine_kubernetes_cluster.test"
             "agent_pool_profiles.0.name" "agentpool1";
           ResourceAttr "acsengine_kubernetes_cluster.test"
             "agent_pool_profiles.0.count" "1";
           ResourceAttr "acsengine_kubernetes_cluster.test"
             "agent_pool_profiles.0.vm_size" vmSize ] |} ].

Definition TestAccACSEngineK8sCluster_createVersion10AndAbove : list TestStep :=
  let clientID := Getenv "ARM_CLIENT_ID" in
  let clientSecret := Getenv "ARM_CLIENT_SECRET" in
  let location := Getenv "ARM_TEST_LOCATION" in
  let keyData := Getenv "SSH_KEY_PUB" in
  let version := "1.10.0" in
  let vmSize := "Standard_D2_v2" in
  let agentCount := 1 in
  let osDiskSizeGB := 30 in
  let config :=
    testAccACSEngineK8sClusterCustomized ri clientID clientSecret location
      keyData version agentCount vmSize osDiskSizeGB in
  [ {| step_Config := config;
       step_Check :=
         [ ClusterExists "acsengine_kubernetes_cluster.test";
           ResourceAttr "acsengine_kubernetes_cluster.test"
             "resource_group" ("acctestRG-" +:+ pretty ri);
           ResourceAttr "acsengine_kubernetes_cluster.test"
             "location" location;
           ResourceAttr "acsengine_kubernetes_cluster.test"
             "service_principal.0.client_id" clientID;
           ResourceAttr "acsengine_kubernetes_cluster.test"
             "service_principal.0.client_secret" clientSecret;
           ResourceAttr "acsengine_kubernetes_cluster.test"
             "linux_profile.0.admin_username" ("acctestuser" +:+ pretty ri);
           ResourceAttr "acsengine_kubernetes_cluster.test"
             "master_profile.0.dns_name_prefix" ("acctestmaster" +:+ pretty ri);
           ResourceAttr "acsengine_kubernetes_cluster.test"
             "master_profile.0.vm_size" vmSize;
           ResourceAttr "acsengine_kubernetes_cluster.test"
             "kubernetes_version" version;
           ResourceAttr "acsengine_kubernetes_cluster.test"
             "agent_pool_profiles.0.name" "agentpool1";
           ResourceAttr "acsengine_kubernetes_cluster.test"
             "agent_pool_profiles.0.count" "1";
           ResourceAttr "acsengine_kubernetes_cluster.test"
             "agent_pool_profiles.0.vm_size" vmSize ] |} ].

Definition TestAccACSEngineK8sCluster_scaleUp : list TestStep :=
  let clientID := Getenv "ARM_CLIENT_ID" in
  let clientSecret := Getenv "ARM_CLIENT_SECRET" in
  let location := Getenv "ARM_TEST_LOCATION" in
  let keyData := Getenv "SSH_KEY_PUB" in
  let config :=
    testAccACSEngineK8sClusterScale ri clientID clientSecret location keyData
      1 in
  let updatedConfig :=
    testAccACSEngineK8sClusterScale ri clientID clientSecret location keyData
      2 in
  [ {| step_Config := config;
       step_Check :=
         [ ClusterExists "acsengine_kubernetes_cluster.test";
           ResourceAttr "acsengine_kubernetes_cluster.test"
             "agent_pool_profiles.0.count" "1" ] |};
    {| step_Config := updatedConfig;
       step_Check :=
         [ ClusterExists "acsengine_kubernetes_cluster.test";
           ResourceAttr "acsengine_kubernetes_cluster.test"
             "agent_pool_profiles.0.count" "2" ] |} ].

Definition TestAccACSEngineK8sCluster_scaleDown : list TestStep :=
  let clientID := Getenv "ARM_CLIENT_ID" in
  let clientSecret := Getenv "ARM_CLIENT_SECRET" in
  let location := Getenv "ARM_TEST_LOCATION" in
  let keyData := Getenv "SSH_KEY_PUB" in
  let config :=
    testAccACSEngineK8sClusterScale ri clientID clientSecret location keyData
      2 in
  let updatedConfig :=
    testAccACSEngineK8sClusterScale ri clientID clientSecret location keyData
      1 in
  [ {| step_Config := config;
       step_Check :=
         [ ClusterExists "acsengine_kubernetes_cluster.test";
           ResourceAttr "acsengine_kubernetes_cluster.test"
             "agent_pool_profiles.0.count" "2" ] |};
    {| step_Config := updatedConfig;
       step_Check :=
         [ ClusterExists "acsengine_kubernetes_cluster.test";
           ResourceAttr "acsengine_kubernetes_cluster.test"
             "agent_pool_profiles.0.count" "1" ] |} ].

Definition TestAccACSEngineK8sCluster_scaleUpDown : list TestStep :=
  let clientID := Getenv "ARM_CLIENT_ID" in
  let clientSecret := Getenv "ARM_CLIENT_SECRET" in
  let location := Getenv "ARM_TEST_LOCATION" in
  let keyData := Getenv "SSH_KEY_PUB" in
  let config :=
    testAccACSEngineK8sClusterScale ri clientID clientSecret location keyData
      1 in
  let scaledUpConfig :=
    testAccACSEngineK8sClusterScale ri clientID clientSecret location keyData
      2 in
  [ {| step_Config := config;
       step_Check :=
         [ ClusterExists "acsengine_kubernetes_cluster.test";
           ResourceAttr "acsengine_kubernetes_cluster.test"
             "agent_pool_profiles.0.count" "1" ] |};
    {| step_Config := scaledUpConfig;
       step_Check :=
         [ ClusterExists "acsengine_kubernetes_cluster.test";
           ResourceAttr "acsengine_kubernetes_cluster.test"
             "agent_pool_profiles.0.count" "2" ] |};
    {| step_Config := config;
       step_Check :=
         [ ClusterExists "acsengine_kubernetes_cluster.test";
           ResourceAttr "acsengine_kubernetes_cluster.test"
             "agent_pool_profiles.0.count" "1" ] |} ].

Definition TestAccACSEngineK8sCluster_scaleDownUp : list TestStep :=
  let clientID := Getenv "ARM_CLIENT_ID" in
  let clientSecret := Getenv "ARM_CLIENT_SECRET" in
  let location := Getenv "ARM_TEST_LOCATION" in
  let keyData := Getenv "SSH_KEY_PUB" in
  let config :=
    testAccACSEngineK8sClusterScale ri clientID clientSecret location keyData
      2 in
  let scaledDownConfig :=
    testAccACSEngineK8sClusterScale ri clientID clientSecret location keyData
      1 in
  [ {| step_Config := config;
       step_Check :=
         [ ClusterExists "acsengine_kubernetes_cluster.test";
           ResourceAttr "acsengine_kubernetes_cluster.test"
             "agent_pool_profiles.0.count" "2" ] |};
    {| step_Config := scaledDownConfig;
       step_Check :=
         [ ClusterExists "acsengine_kubernetes_cluster.test";
           ResourceAttr "acsengine_kubernetes_cluster.test"
             "agent_pool_profiles.0.count" "1" ] |};
    {| step_Config := config;
       step_Check :=
         [ ClusterExists "acsengine_kubernetes_cluster.test";
           ResourceAttr "acsengine_kubernetes_cluster.test"
             "agent_pool_profiles.0.count" "2" ] |} ].

Definition TestAccACSEngineK8sCluster_upgradeOnce : list TestStep :=
  let clientID := Getenv "ARM_CLIENT_ID" in
  let clientSecret := Getenv "ARM_CLIENT_SECRET" in
  let location := Getenv "ARM_TEST_LOCATION" in
  let keyData := Getenv "SSH_KEY_PUB" in
  let vmSize := "Standard_D2_v2" in
  let osDiskSizeGB := 30 in
  let config :=
    testAccACSEngineK8sClusterCustomized ri clientID clientSecret location
      keyData "1.8.13" 1 vmSize osDiskSizeGB in
  let upgradedConfig :=
    testAccACSEngineK8sClusterCustomized ri clientID clientSecret location
      keyData "1.9.8" 1 vmSize osDiskSizeGB in
  [ {| step_Config := config;
       step_Check :=
         [ ClusterExists "acsengine_kubernetes_cluster.test";
           ResourceAttr "acsengine_kubernetes_cluster.test"
             "kubernetes_version" "1.8.13" ] |};
    {| step_Config := upgradedConfig;
       step_Check :=
         [ ClusterExists "acsengine_kubernetes_cluster.test";
           ResourceAttr "acsengine_kubernetes_cluster.test"
             "kubernetes_version" "1.9.8" ] |} ].

Definition TestAccACSEngineK8sCluster_upgradeMultiple : list TestStep :=
  let clientID := Getenv "ARM_CLIENT_ID" in
  let clientSecret := Getenv "ARM_CLIENT_SECRET" in
  let location := Getenv "ARM_TEST_LOCATION" in
  let keyData := Getenv "SSH_KEY_PUB" in
  let vmSize := "Standard_D2_v2" in
  let osDiskSizeGB := 30 in
  let config :=
    testAccACSEngineK8sClusterCustomized ri clientID clientSecret location
      keyData "1.8.13" 1 vmSize osDiskSizeGB in
  let upgradedConfig1 :=
    testAccACSEngineK8sClusterCustomized ri clientID clientSecret location
      keyData "1.9.8" 1 vmSize osDiskSizeGB in
  let upgradedConfig2 :=
    testAccACSEngineK8sClusterCustomized ri clientID clientSecret location
      keyData "1.10.0" 1 vmSize osDiskSizeGB in
  [ {| step_Config := config;
       step_Check :=
         [ ClusterExists "acsengine_kubernetes_cluster.test";
           ResourceAttr "acsengine_kubernetes_cluster.test"
             "kubernetes_version" "1.8.13" ] |};
    {| step_Config := upgradedConfig1;
       step_Check :=
         [ ClusterExists "acsengine_kubernetes_cluster.test";
           ResourceAttr "acsengine_kubernetes_cluster.test"
             "kubernetes_version" "1.9.8" ] |};
    {| step_Config := upgradedConfig2;
       step_Check :=
         [ ClusterExists "acsengine_kubernetes_cluster.test";
           ResourceAttr "acsengine_kubernetes_cluster.test"
             "kubernetes_version" "1.10.0" ] |} ].

Definition TestAccACSEngineK8sCluster_upgradeVersion10AndAbove : list TestStep :=
  let clientID := Getenv "ARM_CLIENT_ID" in
  let clientSecret := Getenv "ARM_CLIENT_SECRET" in
  let location := Getenv "ARM_TEST_LOCATION" in
  let keyData := Getenv "SSH_KEY_PUB" in
  let vmSize := "Standard_D2_v2" in
  let osDiskSizeGB := 30 in
  let config :=
    testAccACSEngineK8sClusterCustomized ri clientID clientSecret location
      keyData "1.10.0" 1 vmSize osDiskSizeGB in
  let upgradedConfig :=
    testAccACSEngineK8sClusterCustomized ri clientID clientSecret location
      keyData "1.10.1" 1 vmSize osDiskSizeGB in
  [ {| step_Config := config;
       step_Check :=
         [ ClusterExists "acsengine_kubernetes_cluster.test";
           ResourceAttr "acsengine_kubernetes_cluster.test"
             "kubernetes_version" "1.10.0";
           ResourceAttr "acsengine_kubernetes_cluster.test"
             "agent_pool_profiles.0.count" "1" ] |};
    {| step_Config := upgradedConfig;
       step_Check :=
         [ ClusterExists "acsengine_kubernetes_cluster.test";
           ResourceAttr "acsengine_kubernetes_cluster.test"
             "kubernetes_version" "1.10.1";
           ResourceAttr "acsengine_kubernetes_cluster.test"
             "agent_pool_profiles.0.count" "1" ] |} ].

Definition TestAccACSEngineK8sCluster_updateUpgradeScaleUp : list TestStep :=
  let clientID := Getenv "ARM_CLIENT_ID" in
  let clientSecret := Getenv "ARM_CLIENT_SECRET" in
  let location := Getenv "ARM_TEST_LOCATION" in
  let keyData := Getenv "SSH_KEY_PUB" in
  let vmSize := "Standard_D2_v2" in
  let osDiskSizeGB := 30 in
  let config :=
    testAccACSEngineK8sClusterCustomized ri clientID clientSecret location
      keyData "1.8.13" 1 vmSize osDiskSizeGB in
  let upgradedConfig :=
    testAccACSEngineK8sClusterCustomized ri clientID clientSecret location
      keyData "1.9.8" 1 vmSize osDiskSizeGB in
  let scaledConfig :=
    testAccACSEngineK8sClusterCustomized ri clientID clientSecret location
      keyData "1.9.8" 2 vmSize osDiskSizeGB in
  [ {| step_Config := config;
       step_Check :=
         [ ClusterExists "acsengine_kubernetes_cluster.test";
           ResourceAttr "acsengine_kubernetes_cluster.test"
             "kubernetes_version" "1.8.13";
           ResourceAttr "acsengine_kubernetes_cluster.test"
             "agent_pool_profiles.0.count" "1" ] |};
    {| step_Config := upgradedConfig;
       step_Check :=
         [ ClusterExists "acsengine_kubernetes_cluster.test";
           ResourceAttr "acsengine_kubernetes_cluster.test"
             "kubernetes_version" "1.9.8";
           ResourceAttr "acsengine_kubernetes_cluster.test"
             "agent_pool_profiles.0.count" "1" ] |};
    {| step_Config := scaledConfig;
       step_Check :=
         [ ClusterExists "acsengine_kubernetes_cluster.test";
           ResourceAttr "acsengine_kubernetes_cluster.test"
             "kubernetes_version" "1.9.8";
           ResourceAttr "acsengine_kubernetes_cluster.test"
             "agent_pool_profiles.0.count" "2" ] |} ].

Definition TestAccACSEngineK8sCluster_updateScaleUpUpgrade : list TestStep :=
  let clientID := Getenv "ARM_CLIENT_ID" in
  let clientSecret := Getenv "ARM_CLIENT_SECRET" in
  let location := Getenv "ARM_TEST_LOCATION" in
  let keyData := Getenv "SSH_KEY_PUB" in
  let vmSize := "Standard_D2_v2" in
  let osDiskSizeGB := 30 in
  let config :=
    testAccACSEngineK8sClusterCustomized ri clientID clientSecret location
      keyData "1.8.13" 1 vmSize osDiskSizeGB in
  let scaledConfig :=
    testAccACSEngineK8sClusterCustomized ri clientID clientSecret location
      keyData "1.8.13" 2 vmSize osDiskSizeGB in
  let upgradedConfig :=
    testAccACSEngineK8sClusterCustomized ri clientID clientSecret location
      keyData "1.9.8" 2 vmSize osDiskSizeGB in
  [ {| step_Config := config;
       step_Check :=
         [ ClusterExists "acsengine_kubernetes_cluster.test";
           ResourceAttr "acsengine_kubernetes_cluster.test"
             "kubernetes_version" "1.8.13";
           ResourceAttr "acsengine_kubernetes_cluster.test"
             "agent_pool_profiles.0.count" "1" ] |};
    {| step_Config := scaledConfig;
       step_Check :=
         [ ClusterExists "acsengine_kubernetes_cluster.test";
           ResourceAttr "acsengine_kubernetes_cluster.test"
             "kubernetes_version" "1.8.13";
           ResourceAttr "acsengine_kubernetes_cluster.test"
             "agent_pool_profiles.0.count" "2" ] |};
    {| step_Config := upgradedConfig;
       step_Check :=
         [ ClusterExists "acsengine_kubernetes_cluster.test";
           ResourceAttr "acsengine_kubernetes_cluster.test"
             "kubernetes_version" "1.9.8";
           ResourceAttr "acsengine_kubernetes_cluster.test"
             "agent_pool_profiles.0.count" "2" ] |} ].

Definition TestAccACSEngineK8sCluster_updateUpgradeScaleDown : list TestStep :=
  let clientID := Getenv "ARM_CLIENT_ID" in
  let clientSecret := Getenv "ARM_CLIENT_SECRET" in
  let location := Getenv "ARM_TEST_LOCATION" in
  let keyData := Getenv "SSH_KEY_PUB" in
  let vmSize := "Standard_D2_v2" in
  let osDiskSizeGB := 30 in
  let config :=
    testAccACSEngineK8sClusterCustomized ri clientID clientSecret location
      keyData "1.8.13" 2 vmSize osDiskSizeGB in
  let upgradedConfig :=
    testAccACSEngineK8sClusterCustomized ri clientID clientSecret location
      keyData "1.9.8" 2 vmSize osDiskSizeGB in
  let scaledConfig :=
    testAccACSEngineK8sClusterCustomized ri clientID clientSecret location
      keyData "1.9.8" 1 vmSize osDiskSizeGB in
  [ {| step_Config := config;
       step_Check :=
         [ ClusterExists "acsengine_kubernetes_cluster.test";
           ResourceAttr "acsengine_kubernetes_cluster.test"
             "kubernetes_version" "1.8.13";
           ResourceAttr "acsengine_kubernetes_cluster.test"
             "agent_pool_profiles.0.count" "2" ] |};
    {| step_Config := upgradedConfig;
       step_Check :=
         [ ClusterExists "acsengine_kubernetes_cluster.test";
           ResourceAttr "acsengine_kubernetes_cluster.test"
             "kubernetes_version" "1.9.8";
           ResourceAttr "acsengine_kubernetes_cluster.test"
             "agent_pool_profiles.0.count" "2" ] |};
    {| step_Config := scaledConfig;
       step_Check :=
         [ ClusterExists "acsengine_kubernetes_cluster.test";
           ResourceAttr "acsengine_kubernetes_cluster.test"
             "kubernetes_version" "1.9.8";
           ResourceAttr "acsengine_kubernetes_cluster.test"
             "agent_pool_profiles.0.count" "1" ] |} ].

Definition TestAccACSEngineK8sCluster_updateScaleDownUpgrade : list TestStep :=
  let clientID := Getenv "ARM_CLIENT_ID" in
  let clientSecret := Getenv "ARM_CLIENT_SECRET" in
  let location := Getenv "ARM_TEST_LOCATION" in
  let keyData := Getenv "SSH_KEY_PUB" in
  let vmSize := "Standard_D2_v2" in
  let osDiskSizeGB := 30 in
  let config :=
    testAccACSEngineK8sClusterCustomized ri clientID clientSecret location
      keyData "1.8.13" 2 vmSize osDiskSizeGB in
  let scaledConfig :=
    testAccACSEngineK8sClusterCustomized ri clientID clientSecret location
      keyData "1.8.13" 1 vmSize osDiskSizeGB in
  let upgradedConfig :=
    testAccACSEngineK8sClusterCustomized ri clientID clientSecret location
      keyData "1.9.8" 1 vmSize osDiskSizeGB in
  [ {| step_Config := config;
       step_Check :=
         [ ClusterExists "acsengine_kubernetes_cluster.test";
           ResourceAttr "acsengine_kubernetes_cluster.test"
             "kubernetes_version" "1.8.13";
           ResourceAttr "acsengine_kubernetes_cluster.test"
             "agent_pool_profiles.0.count" "2" ] |};
    {| step_Config := scaledConfig;
       step_Check :=
         [ ClusterExists "acsengine_kubernetes_cluster.test";
           ResourceAttr "acsengine_kubernetes_cluster.test"
             "kubernetes_version" "1.8.13";
           ResourceAttr "acsengine_kubernetes_cluster.test"
             "agent_pool_profiles.0.count" "1" ] |};
    {| step_Config := upgradedConfig;
       step_Check :=
         [ ClusterExists "acsengine_kubernetes_cluster.test";
           ResourceAttr "acsengine_kubernetes_cluster.test"
             "kubernetes_version" "1.9.8";
           ResourceAttr "acsengine_kubernetes_cluster.test"
             "agent_pool_profiles.0.count" "1" ] |} ].

Definition TestAccACSEngineK8sCluster_updateScaleUpgradeInOne : list TestStep :=
  let clientID := Getenv "ARM_CLIENT_ID" in
  let clientSecret := Getenv "ARM_CLIENT_SECRET" in
  let location := Getenv "ARM_TEST_LOCATION" in
  let keyData := Getenv "SSH_KEY_PUB" in
  let vmSize := "Standard_D2_v2" in
  let osDiskSizeGB := 30 in
  let config :=
    testAccACSEngineK8sClusterCustomized ri clientID clientSecret location
      keyData "1.8.13" 1 vmSize osDiskSizeGB in
  let updatedConfig :=
    testAccACSEngineK8sClusterCustomized ri clientID clientSecret location
      keyData "1.9.8" 2 vmSize osDiskSizeGB in
  [ {| step_Config := config;
       step_Check :=
         [ ClusterExists "acsengine_kubernetes_cluster.test";
           ResourceAttr "acsengine_kubernetes_cluster.test"
             "kubernetes_version" "1.8.13";
           ResourceAttr "acsengine_kubernetes_cluster.test"
             "agent_pool_profiles.0.count" "1" ] |};
    {| step_Config := updatedConfig;
       step_Check :=
         [ ClusterExists "acsengine_kubernetes_cluster.test";
           ResourceAttr "acsengine_kubernetes_cluster.test"
             "kubernetes_version" "1.9.8";
           ResourceAttr "acsengine_kubernetes_cluster.test"
             "agent_pool_profiles.0.count" "2" ] |} ].

Definition TestAccACSEngineK8sCluster_updateTags : list TestStep :=
  let clientID := Getenv "ARM_CLIENT_ID" in
  let clientSecret := Getenv "ARM_CLIENT_SECRET" in
  let location := Getenv "ARM_TEST_LOCATION" in
  let keyData := Getenv "SSH_KEY_PUB" in
  let config :=
    testAccACSEngineK8sClusterBasic ri clientID clientSecret location keyData
      in
  let newTagsConfig :=
    testAccACSEngineK8sClusterTags ri clientID clientSecret location keyData
      "Prod" "IT" in
  [ {| step_Config := config;
       step_Check :=
         [ ClusterExists "acsengine_kubernetes_cluster.test";
           ResourceAttr "acsengine_kubernetes_cluster.test"
             "tags.Environment" "Production" ] |};
    {| step_Config := newTagsConfig;
       step_Check :=
         [ ClusterExists "acsengine_kubernetes_cluster.test";
           ResourceAttr "acsengine_kubernetes_cluster.test"
             "tags.Environment" "Prod";
           ResourceAttr "acsengine_kubernetes_cluster.test"
             "tags.Department" "IT" ] |} ].

Definition TestAccACSEngineK8sCluster_createWindowsAgentCluster : list TestStep :=
  let clientID := Getenv "ARM_CLIENT_ID" in
  let clientSecret := Getenv "ARM_CLIENT_SECRET" in
  let location := Getenv "ARM_TEST_LOCATION" in
  let keyData := Getenv "SSH_KEY_PUB" in
  let kubernetesVersion := "1.8.13" in
  let count := 1 in
  let config :=
    testAccACSEngineK8sClusterOSType ri clientID clientSecret location keyData
      kubernetesVersion count in
  [ {| step_Config := config;
       step_Check :=
         [ ClusterExists "acsengine_kubernetes_cluster.test" ] |} ].

Definition TestAccACSEngineK8sCluster_scaleUpDownWindowsAgentCluster : list TestStep :=
  let clientID := Getenv "ARM_CLIENT_ID" in
  let clientSecret := Getenv "ARM_CLIENT_SECRET" in
  let location := Getenv "ARM_TEST_LOCATION" in
  let keyData := Getenv "SSH_KEY_PUB" in
  let kubernetesVersion := "1.8.13" in
  let config :=
    testAccACSEngineK8sClusterOSType ri clientID clientSecret location keyData
      kubernetesVersion 1 in
  let scaledUpConfig :=
    testAccACSEngineK8sClusterOSType ri clientID clientSecret location keyData
      kubernetesVersion 2 in
  let scaledDownConfig :=
    testAccACSEngineK8sClusterOSType ri clientID clientSecret location keyData
      kubernetesVersion 1 in
  [ {| step_Config := config;
       step_Check :=
         [ ClusterExists "acsengine_kubernetes_cluster.test" ] |};
    {| step_Config := scaledUpConfig;
       step_Check :=
         [ ClusterExists "acsengine_kubernetes_cluster.test" ] |};
    {| step_Config := scaledDownConfig;
       step_Check :=
         [ ClusterExists "acsengine_kubernetes_cluster.test" ] |} ].

End scenarios.

(** ** What a scenario is checked against *)

(** The attribute of the flattened state at a path: the components of the
    path are keys of maps and indices of lists, and the leaf is printed. *)
Fixpoint flatmap_get_value (v : value) (path : list string) : option string :=
  match path with
  | [] =>
      match v with
      | VString s => Some s
      | VInt n => Some (pretty n)
      | VBool b => Some (if b then "true" else "false")
      | _ => None
      end
  | k :: path' =>
      match v with
      | VMap m => v' ← m !! k; flatmap_get_value v' path'
      | VList l =>
          i ← parse_component k;
          v' ← l !! N.to_nat i;
          flatmap_get_value v' path'
      | _ => None
      end
  end.

Definition flatmap_get (d : ResourceData) (key : string) : option string :=
  flatmap_get_value (VMap d) (split "." key).

(** The attributes the resource computes: a configuration does not declare
    them. *)
Definition computed_attributes : list string := ["master_profile.0.fqdn"].

(** The domain name the resource reads back for a configuration: the one
    [flattenMasterProfile] computes for the expanded master profile at the
    configuration's location. *)
Definition computed_fqdn (d : ResourceData) : option string :=
  match expandMasterProfile d, field_string d "location" with
  | Ok profile, Ok location =>
      match flattenMasterProfile profile location with
      | Ok [VMap m] => m !! "fqdn" ≫= tag_string
      | _ => None
      end
  | _, _ => None
  end.

(** A check agrees with a configuration when the attribute it names has the
    expected value in the configuration, or is the computed domain name,
    which the configuration leaves out and the resource computes to the
    expected value. *)
Definition check_agrees (d : ResourceData) (c : check) : Prop :=
  match c with
  | ClusterExists _ => True
  | ResourceAttr _ key value =>
      if decide (key ∈ computed_attributes)
      then flatmap_get d key = None ∧ computed_fqdn d = Some value
      else flatmap_get d key = Some value
  end.

Definition step_agrees (st : TestStep) : Prop :=
  Forall (check_agrees (step_Config st)) (step_Check st).

(** The update from the configuration of one step to that of the next: the
    upgrade policy is consulted when both declare a version and the version
    changes. *)
Definition update_approved (old new : ResourceData) : result version_error unit :=
  match kubernetes_version old, kubernetes_version new with
  | Some current, Some proposed =>
      if decide (current = proposed) then Ok tt
      else validateKubernetesVersionUpgrade proposed current
  | _, _ => Ok tt
  end.

Fixpoint steps_approved (steps : list TestStep) : result version_error unit :=
  match steps with
  | st :: (st' :: _) as steps' =>
      update_approved (step_Config st) (step_Config st');;
      steps_approved steps'
  | _ => Ok tt
  end.

(** The scenarios of the test file. *)
Definition scenarios (Getenv : environ) (ri : Z) : list (list TestStep) :=
  [ TestAccACSEngineK8sCluster_createBasic Getenv ri;
    TestAccACSEngineK8sCluster_createMultipleAgentPools Getenv ri;
    TestAccACSEngineK8sCluster_createCustomized Getenv ri;
    TestAccACSEngineK8sCluster_createVersion10AndAbove Getenv ri;
    TestAccACSEngineK8sCluster_scaleUp Getenv ri;
    TestAccACSEngineK8sCluster_scaleDown Getenv ri;
    TestAccACSEngineK8sCluster_scaleUpDown Getenv ri;
    TestAccACSEngineK8sCluster_scaleDownUp Getenv ri;
    TestAccACSEngineK8sCluster_upgradeOnce Getenv ri;
    TestAccACSEngineK8sCluster_upgradeMultiple Getenv ri;
    TestAccACSEngineK8sCluster_upgradeVersion10AndAbove Getenv ri;
    TestAccACSEngineK8sCluster_updateUpgradeScaleUp Getenv ri;
    TestAccACSEngineK8sCluster_updateScaleUpUpgrade Getenv ri;
    TestAccACSEngineK8sCluster_updateUpgradeScaleDown Getenv ri;
    TestAccACSEngineK8sCluster_updateScaleDownUpgrade Getenv ri;
    TestAccACSEngineK8sCluster_updateScaleUpgradeInOne Getenv ri;
    TestAccACSEngineK8sCluster_updateTags Getenv ri;
    TestAccACSEngineK8sCluster_createWindowsAgentCluster Getenv ri;
    TestAccACSEngineK8sCluster_scaleUpDownWindowsAgentCluster Getenv ri ].

(** The version a step declares, parsed. *)
Definition step_version (st : TestStep) : option version :=
  s ← kubernetes_version (step_Config st);
  match parseVersion s with Ok v => Some v | Err _ => None end.

(** A configuration passes the validators of the schema: the count of
    masters, the count of every agent pool and, when a version is declared,
    the version against the release lines of the tests. *)
Definition config_valid (d : ResourceData) : Prop :=
  match expandClusterSpecification d with
  | Ok spec =>
      (validateMasterProfileCount
         (MasterProfile_Count (spec_MasterProfile spec)) "count").2 = [] ∧
      Forall (λ pool, (validateAgentPoolProfileCount (Count pool) "count").2 = [])
             (spec_AgentPoolProfiles spec) ∧
      from_option
        (λ v, (@validateKubernetesVersion tested_lines v "kubernetes_version").2 = [])
        True (spec_KubernetesVersion spec)
  | Err _ => False
  end.

(** ** Theorems *)

(** In every acceptance scenario, for every environment and random
    integer, each change of version from one step to the next is approved by
    the upgrade policy. *)
Theorem scenarios_approved Getenv ri :
  Forall (λ steps, steps_approved steps = Ok tt) (scenarios Getenv ri).
Proof. repeat (constructor; [by vm_compute|]). constructor. Qed.

(** C25. In every acceptance scenario each step's checks agree with the
    step's configuration: every attribute a check names is declared by the
    configuration with the value the check expects, counts printed in
    decimal, except the domain name of the masters, which the configuration
    leaves out and [flattenMasterProfile] computes to the expected
    [<prefix>.<location>.cloudapp.azure.com]. *)
Theorem scenarios_checks_agree Getenv ri :
  Forall (Forall step_agrees) (scenarios Getenv ri).
Proof.
  repeat first [apply List.Forall_nil | apply List.Forall_cons];
    by vm_compute.
Qed.

(** Every configuration of every scenario expands to a cluster
    specification, whatever the environment holds: no required field is
    missing, the user name is not empty, and pool names are distinct. *)
Theorem scenarios_expand Getenv ri :
  Forall (Forall (λ st, is_ok (expandClusterSpecification (step_Config st)) = true))
    (scenarios Getenv ri).
Proof. repeat constructor. Qed.

(** The second step of [upgradeMultiple] cannot be skipped: the scenario
    has three steps, and going from the configuration of the first (1.8.13)
    straight to that of the last (1.10.0) is refused as a jump over a minor
    release. *)
Theorem upgradeMultiple_no_skip Getenv ri :
  match TestAccACSEngineK8sCluster_upgradeMultiple Getenv ri with
  | [st1; _; st3] =>
      update_approved (step_Config st1) (step_Config st3) =
      Err (MultiMinorJump (Version 1 8 13) (Version 1 10 0))
  | _ => False
  end.
Proof. done. Qed.

(** Every configuration of every acceptance scenario passes the
    validators of the schema: one, three or five masters, between 1 and 100
    agents in every pool, and a declared version on a supported release
    line. *)
Theorem scenarios_valid Getenv ri :
  Forall (Forall (λ st, config_valid (step_Config st))) (scenarios Getenv ri).
Proof.
  repeat first [apply List.Forall_nil | apply List.Forall_cons];
    vm_compute; by repeat constructor.
Qed.

(** An approved update between two steps that declare versions keeps the
    version or is an approved upgrade. *)
Lemma update_approved_versions st st' v w :
  step_version st = Some v → step_version st' = Some w →
  update_approved (step_Config st) (step_Config st') = Ok tt →
  v = w ∨ upgrade_step v w.
Proof.
  unfold step_version, update_approved, validateKubernetesVersionUpgrade.
  destruct (kubernetes_version (step_Config st)) as [s|]; [|done].
  destruct (kubernetes_version (step_Config st')) as [s'|]; [|done]. simpl.
  destruct (parseVersion s) as [v0|] eqn:Hs; [|done].
  destruct (parseVersion s') as [w0|] eqn:Hs'; [|done].
  intros [= ->] [= ->]. case_decide as Heq; [left; congruence|].
  simpl. by right.
Qed.

(** Along approved steps that all declare a version, every later version is
    reached from the first by approved upgrades. *)
Lemma steps_approved_rtc steps st v :
  steps_approved (st :: steps) = Ok tt → step_version st = Some v →
  Forall (λ st', is_Some (step_version st')) steps →
  Forall (λ st', ∃ w, step_version st' = Some w ∧ rtc upgrade_step v w) steps.
Proof.
  revert st v; induction steps as [|st' steps IH]; intros st v Ha Hv Hall;
    [constructor|].
  apply Forall_cons in Hall as [[w Hw] Hall]. simpl in Ha.
  destruct (update_approved _ _) as [[]|] eqn:Hu; [|done]. simpl in Ha.
  assert (rtc upgrade_step v w) as Hvw.
  { destruct (update_approved_versions _ _ _ _ Hv Hw Hu) as [->|?];
      [done|by apply rtc_once]. }
  constructor; [by exists w|].
  eapply Forall_impl; [by apply (IH st' w)|].
  intros st'' (w' & ? & ?). exists w'. split; [done|by etrans].
Qed.

(** In a sequence of steps that all declare a version and whose updates
    are approved, no step has a version older than the first step's, and
    every step has the first step's major version: a scenario can neither
    downgrade a cluster nor move it to another major, in any number of
    steps. *)
Theorem steps_approved_invariant steps st v :
  steps_approved (st :: steps) = Ok tt → step_version st = Some v →
  Forall (λ st', is_Some (step_version st')) steps →
  Forall (λ st', ∃ w, step_version st' = Some w ∧
                      major w = major v ∧ (v = w ∨ version_lt v w)) steps.
Proof.
  intros Ha Hv Hall. eapply Forall_impl; [by apply (steps_approved_rtc _ st)|].
  intros st' (w & ? & Hrtc). exists w. split; [done|].
  by apply upgrade_steps_invariant.
Qed.

Lemma steps_approved_invariant_witness :
  let steps := TestAccACSEngineK8sCluster_upgradeMultiple (λ _, "") 0 in
  Forall (λ st', ∃ w, step_version st' = Some w ∧
                      major w = 1%N ∧ (Version 1 8 13 = w ∨ version_lt (Version 1 8 13) w))
         (tail steps).
Proof.
  apply (steps_approved_invariant
           (tail (TestAccACSEngineK8sCluster_upgradeMultiple (λ _, "") 0))
           {| step_Config :=
                testAccACSEngineK8sClusterCustomized 0 "" "" "" "" "1.8.13" 1
                  "Standard_D2_v2" 30;
              step_Check :=
                [ ClusterExists "acsengine_kubernetes_cluster.test";
                  ResourceAttr "acsengine_kubernetes_cluster.test"
                    "kubernetes_version" "1.8.13" ] |}
           (Version 1 8 13)).
  - by vm_compute.
  - by vm_compute.
  - repeat first [apply List.Forall_nil | apply List.Forall_cons];
      vm_compute; by eexists.
Defined.
