(* ===== verification/Lifecycle.v ===== *)
(** * Lifecycle: the resource from plan to destroy

    The data flow of the specification (section 2) as a state machine, and
    the acceptance tests of
    [src/acsengine/resource_acsengine_kubernetes_cluster_test.go] run on it.

    The state of the host ([host]) is what is deployed in the cloud, by
    resource group and name, and the attributes the host stores for the one
    resource of the tests.  An event applies a configuration (a create when
    nothing is stored, an update otherwise), refreshes the stored attributes
    from the cloud, or destroys the resource.  A configuration is planned
    (checked against the schema, expanded, validated), an update is gated by
    the version policy before anything is deployed, and what is stored after
    a deployment is the flattened specification together with the
    credentials [flattenKubeConfig] extracts from the cluster-admin
    configuration the deployment produced.  The deployment itself is
    external: the class [Provisioner] gives the document a deployed cluster
    answers with, and nothing else of the cloud is modelled; the cloud
    changes only through the resource.

    [host_step] is the executable machine, [transition] the same machine as rules;
    [reachable] closes the rules from the empty host.  [resource_Test] is the
    harness of the acceptance tests: the steps of a test in order, each
    configuration step applied and its checks run on the result, an import
    step compared with what is stored, and after the last step the destroy
    followed by [testCheckACSEngineClusterDestroy] on the state before it.
    The harness does not model the plan that [resource.Test] runs after each
    apply; that a second apply of the same configuration changes nothing is
    a theorem ([apply_idempotent]). *)

From stdpp Require Import gmap pretty relations.
From S2P Require Import Prelude Yaml Json JsonPrint KubeConfig Fixtures Marshal Go Api Base64.
From S2P Require Import SpecMapper Fakes VersionPolicy Credentials Schema Checks Acceptance Scenarios.
From stdpp Require Import options.
Set Warnings "-clear-no-such-hyp".

Local Open Scope Z_scope.

(** ** The cloud *)

Global Instance ClusterSpecification_eq_dec : EqDecision ClusterSpecification.
Proof. solve_decision. Defined.

(** What is deployed, by resource group and deployment name. *)
Abbreviation deployments := (gmap (string * string) ClusterSpecification).

(** The deployments client of the checks, answering from what is deployed. *)
Definition cloud_client (c : deployments) : DeploymentsClient := λ resourceGroup name,
  Ok {| StatusCode := if c !! (resourceGroup, name) is Some _ then 200
                      else StatusNotFound |}.

(** The cluster-admin configuration document a deployed cluster answers
    with. *)
Class Provisioner := admin_config : ClusterSpecification → string.

(** A provisioner whose documents [ParseKubeConfig] accepts. *)
Class Conforming `{Unmarshaler, Provisioner} : Prop :=
  conforming spec : ∃ config, ParseKubeConfig (admin_config spec) = Ok config.

(** The provisioner of the tests: the document of the fixture, marshalled,
    for the DNS prefix of the masters and the location of the cluster. *)
Definition fixture_provisioner : Provisioner := λ spec,
  marshal_KubeConfig
    (fixture_KubeConfig (DNSPrefix (spec_MasterProfile spec)) (spec_Location spec)).

(** ** The host *)

Record host := Host { deployed : deployments; stored : option ResourceData }.

Global Instance host_eq_dec : EqDecision host.
Proof. solve_decision. Defined.

Definition init : host := Host ∅ None.

Inductive lifecycle_error :=
| IllTyped
| Validation (e : ValidationError)
| UnsupportedVersion (e : version_error)
| IdentityChanged (old new : string * string)
| PolicyViolation (e : version_error)
| Credentials (e : parse_error).

Inductive event :=
| Apply (config : ResourceData)
| Refresh
| Destroy.

(** The deployment of a specification, and the deployment the attributes
    name. *)
Definition spec_key (spec : ClusterSpecification) : string * string :=
  (spec_ResourceGroup spec, spec_Name spec).

Definition state_key (d : ResourceData) : string * string :=
  (default "" (d !! "resource_group" ≫= tag_string),
   default "" (d !! "name" ≫= tag_string)).

(** The version the attributes declare, parsed. *)
Definition config_version (d : ResourceData) : option version :=
  s ← kubernetes_version d;
  match parseVersion s with Ok v => Some v | Err _ => None end.

(** The version of the cluster the host stores. *)
Definition stored_version (h : host) : option version :=
  stored h ≫= config_version.

(** A specification moved to another version. *)
Definition upgraded (spec : ClusterSpecification) (v : version) :
    ClusterSpecification :=
  {| spec_Name := spec_Name spec; spec_ResourceGroup := spec_ResourceGroup spec;
     spec_Location := spec_Location spec;
     spec_KubernetesVersion := Some (printVersion v);
     spec_LinuxProfile := spec_LinuxProfile spec;
     spec_ServicePrincipal := spec_ServicePrincipal spec;
     spec_MasterProfile := spec_MasterProfile spec;
     spec_AgentPoolProfiles := spec_AgentPoolProfiles spec;
     spec_Tags := spec_Tags spec |}.

Section lifecycle.
Context `{Unmarshaler, Provisioner, VersionTable}.

(** ** The operations of the resource *)

(** The errors of the schema's validators on a specification: the count of
    masters, the count of every pool, the version when there is one. *)
Definition validate (spec : ClusterSpecification) : list lifecycle_error :=
  (Validation <$>
     (validateMasterProfileCount
        (MasterProfile_Count (spec_MasterProfile spec)) "count").2)
  ++ (spec_AgentPoolProfiles spec ≫= λ pool,
        Validation <$> (validateAgentPoolProfileCount (Count pool) "count").2)
  ++ from_option
       (λ v, UnsupportedVersion <$>
               (validateKubernetesVersion v "kubernetes_version").2)
       [] (spec_KubernetesVersion spec).

(** The plan of a configuration: it conforms to the schema, expands, and
    passes the validators. *)
Definition plan (config : ResourceData) :
    result lifecycle_error ClusterSpecification :=
  failif negb (has_type cluster_schema (VMap config)) then IllTyped;
  spec ← map_err Validation (expandClusterSpecification config);
  match validate spec with
  | e :: _ => Err e
  | [] => Ok spec
  end.

(** What is read of a deployed cluster: the specification flattened, and the
    credentials extracted from the document the cluster answers with. *)
Definition resourceRead (spec : ClusterSpecification) :
    result lifecycle_error ResourceData :=
  d ← map_err Validation (flattenClusterSpecification spec);
  '(raw, kubeConfig) ← map_err Credentials (flattenKubeConfig (admin_config spec));
  Ok (d_Set (d_Set d "kube_config" (VList kubeConfig))
            "kube_config_raw" (VString raw)).

(** The deployment of a specification, read back. *)
Definition deploy (c : deployments) (spec : ClusterSpecification) :
    result lifecycle_error host :=
  let c := <[spec_key spec := spec]> c in
  state ← resourceRead spec;
  Ok (Host c (Some state)).

Definition resourceCreate (c : deployments) (config : ResourceData) :
    result lifecycle_error host :=
  spec ← plan config;
  deploy c spec.

(** An update keeps the identity of the cluster, and is gated by the version
    policy before anything is deployed. *)
Definition resourceUpdate (c : deployments) (state config : ResourceData) :
    result lifecycle_error host :=
  spec ← plan config;
  failif negb (bool_decide (spec_key spec = state_key state))
    then IdentityChanged (state_key state) (spec_key spec);
  map_err PolicyViolation (update_approved state config);;
  deploy c spec.

Definition resourceRefresh (c : deployments) (state : ResourceData) :
    result lifecycle_error host :=
  match c !! state_key state with
  | None => Ok (Host c None)
  | Some spec => state' ← resourceRead spec; Ok (Host c (Some state'))
  end.

Definition resourceDelete (c : deployments) (state : ResourceData) : host :=
  Host (delete (state_key state) c) None.

(** ** The machine *)

Definition host_step (h : host) (ev : event) : result lifecycle_error host :=
  match ev, stored h with
  | Apply config, None => resourceCreate (deployed h) config
  | Apply config, Some state => resourceUpdate (deployed h) state config
  | Refresh, None => Ok h
  | Refresh, Some state => resourceRefresh (deployed h) state
  | Destroy, None => Ok h
  | Destroy, Some state => Ok (resourceDelete (deployed h) state)
  end.

Definition run : host → list event → result lifecycle_error host := foldM host_step.

(** The machine as rules, one per way an event succeeds. *)
Inductive transition : host → event → host → Prop :=
| transition_create c config spec state :
    plan config = Ok spec → resourceRead spec = Ok state →
    transition (Host c None) (Apply config)
               (Host (<[spec_key spec := spec]> c) (Some state))
| transition_update c old config spec state :
    plan config = Ok spec → spec_key spec = state_key old →
    update_approved old config = Ok tt → resourceRead spec = Ok state →
    transition (Host c (Some old)) (Apply config)
               (Host (<[spec_key spec := spec]> c) (Some state))
| transition_refresh c old spec state :
    c !! state_key old = Some spec → resourceRead spec = Ok state →
    transition (Host c (Some old)) Refresh (Host c (Some state))
| transition_lost c old :
    c !! state_key old = None →
    transition (Host c (Some old)) Refresh (Host c None)
| transition_destroy c old :
    transition (Host c (Some old)) Destroy (Host (delete (state_key old) c) None)
| transition_idle c ev :
    ev = Refresh ∨ ev = Destroy → transition (Host c None) ev (Host c None).

Inductive reachable : host → Prop :=
| reachable_init : reachable init
| reachable_step h ev h' : reachable h → transition h ev h' → reachable h'.

(** What holds of every host the machine reaches: nothing is stored and
    nothing deployed, or one cluster is deployed, under the identity of its
    specification, the specification passed the plan of some configuration,
    and what is stored is what is read of it. *)
Definition consistent (h : host) : Prop :=
  match stored h with
  | None => deployed h = ∅
  | Some state =>
      ∃ config spec, plan config = Ok spec ∧
                     deployed h = {[ spec_key spec := spec ]} ∧
                     resourceRead spec = Ok state
  end.

(** ** The harness of the acceptance tests *)

(** The resource in the Terraform state: its type, and the attributes of its
    primary instance that are strings at the top of the store. *)
Definition resource_state (state : ResourceData) : ResourceState :=
  {| rs_Type := "acsengine_kubernetes_cluster";
     Primary := {| Attributes := omap tag_string state |} |}.

Definition resources (h : host) : Resources :=
  from_option (λ state, {[ test_resource := resource_state state ]}) ∅ (stored h).

(** A [resource.TestStep]: a configuration with its checks, or an import of
    the named resource ([ImportState]) with or without [ImportStateVerify]. *)
Inductive test_step :=
| ConfigStep (st : TestStep)
| ImportStep (ResourceName : string) (ImportStateVerify : bool).

Inductive test_failure :=
| ApplyFailed (e : lifecycle_error)
| CheckFailed (e : check_error)
| NotInState (name : string)
| AttrMismatch (key : string) (got : option string) (want : string)
| ImportMismatch (name : string).

(** [resource.TestCheckResourceAttr(name, key, value)]. *)
Definition TestCheckResourceAttr (name key value : string) (h : host) :
    result test_failure unit :=
  match resources h !! name, stored h with
  | Some _, Some state =>
      let got := flatmap_get state key in
      failif negb (bool_decide (got = Some value)) then AttrMismatch key got value;
      Ok tt
  | _, _ => Err (NotInState name)
  end.

Definition run_check (h : host) (c : check) : result test_failure unit :=
  match c with
  | ClusterExists name =>
      map_err CheckFailed
        (testCheckACSEngineClusterExists (H := cloud_client (deployed h))
           name (resources h))
  | ResourceAttr name key value => TestCheckResourceAttr name key value h
  end.

(** An import reads the named resource from the cloud into a state of its
    own; with [ImportStateVerify] what it reads is compared with what is
    stored. *)
Definition import_step (h : host) (name : string) (verify : bool) :
    result test_failure host :=
  match resources h !! name, stored h with
  | Some _, Some state =>
      h' ← map_err ApplyFailed (resourceRefresh (deployed h) state);
      failif verify && negb (bool_decide (stored h' = Some state))
        then ImportMismatch name;
      Ok h
  | _, _ => Err (NotInState name)
  end.

Definition run_step (h : host) (st : test_step) : result test_failure host :=
  match st with
  | ConfigStep st =>
      h' ← map_err ApplyFailed (host_step h (Apply (step_Config st)));
      foldM (λ _ c, run_check h' c) tt (step_Check st);;
      Ok h'
  | ImportStep name verify => import_step h name verify
  end.

(** [resource.Test]: the steps from the empty host, the destroy, and
    [CheckDestroy] on the state before the destroy, against the cloud after
    it. *)
Definition resource_Test (steps : list test_step) : result test_failure unit :=
  h ← foldM run_step init steps;
  h' ← map_err ApplyFailed (host_step h Destroy);
  map_err CheckFailed
    (testCheckACSEngineClusterDestroy (H := cloud_client (deployed h'))
       (map_to_list (resources h)).*2).

(** [TestAccACSEngineK8sCluster_importBasic]. *)
Definition TestAccACSEngineK8sCluster_importBasic (Getenv : environ) (ri : Z) :
    list test_step :=
  let resourceName := "acsengine_kubernetes_cluster.test" in
  let clientID := Getenv "ARM_CLIENT_ID" in
  let clientSecret := Getenv "ARM_CLIENT_SECRET" in
  let location := Getenv "ARM_TEST_LOCATION" in
  let keyData := Getenv "SSH_KEY_PUB" in
  let config :=
    testAccACSEngineK8sClusterBasic ri clientID clientSecret location keyData in
  [ ConfigStep {| step_Config := config; step_Check := [] |};
    ImportStep resourceName true ].

(** The acceptance tests that call [resource.Test]. *)
Definition acceptance_tests (Getenv : environ) (ri : Z) : list (list test_step) :=
  (map ConfigStep <$> scenarios Getenv ri)
  ++ [TestAccACSEngineK8sCluster_importBasic Getenv ri].

(** ** What a test needs of its steps *)

(** A check holds of the attributes that are read of a cluster. *)
Definition check_holds (state : ResourceData) (c : check) : Prop :=
  match c with
  | ClusterExists name => name = test_resource
  | ResourceAttr name key value =>
      name = test_resource ∧ flatmap_get state key = Some value
  end.

(** A check that reads the credentials. *)
Definition reads_credentials (c : check) : bool :=
  match c with
  | ResourceAttr _ key _ =>
      bool_decide (head (split "." key) ∈ [Some "kube_config"; Some "kube_config_raw"])
  | ClusterExists _ => false
  end.

(** A check of a configuration step holds of the configuration's
    specification, flattened. *)
Definition step_check (st : TestStep) (c : check) : Prop :=
  match plan (step_Config st) with
  | Ok spec =>
      match flattenClusterSpecification spec with
      | Ok d => check_holds d c ∧ reads_credentials c = false
      | Err _ => False
      end
  | Err _ => False
  end.

(** A configuration step is in order: the configuration passes the plan,
    and the checks hold. *)
Definition step_ok (st : TestStep) : Prop :=
  is_ok (plan (step_Config st)) = true ∧ Forall (step_check st) (step_Check st).

(** The steps of a test keep the identity of the cluster. *)
Fixpoint same_identity (steps : list TestStep) : Prop :=
  match steps with
  | st :: (st' :: _) as steps' =>
      state_key (step_Config st) = state_key (step_Config st') ∧
      same_identity steps'
  | _ => True
  end.

Definition steps_ok (steps : list TestStep) : Prop :=
  Forall step_ok steps ∧ steps_approved steps = Ok tt ∧ same_identity steps.

(** What a configuration step leaves behind: the cluster of its
    configuration. *)
Definition applied (h : host) (config : ResourceData) : Prop :=
  ∃ spec state, plan config = Ok spec ∧ resourceRead spec = Ok state ∧
                h = Host {[ spec_key spec := spec ]} (Some state).

(** The host after a run of events from the empty host. *)
Definition host_after (evs : list event) : host :=
  match run init evs with Ok h => h | Err _ => init end.

End lifecycle.

(** A configuration of the tests at a version, for the examples. *)
Definition sample_config (k8sVersion : string) : ResourceData :=
  testAccACSEngineK8sClusterCustomized 0 "id" "secret" "westus" "ssh-rsa key"
    k8sVersion 1 "Standard_D2_v2" 30.

(** The machine of the examples: the parser of [Json], the provisioner of
    the fixture, the release lines of the tests. *)
Definition sample_after : list event → host :=
  @host_after tag_unmarshaler fixture_provisioner tested_lines.

(** A cluster at version 1.8.13, and the same cluster upgraded to 1.9.0. *)
Definition sample_events : list event := [Apply (sample_config "1.8.13")].

Definition sample_upgrade : list event := [Apply (sample_config "1.9.0")].

(** * Theorems *)

Local Ltac field_in :=
  solve [simpl; repeat first [apply list_elem_of_here | apply list_elem_of_further]].

Section lifecycle_lemmas.
Context `{Unmarshaler, Provisioner, VersionTable}.

(** ** The plan *)

Lemma plan_Ok config spec :
  plan config = Ok spec ↔
  store_typed config ∧ expandClusterSpecification config = Ok spec ∧
  validate spec = [].
Proof.
  unfold plan, store_typed.
  destruct (has_type _ _); simpl; [|split; [done|by intros [? _]]].
  destruct (expandClusterSpecification config) as [spec'|]; simpl;
    [|split; [done|by intros (_ & ? & _)]].
  destruct (validate spec') eqn:Hv;
    (split; [intros [= <-]; by split_and!|intros (_ & [= <-] & ?); congruence]).
Qed.

(** ** What is read of a cluster *)

Lemma resourceRead_Ok spec state :
  resourceRead spec = Ok state →
  ∃ d config c cs u us,
    flattenClusterSpecification spec = Ok d ∧
    ParseKubeConfig (admin_config spec) = Ok config ∧
    Clusters config = c :: cs ∧ Users config = u :: us ∧
    state = d_Set (d_Set d "kube_config"
                     (VList [VMap (kubeConfigValues (userItem_Name u) (Cluster c) (User u))]))
                  "kube_config_raw" (VString (base64Encode (admin_config spec))).
Proof.
  unfold resourceRead.
  destruct (flattenClusterSpecification spec) as [d|] eqn:Hd; [|done].
  destruct (ParseKubeConfig (admin_config spec)) as [config|e] eqn:Hp.
  - destruct (flattenKubeConfig_parsed _ _ Hp) as (c & cs & u & us & Hc & Hu & _ & ->).
    intros [= <-]. by eexists d, config, c, cs, u, us.
  - by rewrite (flattenKubeConfig_Err _ _ Hp).
Qed.

(** With a conforming provisioner every cluster can be read. *)
Lemma resourceRead_conforming `{!Conforming} spec :
  ∃ state, resourceRead spec = Ok state.
Proof.
  destruct (conforming spec) as [config Hp]. unfold resourceRead.
  destruct (flattenClusterSpecification_Ok spec) as [d ->].
  destruct (flattenKubeConfig_parsed _ _ Hp) as (c & cs & u & us & _ & _ & _ & ->).
  by eexists.
Qed.

Lemma resourceRead_lookup spec state k :
  resourceRead spec = Ok state → k ∉ ["kube_config"; "kube_config_raw"] →
  ∃ d, flattenClusterSpecification spec = Ok d ∧ state !! k = d !! k.
Proof.
  intros (d & ? & ? & ? & ? & ? & Hd & _ & _ & _ & ->)%resourceRead_Ok Hk.
  exists d. split; [done|]. unfold d_Set, ResourceData in *.
  rewrite !(lookup_insert_ne (M:=gmap string));
    [done|intros <-; apply Hk; repeat constructor..].
Qed.

Lemma resourceRead_key spec state :
  resourceRead spec = Ok state → state_key state = spec_key spec.
Proof.
  intros Hr.
  destruct (resourceRead_lookup _ _ "name" Hr) as (d & Hd & Hn); [compute_done|].
  destruct (resourceRead_lookup _ _ "resource_group" Hr) as (d' & Hd' & Hg);
    [compute_done|].
  assert (d' = d) as -> by congruence.
  apply flattenClusterSpecification_lookup in Hd as (Hdn & Hdg & _).
  unfold state_key, spec_key. unfold ResourceData in *. by rewrite Hn, Hg, Hdn, Hdg.
Qed.

Lemma resourceRead_version spec state :
  resourceRead spec = Ok state →
  kubernetes_version state = spec_KubernetesVersion spec.
Proof.
  intros Hr.
  destruct (resourceRead_lookup _ _ "kubernetes_version" Hr) as (d & Hd & Hv);
    [compute_done|].
  apply flattenClusterSpecification_lookup in Hd as (_ & _ & Hdv & _).
  unfold kubernetes_version, d_GetOk. unfold ResourceData in *. rewrite Hv, Hdv.
  by destruct (spec_KubernetesVersion spec).
Qed.

Lemma resourceRead_typed spec state :
  spec_AgentPoolProfiles spec ≠ [] → resourceRead spec = Ok state →
  store_typed state.
Proof.
  intros Hne (d & ? & ? & ? & ? & ? & Hd & _ & _ & _ & ->)%resourceRead_Ok.
  apply flattenClusterSpecification_typed in Hd; [|done].
  apply (d_Set_typed _ _ false TypeString); [field_in| |done].
  apply (d_Set_typed _ _ false (TypeList 0 kube_config_schema)); [field_in|done|].
  apply has_type_list. eexists; split_and!; [done|simpl; lia|].
  repeat constructor. apply kubeConfigValues_typed.
Qed.

Lemma resourceRead_expand spec state :
  well_formed spec → resourceRead spec = Ok state →
  expandClusterSpecification state = Ok spec.
Proof.
  intros Hwf (d & ? & ? & ? & ? & ? & Hd & _ & _ & _ & ->)%resourceRead_Ok.
  rewrite !expandClusterSpecification_Set by compute_done.
  pose proof (expandClusterSpecification_flatten spec Hwf) as Hrt.
  by rewrite Hd in Hrt.
Qed.

(** What is read of a planned cluster passes the plan again, as the same
    specification. *)
Lemma plan_resourceRead config spec state :
  plan config = Ok spec → resourceRead spec = Ok state → plan state = Ok spec.
Proof.
  intros (Ht & He & Hv)%plan_Ok Hr. apply plan_Ok. split_and!; [|  |done].
  - eapply resourceRead_typed; [|done]. by eapply expandClusterSpecification_pools.
  - eapply resourceRead_expand; [|done]. by eapply expandClusterSpecification_well_formed.
Qed.

(** ** The machine and its rules *)

Lemma deploy_Ok c spec h :
  deploy c spec = Ok h ↔
  ∃ state, resourceRead spec = Ok state ∧
           h = Host (<[spec_key spec := spec]> c) (Some state).
Proof.
  unfold deploy. destruct (resourceRead spec) as [state|]; simpl.
  - split; [intros [= <-]; by eexists|by intros (? & [= <-] & ->)].
  - split; [done|by intros (? & ? & _)].
Qed.

Lemma resourceUpdate_Ok c old config h :
  resourceUpdate c old config = Ok h ↔
  ∃ spec, plan config = Ok spec ∧ spec_key spec = state_key old ∧
          update_approved old config = Ok tt ∧ deploy c spec = Ok h.
Proof.
  unfold resourceUpdate. destruct (plan config) as [spec|]; simpl;
    [|split; [done|by intros (? & ? & _)]].
  case_bool_decide as Hk; simpl;
    [|split; [done|intros (? & [= <-] & ? & _); done]].
  destruct (update_approved old config) as [[]|]; simpl.
  - split; [by exists spec|by intros (? & [= <-] & _ & _ & ?)].
  - split; [done|by intros (? & _ & _ & ? & _)].
Qed.

Lemma step_transition h ev h' : host_step h ev = Ok h' ↔ transition h ev h'.
Proof.
  split.
  - destruct h as [c [old|]], ev as [config| |]; simpl.
    + intros (spec & ? & ? & ? & (state & ? & ->)%deploy_Ok)%resourceUpdate_Ok.
      by constructor.
    + unfold resourceRefresh. destruct (c !! state_key old) as [spec|] eqn:Hc.
      * destruct (resourceRead spec) as [state|] eqn:Hr; intros [= <-].
        by econstructor.
      * intros [= <-]. by constructor.
    + intros [= <-]. constructor.
    + unfold resourceCreate.
      intros (spec & ? & (state & ? & ->)%deploy_Ok)%bind_Ok_inv. by constructor.
    + intros [= <-]. constructor. by left.
    + intros [= <-]. constructor. by right.
  - destruct 1 as [c config spec state Hp Hr|c old config spec state Hp Hk Hu Hr
                  |c old spec state Hc Hr|c old Hc|c old|c ev [-> | ->]]; simpl;
      try done.
    + unfold resourceCreate. rewrite Hp. simpl. apply deploy_Ok. by exists state.
    + apply resourceUpdate_Ok. exists spec. split_and!; [done..|].
      apply deploy_Ok. by exists state.
    + unfold resourceRefresh. by rewrite Hc, Hr.
    + unfold resourceRefresh. by rewrite Hc.
Qed.

Lemma run_cons h ev evs :
  run h (ev :: evs) = h' ← host_step h ev; run h' evs.
Proof. done. Qed.

(** ** The invariant *)

Lemma transition_consistent h ev h' :
  consistent h → transition h ev h' → consistent h'.
Proof.
  unfold consistent. intros Hh Ht.
  destruct Ht as [c config spec state Hp Hr|c old config spec state Hp Hk Hu Hr
                 |c old spec state Hc Hr|c old Hc|c old|c ev _]; simpl in *.
  - subst c. by exists config, spec.
  - destruct Hh as (config0 & spec0 & Hp0 & -> & Hr0).
    exists config, spec. split_and!; [done| |done].
    rewrite Hk, (resourceRead_key _ _ Hr0). apply insert_singleton_eq.
  - destruct Hh as (config0 & spec0 & Hp0 & -> & Hr0).
    rewrite (resourceRead_key _ _ Hr0), lookup_singleton_eq in Hc.
    injection Hc as <-. by exists config0, spec0.
  - destruct Hh as (config0 & spec0 & Hp0 & -> & Hr0).
    by rewrite (resourceRead_key _ _ Hr0), lookup_singleton_eq in Hc.
  - destruct Hh as (config0 & spec0 & Hp0 & -> & Hr0).
    rewrite (resourceRead_key _ _ Hr0). apply delete_singleton_eq.
  - done.
Qed.

Lemma reachable_consistent h : reachable h → consistent h.
Proof.
  induction 1 as [|h ev h' _ IH Ht]; [done|by eapply transition_consistent].
Qed.

(** ** What follows from the invariant *)

Lemma consistent_Some h state :
  consistent h → stored h = Some state →
  ∃ config spec, plan config = Ok spec ∧ deployed h = {[ spec_key spec := spec ]} ∧
                 resourceRead spec = Ok state ∧ state_key state = spec_key spec.
Proof.
  unfold consistent. intros Hh Hs. rewrite Hs in Hh.
  destruct Hh as (config & spec & ? & ? & ?). exists config, spec.
  split_and!; [done..|by apply resourceRead_key].
Qed.

Lemma consistent_typed h state :
  consistent h → stored h = Some state → store_typed state.
Proof.
  intros Hh Hs. destruct (consistent_Some _ _ Hh Hs) as (config & spec & Hp & _ & Hr & _).
  by apply (plan_resourceRead _ _ _ Hp), plan_Ok in Hr as (? & _).
Qed.

(** A refresh finds the cluster as it is stored: nothing drifts. *)
Lemma consistent_refresh h : consistent h → host_step h Refresh = Ok h.
Proof.
  destruct h as [c [state|]]; [|done]. intros Hh.
  destruct (consistent_Some _ _ Hh eq_refl) as (config & spec & _ & Hc & Hr & Hk).
  simpl in *. subst c. unfold resourceRefresh in *.
  by rewrite Hk, lookup_singleton_eq, Hr.
Qed.

Lemma update_approved_same old config :
  kubernetes_version old = kubernetes_version config →
  update_approved old config = Ok tt.
Proof.
  unfold update_approved. intros ->.
  destruct (kubernetes_version config); [|done]. by rewrite decide_True.
Qed.

(** After a configuration is applied one cluster is deployed, that of the
    configuration. *)
Lemma transition_apply h config h' :
  consistent h → transition h (Apply config) h' →
  ∃ spec state, plan config = Ok spec ∧ resourceRead spec = Ok state ∧
                h' = Host {[ spec_key spec := spec ]} (Some state).
Proof.
  intros Hh Ht.
  inversion Ht as [c ? spec state Hp Hr|c old ? spec state Hp Hk Hu Hr| | | |? ? [|]];
    simplify_eq.
  - unfold consistent in Hh; simpl in Hh. subst. by eexists _, _.
  - destruct (consistent_Some _ _ Hh eq_refl) as (? & spec0 & _ & Hc & _ & Hk0).
    simpl in Hc. subst c. exists spec, state. split_and!; [done..|]. f_equal.
    rewrite Hk, Hk0. apply insert_singleton_eq.
Qed.

(** A configuration that has been applied can be applied again, and changes
    nothing: the plan after an apply is empty. *)
Lemma apply_twice h config h' :
  consistent h → host_step h (Apply config) = Ok h' →
  host_step h' (Apply config) = Ok h'.
Proof.
  intros Hh Hs%step_transition.
  destruct (transition_apply _ _ _ Hh Hs) as (spec & state & Hp & Hr & ->).
  apply step_transition. rewrite <-(insert_singleton_eq _ spec spec) at 2.
  constructor; [done|by rewrite (resourceRead_key _ _ Hr)| |done].
  apply update_approved_same. rewrite (resourceRead_version _ _ Hr).
  apply plan_Ok in Hp as (_ & ? & _). by apply expandClusterSpecification_version.
Qed.

(** ** The deployment checks on the machine *)

Lemma resourceRead_identity spec state :
  resourceRead spec = Ok state →
  state !! "name" = Some (VString (spec_Name spec)) ∧
  state !! "resource_group" = Some (VString (spec_ResourceGroup spec)).
Proof.
  intros Hr.
  destruct (resourceRead_lookup _ _ "name" Hr) as (d & Hd & Hn); [compute_done|].
  destruct (resourceRead_lookup _ _ "resource_group" Hr) as (d' & Hd' & Hg);
    [compute_done|].
  assert (d' = d) as -> by congruence.
  apply flattenClusterSpecification_lookup in Hd as (Hdn & Hdg & _).
  by rewrite Hn, Hg.
Qed.

Lemma Exists_consistent h state :
  consistent h → stored h = Some state →
  testCheckACSEngineClusterExists (H := cloud_client (deployed h))
    test_resource (resources h) = Ok tt.
Proof.
  intros Hh Hs. destruct (consistent_Some _ _ Hh Hs) as (config & spec & _ & Hc & Hr & _).
  pose proof (resourceRead_identity _ _ Hr) as [Hn Hg].
  unfold testCheckACSEngineClusterExists, resources, Resources. rewrite Hs.
  cbn [from_option]. rewrite lookup_singleton_eq. unfold attr. simpl.
  rewrite !lookup_omap. unfold ResourceData in *. rewrite Hn, Hg. simpl.
  unfold deployClient_Get, cloud_client. by rewrite Hc, lookup_singleton_eq.
Qed.

Lemma Destroy_consistent h h' :
  consistent h → host_step h Destroy = Ok h' →
  testCheckACSEngineClusterDestroy (H := cloud_client (deployed h'))
    (map_to_list (resources h)).*2 = Ok tt.
Proof.
  intros Hh Hs. pose proof Hs as Ht%step_transition.
  pose proof (transition_consistent _ _ _ Hh Ht) as Hh'.
  destruct h as [c [state|]]; simpl in Hs; injection Hs as <-; [|done].
  destruct (consistent_Some _ _ Hh eq_refl) as (config & spec & _ & Hc & Hr & _).
  unfold consistent in Hh'; simpl in *. rewrite Hh'.
  unfold resources, Resources; cbn [stored from_option].
  rewrite map_to_list_singleton. simpl. by rewrite lookup_empty.
Qed.

(** ** Versions *)

Lemma validate_nil spec :
  validate spec = [] ↔
  (validateMasterProfileCount
     (MasterProfile_Count (spec_MasterProfile spec)) "count").2 = [] ∧
  Forall (λ pool, (validateAgentPoolProfileCount (Count pool) "count").2 = [])
         (spec_AgentPoolProfiles spec) ∧
  from_option
    (λ v, (validateKubernetesVersion v "kubernetes_version").2 = [])
    True (spec_KubernetesVersion spec).
Proof.
  unfold validate. rewrite !app_nil, fmap_nil_iff.
  assert ((spec_AgentPoolProfiles spec ≫= λ pool,
             Validation <$> (validateAgentPoolProfileCount (Count pool) "count").2) = [] ↔
          Forall (λ pool, (validateAgentPoolProfileCount (Count pool) "count").2 = [])
                 (spec_AgentPoolProfiles spec)) as ->.
  { induction (spec_AgentPoolProfiles spec) as [|pool pools IH]; [done|].
    by rewrite bind_cons, app_nil, fmap_nil_iff, Forall_cons, IH. }
  destruct (spec_KubernetesVersion spec); simpl; rewrite ?fmap_nil_iff;
    split; intros (? & ? & ?); by split_and!.
Qed.

Lemma plan_config_version config spec s :
  plan config = Ok spec → kubernetes_version config = Some s →
  ∃ v, parseVersion s = Ok v ∧ (major v, minor v) ∈ supported_lines.
Proof.
  intros (_ & He & Hv)%plan_Ok Hs. apply validate_nil in Hv as (_ & _ & Hv).
  rewrite (expandClusterSpecification_version _ _ He), Hs in Hv.
  by apply validateKubernetesVersion_accepts in Hv.
Qed.

Lemma resourceRead_config_version config spec state :
  plan config = Ok spec → resourceRead spec = Ok state →
  config_version state = config_version config.
Proof.
  intros (_ & He & _)%plan_Ok Hr. unfold config_version.
  by rewrite (resourceRead_version _ _ Hr), (expandClusterSpecification_version _ _ He).
Qed.

Lemma update_approved_config old config v w :
  config_version old = Some v → config_version config = Some w →
  update_approved old config = Ok tt → v = w ∨ upgrade_step v w.
Proof.
  apply (update_approved_versions {| step_Config := old; step_Check := [] |}
           {| step_Config := config; step_Check := [] |}).
Qed.

(** One event moves the version of a cluster by an approved upgrade, or not
    at all. *)
Lemma transition_version h ev h' v w :
  consistent h → transition h ev h' →
  stored_version h = Some v → stored_version h' = Some w →
  v = w ∨ upgrade_step v w.
Proof.
  intros Hh Ht.
  destruct Ht as [c config spec state Hp Hr|c old config spec state Hp Hk Hu Hr
                 |c old spec state Hc Hr|c old Hc|c old|c ev _];
    unfold stored_version; simpl; try done.
  - intros Hv Hw. rewrite (resourceRead_config_version _ _ _ Hp Hr) in Hw.
    by eapply update_approved_config.
  - destruct (consistent_Some _ _ Hh eq_refl) as (? & spec0 & _ & Hc0 & Hr0 & Hk0).
    simpl in Hc0; subst c. rewrite Hk0, lookup_singleton_eq in Hc.
    injection Hc as <-. rewrite Hr0 in Hr. injection Hr as <-.
    intros ? ?. left. congruence.
Qed.

(** Along configurations that declare a version, the version of the cluster
    moves by approved upgrades only. *)
Lemma run_versions configs h h' v :
  consistent h → run h (Apply <$> configs) = Ok h' →
  Forall (λ config, is_Some (kubernetes_version config)) configs →
  stored_version h = Some v →
  ∃ w, stored_version h' = Some w ∧ rtc upgrade_step v w.
Proof.
  revert h v. induction configs as [|config configs IH]; intros h v Hh Hrun Hall Hv.
  { injection Hrun as <-. by exists v. }
  apply Forall_cons in Hall as [[s Hs] Hall].
  rewrite fmap_cons, run_cons in Hrun.
  apply bind_Ok_inv in Hrun as (h1 & Ht%step_transition & Hrun).
  destruct (transition_apply _ _ _ Hh Ht) as (spec & state & Hp & Hr & ->).
  destruct (plan_config_version _ _ _ Hp Hs) as (u & Hu & _).
  assert (stored_version (Host {[spec_key spec := spec]} (Some state)) = Some u) as Hv1.
  { unfold stored_version; simpl. rewrite (resourceRead_config_version _ _ _ Hp Hr).
    unfold config_version. rewrite Hs; simpl. by rewrite Hu. }
  destruct (IH _ u (transition_consistent _ _ _ Hh Ht) Hrun Hall Hv1) as (w & Hw & Hrtc).
  exists w. split; [done|].
  destruct (transition_version _ _ _ v u Hh Ht Hv Hv1) as [->|?]; [done|by eapply rtc_l].
Qed.

(** ** Upgrades can be made *)

(** What is read of a well-formed, validated specification passes the plan
    as that specification; so does the specification flattened. *)
Lemma flattenClusterSpecification_plan spec d :
  well_formed spec → spec_AgentPoolProfiles spec ≠ [] → validate spec = [] →
  flattenClusterSpecification spec = Ok d → plan d = Ok spec.
Proof.
  intros Hwf Hne Hv Hd. apply plan_Ok. split_and!; [|  |done].
  - by eapply flattenClusterSpecification_typed.
  - pose proof (expandClusterSpecification_flatten spec Hwf) as Hrt.
    by rewrite Hd in Hrt.
Qed.

Lemma plan_upgraded config spec u d :
  plan config = Ok spec → (major u, minor u) ∈ supported_lines →
  flattenClusterSpecification (upgraded spec u) = Ok d →
  plan d = Ok (upgraded spec u).
Proof.
  intros (Ht & He & Hv)%plan_Ok Hu. apply flattenClusterSpecification_plan.
  - by apply expandClusterSpecification_well_formed in He.
  - simpl. by eapply expandClusterSpecification_pools.
  - apply validate_nil in Hv as (? & ? & _). apply validate_nil. split_and!; [done..|].
    simpl. apply validateKubernetesVersion_accepts. exists u.
    by rewrite parseVersion_print.
Qed.

Lemma config_version_Some d v :
  config_version d = Some v ↔
  ∃ s, kubernetes_version d = Some s ∧ parseVersion s = Ok v.
Proof.
  unfold config_version. destruct (kubernetes_version d) as [s|]; simpl;
    [|split; [done|by intros (? & ? & _)]].
  split; [|by intros (? & [= <-] & ->)].
  destruct (parseVersion s) eqn:Hp; intros [= <-]. by exists s.
Qed.

Lemma upgrade_once `{!Conforming} h v u :
  consistent h → stored_version h = Some v →
  upgrade_step_in (λ M m, (M, m) ∈ supported_lines) v u →
  ∃ config h', host_step h (Apply config) = Ok h' ∧ consistent h' ∧
               stored_version h' = Some u.
Proof.
  intros Hh Hv [Hstep Hline]. destruct h as [c [state|]]; [|done].
  destruct (consistent_Some _ _ Hh eq_refl) as (config0 & spec & Hp & Hc & Hr & Hk).
  simpl in Hc; subst c. unfold stored_version in Hv; simpl in Hv.
  apply config_version_Some in Hv as (s & Hs & Hsv).
  destruct (flattenClusterSpecification_Ok (upgraded spec u)) as [d Hd].
  destruct (resourceRead_conforming (upgraded spec u)) as [state' Hr'].
  pose proof (flattenClusterSpecification_lookup _ _ Hd) as (_ & _ & Hdv & _).
  exists d, (Host {[ spec_key spec := upgraded spec u ]} (Some state')).
  split_and!.
  - apply step_transition.
    rewrite <-(insert_singleton_eq _ (upgraded spec u) spec).
    apply (transition_update _ _ _ (upgraded spec u));
      [by eapply plan_upgraded|done| |done].
    assert (kubernetes_version d = Some (printVersion u)) as Hdk.
    { unfold kubernetes_version, d_GetOk. unfold ResourceData in *. by rewrite Hdv. }
    unfold update_approved. rewrite Hs, Hdk.
    case_decide; [done|]. unfold validateKubernetesVersionUpgrade.
    by rewrite parseVersion_print, Hsv.
  - exists d, (upgraded spec u). split_and!; [by eapply plan_upgraded|done..].
  - unfold stored_version; simpl. apply config_version_Some.
    exists (printVersion u). split; [|apply parseVersion_print].
    by rewrite (resourceRead_version _ _ Hr').
Qed.

Lemma upgrade_steps_run `{!Conforming} v w :
  rtc (upgrade_step_in (λ M m, (M, m) ∈ supported_lines)) v w →
  ∀ h, consistent h → stored_version h = Some v →
  ∃ configs h', run h (Apply <$> configs) = Ok h' ∧ stored_version h' = Some w.
Proof.
  induction 1 as [v|v u w Hvu _ IH]; intros h Hh Hv; [by exists [], h|].
  destruct (upgrade_once h v u Hh Hv Hvu) as (config & h1 & Hs & Hh1 & Hv1).
  destruct (IH h1 Hh1 Hv1) as (configs & h' & Hrun & Hw).
  exists (config :: configs), h'. split; [|done].
  by rewrite fmap_cons, run_cons, Hs.
Qed.

(** ** The harness *)

Lemma flatmap_get_Set_ne d k v key :
  head (split "." key) ≠ Some k →
  flatmap_get (d_Set d k v) key = flatmap_get d key.
Proof.
  unfold flatmap_get. destruct (split "." key) as [|k' path]; [done|].
  simpl. intros Hk. unfold d_Set, ResourceData in *.
  rewrite (lookup_insert_ne (M:=gmap string)); [done|congruence].
Qed.

(** A check that holds of the flattened specification and does not read the
    credentials holds of what is read of the cluster. *)
Lemma check_holds_read spec state d c :
  resourceRead spec = Ok state → flattenClusterSpecification spec = Ok d →
  check_holds d c → reads_credentials c = false → check_holds state c.
Proof.
  intros (d' & ? & ? & ? & ? & ? & Hd' & _ & _ & _ & ->)%resourceRead_Ok Hd.
  assert (d' = d) as -> by congruence.
  destruct c as [|name key value]; [done|]. intros [-> Hc] Hk%bool_decide_eq_false.
  split; [done|].
  rewrite !flatmap_get_Set_ne;
    [done|intros Heq; apply Hk; rewrite Heq; repeat constructor..].
Qed.

Lemma run_check_holds h state c :
  consistent h → stored h = Some state → check_holds state c →
  run_check h c = Ok tt.
Proof.
  intros Hh Hs. destruct c as [name|name key value]; simpl.
  - intros ->. by rewrite (Exists_consistent h state).
  - intros [-> Hv]. unfold TestCheckResourceAttr, resources, Resources.
    rewrite Hs. cbn [from_option]. rewrite lookup_singleton_eq.
    by rewrite bool_decide_true.
Qed.

Lemma run_checks_hold h state checks :
  consistent h → stored h = Some state → Forall (check_holds state) checks →
  foldM (λ _ c, run_check h c) tt checks = Ok tt.
Proof.
  intros Hh Hs. induction 1 as [|c checks Hc _ IH]; [done|].
  simpl. by rewrite (run_check_holds h state c).
Qed.

Lemma expandClusterSpecification_key config spec :
  expandClusterSpecification config = Ok spec → spec_key spec = state_key config.
Proof.
  unfold expandClusterSpecification. intros Hx.
  apply bind_Ok_inv in Hx as (name & Hn%field_string_Ok & Hx).
  apply bind_Ok_inv in Hx as (rg & Hg%field_string_Ok & Hx).
  do 5 (apply bind_Ok_inv in Hx as (? & _ & Hx)).
  apply bind_Ok_inv in Hx as (? & _ & [= <-]).
  unfold spec_key, state_key; simpl. unfold ResourceData in *. by rewrite Hn, Hg.
Qed.

Lemma update_approved_ext old old' config :
  kubernetes_version old = kubernetes_version old' →
  update_approved old config = update_approved old' config.
Proof. unfold update_approved. by intros ->. Qed.

Lemma applied_consistent h config : applied h config → consistent h.
Proof. intros (spec & state & ? & ? & ->). by exists config, spec. Qed.

Lemma step_ok_plan st :
  step_ok st →
  ∃ spec d, plan (step_Config st) = Ok spec ∧
            flattenClusterSpecification spec = Ok d ∧
            Forall (λ c, check_holds d c ∧ reads_credentials c = false) (step_Check st).
Proof.
  unfold step_ok, step_check. destruct (plan _) as [spec|]; [|by intros [[=] _]].
  destruct (flattenClusterSpecification_Ok spec) as [d Hd]. rewrite Hd.
  intros [_ Hc]. by exists spec, d.
Qed.

(** A configuration step that is in order runs on the empty host, and on the
    host the step before it left, when the update is approved and keeps the
    identity. *)
Lemma run_config_step `{!Conforming} h st :
  step_ok st →
  h = init ∨ (∃ config, applied h config ∧
                state_key config = state_key (step_Config st) ∧
                update_approved config (step_Config st) = Ok tt) →
  ∃ h', run_step h (ConfigStep st) = Ok h' ∧ applied h' (step_Config st).
Proof.
  intros (spec & d & Hp & Hd & Hc)%step_ok_plan Hh.
  destruct (resourceRead_conforming spec) as [state Hr].
  exists (Host {[ spec_key spec := spec ]} (Some state)).
  assert (applied (Host {[ spec_key spec := spec ]} (Some state)) (step_Config st))
    as Ha by (by exists spec, state).
  split; [|done]. cbn [run_step].
  assert (host_step h (Apply (step_Config st)) =
          Ok (Host {[ spec_key spec := spec ]} (Some state))) as ->.
  { apply step_transition. destruct Hh as [->|(config & (spec0 & old & Hp0 & Hr0 & ->) & Hk & Hu)].
    - by apply (transition_create ∅).
    - pose proof Hp0 as (_ & He0 & _)%plan_Ok. pose proof Hp as (_ & He & _)%plan_Ok.
      assert (spec_key spec = spec_key spec0) as Hkk.
      { by rewrite (expandClusterSpecification_key _ _ He),
          (expandClusterSpecification_key _ _ He0). }
      rewrite <-(insert_singleton_eq _ spec spec0), <-Hkk.
      constructor; [done|by rewrite (resourceRead_key _ _ Hr0)| |done].
      rewrite <-Hu. apply update_approved_ext.
      by rewrite (resourceRead_version _ _ Hr0),
        (expandClusterSpecification_version _ _ He0). }
  simpl. rewrite (run_checks_hold _ state); [done|by eapply applied_consistent|done|].
  apply (Forall_impl _ _ _ Hc). intros c [? ?]. by eapply check_holds_read.
Qed.

Lemma run_config_steps `{!Conforming} steps h :
  Forall step_ok steps → steps_approved steps = Ok tt → same_identity steps →
  h = init ∨ (∃ config, applied h config ∧
                match steps with
                | [] => True
                | st :: _ =>
                    state_key config = state_key (step_Config st) ∧
                    update_approved config (step_Config st) = Ok tt
                end) →
  ∃ h', foldM run_step h (ConfigStep <$> steps) = Ok h' ∧
        (h' = init ∧ steps = [] ∨ ∃ config, applied h' config).
Proof.
  intros Hok. revert h. induction Hok as [|st steps Hst _ IH]; intros h Ha Hi Hh.
  { exists h. split; [done|]. destruct Hh as [->|(config & ? & _)]; [by left|].
    right. by exists config. }
  destruct (run_config_step h st Hst) as (h1 & Hrun & Hh1).
  { destruct Hh as [->|(config & ? & ?)]; [by left|right; by exists config]. }
  destruct (IH h1) as (h' & Hrun' & Hh').
  - destruct steps; [done|]. simpl in Ha. by destruct (update_approved _ _) as [[]|].
  - destruct steps; [done|]. by destruct Hi.
  - right. exists (step_Config st). split; [done|]. destruct steps as [|st' steps]; [done|].
    destruct Hi as [Hk _]. split; [done|]. simpl in Ha.
    by destruct (update_approved _ _) as [[]|].
  - exists h'. rewrite fmap_cons. cbn [foldM]. rewrite Hrun. split; [done|].
    right. destruct Hh' as [[-> ->]|?]; [|done].
    injection Hrun' as ->. by destruct Hh1 as (? & ? & _ & _ & ?).
Qed.

Lemma run_import_steps h state imports :
  consistent h → stored h = Some state →
  foldM run_step h (ImportStep test_resource <$> imports) = Ok h.
Proof.
  intros Hh Hs. induction imports as [|verify imports IH]; [done|].
  rewrite fmap_cons. cbn [foldM run_step]. unfold import_step, resources, Resources.
  rewrite Hs. cbn [from_option]. rewrite lookup_singleton_eq.
  pose proof (consistent_refresh h Hh) as Hr. unfold host_step in Hr. rewrite Hs in Hr.
  rewrite Hr. simpl. rewrite Hs, bool_decide_true, andb_false_r by done. done.
Qed.

(** A test whose steps are in order passes: every configuration is applied
    and its checks hold, every import finds what is stored, and after the
    destroy no cluster is left for [CheckDestroy] to find. *)
Lemma resource_Test_passes `{!Conforming} steps imports :
  steps_ok steps → (steps = [] → imports = []) →
  resource_Test ((ConfigStep <$> steps) ++ (ImportStep test_resource <$> imports)) =
  Ok tt.
Proof.
  intros (Hok & Ha & Hi) Hne. unfold resource_Test. rewrite foldM_app.
  destruct (run_config_steps steps init Hok Ha Hi) as (h & -> & Hh); [by left|].
  cbn [mbind result_mbind result_bind].
  assert (consistent h ∧ foldM run_step h (ImportStep test_resource <$> imports) = Ok h)
    as [Hc ->].
  { destruct Hh as [[-> ->]|(config & Hh)]; [by rewrite Hne|].
    split; [by eapply applied_consistent|].
    pose proof (applied_consistent _ _ Hh) as Hc.
    destruct Hh as (? & state & _ & _ & ->). by apply (run_import_steps _ state). }
  cbn [mbind result_mbind result_bind].
  destruct (host_step h Destroy) as [h'|] eqn:Hd; [|by destruct h as [? []]].
  simpl. by rewrite (Destroy_consistent h h').
Qed.

(** ** Runs *)

Lemma run_singleton h ev : run h [ev] = host_step h ev.
Proof. rewrite run_cons. by destruct (host_step h ev). Qed.

Lemma run_reachable h evs h' : reachable h → run h evs = Ok h' → reachable h'.
Proof.
  intros Hh. revert h Hh.
  induction evs as [|ev evs IH]; intros h Hh; [by intros [= <-]|].
  rewrite run_cons. intros (h1 & Hs%step_transition & Hrun)%bind_Ok_inv.
  eapply IH; [|done]. by eapply reachable_step.
Qed.

Lemma host_after_reachable evs : reachable (host_after evs).
Proof.
  unfold host_after. destruct (run init evs) eqn:Hr; [|constructor].
  eapply run_reachable; [constructor|done].
Qed.

(** A run that succeeds continues from the host it has reached. *)
Lemma host_after_app evs evs' :
  is_ok (run init (evs ++ evs')) = true →
  run (host_after evs) evs' = Ok (host_after (evs ++ evs')).
Proof.
  unfold host_after, run. rewrite foldM_app.
  destruct (foldM host_step init evs); simpl; [|done].
  by destruct (foldM host_step _ evs').
Qed.


(** C13. On every host the machine reaches, nothing is stored and nothing
    deployed, or exactly one cluster is deployed, under the identity the
    stored attributes name; the stored attributes conform to the schema,
    pass the plan as the deployed specification, and a refresh leaves the
    host as it is. *)
Theorem reachable_invariant h :
  reachable h →
  consistent h ∧ host_step h Refresh = Ok h ∧
  ∀ state, stored h = Some state →
    store_typed state ∧
    ∃ spec, deployed h = {[ state_key state := spec ]} ∧ plan state = Ok spec.
Proof.
  intros Hh%reachable_consistent. split_and!; [done|by apply consistent_refresh|].
  intros state Hs. split; [by eapply consistent_typed|].
  destruct (consistent_Some _ _ Hh Hs) as (config & spec & Hp & Hc & Hr & Hk).
  exists spec. rewrite Hk. split; [done|by eapply plan_resourceRead].
Qed.

(** C17. A configuration that has been applied to a reachable host can be
    applied again and changes nothing, and neither does a refresh: the plan
    after an apply is empty. *)
Theorem apply_idempotent h config h' :
  reachable h → host_step h (Apply config) = Ok h' →
  host_step h' (Apply config) = Ok h' ∧ host_step h' Refresh = Ok h'.
Proof.
  intros Hh%reachable_consistent Hs. split; [by eapply apply_twice|].
  apply consistent_refresh.
  eapply transition_consistent; [done|by apply step_transition].
Qed.

(** C18. On every host the machine reaches, [testCheckACSEngineClusterExists]
    passes for the resource of the tests whenever attributes are stored, and
    after a destroy [testCheckACSEngineClusterDestroy] finds no cluster left
    of the resources that were in the state. *)
Theorem reachable_checks h :
  reachable h →
  (is_Some (stored h) →
   testCheckACSEngineClusterExists (H := cloud_client (deployed h))
     test_resource (resources h) = Ok tt) ∧
  (∀ h', host_step h Destroy = Ok h' →
   testCheckACSEngineClusterDestroy (H := cloud_client (deployed h'))
     (map_to_list (resources h)).*2 = Ok tt).
Proof.
  intros Hh%reachable_consistent. split.
  - intros [state Hs]. by eapply Exists_consistent.
  - intros h'. by apply Destroy_consistent.
Qed.

(** C15. Along configurations that declare a version, applied one after the
    other to a reachable host, the version of the cluster moves by approved
    upgrades only: the major version is kept and the version never goes
    back. *)
Theorem apply_versions h configs h' v :
  reachable h → run h (Apply <$> configs) = Ok h' →
  Forall (λ config, is_Some (kubernetes_version config)) configs →
  stored_version h = Some v →
  ∃ w, stored_version h' = Some w ∧ rtc upgrade_step v w ∧
       major w = major v ∧ ¬ version_lt w v.
Proof.
  intros Hh%reachable_consistent Hrun Hall Hv.
  destruct (run_versions configs h h' v Hh Hrun Hall Hv) as (w & Hw & Hrtc).
  exists w. destruct (upgrade_steps_invariant v w Hrtc) as [Hm Hle].
  split_and!; [done..|]. intros Hlt. destruct Hle as [->|Hvw].
  - exact (irreflexivity version_lt _ Hlt).
  - exact (irreflexivity version_lt _ (transitivity Hlt Hvw)).
Qed.

(** C16. Every newer version of the same major can be reached: when the
    provisioner conforms and the release lines between the stored version
    and a newer one are supported, there are configurations whose
    application, one after the other, brings the cluster to that version. *)
Theorem upgrade_eventually `{!Conforming} h v w :
  reachable h → stored_version h = Some v →
  version_lt v w → major w = major v →
  (∀ m, (minor v ≤ m ≤ minor w)%N → (major v, m) ∈ supported_lines) →
  ∃ configs h', run h (Apply <$> configs) = Ok h' ∧ stored_version h' = Some w.
Proof.
  intros Hh%reachable_consistent Hv Hlt Hm Hl.
  eapply upgrade_steps_run; [|done..]. by apply upgrade_steps_reach_in.
Qed.

End lifecycle_lemmas.

(** ** The acceptance tests *)

Local Ltac all_of tac :=
  repeat first [apply List.Forall_nil | apply List.Forall_cons]; tac.

(** The steps of every scenario are in order, whatever the environment and
    the random number of the names. *)
Lemma scenarios_ok Getenv ri :
  Forall (@steps_ok tested_lines) (scenarios Getenv ri).
Proof.
  all_of ltac:(split_and!;
    [all_of ltac:(split; [by vm_compute|all_of ltac:(vm_compute; repeat split)])
    |by vm_compute..]).
Qed.

Lemma importBasic_ok Getenv ri :
  @steps_ok tested_lines
    [ {| step_Config :=
           testAccACSEngineK8sClusterBasic ri (Getenv "ARM_CLIENT_ID")
             (Getenv "ARM_CLIENT_SECRET") (Getenv "ARM_TEST_LOCATION")
             (Getenv "SSH_KEY_PUB");
         step_Check := [] |} ].
Proof. split_and!; [|done..]. all_of ltac:(split; [by vm_compute|done]). Qed.

(** The provisioner of the tests conforms. *)
Global Instance fixture_conforming :
  @Conforming tag_unmarshaler fixture_provisioner.
Proof. intros spec. eexists. apply ParseKubeConfig_marshal_fixture. Qed.


(** ** Examples *)

Section examples.
Local Existing Instances fixture_provisioner tested_lines.

Lemma reachable_invariant_witness :
  consistent (sample_after sample_events) ∧
  host_step (sample_after sample_events) Refresh = Ok (sample_after sample_events) ∧
  ∀ state, stored (sample_after sample_events) = Some state →
    store_typed state ∧
    ∃ spec, deployed (sample_after sample_events) = {[ state_key state := spec ]} ∧
            plan state = Ok spec.
Proof. apply reachable_invariant, host_after_reachable. Defined.

Lemma apply_idempotent_witness :
  host_step (sample_after sample_events) (Apply (sample_config "1.8.13")) =
    Ok (sample_after sample_events) ∧
  host_step (sample_after sample_events) Refresh = Ok (sample_after sample_events).
Proof.
  apply (apply_idempotent init); [constructor|].
  rewrite <-run_singleton. apply (host_after_app [] sample_events). by vm_compute.
Defined.

Lemma reachable_checks_witness :
  (is_Some (stored (sample_after sample_events)) →
   testCheckACSEngineClusterExists
     (H := cloud_client (deployed (sample_after sample_events)))
     test_resource (resources (sample_after sample_events)) = Ok tt) ∧
  (∀ h', host_step (sample_after sample_events) Destroy = Ok h' →
   testCheckACSEngineClusterDestroy (H := cloud_client (deployed h'))
     (map_to_list (resources (sample_after sample_events))).*2 = Ok tt).
Proof. apply reachable_checks, host_after_reachable. Defined.

Lemma apply_versions_witness :
  ∃ w, stored_version (sample_after (sample_events ++ sample_upgrade)) = Some w ∧
       rtc upgrade_step (Version 1 8 13) w ∧ major w = 1%N ∧
       ¬ version_lt w (Version 1 8 13).
Proof.
  apply (apply_versions (sample_after sample_events) [sample_config "1.9.0"]).
  - apply host_after_reachable.
  - apply (host_after_app sample_events sample_upgrade). by vm_compute.
  - repeat constructor. compute_done.
  - by vm_compute.
Defined.

Lemma upgrade_eventually_witness :
  ∃ configs h', run (sample_after sample_events) (Apply <$> configs) = Ok h' ∧
                stored_version h' = Some (Version 1 10 2).
Proof.
  apply (upgrade_eventually (sample_after sample_events) (Version 1 8 13));
    [apply host_after_reachable|by vm_compute..|].
  intros m Hm. simpl in Hm.
  assert (m = 8 ∨ m = 9 ∨ m = 10)%N as [-> | [-> | ->]] by lia; compute_done.
Defined.


End examples.
