(* ===== verification/Templates.v ===== *)
(** * Templates: the tests of template generation and of the acs-engine clients

    Models the four tests of
    [src/acsengine/resource_acsengine_kubernetes_cluster_test.go] that fill an
    attribute store by hand and call the orchestration layer:
    [TestAccACSEngineK8sCluster_generateTemplateBasic],
    [..._generateTemplateCustomized], [..._initializeScaleClient] and
    [..._initializeUpgradeClient], and the four acceptance tests whose body is
    empty.

    [generateACSEngineTemplate] is written from the specification: it expands
    the attributes into a cluster specification and hands it to the template
    generator of acs-engine.  The generator, [json.Unmarshal], the two client
    constructors and [os.RemoveAll] are operations of the class [AcsEngine]:
    the tests are functions of it, and the theorems say for which
    implementations they pass.  The files a call writes are not tracked: a
    constructor is a function of the attributes it is given.

    The attribute store [d] of a table test is created once and written in
    every iteration; the model threads it through the loop, and that an
    iteration does not see the previous one is a theorem
    ([generateTemplateBasic_setup_fresh]). *)

From stdpp Require Import gmap pretty.
From S2P Require Import Prelude Go Api SpecMapper Fakes.
From stdpp Require Import options.
Set Warnings "-clear-no-such-hyp".

Local Open Scope Z_scope.

(** ** [strings.Contains] and [strconv.Itoa] *)

Fixpoint strings_HasPrefix (s prefix : string) {struct prefix} : bool :=
  match prefix, s with
  | EmptyString, _ => true
  | String a prefix', String b s' => Ascii.eqb a b && strings_HasPrefix s' prefix'
  | String _ _, EmptyString => false
  end.

Fixpoint strings_Contains (s substr : string) : bool :=
  strings_HasPrefix s substr
  || match s with
     | EmptyString => false
     | String _ s' => strings_Contains s' substr
     end.

Definition strconv_Itoa (i : Z) : string := pretty i.

(** ** The clients of acs-engine *)

Record AuthArgs := { RawClientID : string; SubscriptionID : string }.

Record ScaleClient := {
  sc_ResourceGroupName : string;
  DesiredAgentCount : Z;
  sc_AuthArgs : AuthArgs;
}.

Record UpgradeClient := {
  uc_ResourceGroupName : string;
  UpgradeVersion : string;
  uc_AuthArgs : AuthArgs;
}.

(** What the tests reach outside the resource: the template generator, which
    renders a cluster specification into a template and its parameters, the
    JSON decoder, the two constructors, given the attributes, the client
    handle and their arguments, and the removal of a directory. *)
Class AcsEngine := {
  render : ClusterSpecification → result string (string * string);
  json_Unmarshal : string → result string (gmap string value);
  initializeScaleClient : ResourceData → value → Z → Z → result string ScaleClient;
  initializeUpgradeClient : ResourceData → value → string → result string UpgradeClient;
  os_RemoveAll : string → result string unit;
}.

(** Why [generateACSEngineTemplate] fails: the attributes do not expand, or
    the generator refuses the specification. *)
Inductive template_error :=
| ExpandFailed (err : ValidationError)
| RenderFailed (err : string).

(** [d.SetId(id)]: the ID is kept beside the attributes, under a key no
    attribute of the schema has. *)
Definition d_SetId (d : ResourceData) (id : string) : ResourceData :=
  d_Set d "id" (VString id).

(** [defer func() { err = os.RemoveAll(path); if err != nil { t.Fatalf(format) } }()]
    around [body]: the removal runs when the body has ended, however it
    ended; the test fails with the body's failure, else with the removal's. *)
Definition defer_RemoveAll `{AcsEngine} (path format : string) (body : test unit) :
    test unit :=
  match body, os_RemoveAll path with
  | Err f, _ => Err f
  | Ok tt, Err _ => Err (Fatalf format)
  | Ok tt, Ok tt => Ok tt
  end.

Section templates.
Context `{AcsEngine} (Getenv : environ).

(** [generateACSEngineTemplate(d, m, write)]: the template and its
    parameters. *)
Definition generateACSEngineTemplate (d : ResourceData) (m : value) (write : bool) :
    result template_error (string * string) :=
  match expandClusterSpecification d with
  | Err err => Err (ExpandFailed err)
  | Ok cluster => map_err RenderFailed (render cluster)
  end.

(** ** [TestAccACSEngineK8sCluster_generateTemplateBasic] *)

Record generateTemplateBasic_case := {
  gb_Name : string;
  gb_ResourceGroup : string;
  gb_Location : string;
  gb_AdminUsername : string;
  gb_MasterCount : Z;
  gb_DNSPrefix : string;
  gb_AgentPoolCount : Z;
  gb_ExpectError : bool;
}.

Definition generateTemplateBasic_cases : list generateTemplateBasic_case :=
  [ {| gb_Name := "cluster1"; gb_ResourceGroup := "RG1";
       gb_Location := "southcentralus"; gb_AdminUsername := "azureuser1";
       gb_MasterCount := 1; gb_DNSPrefix := "laughingAlligator";
       gb_AgentPoolCount := 1; gb_ExpectError := false |};
    {| gb_Name := "cluster2"; gb_ResourceGroup := "RG2";
       gb_Location := "eastus"; gb_AdminUsername := "azureuser2";
       gb_MasterCount := 1; gb_DNSPrefix := "dancingEmu";
       gb_AgentPoolCount := 2; gb_ExpectError := false |};
    {| gb_Name := "cluster2"; gb_ResourceGroup := "RG3";
       gb_Location := "westeurope"; gb_AdminUsername := "azureuser3";
       gb_MasterCount := 1; gb_DNSPrefix := "jumpingJabberwock";
       gb_AgentPoolCount := 10; gb_ExpectError := false |} ].

(** The [d.Set] calls of one iteration. *)
Definition generateTemplateBasic_setup (d : ResourceData)
    (tc : generateTemplateBasic_case) : ResourceData :=
  let d := d_Set d "name" (VString (gb_Name tc)) in
  let d := d_Set d "location" (VString (gb_Location tc)) in
  let d := d_Set d "resource_group" (VString (gb_ResourceGroup tc)) in
  let linuxProfiles := fakeFlattenLinuxProfile Getenv (gb_AdminUsername tc) in
  let d := d_Set d "linux_profile" (VList linuxProfiles) in
  let servicePrincipals := fakeFlattenServicePrincipal Getenv in
  let d := d_Set d "service_principal" (VList servicePrincipals) in
  let vmSize := "Standard_D2_v2" in
  let masterProfiles :=
    fakeFlattenMasterProfile (gb_MasterCount tc) (gb_DNSPrefix tc) vmSize in
  let d := d_Set d "master_profile" (VList masterProfiles) in
  let agentPoolProfiles := [] in
  let agentPoolName := "agentpool0" in
  let agentPoolProfile0 :=
    fakeFlattenAgentPoolProfiles agentPoolName (gb_AgentPoolCount tc) vmSize 0 false in
  let agentPoolProfiles := agentPoolProfiles ++ [VMap agentPoolProfile0] in
  let agentPoolName := "agentpool1" in
  let agentPoolProfile1 :=
    fakeFlattenAgentPoolProfiles agentPoolName (gb_AgentPoolCount tc + 1) vmSize 0 false in
  let agentPoolProfiles := agentPoolProfiles ++ [VMap agentPoolProfile1] in
  d_Set d "agent_pool_profiles" (VList agentPoolProfiles).

(** The body of the loop, from the call of the generator on: the store is
    returned for the next iteration. *)
Definition generateTemplateBasic_body (d : ResourceData)
    (tc : generateTemplateBasic_case) : test ResourceData :=
  let d := generateTemplateBasic_setup d tc in
  let vmSize := "Standard_D2_v2" in
  let agentPoolName := "agentpool1" in
  match generateACSEngineTemplate d VNil false with
  | Err err => Err (Fatalf "Template generation failed: %v")
  | Ok (template, parameters) =>
      failif negb (strings_Contains parameters (gb_AdminUsername tc))
        then Fatalf "Expected the Azure RM Kubernetes cluster to have parameter '%s'";
      failif negb (strings_Contains parameters (Getenv "ARM_CLIENT_ID"))
        then Fatalf "Expected the Azure RM Kubernetes cluster to have parameter '%s'";
      failif negb (strings_Contains parameters vmSize)
        then Fatalf "Expected the Azure RM Kubernetes cluster to have parameter '%s'";
      failif negb (strings_Contains parameters (strconv_Itoa (gb_AgentPoolCount tc)))
        then Fatalf "Expected the Azure RM Kubernetes cluster to have parameter '%d'";
      failif negb (strings_Contains template (agentPoolName +:+ "Count"))
        then Fatalf "Expected the Azure RM Kubernetes cluster to have field '%s'";
      match json_Unmarshal template with
      | Err err => Err (Fatalf "Unmarshaling template failed: %v")
      | Ok templateJSON =>
          failif gb_ExpectError tc
            then Fatalf "Expected the Kubernetes Cluster Agent Pool Name to trigger an error for '%s'";
          Ok d
      end
  end.

Definition TestAccACSEngineK8sCluster_generateTemplateBasic : test unit :=
  let d := TestResourceData in
  foldM generateTemplateBasic_body d generateTemplateBasic_cases ;; Ok tt.

(** ** [TestAccACSEngineK8sCluster_generateTemplateCustomized] *)

Record generateTemplateCustomized_case := {
  gc_Name : string;
  gc_ResourceGroup : string;
  gc_Location : string;
  gc_Version : string;
  gc_AdminUsername : string;
  gc_MasterCount : Z;
  gc_MasterVMSize : string;
  gc_DNSPrefix : string;
  gc_AgentPoolCount : Z;
  gc_AgentVMSize : string;
  gc_ExpectError : bool;
}.

Definition generateTemplateCustomized_cases : list generateTemplateCustomized_case :=
  [ {| gc_Name := "cluster1"; gc_ResourceGroup := "RG1";
       gc_Location := "southcentralus"; gc_Version := "";
       gc_AdminUsername := "azureuser1"; gc_MasterCount := 1;
       gc_MasterVMSize := ""; gc_DNSPrefix := "laughingAlligator";
       gc_AgentPoolCount := 1; gc_AgentVMSize := ""; gc_ExpectError := false |};
    {| gc_Name := "cluster2"; gc_ResourceGroup := "RG2";
       gc_Location := "eastus"; gc_Version := "";
       gc_AdminUsername := "azureuser2"; gc_MasterCount := 3;
       gc_MasterVMSize := ""; gc_DNSPrefix := "dancingEmu";
       gc_AgentPoolCount := 14; gc_AgentVMSize := ""; gc_ExpectError := false |};
    {| gc_Name := "cluster2"; gc_ResourceGroup := "RG3";
       gc_Location := "westeurope"; gc_Version := "";
       gc_AdminUsername := "azureuser3"; gc_MasterCount := 5;
       gc_MasterVMSize := ""; gc_DNSPrefix := "jumpingJabberwock";
       gc_AgentPoolCount := 50; gc_AgentVMSize := ""; gc_ExpectError := false |} ].

Definition generateTemplateCustomized_setup (d : ResourceData)
    (tc : generateTemplateCustomized_case) : ResourceData :=
  let d := d_Set d "name" (VString (gc_Name tc)) in
  let d := d_Set d "location" (VString (gc_Location tc)) in
  let d := d_Set d "resource_group" (VString (gc_ResourceGroup tc)) in
  let d := d_Set d "kubernetes_version" (VString (gc_Version tc)) in
  let linuxProfiles := fakeFlattenLinuxProfile Getenv (gc_AdminUsername tc) in
  let d := d_Set d "linux_profile" (VList linuxProfiles) in
  let servicePrincipals := fakeFlattenServicePrincipal Getenv in
  let d := d_Set d "service_principal" (VList servicePrincipals) in
  let masterProfiles :=
    fakeFlattenMasterProfile (gc_MasterCount tc) (gc_DNSPrefix tc) (gc_MasterVMSize tc) in
  let d := d_Set d "master_profile" (VList masterProfiles) in
  let agentPoolProfiles := [] in
  let agentPoolName := "agentpool0" in
  let agentPoolProfile0 :=
    fakeFlattenAgentPoolProfiles agentPoolName (gc_AgentPoolCount tc)
      (gc_AgentVMSize tc) 0 false in
  let agentPoolProfiles := agentPoolProfiles ++ [VMap agentPoolProfile0] in
  let agentPoolName := "agentpool1" in
  let agentPoolProfile1 :=
    fakeFlattenAgentPoolProfiles agentPoolName (gc_AgentPoolCount tc + 1)
      (gc_AgentVMSize tc) 0 false in
  let agentPoolProfiles := agentPoolProfiles ++ [VMap agentPoolProfile1] in
  d_Set d "agent_pool_profiles" (VList agentPoolProfiles).

Definition generateTemplateCustomized_body (d : ResourceData)
    (tc : generateTemplateCustomized_case) : test ResourceData :=
  let d := generateTemplateCustomized_setup d tc in
  let agentPoolName := "agentpool1" in
  match generateACSEngineTemplate d VNil false with
  | Err err => Err (Fatalf "Template generation failed: %v")
  | Ok (template, parameters) =>
      failif negb (strings_Contains parameters (gc_AdminUsername tc))
        then Fatalf "Expected the Azure RM Kubernetes cluster to have parameter '%s'";
      failif negb (strings_Contains parameters (Getenv "ARM_CLIENT_ID"))
        then Fatalf "Expected the Azure RM Kubernetes cluster to have parameter '%s'";
      failif negb (strings_Contains parameters (gc_MasterVMSize tc))
        then Fatalf "Expected the Azure RM Kubernetes cluster to have parameter '%s'";
      failif negb (strings_Contains parameters (gc_AgentVMSize tc))
        then Fatalf "Expected the Azure RM Kubernetes cluster to have parameter '%s'";
      failif negb (strings_Contains parameters (strconv_Itoa (gc_AgentPoolCount tc)))
        then Fatalf "Expected the Azure RM Kubernetes cluster to have parameter '%d'";
      failif negb (strings_Contains template (agentPoolName +:+ "Count"))
        then Fatalf "Expected the Azure RM Kubernetes cluster to have field '%s'";
      match json_Unmarshal template with
      | Err err => Err (Fatalf "Unmarshaling template failed: %v")
      | Ok templateJSON =>
          failif gc_ExpectError tc
            then Fatalf "Expected the Kubernetes Cluster Agent Pool Name to trigger an error for '%s'";
          Ok d
      end
  end.

Definition TestAccACSEngineK8sCluster_generateTemplateCustomized : test unit :=
  let d := TestResourceData in
  foldM generateTemplateCustomized_body d generateTemplateCustomized_cases ;; Ok tt.

(** ** The tests of the two client constructors *)

(** The attributes both tests set before they call the generator. *)
Definition client_setup (d : ResourceData) : ResourceData :=
  let resourceGroupName := "clusterResourceGroup" in
  let masterDNSPrefix := "masterDNSPrefix" in
  let d := d_Set d "name" (VString "clusterName") in
  let d := d_Set d "location" (VString "southcentralus") in
  let d := d_Set d "resource_group" (VString resourceGroupName) in
  let id := "/subscriptions/" +:+ Getenv "ARM_SUBSCRIPTION_ID" +:+ "/resourceGroups/"
            +:+ resourceGroupName
            +:+ "/providers/Microsoft.Resources/deployments/" +:+ masterDNSPrefix in
  let d := d_SetId d id in
  let linuxProfiles := fakeFlattenLinuxProfile Getenv "azureuser" in
  let d := d_Set d "linux_profile" (VList linuxProfiles) in
  let servicePrincipals := fakeFlattenServicePrincipal Getenv in
  let d := d_Set d "service_principal" (VList servicePrincipals) in
  let masterProfiles := fakeFlattenMasterProfile 1 "masterDNSPrefix" "Standard_D2_v2" in
  let d := d_Set d "master_profile" (VList masterProfiles) in
  let agentPoolProfiles := [] in
  let agentPoolProfile0 :=
    fakeFlattenAgentPoolProfiles "agentpool1" 1 "Standard_D2_v2" 0 false in
  let agentPoolProfiles := agentPoolProfiles ++ [VMap agentPoolProfile0] in
  let agentPoolProfile1 :=
    fakeFlattenAgentPoolProfiles "agentpool2" 2 "Standard_D2_v2" 0 false in
  let agentPoolProfiles := agentPoolProfiles ++ [VMap agentPoolProfile1] in
  d_Set d "agent_pool_profiles" (VList agentPoolProfiles).

Definition TestAccACSEngineK8sCluster_initializeScaleClient : test unit :=
  let d := TestResourceData in
  let resourceGroupName := "clusterResourceGroup" in
  let d := client_setup d in
  let servicePrincipals := fakeFlattenServicePrincipal Getenv in
  let apimodelPath := "_output/k8scluster" in
  match generateACSEngineTemplate d VNil true with
  | Err err => Err (Fatalf "GenerateACSEngineTemplate failed: %+v")
  | Ok _ =>
      defer_RemoveAll apimodelPath "Could not remove apimodel.json"
        (let agentIndex := 0 in
         let desiredAgentCount := 2 in
         match initializeScaleClient d VNil agentIndex desiredAgentCount with
         | Err err => Err (Fatalf "initializeScaleClient failed: %+v")
         | Ok sc =>
             failif negb (String.eqb (sc_ResourceGroupName sc) resourceGroupName)
               then Fatalf "Resource group is not named correctly";
             failif negb (DesiredAgentCount sc =? desiredAgentCount)
               then Fatalf "Desired agent count is not set correctly";
             sp ← at_index servicePrincipals 0;
             profile ← as_map sp;
             ne ← iface_ne (VString (RawClientID (sc_AuthArgs sc)))
                    (map_index profile "client_id");
             failif (ne : bool) then Fatalf "Client ID not set correctly";
             failif negb (String.eqb (SubscriptionID (sc_AuthArgs sc))
                            (Getenv "ARM_SUBSCRIPTION_ID"))
               then Fatalf "Subscription ID is not set correctly";
             Ok tt
         end)
  end.

Definition TestAccACSEngineK8sCluster_initializeUpgradeClient : test unit :=
  let d := TestResourceData in
  let resourceGroupName := "clusterResourceGroup" in
  let d := client_setup d in
  let servicePrincipals := fakeFlattenServicePrincipal Getenv in
  let apimodelPath := "_output/k8scluster" in
  match generateACSEngineTemplate d VNil true with
  | Err err => Err (Fatalf "GenerateACSEngineTemplate failed: %+v")
  | Ok _ =>
      defer_RemoveAll apimodelPath "Could not remove apimodel.json"
        (let upgradeVersion := "1.9.8" in
         match initializeUpgradeClient d VNil upgradeVersion with
         | Err err => Err (Fatalf "initializeScaleClient failed: %+v")
         | Ok uc =>
             failif negb (String.eqb (uc_ResourceGroupName uc) resourceGroupName)
               then Fatalf "Resource group is not named correctly";
             failif negb (String.eqb (UpgradeVersion uc) upgradeVersion)
               then Fatalf "Desired agent count is not set correctly";
             sp ← at_index servicePrincipals 0;
             profile ← as_map sp;
             ne ← iface_ne (VString (RawClientID (uc_AuthArgs uc)))
                    (map_index profile "client_id");
             failif (ne : bool) then Fatalf "Client ID not set correctly";
             failif negb (String.eqb (SubscriptionID (uc_AuthArgs uc))
                            (Getenv "ARM_SUBSCRIPTION_ID"))
               then Fatalf "Subscription ID is not set correctly";
             Ok tt
         end)
  end.

(** ** What the tests hand to the generator, and what they accept *)

(** The cluster specification an iteration of the basic test describes. *)
Definition generateTemplateBasic_cluster (tc : generateTemplateBasic_case) :
    ClusterSpecification :=
  {| spec_Name := gb_Name tc; spec_ResourceGroup := gb_ResourceGroup tc;
     spec_Location := gb_Location tc; spec_KubernetesVersion := None;
     spec_LinuxProfile := fake_LinuxProfile Getenv (gb_AdminUsername tc);
     spec_ServicePrincipal := fake_ServicePrincipalProfile Getenv;
     spec_MasterProfile :=
       fake_MasterProfile (gb_MasterCount tc) (gb_DNSPrefix tc) "Standard_D2_v2" "";
     spec_AgentPoolProfiles :=
       [fake_AgentPoolProfile "agentpool0" (gb_AgentPoolCount tc)
          "Standard_D2_v2" 0 false;
        fake_AgentPoolProfile "agentpool1" (gb_AgentPoolCount tc + 1)
          "Standard_D2_v2" 0 false];
     spec_Tags := ∅ |}.

(** The checks of the basic test on what the generator returns. *)
Definition generateTemplateBasic_accepts (tc : generateTemplateBasic_case)
    (template parameters : string) : Prop :=
  strings_Contains parameters (gb_AdminUsername tc) = true ∧
  strings_Contains parameters (Getenv "ARM_CLIENT_ID") = true ∧
  strings_Contains parameters "Standard_D2_v2" = true ∧
  strings_Contains parameters (strconv_Itoa (gb_AgentPoolCount tc)) = true ∧
  strings_Contains template "agentpool1Count" = true ∧
  is_ok (json_Unmarshal template) = true.

(** The same for the customized test; the version is declared, as the empty
    string when the case has none. *)
Definition generateTemplateCustomized_cluster (tc : generateTemplateCustomized_case) :
    ClusterSpecification :=
  {| spec_Name := gc_Name tc; spec_ResourceGroup := gc_ResourceGroup tc;
     spec_Location := gc_Location tc; spec_KubernetesVersion := Some (gc_Version tc);
     spec_LinuxProfile := fake_LinuxProfile Getenv (gc_AdminUsername tc);
     spec_ServicePrincipal := fake_ServicePrincipalProfile Getenv;
     spec_MasterProfile :=
       fake_MasterProfile (gc_MasterCount tc) (gc_DNSPrefix tc) (gc_MasterVMSize tc) "";
     spec_AgentPoolProfiles :=
       [fake_AgentPoolProfile "agentpool0" (gc_AgentPoolCount tc)
          (gc_AgentVMSize tc) 0 false;
        fake_AgentPoolProfile "agentpool1" (gc_AgentPoolCount tc + 1)
          (gc_AgentVMSize tc) 0 false];
     spec_Tags := ∅ |}.

(** The checks of the customized test that do not name a VM size. *)
Definition generateTemplateCustomized_accepts (tc : generateTemplateCustomized_case)
    (template parameters : string) : Prop :=
  strings_Contains parameters (gc_AdminUsername tc) = true ∧
  strings_Contains parameters (Getenv "ARM_CLIENT_ID") = true ∧
  strings_Contains parameters (strconv_Itoa (gc_AgentPoolCount tc)) = true ∧
  strings_Contains template "agentpool1Count" = true ∧
  is_ok (json_Unmarshal template) = true.

(** The cluster both client tests describe. *)
Definition client_cluster : ClusterSpecification :=
  {| spec_Name := "clusterName"; spec_ResourceGroup := "clusterResourceGroup";
     spec_Location := "southcentralus"; spec_KubernetesVersion := None;
     spec_LinuxProfile := fake_LinuxProfile Getenv "azureuser";
     spec_ServicePrincipal := fake_ServicePrincipalProfile Getenv;
     spec_MasterProfile := fake_MasterProfile 1 "masterDNSPrefix" "Standard_D2_v2" "";
     spec_AgentPoolProfiles :=
       [fake_AgentPoolProfile "agentpool1" 1 "Standard_D2_v2" 0 false;
        fake_AgentPoolProfile "agentpool2" 2 "Standard_D2_v2" 0 false];
     spec_Tags := ∅ |}.

(** The arguments of a client the tests compare. *)
Definition client_accepts (resourceGroupName : string) (auth : AuthArgs) : Prop :=
  resourceGroupName = "clusterResourceGroup" ∧
  RawClientID auth = Getenv "ARM_CLIENT_ID" ∧
  SubscriptionID auth = Getenv "ARM_SUBSCRIPTION_ID".

End templates.

(** ** The acceptance tests with an empty body *)

Definition TestAccACSEngineK8sCluster_scaleDownUpWindowsAgentCluster : test unit :=
  Ok tt.

Definition TestAccACSEngineK8sCluster_updateUpgradeScaleUpWindowsAgentCluster :
    test unit :=
  Ok tt.

Definition TestAccACSEngineK8sCluster_updateUpgradeScaleDownWindowsAgentCluster :
    test unit :=
  Ok tt.

Definition TestAccACSEngineK8sCluster_createHybridAgentCluster : test unit :=
  Ok tt.

(** ** An implementation for the examples *)

(** A generator that lists the user name, the client ID, the VM size of the
    masters and the count of every pool, and constructors that read their
    arguments from the attributes. *)
Definition sample_render (cluster : ClusterSpecification) :
    result string (string * string) :=
  Ok ("{agentpool1Count}",
      AdminUsername (spec_LinuxProfile cluster) +:+ " "
      +:+ ClientID (spec_ServicePrincipal cluster) +:+ " "
      +:+ MasterProfile_VMSize (spec_MasterProfile cluster) +:+ " "
      +:+ foldr (λ pool s, strconv_Itoa (Count pool) +:+ " " +:+ s) ""
            (spec_AgentPoolProfiles cluster)).

Definition sample_auth (Getenv : environ) (d : ResourceData) :
    result string (string * AuthArgs) :=
  match field_string d "resource_group", expandServicePrincipal d with
  | Ok resourceGroup, Ok sp =>
      Ok (resourceGroup, {| RawClientID := ClientID sp;
                            SubscriptionID := Getenv "ARM_SUBSCRIPTION_ID" |})
  | _, _ => Err "attributes"
  end.

Definition sample_engine (Getenv : environ) : AcsEngine :=
  {| render := sample_render;
     json_Unmarshal := λ _, Ok ∅;
     initializeScaleClient := λ d _ _ count,
       '(resourceGroup, auth) ← sample_auth Getenv d;
       Ok {| sc_ResourceGroupName := resourceGroup; DesiredAgentCount := count;
             sc_AuthArgs := auth |};
     initializeUpgradeClient := λ d _ version,
       '(resourceGroup, auth) ← sample_auth Getenv d;
       Ok {| uc_ResourceGroupName := resourceGroup; UpgradeVersion := version;
             uc_AuthArgs := auth |};
     os_RemoveAll := λ _, Ok tt |}.

(** A generator that refuses every cluster. *)
Definition refusing_engine (Getenv : environ) : AcsEngine :=
  {| render := λ _, Err "refused";
     json_Unmarshal := json_Unmarshal (AcsEngine := sample_engine Getenv);
     initializeScaleClient := initializeScaleClient (AcsEngine := sample_engine Getenv);
     initializeUpgradeClient :=
       initializeUpgradeClient (AcsEngine := sample_engine Getenv);
     os_RemoveAll := λ _, Ok tt |}.

(** ** Lemmas on [strings.Contains] *)

Lemma strings_HasPrefix_spec s prefix :
  strings_HasPrefix s prefix = true ↔ ∃ post, s = prefix +:+ post.
Proof.
  revert s; induction prefix as [|a prefix IH]; intros s; simpl.
  - split; [by exists s|done].
  - destruct s as [|b s]; [split; [done|by intros [? ?]]|].
    rewrite andb_true_iff, Ascii.eqb_eq, IH. setoid_rewrite string_app_cons.
    naive_solver.
Qed.

(** [strings.Contains(s, substr)] reports whether [substr] is within [s]. *)
Lemma strings_Contains_spec s substr :
  strings_Contains s substr = true ↔ ∃ pre post, s = pre +:+ substr +:+ post.
Proof.
  induction s as [|a s IH]; simpl; rewrite orb_true_iff, strings_HasPrefix_spec.
  - split; [intros [[post Heq]|?]; [by exists "", post|done]|].
    intros ([|??] & post & Heq); [left; by exists post|done].
  - rewrite IH. split.
    + intros [[post Heq]|(pre & post & Heq)]; [by exists "", post|].
      exists (String a pre), post. by rewrite Heq.
    + intros ([|b pre] & post & Heq); [left; by exists post|].
      rewrite string_app_cons in Heq. injection Heq as -> ->. right; eauto.
Qed.

(** Every string contains the empty string. *)
Lemma strings_Contains_empty s : strings_Contains s "" = true.
Proof. by destruct s. Qed.

Section templates_theorems.
Context `{AcsEngine} (Getenv : environ).

(** ** The generator *)

Lemma generateACSEngineTemplate_Ok d m write out :
  generateACSEngineTemplate d m write = Ok out ↔
  ∃ cluster, expandClusterSpecification d = Ok cluster ∧ render cluster = Ok out.
Proof.
  unfold generateACSEngineTemplate.
  destruct (expandClusterSpecification d) as [cluster|];
    [|split; [done|by intros (? & ? & _)]].
  split; [destruct (render cluster) eqn:Hr; intros [= <-]; eauto|].
  by intros (? & [= <-] & ->).
Qed.

(** Two stores with the same keys written last are equal. *)
Local Ltac d_Set_eq :=
  apply map_eq; intros ?; unfold d_Set, d_SetId, ResourceData in *; cbv zeta;
  rewrite !(lookup_insert (M:=gmap string)); repeat case_decide; done.

(** The checks on a template and its parameters, once the generator has
    returned them. *)
Local Ltac checks_ok template :=
  let Hj := fresh "Hj" in
  change ("agentpool1" +:+ "Count") with "agentpool1Count";
  destruct (json_Unmarshal template) eqn:Hj;
    rewrite !failif_is_ok, ?negb_false_iff; simpl;
    (split; [intros; destruct_and?; try done; eexists _, _; rewrite Hj; by split_and!
            |intros (? & ? & [= <- <-] & ?); destruct_and?;
             rewrite Hj in *; by split_and?]).

(** ** The basic test *)

Lemma generateTemplateBasic_setup_fresh d tc tc' :
  generateTemplateBasic_setup Getenv (generateTemplateBasic_setup Getenv d tc') tc =
  generateTemplateBasic_setup Getenv d tc.
Proof. unfold generateTemplateBasic_setup. d_Set_eq. Qed.

Lemma expandClusterSpecification_Basic tc :
  expandClusterSpecification (generateTemplateBasic_setup Getenv ∅ tc) =
  if decide (gb_AdminUsername tc = "") then Err (Invalid "admin_username")
  else Ok (generateTemplateBasic_cluster Getenv tc).
Proof. destruct tc as [name rg loc [|a admin] mc dns n e]; by vm_compute. Qed.

Lemma generateTemplateBasic_body_state d tc d' :
  generateTemplateBasic_body Getenv d tc = Ok d' →
  d' = generateTemplateBasic_setup Getenv d tc.
Proof.
  unfold generateTemplateBasic_body. cbv zeta.
  intros; repeat case_match; by simplify_eq.
Qed.

Lemma generateTemplateBasic_body_ok d tc :
  is_ok (generateTemplateBasic_body Getenv d tc) = true ↔
  ∃ template parameters,
    generateACSEngineTemplate (generateTemplateBasic_setup Getenv d tc) VNil false =
      Ok (template, parameters) ∧
    generateTemplateBasic_accepts Getenv tc template parameters ∧
    gb_ExpectError tc = false.
Proof.
  unfold generateTemplateBasic_body, generateTemplateBasic_accepts. cbv zeta.
  destruct (generateACSEngineTemplate _ _ _) as [[template parameters]|];
    [|naive_solver].
  checks_ok template.
Qed.

(** The loop of the basic test, on any table. *)
Lemma generateTemplateBasic_loop cases :
  is_ok (foldM (generateTemplateBasic_body Getenv) TestResourceData cases) = true ↔
  Forall (λ tc, (gb_AdminUsername tc ≠ "" ∧ gb_ExpectError tc = false) ∧
                ∃ template parameters,
                  render (generateTemplateBasic_cluster Getenv tc) =
                    Ok (template, parameters) ∧
                  generateTemplateBasic_accepts Getenv tc template parameters) cases.
Proof.
  apply (foldM_is_ok _ (λ d, ∀ tc, generateTemplateBasic_setup Getenv d tc =
                                   generateTemplateBasic_setup Getenv ∅ tc)); [done|..].
  - intros d tc d' Hd ->%generateTemplateBasic_body_state tc'.
    by rewrite generateTemplateBasic_setup_fresh.
  - intros d tc _ Hd. rewrite generateTemplateBasic_body_ok, Hd.
    setoid_rewrite generateACSEngineTemplate_Ok.
    rewrite expandClusterSpecification_Basic.
    case_decide; split; try naive_solver.
Qed.

(** C36. The basic test of template generation passes exactly when, for each
    of its three cases, the generator renders the cluster the case describes
    (two Linux pools [agentpool0] and [agentpool1] of [n] and [n + 1] agents)
    into parameters that contain the user name, the client ID, the VM size
    and the count, and a template that contains [agentpool1Count] and is
    JSON; the store shared by the iterations carries nothing from one case
    to the next. *)
Theorem generateTemplateBasic_passes_iff :
  TestAccACSEngineK8sCluster_generateTemplateBasic Getenv = Ok tt ↔
  Forall (λ tc, ∃ template parameters,
            render (generateTemplateBasic_cluster Getenv tc) =
              Ok (template, parameters) ∧
            generateTemplateBasic_accepts Getenv tc template parameters)
         generateTemplateBasic_cases.
Proof.
  unfold TestAccACSEngineK8sCluster_generateTemplateBasic. cbv zeta.
  rewrite foldM_then_Ok, generateTemplateBasic_loop.
  unfold generateTemplateBasic_cases. rewrite !Forall_cons. simpl. naive_solver.
Qed.

(** ** The customized test *)

Lemma generateTemplateCustomized_setup_fresh d tc tc' :
  generateTemplateCustomized_setup Getenv
    (generateTemplateCustomized_setup Getenv d tc') tc =
  generateTemplateCustomized_setup Getenv d tc.
Proof. unfold generateTemplateCustomized_setup. d_Set_eq. Qed.

Lemma expandClusterSpecification_Customized tc :
  expandClusterSpecification (generateTemplateCustomized_setup Getenv ∅ tc) =
  if decide (gc_AdminUsername tc = "") then Err (Invalid "admin_username")
  else Ok (generateTemplateCustomized_cluster Getenv tc).
Proof. destruct tc as [name rg loc v [|a admin] mc ms dns n sz e]; by vm_compute. Qed.

Lemma generateTemplateCustomized_body_state d tc d' :
  generateTemplateCustomized_body Getenv d tc = Ok d' →
  d' = generateTemplateCustomized_setup Getenv d tc.
Proof.
  unfold generateTemplateCustomized_body. cbv zeta.
  intros; repeat case_match; by simplify_eq.
Qed.

Lemma generateTemplateCustomized_body_ok d tc :
  is_ok (generateTemplateCustomized_body Getenv d tc) = true ↔
  ∃ template parameters,
    generateACSEngineTemplate (generateTemplateCustomized_setup Getenv d tc)
      VNil false = Ok (template, parameters) ∧
    generateTemplateCustomized_accepts Getenv tc template parameters ∧
    strings_Contains parameters (gc_MasterVMSize tc) = true ∧
    strings_Contains parameters (gc_AgentVMSize tc) = true ∧
    gc_ExpectError tc = false.
Proof.
  unfold generateTemplateCustomized_body, generateTemplateCustomized_accepts.
  cbv zeta.
  destruct (generateACSEngineTemplate _ _ _) as [[template parameters]|];
    [|naive_solver].
  checks_ok template.
Qed.

(** The loop of the customized test, on any table. *)
Lemma generateTemplateCustomized_loop cases :
  is_ok (foldM (generateTemplateCustomized_body Getenv) TestResourceData cases)
    = true ↔
  Forall (λ tc, (gc_AdminUsername tc ≠ "" ∧ gc_ExpectError tc = false) ∧
                ∃ template parameters,
                  render (generateTemplateCustomized_cluster Getenv tc) =
                    Ok (template, parameters) ∧
                  generateTemplateCustomized_accepts Getenv tc template parameters ∧
                  strings_Contains parameters (gc_MasterVMSize tc) = true ∧
                  strings_Contains parameters (gc_AgentVMSize tc) = true) cases.
Proof.
  apply (foldM_is_ok _ (λ d, ∀ tc, generateTemplateCustomized_setup Getenv d tc =
                                   generateTemplateCustomized_setup Getenv ∅ tc));
    [done|..].
  - intros d tc d' Hd ->%generateTemplateCustomized_body_state tc'.
    by rewrite generateTemplateCustomized_setup_fresh.
  - intros d tc _ Hd. rewrite generateTemplateCustomized_body_ok, Hd.
    setoid_rewrite generateACSEngineTemplate_Ok.
    rewrite expandClusterSpecification_Customized.
    case_decide; split; try naive_solver.
Qed.

(** C37. The customized test of template generation passes exactly when, for
    each of its three cases, the generator renders the cluster the case
    describes into parameters that contain the user name, the client ID and
    the count, and a template that contains [agentpool1Count] and is JSON.
    Nothing is required of the VM sizes: every case of the table leaves both
    sizes empty, and every string contains the empty string. *)
Theorem generateTemplateCustomized_passes_iff :
  TestAccACSEngineK8sCluster_generateTemplateCustomized Getenv = Ok tt ↔
  Forall (λ tc, ∃ template parameters,
            render (generateTemplateCustomized_cluster Getenv tc) =
              Ok (template, parameters) ∧
            generateTemplateCustomized_accepts Getenv tc template parameters)
         generateTemplateCustomized_cases.
Proof.
  unfold TestAccACSEngineK8sCluster_generateTemplateCustomized. cbv zeta.
  rewrite foldM_then_Ok, generateTemplateCustomized_loop.
  unfold generateTemplateCustomized_cases. rewrite !Forall_cons. simpl.
  setoid_rewrite strings_Contains_empty. naive_solver.
Qed.

(** ** The tests of the client constructors *)

Lemma defer_RemoveAll_Ok path format body :
  defer_RemoveAll path format body = Ok tt ↔
  body = Ok tt ∧ os_RemoveAll path = Ok tt.
Proof.
  unfold defer_RemoveAll.
  destruct body as [[]|], (os_RemoveAll path) as [[]|]; naive_solver.
Qed.

(** The deferred removal does not hide a panic of the body, nor raise one. *)
Lemma defer_RemoveAll_Panic path format body p :
  defer_RemoveAll path format body = Err (Panic p) ↔ body = Err (Panic p).
Proof.
  unfold defer_RemoveAll.
  destruct body as [[]|], (os_RemoveAll path) as [[]|]; naive_solver.
Qed.

Lemma expandClusterSpecification_client :
  expandClusterSpecification (client_setup Getenv ∅) = Ok (client_cluster Getenv).
Proof. by vm_compute. Qed.

Lemma generateACSEngineTemplate_client m write :
  generateACSEngineTemplate (client_setup Getenv ∅) m write =
  map_err RenderFailed (render (client_cluster Getenv)).
Proof.
  unfold generateACSEngineTemplate. by rewrite expandClusterSpecification_client.
Qed.

(** [servicePrincipals[0].(map[string]interface{})] and the comparison with
    [profile["client_id"]]: the index is in range, the assertion holds and
    the two values compared are strings. *)
Lemma client_id_check {A} x (k : bool → test A) :
  (sp ← at_index (fakeFlattenServicePrincipal Getenv) 0;
   profile ← as_map sp;
   ne ← iface_ne (VString x) (map_index profile "client_id");
   k ne) = k (negb (bool_decide (x = Getenv "ARM_CLIENT_ID"))).
Proof. by vm_compute. Qed.

(** C38. The test of the scale client passes exactly when the generator
    accepts the cluster the test describes, [initializeScaleClient], called
    for pool 0 and two agents, returns a client with the resource group of
    the test, the client ID and the subscription of the environment and a
    desired count of two, and the output directory can be removed. *)
Theorem initializeScaleClient_test_iff :
  TestAccACSEngineK8sCluster_initializeScaleClient Getenv = Ok tt ↔
  is_ok (render (client_cluster Getenv)) = true ∧
  (∃ sc, initializeScaleClient (client_setup Getenv ∅) VNil 0 2 = Ok sc ∧
         client_accepts Getenv (sc_ResourceGroupName sc) (sc_AuthArgs sc) ∧
         DesiredAgentCount sc = 2) ∧
  os_RemoveAll "_output/k8scluster" = Ok tt.
Proof.
  unfold TestAccACSEngineK8sCluster_initializeScaleClient, client_accepts. cbv zeta.
  rewrite generateACSEngineTemplate_client.
  destruct (render _); cbn [map_err is_ok]; [|naive_solver].
  rewrite defer_RemoveAll_Ok.
  destruct (initializeScaleClient _ _ _ _) as [sc|]; [|naive_solver].
  rewrite client_id_check, !failif_Ok, !negb_false_iff, String.eqb_eq, Z.eqb_eq,
    String.eqb_eq, bool_decide_eq_true.
  naive_solver.
Qed.

(** C39. The test of the upgrade client passes exactly when the generator
    accepts the cluster the test describes, [initializeUpgradeClient], called
    for version 1.9.8, returns a client with the resource group of the test,
    the client ID and the subscription of the environment and that version,
    and the output directory can be removed. *)
Theorem initializeUpgradeClient_test_iff :
  TestAccACSEngineK8sCluster_initializeUpgradeClient Getenv = Ok tt ↔
  is_ok (render (client_cluster Getenv)) = true ∧
  (∃ uc, initializeUpgradeClient (client_setup Getenv ∅) VNil "1.9.8" = Ok uc ∧
         client_accepts Getenv (uc_ResourceGroupName uc) (uc_AuthArgs uc) ∧
         UpgradeVersion uc = "1.9.8") ∧
  os_RemoveAll "_output/k8scluster" = Ok tt.
Proof.
  unfold TestAccACSEngineK8sCluster_initializeUpgradeClient, client_accepts.
  cbv zeta. rewrite generateACSEngineTemplate_client.
  destruct (render _); cbn [map_err is_ok]; [|naive_solver].
  rewrite defer_RemoveAll_Ok.
  destruct (initializeUpgradeClient _ _ _) as [uc|]; [|naive_solver].
  rewrite client_id_check, !failif_Ok, !negb_false_iff, !String.eqb_eq,
    bool_decide_eq_true.
  naive_solver.
Qed.

(** C40. Neither client test can panic, whatever the constructors return: the
    index [servicePrincipals[0]] is in range, the type assertion on it holds,
    and the comparison of the client ID with [profile["client_id"]] is a
    comparison of strings. *)
Theorem client_tests_no_panic p :
  TestAccACSEngineK8sCluster_initializeScaleClient Getenv ≠ Err (Panic p) ∧
  TestAccACSEngineK8sCluster_initializeUpgradeClient Getenv ≠ Err (Panic p).
Proof.
  unfold TestAccACSEngineK8sCluster_initializeScaleClient,
    TestAccACSEngineK8sCluster_initializeUpgradeClient. cbv zeta.
  rewrite !generateACSEngineTemplate_client.
  destruct (render _); cbn [map_err]; [|done].
  rewrite !defer_RemoveAll_Panic.
  split; [destruct (initializeScaleClient _ _ _ _)
         |destruct (initializeUpgradeClient _ _ _)];
    rewrite ?client_id_check; repeat case_match; done.
Qed.

End templates_theorems.

(** ** Examples *)

(** With the sample implementation the four tests pass, in an environment
    that names a client and a subscription. *)
Example tests_pass_sample :
  let Getenv := λ name, if String.eqb name "ARM_CLIENT_ID" then "client"
                        else if String.eqb name "ARM_SUBSCRIPTION_ID" then "sub"
                        else "" in
  let engine := sample_engine Getenv in
  @TestAccACSEngineK8sCluster_generateTemplateBasic engine Getenv = Ok tt ∧
  @TestAccACSEngineK8sCluster_generateTemplateCustomized engine Getenv = Ok tt ∧
  @TestAccACSEngineK8sCluster_initializeScaleClient engine Getenv = Ok tt ∧
  @TestAccACSEngineK8sCluster_initializeUpgradeClient engine Getenv = Ok tt.
Proof. by vm_compute. Qed.

(** With a generator that refuses, each test stops at its first check. *)
Example tests_fail_refusing :
  let Getenv := λ _, "" in
  let engine := refusing_engine Getenv in
  @TestAccACSEngineK8sCluster_generateTemplateBasic engine Getenv =
    Err (Fatalf "Template generation failed: %v") ∧
  @TestAccACSEngineK8sCluster_initializeScaleClient engine Getenv =
    Err (Fatalf "GenerateACSEngineTemplate failed: %+v").
Proof. by vm_compute. Qed.
